(** * Polling metric sources of turing-smart-screen-python

    A shallow embedding of [library/sensors/sensors_custom.py],
    [library/sensors/sensors_custom_plex.py] and
    [library/sensors/sensors_custom_proxmox.py]: the TTL cache ([_cached]),
    the transport clients ([_plex_get], [_pmx_get]), the history buffer
    ([_push], [last_values]) and the sensor classes built on them.

    Python values are an inductive type, Python floats are the kernel's
    binary64 floats, dictionaries keyed by strings are [gmap string _],
    exceptions and mutable state are an explicit exception-and-state monad.
    The reading of [time.time()] is an argument [now] of every method that
    takes it; the HTTP peer is a function stored in the [World], which also
    logs every call of [requests.get]; a call that the library refuses
    before any I/O, as it does a URL without a scheme, is a call that
    raises (see [Requests.refuses_paths]). What the model leaves out: the
    reading of config.yaml (a constructor takes the settings it would have
    read) and the output of [print]. *)

From Stdlib Require Import ZArith String Ascii List Bool Lia.
From Stdlib Require Import Floats.PrimFloat Floats.FloatOps Floats.SpecFloat.
From stdpp Require Import gmap strings pretty.

Open Scope Z_scope.

(** ** Python values, exceptions and the operators the sensors use *)

Module Py.

(** The exceptions that the modelled code can meet. *)
Inductive exn :=
| AttributeError | TypeError | ValueError | OverflowError
| ZeroDivisionError | KeyError | IndexError
| RequestException       (* whatever [requests.get] raises *)
| JSONDecodeError.       (* what [r.json()] raises on a malformed body *)

Inductive res (A : Type) :=
| Ok (a : A)
| Raise (e : exn).
Arguments Ok {A} a.
Arguments Raise {A} e.

(** A value of the Python run time, as far as JSON and the sensors need. A
    dict is the list of its items, in their order; its keys are distinct. *)
#[local] Set Warnings "-register-all".
Inductive value :=
| VNone
| VBool (b : bool)
| VInt (n : Z)
| VFloat (f : float)
| VStr (s : string)
| VList (l : list value)
| VDict (d : list (string * value)).

(** *** Exceptions and state: [SE Σ A] is a computation over a state [Σ]
    that returns an [A] or raises; the state survives a raise, as the
    mutations of a Python object do. *)
Definition SE (Σ A : Type) : Type := Σ → res A * Σ.

Definition ret {Σ A} (a : A) : SE Σ A := λ σ, (Ok a, σ).
Definition raise {Σ A} (e : exn) : SE Σ A := λ σ, (Raise e, σ).
Definition bind {Σ A B} (c : SE Σ A) (k : A → SE Σ B) : SE Σ B :=
  λ σ, match c σ with
       | (Ok a, σ') => k a σ'
       | (Raise e, σ') => (Raise e, σ')
       end.
(** [try: c  except: h] with a handler that catches everything. *)
Definition try_except {Σ A} (c : SE Σ A) (h : exn → SE Σ A) : SE Σ A :=
  λ σ, match c σ with
       | (Ok a, σ') => (Ok a, σ')
       | (Raise e, σ') => h e σ'
       end.
Definition lift {Σ A} (r : res A) : SE Σ A := λ σ, (r, σ).
Definition gets {Σ A} (f : Σ → A) : SE Σ A := λ σ, (Ok (f σ), σ).
Definition modify {Σ} (f : Σ → Σ) : SE Σ unit := λ σ, (Ok tt, f σ).

(** The same sequencing for a computation without state. *)
Definition rbind {A B} (r : res A) (k : A → res B) : res B :=
  match r with Ok a => k a | Raise e => Raise e end.
Definition rtry {A} (r : res A) (h : exn → res A) : res A :=
  match r with Ok a => Ok a | Raise e => h e end.

(** *** Truth value, [or], [dict.get], [len] *)

Definition truthy (v : value) : bool :=
  match v with
  | VNone => false
  | VBool b => b
  | VInt n => negb (n =? 0)
  | VFloat f => negb (f =? 0)%float
  | VStr s => negb (String.eqb s "")
  | VList l => match l with [] => false | _ :: _ => true end
  | VDict d => match d with [] => false | _ :: _ => true end
  end.

(** [a or b] *)
Definition or_ (a b : value) : value := if truthy a then a else b.

Fixpoint assoc (k : string) (d : list (string * value)) : option value :=
  match d with
  | [] => None
  | (k', v) :: d' => if String.eqb k k' then Some v else assoc k d'
  end.

(** [v.get(k, dflt)]: only a dict has the method. *)
Definition get (v : value) (k : string) (dflt : value) : res value :=
  match v with
  | VDict d => Ok (default dflt (assoc k d))
  | _ => Raise AttributeError
  end.

(** *** Strings

    A [str] is held as the bytes of its UTF-8 encoding. Its characters, the
    code points that [len] counts and that a [for] visits, each begin at a
    byte that is not a continuation byte [10xxxxxx]. *)
Definition is_continuation (c : ascii) : bool :=
  match c with
  | Ascii _ _ _ _ _ _ b6 b7 => b7 && negb b6
  end.

(** The continuation bytes at the head of [s], and the characters after
    them. *)
Fixpoint split_characters (s : string) : string * list string :=
  match s with
  | EmptyString => (EmptyString, [])
  | String c s' =>
      let (k, cs) := split_characters s' in
      if is_continuation c then (String c k, cs)
      else (EmptyString, String c k :: cs)
  end.

(** The characters of [s], in order; continuation bytes with no byte to
    continue, which no encoding of a [str] has, count as one. *)
Definition characters (s : string) : list string :=
  let (k, cs) := split_characters s in
  match k with
  | EmptyString => cs
  | _ => k :: cs
  end.

(** [len(v)] *)
Definition len (v : value) : res Z :=
  match v with
  | VStr s => Ok (Z.of_nat (length (characters s)))
  | VList l => Ok (Z.of_nat (length l))
  | VDict d => Ok (Z.of_nat (length d))
  | _ => Raise TypeError
  end.

(** *** Floats: conversions

    A finite float is [±m·2^e]; [Prim2SF] gives the three of them. *)

(** [float(n)] of an int: rounded to nearest even, [OverflowError] when
    the result is not finite. *)
Definition int_to_float (n : Z) : res float :=
  let f := SF2Prim (binary_normalize prec emax n 0 false) in
  if is_infinity f then Raise OverflowError else Ok f.

(** [int(f)] of a float: truncation towards zero. *)
Definition float_to_int (f : float) : res Z :=
  match Prim2SF f with
  | S754_nan => Raise ValueError
  | S754_infinity _ => Raise OverflowError
  | S754_zero _ => Ok 0
  | S754_finite s m e =>
      Ok (cond_Zopp s (if 0 <=? e then Z.pos m * 2 ^ e
                       else Z.pos m / 2 ^ (- e)))
  end.

(** [f < n] of a float and an int: CPython compares the two exactly. *)
Definition float_lt_int (f : float) (n : Z) : bool :=
  match Prim2SF f with
  | S754_nan => false
  | S754_infinity s => s
  | S754_zero _ => 0 <? n
  | S754_finite s m e =>
      if 0 <=? e then cond_Zopp s (Z.pos m) * 2 ^ e <? n
      else cond_Zopp s (Z.pos m) <? n * 2 ^ (- e)
  end.

(** [n <= f] of an int and a float, exactly as well. *)
Definition int_le_float (n : Z) (f : float) : bool :=
  match Prim2SF f with
  | S754_nan => false
  | S754_infinity s => negb s
  | S754_zero _ => n <=? 0
  | S754_finite s m e =>
      if 0 <=? e then n <=? cond_Zopp s (Z.pos m) * 2 ^ e
      else n * 2 ^ (- e) <=? cond_Zopp s (Z.pos m)
  end.

(** *** Floats: C's [fmod], [floor] and [copysign(0.0, _)], which the
    operators [//] and [%] of CPython's float are written with. *)

Definition fmod (x y : float) : float :=
  match Prim2SF x, Prim2SF y with
  | S754_nan, _ | _, S754_nan => nan
  | S754_infinity _, _ => nan
  | _, S754_zero _ => nan
  | S754_zero _, _ => x
  | S754_finite _ _ _, S754_infinity _ => x
  | S754_finite sx mx ex, S754_finite _ my ey =>
      let e := Z.min ex ey in
      let r := (Z.pos mx * 2 ^ (ex - e)) mod (Z.pos my * 2 ^ (ey - e)) in
      if r =? 0 then (if sx then neg_zero else zero)
      else SF2Prim (binary_normalize prec emax (cond_Zopp sx r) e false)
  end.

Definition floor (x : float) : float :=
  match Prim2SF x with
  | S754_finite s m e =>
      if 0 <=? e then x
      else
        let q := cond_Zopp s (Z.pos m) / 2 ^ (- e) in
        if q =? 0 then zero
        else SF2Prim (binary_normalize prec emax q 0 false)
  | _ => x
  end.

Definition copysign_zero (w : float) : float :=
  if get_sign w then neg_zero else zero.

(** [float_rem] of floatobject.c, after its check of a zero divisor. *)
Definition float_rem (vx wx : float) : float :=
  let md := fmod vx wx in
  if negb (md =? 0)%float then
    if xorb (wx <? 0)%float (md <? 0)%float then (md + wx)%float else md
  else copysign_zero wx.

(** [_float_div_mod] of floatobject.c, the quotient. *)
Definition float_floor_div (vx wx : float) : float :=
  let md := fmod vx wx in
  let dv := ((vx - md) / wx)%float in
  let dv := if negb (md =? 0)%float && xorb (wx <? 0)%float (md <? 0)%float
            then (dv - 1)%float else dv in
  if negb (dv =? 0)%float then
    let fl := floor dv in
    if (0.5 <? dv - fl)%float then (fl + 1)%float else fl
  else copysign_zero (vx / wx)%float.

(** *** Numbers: ints (and bools, a subclass of int) and floats *)

Inductive num := NInt (n : Z) | NFloat (f : float).

Definition as_num (v : value) : option num :=
  match v with
  | VBool b => Some (NInt (if b then 1 else 0))
  | VInt n => Some (NInt n)
  | VFloat f => Some (NFloat f)
  | _ => None
  end.

Definition to_double (x : num) : res float :=
  match x with
  | NInt n => int_to_float n
  | NFloat f => Ok f
  end.

(** [a // b] *)
Definition floordiv (a b : value) : res value :=
  match as_num a, as_num b with
  | Some (NInt x), Some (NInt y) =>
      if y =? 0 then Raise ZeroDivisionError else Ok (VInt (x / y))
  | Some x, Some y =>
      rbind (to_double x) (λ fx,
      rbind (to_double y) (λ fy,
      if (fy =? 0)%float then Raise ZeroDivisionError
      else Ok (VFloat (float_floor_div fx fy))))
  | _, _ => Raise TypeError
  end.

(** [a % b] for a number [a]; a [str] on the left is printf-style
    formatting, which no path of the sensors reaches ([sec // 86400] has
    raised before [sec % 86400] is evaluated) and which is a [TypeError]
    here. *)
Definition mod_ (a b : value) : res value :=
  match as_num a, as_num b with
  | Some (NInt x), Some (NInt y) =>
      if y =? 0 then Raise ZeroDivisionError else Ok (VInt (x mod y))
  | Some x, Some y =>
      rbind (to_double x) (λ fx,
      rbind (to_double y) (λ fy,
      if (fy =? 0)%float then Raise ZeroDivisionError
      else Ok (VFloat (float_rem fx fy))))
  | _, _ => Raise TypeError
  end.

(** [a / b] with a float [b] on the right. *)
Definition truediv_float (a : value) (b : float) : res value :=
  match as_num a with
  | Some x =>
      rbind (to_double x) (λ fx,
      if (b =? 0)%float then Raise ZeroDivisionError
      else Ok (VFloat (fx / b)%float))
  | None => Raise TypeError
  end.

(** [a / b] of two floats *)
Definition float_div (a b : float) : res float :=
  if (b =? 0)%float then Raise ZeroDivisionError else Ok (a / b)%float.

(** *** Formatting *)

(** [format(f, ".1f")] of a float: the decimal with one digit after the
    point that is nearest to the exact binary value, ties to even. *)
Definition float_format_1f (f : float) : string :=
  match Prim2SF f with
  | S754_nan => "nan"
  | S754_infinity s => if s then "-inf" else "inf"
  | S754_zero s => if s then "-0.0" else "0.0"
  | S754_finite s m e =>
      let n :=
        if 0 <=? e then Z.pos m * 2 ^ e * 10
        else
          let den := 2 ^ (- e) in
          let q := (Z.pos m * 10) / den in
          let r := (Z.pos m * 10) mod den in
          if den <? 2 * r then q + 1
          else if (2 * r =? den) && Z.odd q then q + 1
          else q in
      (if s then "-" else "") +:+ pretty (n / 10) +:+ "." +:+ pretty (n mod 10)
  end.

(** [f"{v:.1f}"] *)
Definition format_1f (v : value) : res string :=
  match v with
  | VNone | VList _ | VDict _ => Raise TypeError
  | VStr _ => Raise ValueError
  | VBool b => Ok (if b then "1.0" else "0.0")
  | VInt n => rbind (int_to_float n) (λ f, Ok (float_format_1f f))
  | VFloat f => Ok (float_format_1f f)
  end.

(** [v == s] for a string [s] *)
Definition eq_str (v : value) (s : string) : bool :=
  match v with
  | VStr s' => String.eqb s' s
  | _ => false
  end.

(** The elements that [for x in v] visits: those of a list, the keys of a
    dict, the characters of a string. *)
Definition iter_ (v : value) : res (list value) :=
  match v with
  | VList l => Ok l
  | VDict d => Ok (map (λ kv, VStr (fst kv)) d)
  | VStr s => Ok (map VStr (characters s))
  | _ => Raise TypeError
  end.

(** What the model takes of the run time as given: the parsers [float(s)]
    and [int(s)] of a string ([None] for a [ValueError]), and [str(v)] of a
    float, a list or a dict. *)
Class Runtime := {
  float_of_str : string → option float;
  int_of_str : string → option Z;
  str_other : value → string
}.

Section Conversions.
Context `{Runtime}.

(** [float(v)] *)
Definition float_ (v : value) : res float :=
  match v with
  | VNone | VList _ | VDict _ => Raise TypeError
  | VBool b => Ok (if b then 1 else 0)%float
  | VInt n => int_to_float n
  | VFloat f => Ok f
  | VStr s => match float_of_str s with
              | Some f => Ok f
              | None => Raise ValueError
              end
  end.

(** [int(v)] *)
Definition int_ (v : value) : res Z :=
  match v with
  | VNone | VList _ | VDict _ => Raise TypeError
  | VBool b => Ok (if b then 1 else 0)
  | VInt n => Ok n
  | VFloat f => float_to_int f
  | VStr s => match int_of_str s with
              | Some n => Ok n
              | None => Raise ValueError
              end
  end.

(** [f"{v}"], that is [str(v)] *)
Definition str_ (v : value) : string :=
  match v with
  | VNone => "None"
  | VBool b => if b then "True" else "False"
  | VInt n => pretty n
  | VStr s => s
  | VFloat _ | VList _ | VDict _ => str_other v
  end.
End Conversions.

End Py.

Export Py.

Declare Scope se_scope.
Delimit Scope se_scope with se.
Notation "x <- c ;; k" := (bind c (λ x, k))
  (at level 100, c at next level, right associativity) : se_scope.
Notation "c ;;; k" := (bind c (λ _, k))
  (at level 100, right associativity) : se_scope.
Notation "x <-? c ;; k" := (rbind c (λ x, k))
  (at level 100, c at next level, right associativity) : se_scope.
Open Scope se_scope.

(** ** The [requests] library, as the sensors see it *)

Module Requests.

(** One call of [requests.get(url, headers=, timeout=, verify=)]. *)
Record Request := {
  url : string;
  headers : gmap string string;
  timeout : Z;
  verify : bool
}.

(** What the caller reads of a response: [r.status_code] and [r.json()],
    which raises on a body that is not JSON. *)
Record Response := {
  status_code : Z;
  json : res value
}.

(** The world outside the process: the peer answers a request (or the call
    raises) as a function of the requests sent before it, and [sent] is the
    log of the calls of [requests.get], oldest first. *)
Record World := {
  peer : list Request → Request → res Response;
  sent : list Request
}.

Definition get (u : string) (h : gmap string string) (t : Z) (v : bool)
  : SE World Response :=
  λ w, let rq := {| url := u; headers := h; timeout := t; verify := v |} in
       (peer w (sent w) rq, {| peer := peer w; sent := sent w ++ [rq] |}).

(** What the library does before any I/O: it refuses a URL that has no
    scheme ([MissingSchema]) or no adapter for it ([InvalidSchema]); both
    are a [RequestException]. A URL that starts with a slash, as the path
    of an endpoint does, is one of these. *)
Definition is_path (u : string) : bool :=
  match u with
  | String c _ => Ascii.eqb c "/"%char
  | EmptyString => false
  end.

(** A world in which [requests.get] does so: the call of a path raises,
    and nothing goes out. *)
Definition refuses_paths (w : World) : Prop :=
  ∀ before rq, is_path (url rq) = true → peer w before rq = Raise RequestException.

End Requests.

(** ** Methods of an object: the state is the object and the world *)

Definition get_self {S W} : SE (S * W) S := gets fst.
Definition update {S W} (f : S → S) : SE (S * W) unit :=
  modify (λ σ, (f (fst σ), snd σ)).
(** A computation that does not touch the object, such as the closure [fn]
    handed to [_cached]. *)
Definition io {S W A} (c : SE W A) : SE (S * W) A :=
  λ σ, let (r, w) := c (snd σ) in (r, (fst σ, w)).

(** [for x in l: acc = body(x, acc)] *)
Fixpoint for_ {Σ A B} (l : list A) (acc : B) (body : A → B → SE Σ B) : SE Σ B :=
  match l with
  | [] => ret acc
  | x :: l' => acc' <- body x acc ;; for_ l' acc' body
  end.

(** [sub in s] for a one-character [sub] *)
Definition has_char (c : ascii) (s : string) : bool :=
  existsb (Ascii.eqb c) (list_ascii_of_string s).

(** [d[key]] *)
Definition getitem {Σ} (d : gmap string value) (key : string) : SE Σ value :=
  match d !! key with
  | Some v => ret v
  | None => raise KeyError
  end.

(** [key in d] *)
Definition contains {A} (d : gmap string A) (key : string) : bool :=
  bool_decide (is_Some (d !! key)).

(** [s.rstrip("/")] *)
Fixpoint rstrip_slash (s : string) : string :=
  match s with
  | EmptyString => EmptyString
  | String c s' =>
      match rstrip_slash s' with
      | EmptyString => if Ascii.eqb c "/"%char then EmptyString else String c EmptyString
      | r => String c r
      end
  end.

(** [l[-n:]] for a positive [n] *)
Definition last_n {A} (n : nat) (l : list A) : list A :=
  skipn (length l - n) l.

(** ** library/sensors/sensors_custom.py *)

Module SensorsCustom.

Module PlexBaseSensor.

Record t := {
  url : string;
  token : string;
  headers : gmap string string;
  _cache : gmap string value;
  _last : gmap string float;
  _ttl : Z;
  _hist : list value
}.

Definition set_cache (f : gmap string value → gmap string value) (s : t) : t :=
  {| url := url s; token := token s; headers := headers s;
     _cache := f (_cache s); _last := _last s; _ttl := _ttl s;
     _hist := _hist s |}.
Definition set_last (f : gmap string float → gmap string float) (s : t) : t :=
  {| url := url s; token := token s; headers := headers s;
     _cache := _cache s; _last := f (_last s); _ttl := _ttl s;
     _hist := _hist s |}.
Definition set_hist (f : list value → list value) (s : t) : t :=
  {| url := url s; token := token s; headers := headers s;
     _cache := _cache s; _last := _last s; _ttl := _ttl s;
     _hist := f (_hist s) |}.

(** [__init__], from the three settings that it reads of the [PLEX]
    section of the configuration: [cfg.get("url", "")],
    [cfg.get("token", "")] and [int(cfg.get("cache_ttl", 30))]. *)
Definition __init__ (cfg_url cfg_token : string) (cache_ttl : Z) : t :=
  let headers := {["Accept" := "application/json"]} in
  {| url := rstrip_slash cfg_url;
     token := cfg_token;
     headers := if truthy (VStr cfg_token)
                then <["X-Plex-Token" := cfg_token]> headers else headers;
     _cache := ∅; _last := ∅; _ttl := cache_ttl; _hist := [] |}.

Definition _plex_get (self : t) (ep : string) : SE Requests.World value :=
  if negb (truthy (VStr (url self))) then ret VNone
  else
    try_except
      (r <- Requests.get (url self +:+ ep) (headers self) 6 true ;;
       if Requests.status_code r =? 200 then lift (Requests.json r)
       else ret VNone)
      (λ _, ret VNone).

Definition _cached {W} (now : float) (key : string) (fn : SE W value)
  : SE (t * W) value :=
  self <- get_self ;;
  if contains (_cache self) key
     && float_lt_int (now - default 0%float (_last self !! key)) (_ttl self)
  then getitem (_cache self) key
  else
    v <- io fn ;;
    update (set_cache <[key := v]>) ;;;
    update (set_last <[key := now]>) ;;;
    ret v.

Definition _push {W} (v : value) : SE (t * W) unit :=
  update (set_hist (λ h, h ++ [v])) ;;;
  self <- get_self ;;
  if 200 <? Z.of_nat (length (_hist self))
  then update (set_hist (drop 1))
  else ret tt.

Definition last_values (self : t) : list value :=
  last_n 40 (_hist self).

End PlexBaseSensor.

Module PlexStreamsSensor.
Import PlexBaseSensor.
Section Methods.
Context `{Runtime}.

Definition fn (self : t) : SE Requests.World value :=
  r <- _plex_get self "/status/sessions" ;;
  let j := or_ r (VDict []) in
  mc <- lift (get j "MediaContainer" (VDict [])) ;;
  size <- lift (get mc "size" (VInt 0)) ;;
  f <- lift (float_ size) ;;
  ret (VFloat f).

Definition as_numeric (now : float) : SE (t * Requests.World) value :=
  self <- get_self ;;
  v <- _cached now "streams" (fn self) ;;
  _push v ;;;
  ret v.

Definition as_string (self : t) : res string :=
  n <-? int_ (default (VInt 0) (_cache self !! "streams")) ;;
  Ok (pretty n +:+ " streams").
End Methods.
End PlexStreamsSensor.

(** The five sensors that count the items of the library sections of one
    type differ in the type, in the suffix of the listing and, for the
    movies, in a guard on the section's key. *)

Module PlexMovieCountSensor.
Import PlexBaseSensor.
Section Methods.
Context `{Runtime}.

Definition fn (self : t) : SE Requests.World value :=
  r <- _plex_get self "/library/sections" ;;
  let sec := or_ r (VDict []) in
  mc <- lift (get sec "MediaContainer" (VDict [])) ;;
  dirs <- lift (get mc "Directory" (VList [])) ;;
  ds <- lift (iter_ dirs) ;;
  total <- for_ ds 0 (λ d total,
    ty <- lift (get d "type" VNone) ;;
    if eq_str ty "movie" then
      key <- lift (get d "key" VNone) ;;
      if truthy key then
        r <- _plex_get self ("/library/sections/" +:+ str_ key +:+ "/all") ;;
        let j := or_ r (VDict []) in
        mc <- lift (get j "MediaContainer" (VDict [])) ;;
        size <- lift (get mc "size" (VInt 0)) ;;
        n <- lift (int_ size) ;;
        ret (total + n)
      else ret total
    else ret total) ;;
  f <- lift (int_to_float total) ;;
  ret (VFloat f).

Definition as_numeric (now : float) : SE (t * Requests.World) value :=
  self <- get_self ;;
  v <- _cached now "plex_movies" (fn self) ;;
  _push v ;;;
  ret v.

Definition as_string (self : t) : res string :=
  n <-? int_ (default (VInt 0) (_cache self !! "plex_movies")) ;;
  Ok (pretty n +:+ " movies").
End Methods.
End PlexMovieCountSensor.

(** The body shared, word for word, by the [fn] of the four sensors
    below: the sections of type [ty], each listed with [suffix]. *)
Definition plex_count `{Runtime} (self : PlexBaseSensor.t) (ty suffix : string)
  : SE Requests.World value :=
  r <- PlexBaseSensor._plex_get self "/library/sections" ;;
  let sec := or_ r (VDict []) in
  mc <- lift (get sec "MediaContainer" (VDict [])) ;;
  dirs <- lift (get mc "Directory" (VList [])) ;;
  ds <- lift (iter_ dirs) ;;
  t <- for_ ds 0 (λ d t,
    ty' <- lift (get d "type" VNone) ;;
    if eq_str ty' ty then
      key <- lift (get d "key" VNone) ;;
      r <- PlexBaseSensor._plex_get self
             ("/library/sections/" +:+ str_ key +:+ suffix) ;;
      let j := or_ r (VDict []) in
      mc <- lift (get j "MediaContainer" (VDict [])) ;;
      size <- lift (get mc "size" (VInt 0)) ;;
      n <- lift (int_ size) ;;
      ret (t + n)
    else ret t) ;;
  f <- lift (int_to_float t) ;;
  ret (VFloat f).

Module PlexTVShowCountSensor.
Import PlexBaseSensor.
Section Methods.
Context `{Runtime}.
Definition fn (self : t) := plex_count self "show" "/all".
Definition as_numeric (now : float) : SE (t * Requests.World) value :=
  self <- get_self ;;
  v <- _cached now "plex_shows" (fn self) ;;
  _push v ;;;
  ret v.
Definition as_string (self : t) : res string :=
  n <-? int_ (default (VInt 0) (_cache self !! "plex_shows")) ;;
  Ok (pretty n +:+ " shows").
End Methods.
End PlexTVShowCountSensor.

Module PlexEpisodesCountSensor.
Import PlexBaseSensor.
Section Methods.
Context `{Runtime}.
Definition fn (self : t) := plex_count self "show" "/all?type=4".
Definition as_numeric (now : float) : SE (t * Requests.World) value :=
  self <- get_self ;;
  v <- _cached now "plex_eps" (fn self) ;;
  _push v ;;;
  ret v.
Definition as_string (self : t) : res string :=
  n <-? int_ (default (VInt 0) (_cache self !! "plex_eps")) ;;
  Ok (pretty n +:+ " episodes").
End Methods.
End PlexEpisodesCountSensor.

Module PlexAlbumCountSensor.
Import PlexBaseSensor.
Section Methods.
Context `{Runtime}.
Definition fn (self : t) := plex_count self "artist" "/all?type=8".
Definition as_numeric (now : float) : SE (t * Requests.World) value :=
  self <- get_self ;;
  v <- _cached now "plex_alb" (fn self) ;;
  _push v ;;;
  ret v.
Definition as_string (self : t) : res string :=
  n <-? int_ (default (VInt 0) (_cache self !! "plex_alb")) ;;
  Ok (pretty n +:+ " albums").
End Methods.
End PlexAlbumCountSensor.

Module PlexSongsCountSensor.
Import PlexBaseSensor.
Section Methods.
Context `{Runtime}.
Definition fn (self : t) := plex_count self "artist" "/all?type=10".
Definition as_numeric (now : float) : SE (t * Requests.World) value :=
  self <- get_self ;;
  v <- _cached now "plex_sng" (fn self) ;;
  _push v ;;;
  ret v.
Definition as_string (self : t) : res string :=
  n <-? int_ (default (VInt 0) (_cache self !! "plex_sng")) ;;
  Ok (pretty n +:+ " songs").
End Methods.
End PlexSongsCountSensor.

Module ProxmoxBaseSensor.

Record t := {
  host : string;
  username : option string;
  token_id : option string;
  token_secret : string;
  node : string;
  verify_ssl : bool;
  cache_ttl : Z;
  api_base : string;
  headers : gmap string string;
  _cache : gmap string value;
  _last : gmap string float;
  _hist : list value
}.

Definition set_cache (f : gmap string value → gmap string value) (s : t) : t :=
  {| host := host s; username := username s; token_id := token_id s;
     token_secret := token_secret s; node := node s;
     verify_ssl := verify_ssl s; cache_ttl := cache_ttl s;
     api_base := api_base s; headers := headers s;
     _cache := f (_cache s); _last := _last s; _hist := _hist s |}.
Definition set_last (f : gmap string float → gmap string float) (s : t) : t :=
  {| host := host s; username := username s; token_id := token_id s;
     token_secret := token_secret s; node := node s;
     verify_ssl := verify_ssl s; cache_ttl := cache_ttl s;
     api_base := api_base s; headers := headers s;
     _cache := _cache s; _last := f (_last s); _hist := _hist s |}.
Definition set_hist (f : list value → list value) (s : t) : t :=
  {| host := host s; username := username s; token_id := token_id s;
     token_secret := token_secret s; node := node s;
     verify_ssl := verify_ssl s; cache_ttl := cache_ttl s;
     api_base := api_base s; headers := headers s;
     _cache := _cache s; _last := _last s; _hist := f (_hist s) |}.

(** [__init__], from the settings as the chains
    [cfg.get(k) or prox.get(k) or dflt] have resolved them: strings, or
    [None] for a user name or a token id that no section gives. *)
Definition __init__ (host : string) (username token_id : option string)
    (token_secret node : string) (verify_ssl : bool) (cache_ttl : Z) : t :=
  let headers := {["Accept" := "application/json"]} in
  {| host := host; username := username; token_id := token_id;
     token_secret := token_secret; node := node;
     verify_ssl := verify_ssl; cache_ttl := cache_ttl;
     api_base := if truthy (VStr host)
                 then rstrip_slash host +:+ "/api2/json" else "";
     headers :=
       match token_id with
       | Some tid =>
           if truthy (VStr tid) && truthy (VStr token_secret) then
             let token_full :=
               if has_char "!" tid then tid +:+ "=" +:+ token_secret
               else default "None" username +:+ "!" +:+ tid +:+ "="
                    +:+ token_secret in
             <["Authorization" := "PVEAPIToken=" +:+ token_full]> headers
           else headers
       | None => headers
       end;
     _cache := ∅; _last := ∅; _hist := [] |}.

(** The two [print]s of the method (of the status, of the exception)
    write to the standard output, which the model leaves out. *)
Definition _pmx_get (self : t) (ep : string) : SE Requests.World value :=
  try_except
    (r <- Requests.get (api_base self +:+ ep) (headers self) 6 (verify_ssl self) ;;
     if Requests.status_code r =? 200 then
       j <- lift (Requests.json r) ;;
       lift (get j "data" VNone)
     else ret VNone)
    (λ _, ret VNone).

Definition _cached {W} (now : float) (key : string) (fn : SE W value)
  : SE (t * W) value :=
  self <- get_self ;;
  if contains (_cache self) key
     && float_lt_int (now - default 0%float (_last self !! key)) (cache_ttl self)
  then getitem (_cache self) key
  else
    v <- io fn ;;
    update (set_cache <[key := v]>) ;;;
    update (set_last <[key := now]>) ;;;
    ret v.

(** Without its two [print]s. *)
Definition _push {W} (v : value) : SE (t * W) unit :=
  update (set_hist (λ h, h ++ [v])) ;;;
  self <- get_self ;;
  if 200 <? Z.of_nat (length (_hist self))
  then update (set_hist (drop 1))
  else ret tt.

Definition last_values (self : t) : list value :=
  last_n 40 (_hist self).

End ProxmoxBaseSensor.

Module ProxmoxNodeCPUUsageSensor.
Import ProxmoxBaseSensor.
Section Methods.
Context `{Runtime}.

Definition _calc (self : t) : SE Requests.World value :=
  r <- _pmx_get self ("/nodes/" +:+ node self +:+ "/status") ;;
  let d := or_ r (VDict []) in
  cpu <- lift (get d "cpu" VNone) ;;
  lift (rtry (f <-? float_ cpu ;; Ok (VFloat (f * 100)))
             (λ _, Ok (VFloat 0))).

Definition as_numeric (now : float) : SE (t * Requests.World) value :=
  self <- get_self ;;
  v <- _cached now ("nodecpu_" +:+ node self) (_calc self) ;;
  _push v ;;;
  ret v.

Definition as_string (self : t) : res string :=
  s <-? format_1f (default (VInt 0) (_cache self !! ("nodecpu_" +:+ node self))) ;;
  Ok (s +:+ " %").
End Methods.
End ProxmoxNodeCPUUsageSensor.

Module ProxmoxNodeMemoryUsageSensor.
Import ProxmoxBaseSensor.
Section Methods.
Context `{Runtime}.

Definition _calc (self : t) : SE Requests.World value :=
  r <- _pmx_get self ("/nodes/" +:+ node self +:+ "/status") ;;
  let d := or_ r (VDict []) in
  m <- lift (get d "memory" VNone) ;;
  let mem := or_ m (VDict []) in
  lift (rtry (u <-? get mem "used" (VInt 0) ;;
              used <-? float_ u ;;
              tl <-? get mem "total" (VInt 1) ;;
              total <-? float_ tl ;;
              q <-? float_div used total ;;
              Ok (VFloat (q * 100)))
             (λ _, Ok (VFloat 0))).

Definition as_numeric (now : float) : SE (t * Requests.World) value :=
  self <- get_self ;;
  v <- _cached now ("nodemem_" +:+ node self) (_calc self) ;;
  _push v ;;;
  ret v.

Definition as_string (self : t) : res string :=
  s <-? format_1f (default (VInt 0) (_cache self !! ("nodemem_" +:+ node self))) ;;
  Ok (s +:+ " %").
End Methods.
End ProxmoxNodeMemoryUsageSensor.

Module ProxmoxNodeDiskUsageSensor.
Import ProxmoxBaseSensor.
Section Methods.
Context `{Runtime}.

Definition _calc (self : t) : SE Requests.World value :=
  r <- _pmx_get self ("/nodes/" +:+ node self +:+ "/status") ;;
  let d := or_ r (VDict []) in
  fs <- lift (get d "rootfs" VNone) ;;
  let rootfs := or_ fs (VDict []) in
  lift (rtry (tl <-? get rootfs "total" (VInt 0) ;;
              total <-? float_ tl ;;
              u <-? get rootfs "used" (VInt 0) ;;
              used <-? float_ u ;;
              if truthy (VFloat total) then
                q <-? float_div used total ;;
                Ok (VFloat (q * 100))
              else Ok (VFloat 0))
             (λ _, Ok (VFloat 0))).

Definition as_numeric (now : float) : SE (t * Requests.World) value :=
  self <- get_self ;;
  v <- _cached now ("nodedsk_" +:+ node self) (_calc self) ;;
  _push v ;;;
  ret v.

Definition as_string (self : t) : res string :=
  s <-? format_1f (default (VInt 0) (_cache self !! ("nodedsk_" +:+ node self))) ;;
  Ok (s +:+ " %").
End Methods.
End ProxmoxNodeDiskUsageSensor.

Module ProxmoxNodeUptimeSensor.
Import ProxmoxBaseSensor.
Section Methods.
Context `{Runtime}.

Definition _calc (self : t) : SE Requests.World value :=
  r <- _pmx_get self ("/nodes/" +:+ node self +:+ "/status") ;;
  let d := or_ r (VDict []) in
  u <- lift (get d "uptime" (VInt 0)) ;;
  f <- lift (float_ u) ;;
  ret (VFloat f).

Definition as_numeric (now : float) : SE (t * Requests.World) value :=
  self <- get_self ;;
  sec <- _cached now ("nodeupt_" +:+ node self) (_calc self) ;;
  hrs <- lift (truediv_float sec 3600) ;;
  _push hrs ;;;
  ret hrs.

Definition as_string (self : t) : res string :=
  let sec := default (VInt 0) (_cache self !! ("nodeupt_" +:+ node self)) in
  q <-? floordiv sec (VInt 86400) ;;
  d <-? int_ q ;;
  r <-? mod_ sec (VInt 86400) ;;
  q <-? floordiv r (VInt 3600) ;;
  h <-? int_ q ;;
  r <-? mod_ sec (VInt 3600) ;;
  q <-? floordiv r (VInt 60) ;;
  m <-? int_ q ;;
  Ok (pretty d +:+ "d " +:+ pretty h +:+ "h " +:+ pretty m +:+ "m").
End Methods.
End ProxmoxNodeUptimeSensor.

Module ProxmoxNodeNetworkSensor.
Import ProxmoxBaseSensor.
Section Methods.
Context `{Runtime}.

(** Without its [print] of the payload. *)
Definition _calc (self : t) : SE Requests.World value :=
  r <- _pmx_get self ("/nodes/" +:+ node self +:+ "/netstat") ;;
  let d := or_ r (VList []) in
  ifaces <- lift (iter_ d) ;;
  totals <- for_ ifaces (0%float, 0%float) (λ iface totals,
    i <- lift (get iface "in" (VInt 0)) ;;
    rx <- lift (float_ i) ;;
    o <- lift (get iface "out" (VInt 0)) ;;
    tx <- lift (float_ o) ;;
    ret ((fst totals + rx)%float, (snd totals + tx)%float)) ;;
  let total_mb := ((fst totals + snd totals) / 1048576)%float in
  ret (VFloat total_mb).

Definition as_numeric (now : float) : SE (t * Requests.World) value :=
  self <- get_self ;;
  mb <- _cached now ("nodenet_" +:+ node self) (_calc self) ;;
  _push mb ;;;
  ret mb.

Definition as_string (self : t) : res string :=
  let mb := default (VInt 0) (_cache self !! ("nodenet_" +:+ node self)) in
  s <-? format_1f mb ;;
  Ok (s +:+ " MB").
End Methods.
End ProxmoxNodeNetworkSensor.

Module ProxmoxVMCountSensor.
Import ProxmoxBaseSensor.
Section Methods.
Context `{Runtime}.

Definition _calc (self : t) : SE Requests.World value :=
  r <- _pmx_get self ("/nodes/" +:+ node self +:+ "/qemu") ;;
  let q := or_ r (VList []) in
  n <- lift (len q) ;;
  f <- lift (int_to_float n) ;;
  ret (VFloat f).

Definition as_numeric (now : float) : SE (t * Requests.World) value :=
  self <- get_self ;;
  v <- _cached now ("vmcnt_" +:+ node self) (_calc self) ;;
  _push v ;;;
  ret v.

Definition as_string (self : t) : res string :=
  n <-? int_ (default (VInt 0) (_cache self !! ("vmcnt_" +:+ node self))) ;;
  Ok (pretty n +:+ " VMs").
End Methods.
End ProxmoxVMCountSensor.

Module ProxmoxLXCCountSensor.
Import ProxmoxBaseSensor.
Section Methods.
Context `{Runtime}.

Definition _calc (self : t) : SE Requests.World value :=
  r <- _pmx_get self ("/nodes/" +:+ node self +:+ "/lxc") ;;
  let q := or_ r (VList []) in
  n <- lift (len q) ;;
  f <- lift (int_to_float n) ;;
  ret (VFloat f).

Definition as_numeric (now : float) : SE (t * Requests.World) value :=
  self <- get_self ;;
  v <- _cached now ("lxccnt_" +:+ node self) (_calc self) ;;
  _push v ;;;
  ret v.

Definition as_string (self : t) : res string :=
  n <-? int_ (default (VInt 0) (_cache self !! ("lxccnt_" +:+ node self))) ;;
  Ok (pretty n +:+ " LXC").
End Methods.
End ProxmoxLXCCountSensor.

(** The two sensors of one virtual machine add an attribute [vmid] to the
    object: [int((config or {}).get("vm_id", 0))]. *)
Module ProxmoxVMSensor.
Record t := {
  base : ProxmoxBaseSensor.t;
  vmid : Z
}.

Definition __init__ (host : string) (username token_id : option string)
    (token_secret node : string) (verify_ssl : bool) (cache_ttl : Z)
    (vm_id : Z) : t :=
  {| base := ProxmoxBaseSensor.__init__ host username token_id token_secret
               node verify_ssl cache_ttl;
     vmid := vm_id |}.

(** A method of the base class, run on the object. *)
Definition super {W A} (c : SE (ProxmoxBaseSensor.t * W) A) : SE (t * W) A :=
  λ σ, let (r, σ') := c (base (fst σ), snd σ) in
       (r, ({| base := fst σ'; vmid := vmid (fst σ) |}, snd σ')).
End ProxmoxVMSensor.

Module ProxmoxVMCPUUsageSensor.
Import ProxmoxBaseSensor ProxmoxVMSensor.
Section Methods.
Context `{Runtime}.

Definition _calc (self : ProxmoxVMSensor.t) : SE Requests.World value :=
  r <- _pmx_get (base self)
         ("/nodes/" +:+ node (base self) +:+ "/qemu/" +:+ pretty (vmid self)
          +:+ "/status/current") ;;
  let d := or_ r (VDict []) in
  cpu <- lift (get d "cpu" VNone) ;;
  lift (rtry (f <-? float_ cpu ;; Ok (VFloat (f * 100)))
             (λ _, Ok (VFloat 0))).

Definition as_numeric (now : float)
  : SE (ProxmoxVMSensor.t * Requests.World) value :=
  self <- get_self ;;
  v <- super (_cached now
         ("vmcpu_" +:+ node (base self) +:+ "_" +:+ pretty (vmid self))
         (_calc self)) ;;
  super (_push v) ;;;
  ret v.

Definition as_string (self : ProxmoxVMSensor.t) : res string :=
  s <-? format_1f (default (VInt 0) (_cache (base self) !!
          ("vmcpu_" +:+ node (base self) +:+ "_" +:+ pretty (vmid self)))) ;;
  Ok (s +:+ " %").
End Methods.
End ProxmoxVMCPUUsageSensor.

Module ProxmoxVMMemoryUsageSensor.
Import ProxmoxBaseSensor ProxmoxVMSensor.
Section Methods.
Context `{Runtime}.

Definition _calc (self : ProxmoxVMSensor.t) : SE Requests.World value :=
  r <- _pmx_get (base self)
         ("/nodes/" +:+ node (base self) +:+ "/qemu/" +:+ pretty (vmid self)
          +:+ "/status/current") ;;
  let d := or_ r (VDict []) in
  lift (rtry (u <-? get d "mem" (VInt 0) ;;
              used <-? float_ u ;;
              tl <-? get d "maxmem" (VInt 1) ;;
              total <-? float_ tl ;;
              q <-? float_div used total ;;
              Ok (VFloat (q * 100)))
             (λ _, Ok (VFloat 0))).

Definition as_numeric (now : float)
  : SE (ProxmoxVMSensor.t * Requests.World) value :=
  self <- get_self ;;
  v <- super (_cached now
         ("vmmem_" +:+ node (base self) +:+ "_" +:+ pretty (vmid self))
         (_calc self)) ;;
  super (_push v) ;;;
  ret v.

Definition as_string (self : ProxmoxVMSensor.t) : res string :=
  s <-? format_1f (default (VInt 0) (_cache (base self) !!
          ("vmmem_" +:+ node (base self) +:+ "_" +:+ pretty (vmid self)))) ;;
  Ok (s +:+ " %").
End Methods.
End ProxmoxVMMemoryUsageSensor.

End SensorsCustom.

(** ** library/sensors/sensors_custom_plex.py

    The Plex sensors again, without a history: the object has no [_hist],
    and [last_values] is the one of this file's [CustomDataSource]. *)

Module SensorsCustomPlex.

Module CustomDataSource.
Definition last_values {S} (self : S) : list value := [].
End CustomDataSource.

Module PlexBaseSensor.

Record t := {
  url : string;
  token : string;
  headers : gmap string string;
  _cache : gmap string value;
  _last : gmap string float;
  _ttl : Z
}.

Definition set_cache (f : gmap string value → gmap string value) (s : t) : t :=
  {| url := url s; token := token s; headers := headers s;
     _cache := f (_cache s); _last := _last s; _ttl := _ttl s |}.
Definition set_last (f : gmap string float → gmap string float) (s : t) : t :=
  {| url := url s; token := token s; headers := headers s;
     _cache := _cache s; _last := f (_last s); _ttl := _ttl s |}.

Definition __init__ (cfg_url cfg_token : string) (cache_ttl : Z) : t :=
  let headers := {["Accept" := "application/json"]} in
  {| url := rstrip_slash cfg_url;
     token := cfg_token;
     headers := if truthy (VStr cfg_token)
                then <["X-Plex-Token" := cfg_token]> headers else headers;
     _cache := ∅; _last := ∅; _ttl := cache_ttl |}.

Definition _plex_get (self : t) (ep : string) : SE Requests.World value :=
  if negb (truthy (VStr (url self))) then ret VNone
  else
    try_except
      (r <- Requests.get (url self +:+ ep) (headers self) 6 true ;;
       if Requests.status_code r =? 200 then lift (Requests.json r)
       else ret VNone)
      (λ _, ret VNone).

Definition _cached {W} (now : float) (key : string) (fn : SE W value)
  : SE (t * W) value :=
  self <- get_self ;;
  if contains (_cache self) key
     && float_lt_int (now - default 0%float (_last self !! key)) (_ttl self)
  then getitem (_cache self) key
  else
    v <- io fn ;;
    update (set_cache <[key := v]>) ;;;
    update (set_last <[key := now]>) ;;;
    ret v.

Definition last_values (self : t) : list value :=
  CustomDataSource.last_values self.

End PlexBaseSensor.

Module PlexStreamsSensor.
Import PlexBaseSensor.
Section Methods.
Context `{Runtime}.

Definition fn (self : t) : SE Requests.World value :=
  r <- _plex_get self "/status/sessions" ;;
  let j := or_ r (VDict []) in
  mc <- lift (get j "MediaContainer" (VDict [])) ;;
  size <- lift (get mc "size" (VInt 0)) ;;
  f <- lift (float_ size) ;;
  ret (VFloat f).

Definition as_numeric (now : float) : SE (t * Requests.World) value :=
  self <- get_self ;;
  _cached now "streams" (fn self).

Definition as_string (self : t) : res string :=
  n <-? int_ (default (VInt 0) (_cache self !! "streams")) ;;
  Ok (pretty n +:+ " streams").
End Methods.
End PlexStreamsSensor.

Module PlexMovieCountSensor.
Import PlexBaseSensor.
Section Methods.
Context `{Runtime}.

Definition fn (self : t) : SE Requests.World value :=
  r <- _plex_get self "/library/sections" ;;
  let sec := or_ r (VDict []) in
  mc <- lift (get sec "MediaContainer" (VDict [])) ;;
  dirs <- lift (get mc "Directory" (VList [])) ;;
  ds <- lift (iter_ dirs) ;;
  total <- for_ ds 0 (λ d total,
    ty <- lift (get d "type" VNone) ;;
    if eq_str ty "movie" then
      key <- lift (get d "key" VNone) ;;
      if truthy key then
        r <- _plex_get self ("/library/sections/" +:+ str_ key +:+ "/all") ;;
        let j := or_ r (VDict []) in
        mc <- lift (get j "MediaContainer" (VDict [])) ;;
        size <- lift (get mc "size" (VInt 0)) ;;
        n <- lift (int_ size) ;;
        ret (total + n)
      else ret total
    else ret total) ;;
  f <- lift (int_to_float total) ;;
  ret (VFloat f).

Definition as_numeric (now : float) : SE (t * Requests.World) value :=
  self <- get_self ;;
  _cached now "plex_movies" (fn self).

Definition as_string (self : t) : res string :=
  n <-? int_ (default (VInt 0) (_cache self !! "plex_movies")) ;;
  Ok (pretty n +:+ " movies").
End Methods.
End PlexMovieCountSensor.

(** As in sensors_custom.py, the body of the [fn] of the four sensors
    below. *)
Definition plex_count `{Runtime} (self : PlexBaseSensor.t) (ty suffix : string)
  : SE Requests.World value :=
  r <- PlexBaseSensor._plex_get self "/library/sections" ;;
  let sec := or_ r (VDict []) in
  mc <- lift (get sec "MediaContainer" (VDict [])) ;;
  dirs <- lift (get mc "Directory" (VList [])) ;;
  ds <- lift (iter_ dirs) ;;
  t <- for_ ds 0 (λ d t,
    ty' <- lift (get d "type" VNone) ;;
    if eq_str ty' ty then
      key <- lift (get d "key" VNone) ;;
      r <- PlexBaseSensor._plex_get self
             ("/library/sections/" +:+ str_ key +:+ suffix) ;;
      let j := or_ r (VDict []) in
      mc <- lift (get j "MediaContainer" (VDict [])) ;;
      size <- lift (get mc "size" (VInt 0)) ;;
      n <- lift (int_ size) ;;
      ret (t + n)
    else ret t) ;;
  f <- lift (int_to_float t) ;;
  ret (VFloat f).

Module PlexTVShowCountSensor.
Import PlexBaseSensor.
Section Methods.
Context `{Runtime}.
Definition fn (self : t) := plex_count self "show" "/all".
Definition as_numeric (now : float) : SE (t * Requests.World) value :=
  self <- get_self ;;
  _cached now "plex_shows" (fn self).
Definition as_string (self : t) : res string :=
  n <-? int_ (default (VInt 0) (_cache self !! "plex_shows")) ;;
  Ok (pretty n +:+ " shows").
End Methods.
End PlexTVShowCountSensor.

Module PlexEpisodesCountSensor.
Import PlexBaseSensor.
Section Methods.
Context `{Runtime}.
Definition fn (self : t) := plex_count self "show" "/all?type=4".
Definition as_numeric (now : float) : SE (t * Requests.World) value :=
  self <- get_self ;;
  _cached now "plex_eps" (fn self).
Definition as_string (self : t) : res string :=
  n <-? int_ (default (VInt 0) (_cache self !! "plex_eps")) ;;
  Ok (pretty n +:+ " episodes").
End Methods.
End PlexEpisodesCountSensor.

Module PlexAlbumCountSensor.
Import PlexBaseSensor.
Section Methods.
Context `{Runtime}.
Definition fn (self : t) := plex_count self "artist" "/all?type=8".
Definition as_numeric (now : float) : SE (t * Requests.World) value :=
  self <- get_self ;;
  _cached now "plex_alb" (fn self).
Definition as_string (self : t) : res string :=
  n <-? int_ (default (VInt 0) (_cache self !! "plex_alb")) ;;
  Ok (pretty n +:+ " albums").
End Methods.
End PlexAlbumCountSensor.

Module PlexSongsCountSensor.
Import PlexBaseSensor.
Section Methods.
Context `{Runtime}.
Definition fn (self : t) := plex_count self "artist" "/all?type=10".
Definition as_numeric (now : float) : SE (t * Requests.World) value :=
  self <- get_self ;;
  _cached now "plex_sng" (fn self).
Definition as_string (self : t) : res string :=
  n <-? int_ (default (VInt 0) (_cache self !! "plex_sng")) ;;
  Ok (pretty n +:+ " songs").
End Methods.
End PlexSongsCountSensor.

End SensorsCustomPlex.

(** ** library/sensors/sensors_custom_proxmox.py

    The Proxmox sensors again, without a history buffer, with a [_cached]
    that keeps the entry when [fn] returns [None], and with a [last_values]
    of one element in every sensor. *)

Module SensorsCustomProxmox.

Module ProxmoxBaseSensor.

Record t := {
  host : string;
  username : option string;
  token_id : option string;
  token_secret : string;
  node : string;
  verify_ssl : bool;
  cache_ttl : Z;
  api_base : string;
  headers : gmap string string;
  _cache : gmap string value;
  _last : gmap string float
}.

Definition set_cache (f : gmap string value → gmap string value) (s : t) : t :=
  {| host := host s; username := username s; token_id := token_id s;
     token_secret := token_secret s; node := node s;
     verify_ssl := verify_ssl s; cache_ttl := cache_ttl s;
     api_base := api_base s; headers := headers s;
     _cache := f (_cache s); _last := _last s |}.
Definition set_last (f : gmap string float → gmap string float) (s : t) : t :=
  {| host := host s; username := username s; token_id := token_id s;
     token_secret := token_secret s; node := node s;
     verify_ssl := verify_ssl s; cache_ttl := cache_ttl s;
     api_base := api_base s; headers := headers s;
     _cache := _cache s; _last := f (_last s) |}.

Definition __init__ (host : string) (username token_id : option string)
    (token_secret node : string) (verify_ssl : bool) (cache_ttl : Z) : t :=
  let headers := {["Accept" := "application/json"]} in
  {| host := host; username := username; token_id := token_id;
     token_secret := token_secret; node := node;
     verify_ssl := verify_ssl; cache_ttl := cache_ttl;
     api_base := if truthy (VStr host)
                 then rstrip_slash host +:+ "/api2/json" else "";
     headers :=
       match token_id with
       | Some tid =>
           if truthy (VStr tid) && truthy (VStr token_secret) then
             let token_full :=
               if has_char "!" tid then tid +:+ "=" +:+ token_secret
               else default "None" username +:+ "!" +:+ tid +:+ "="
                    +:+ token_secret in
             <["Authorization" := "PVEAPIToken=" +:+ token_full]> headers
           else headers
       | None => headers
       end;
     _cache := ∅; _last := ∅ |}.

(** Without its two [print]s. *)
Definition _pmx_get (self : t) (ep : string) : SE Requests.World value :=
  try_except
    (r <- Requests.get (api_base self +:+ ep) (headers self) 6 (verify_ssl self) ;;
     if Requests.status_code r =? 200 then
       j <- lift (Requests.json r) ;;
       lift (get j "data" VNone)
     else ret VNone)
    (λ _, ret VNone).

Definition _cached {W} (now : float) (key : string) (fn : SE W value)
  : SE (t * W) value :=
  self <- get_self ;;
  if contains (_cache self) key
     && float_lt_int (now - default 0%float (_last self !! key)) (cache_ttl self)
  then getitem (_cache self) key
  else
    v <- io fn ;;
(* only update cache if fetch succeeded *)
match v with
| VNone =>
    self <- get_self ;;
    ret (default VNone (_cache self !! key))
| _ =>
    update (set_cache <[key := v]>) ;;;
    update (set_last <[key := now]>) ;;;
    ret v
end.

End ProxmoxBaseSensor.

Module ProxmoxNodeCPUUsageSensor.
Import ProxmoxBaseSensor.
Section Methods.
Context `{Runtime}.

Definition _calc (self : t) : SE Requests.World value :=
  r <- _pmx_get self ("/nodes/" +:+ node self +:+ "/status") ;;
  let d := or_ r (VDict []) in
  cpu <- lift (get d "cpu" VNone) ;;
  lift (rtry (f <-? float_ cpu ;; Ok (VFloat (f * 100)))
             (λ _, Ok (VFloat 0))).

Definition as_numeric (now : float) : SE (t * Requests.World) value :=
  self <- get_self ;;
  _cached now ("nodecpu_" +:+ node self) (_calc self).

Definition as_string (self : t) : res string :=
  s <-? format_1f (default (VInt 0) (_cache self !! ("nodecpu_" +:+ node self))) ;;
  Ok (s +:+ " %").

Definition last_values (self : t) : list value :=
  [default (VInt 0) (_cache self !! ("nodecpu_" +:+ node self))].
End Methods.
End ProxmoxNodeCPUUsageSensor.

Module ProxmoxNodeMemoryUsageSensor.
Import ProxmoxBaseSensor.
Section Methods.
Context `{Runtime}.

Definition _calc (self : t) : SE Requests.World value :=
  r <- _pmx_get self ("/nodes/" +:+ node self +:+ "/status") ;;
  let d := or_ r (VDict []) in
  m <- lift (get d "memory" VNone) ;;
  let mem := or_ m (VDict []) in
  lift (rtry (u <-? get mem "used" (VInt 0) ;;
              used <-? float_ u ;;
              tl <-? get mem "total" (VInt 1) ;;
              total <-? float_ tl ;;
              q <-? float_div used total ;;
              Ok (VFloat (q * 100)))
             (λ _, Ok (VFloat 0))).

Definition as_numeric (now : float) : SE (t * Requests.World) value :=
  self <- get_self ;;
  _cached now ("nodemem_" +:+ node self) (_calc self).

Definition as_string (self : t) : res string :=
  s <-? format_1f (default (VInt 0) (_cache self !! ("nodemem_" +:+ node self))) ;;
  Ok (s +:+ " %").

Definition last_values (self : t) : list value :=
  [default (VInt 0) (_cache self !! ("nodemem_" +:+ node self))].
End Methods.
End ProxmoxNodeMemoryUsageSensor.

Module ProxmoxNodeDiskUsageSensor.
Import ProxmoxBaseSensor.
Section Methods.
Context `{Runtime}.

Definition _calc (self : t) : SE Requests.World value :=
  r <- _pmx_get self ("/nodes/" +:+ node self +:+ "/status") ;;
  let d := or_ r (VDict []) in
  fs <- lift (get d "rootfs" VNone) ;;
  let rootfs := or_ fs (VDict []) in
  lift (rtry (tl <-? get rootfs "total" (VInt 0) ;;
              total <-? float_ tl ;;
              u <-? get rootfs "used" (VInt 0) ;;
              used <-? float_ u ;;
              if truthy (VFloat total) then
                q <-? float_div used total ;;
                Ok (VFloat (q * 100))
              else Ok (VFloat 0))
             (λ _, Ok (VFloat 0))).

Definition as_numeric (now : float) : SE (t * Requests.World) value :=
  self <- get_self ;;
  _cached now ("nodedsk_" +:+ node self) (_calc self).

Definition as_string (self : t) : res string :=
  s <-? format_1f (default (VInt 0) (_cache self !! ("nodedsk_" +:+ node self))) ;;
  Ok (s +:+ " %").

Definition last_values (self : t) : list value :=
  [default (VInt 0) (_cache self !! ("nodedsk_" +:+ node self))].
End Methods.
End ProxmoxNodeDiskUsageSensor.

Module ProxmoxNodeUptimeSensor.
Import ProxmoxBaseSensor.
Section Methods.
Context `{Runtime}.

Definition _calc (self : t) : SE Requests.World value :=
  r <- _pmx_get self ("/nodes/" +:+ node self +:+ "/status") ;;
  let d := or_ r (VDict []) in
  u <- lift (get d "uptime" (VInt 0)) ;;
  f <- lift (float_ u) ;;
  ret (VFloat f).

Definition as_numeric (now : float) : SE (t * Requests.World) value :=
  self <- get_self ;;
  sec <- _cached now ("nodeupt_" +:+ node self) (_calc self) ;;
  lift (truediv_float sec 3600).

Definition as_string (self : t) : res string :=
  let sec := default (VInt 0) (_cache self !! ("nodeupt_" +:+ node self)) in
  q <-? floordiv sec (VInt 86400) ;;
  d <-? int_ q ;;
  r <-? mod_ sec (VInt 86400) ;;
  q <-? floordiv r (VInt 3600) ;;
  h <-? int_ q ;;
  r <-? mod_ sec (VInt 3600) ;;
  q <-? floordiv r (VInt 60) ;;
  m <-? int_ q ;;
  Ok (pretty d +:+ "d " +:+ pretty h +:+ "h " +:+ pretty m +:+ "m").

Definition last_values (self : t) : list value :=
  [default (VInt 0) (_cache self !! ("nodeupt_" +:+ node self))].
End Methods.
End ProxmoxNodeUptimeSensor.

Module ProxmoxNodeNetworkSensor.
Import ProxmoxBaseSensor.
Section Methods.
Context `{Runtime}.

(** Without its [print] of the payload. *)
Definition _calc (self : t) : SE Requests.World value :=
  r <- _pmx_get self ("/nodes/" +:+ node self +:+ "/netstat") ;;
  let d := or_ r (VList []) in
  ifaces <- lift (iter_ d) ;;
  totals <- for_ ifaces (0%float, 0%float) (λ iface totals,
    i <- lift (get iface "in" (VInt 0)) ;;
    rx <- lift (float_ i) ;;
    o <- lift (get iface "out" (VInt 0)) ;;
    tx <- lift (float_ o) ;;
    ret ((fst totals + rx)%float, (snd totals + tx)%float)) ;;
  let total_mb := ((fst totals + snd totals) / 1048576)%float in
  ret (VFloat total_mb).

Definition as_numeric (now : float) : SE (t * Requests.World) value :=
  self <- get_self ;;
  _cached now ("nodenet_" +:+ node self) (_calc self).

Definition as_string (self : t) : res string :=
  let mb := default (VInt 0) (_cache self !! ("nodenet_" +:+ node self)) in
  s <-? format_1f mb ;;
  Ok (s +:+ " MB").

Definition last_values (self : t) : list value :=
  [default (VInt 0) (_cache self !! ("nodenet_" +:+ node self))].
End Methods.
End ProxmoxNodeNetworkSensor.

Module ProxmoxVMCountSensor.
Import ProxmoxBaseSensor.
Section Methods.
Context `{Runtime}.

Definition _calc (self : t) : SE Requests.World value :=
  r <- _pmx_get self ("/nodes/" +:+ node self +:+ "/qemu") ;;
  let q := or_ r (VList []) in
  n <- lift (len q) ;;
  f <- lift (int_to_float n) ;;
  ret (VFloat f).

Definition as_numeric (now : float) : SE (t * Requests.World) value :=
  self <- get_self ;;
  _cached now ("vmcnt_" +:+ node self) (_calc self).

Definition as_string (self : t) : res string :=
  n <-? int_ (default (VInt 0) (_cache self !! ("vmcnt_" +:+ node self))) ;;
  Ok (pretty n +:+ " VMs").

Definition last_values (self : t) : list value :=
  [default (VInt 0) (_cache self !! ("vmcnt_" +:+ node self))].
End Methods.
End ProxmoxVMCountSensor.

Module ProxmoxLXCCountSensor.
Import ProxmoxBaseSensor.
Section Methods.
Context `{Runtime}.

Definition _calc (self : t) : SE Requests.World value :=
  r <- _pmx_get self ("/nodes/" +:+ node self +:+ "/lxc") ;;
  let q := or_ r (VList []) in
  n <- lift (len q) ;;
  f <- lift (int_to_float n) ;;
  ret (VFloat f).

Definition as_numeric (now : float) : SE (t * Requests.World) value :=
  self <- get_self ;;
  _cached now ("lxccnt_" +:+ node self) (_calc self).

Definition as_string (self : t) : res string :=
  n <-? int_ (default (VInt 0) (_cache self !! ("lxccnt_" +:+ node self))) ;;
  Ok (pretty n +:+ " LXC").

Definition last_values (self : t) : list value :=
  [default (VInt 0) (_cache self !! ("lxccnt_" +:+ node self))].
End Methods.
End ProxmoxLXCCountSensor.

Module ProxmoxVMSensor.
Record t := {
  base : ProxmoxBaseSensor.t;
  vmid : Z
}.

Definition __init__ (host : string) (username token_id : option string)
    (token_secret node : string) (verify_ssl : bool) (cache_ttl : Z)
    (vm_id : Z) : t :=
  {| base := ProxmoxBaseSensor.__init__ host username token_id token_secret
               node verify_ssl cache_ttl;
     vmid := vm_id |}.

Definition super {W A} (c : SE (ProxmoxBaseSensor.t * W) A) : SE (t * W) A :=
  λ σ, let (r, σ') := c (base (fst σ), snd σ) in
       (r, ({| base := fst σ'; vmid := vmid (fst σ) |}, snd σ')).
End ProxmoxVMSensor.

Module ProxmoxVMCPUUsageSensor.
Import ProxmoxBaseSensor ProxmoxVMSensor.
Section Methods.
Context `{Runtime}.

Definition _calc (self : ProxmoxVMSensor.t) : SE Requests.World value :=
  r <- _pmx_get (base self)
         ("/nodes/" +:+ node (base self) +:+ "/qemu/" +:+ pretty (vmid self)
          +:+ "/status/current") ;;
  let d := or_ r (VDict []) in
  cpu <- lift (get d "cpu" VNone) ;;
  lift (rtry (f <-? float_ cpu ;; Ok (VFloat (f * 100)))
             (λ _, Ok (VFloat 0))).

Definition as_numeric (now : float)
  : SE (ProxmoxVMSensor.t * Requests.World) value :=
  self <- get_self ;;
  super (_cached now
    ("vmcpu_" +:+ node (base self) +:+ "_" +:+ pretty (vmid self))
    (_calc self)).

Definition as_string (self : ProxmoxVMSensor.t) : res string :=
  s <-? format_1f (default (VInt 0) (_cache (base self) !!
          ("vmcpu_" +:+ node (base self) +:+ "_" +:+ pretty (vmid self)))) ;;
  Ok (s +:+ " %").

Definition last_values (self : ProxmoxVMSensor.t) : list value :=
  [default (VInt 0) (_cache (base self) !!
     ("vmcpu_" +:+ node (base self) +:+ "_" +:+ pretty (vmid self)))].
End Methods.
End ProxmoxVMCPUUsageSensor.

Module ProxmoxVMMemoryUsageSensor.
Import ProxmoxBaseSensor ProxmoxVMSensor.
Section Methods.
Context `{Runtime}.

Definition _calc (self : ProxmoxVMSensor.t) : SE Requests.World value :=
  r <- _pmx_get (base self)
         ("/nodes/" +:+ node (base self) +:+ "/qemu/" +:+ pretty (vmid self)
          +:+ "/status/current") ;;
  let d := or_ r (VDict []) in
  lift (rtry (u <-? get d "mem" (VInt 0) ;;
              used <-? float_ u ;;
              tl <-? get d "maxmem" (VInt 1) ;;
              total <-? float_ tl ;;
              q <-? float_div used total ;;
              Ok (VFloat (q * 100)))
             (λ _, Ok (VFloat 0))).

Definition as_numeric (now : float)
  : SE (ProxmoxVMSensor.t * Requests.World) value :=
  self <- get_self ;;
  super (_cached now
    ("vmmem_" +:+ node (base self) +:+ "_" +:+ pretty (vmid self))
    (_calc self)).

Definition as_string (self : ProxmoxVMSensor.t) : res string :=
  s <-? format_1f (default (VInt 0) (_cache (base self) !!
          ("vmmem_" +:+ node (base self) +:+ "_" +:+ pretty (vmid self)))) ;;
  Ok (s +:+ " %").

Definition last_values (self : ProxmoxVMSensor.t) : list value :=
  [default (VInt 0) (_cache (base self) !!
     ("vmmem_" +:+ node (base self) +:+ "_" +:+ pretty (vmid self)))].
End Methods.
End ProxmoxVMMemoryUsageSensor.

End SensorsCustomProxmox.

(** * Vocabulary of the properties *)

(** The key has an entry that is younger than the time to live: the test
    that the four [_cached] make, on the entry's value and on its
    [observed_at], which is [_last[key]], or [0] when [_last] has no such
    key. *)
Definition fresh_entry (cache : gmap string value) (last : gmap string float)
    (ttl : Z) (now : float) (key : string) : bool :=
  contains cache key && float_lt_int (now - default 0%float (last !! key)) ttl.

(** A compute function that counts its own invocations: the world gets a
    counter, which every run of [fn] increments. *)
Definition counted {W} (fn : SE W value) : SE (W * nat) value :=
  λ σ, let (r, w) := fn (fst σ) in (r, (w, S (snd σ))).

(** What the amended C6 says of a [_cached] that stores whatever the
    compute function returns, as the three of sensors_custom.py and
    sensors_custom_plex.py do: on an entry that is [ttl] or more old, the
    call runs the compute function exactly once, whatever that function
    does; a value that it returns is returned and stored, with the time of
    the call as the new [observed_at]; when it raises, the call raises and
    the object is as it was. *)
Definition recomputes_and_stores {Obj W}
    (cached : float → string → SE (W * nat) value → SE (Obj * (W * nat)) value)
    (cache : Obj → gmap string value) (last : Obj → gmap string float)
    (ttl : Obj → Z)
  : Prop :=
  ∀ (fn : SE W value) key now s w n c t0,
    cache s !! key = Some c → last s !! key = Some t0 →
    int_le_float (ttl s) (now - t0) = true →
    let out := cached now key (counted fn) (s, (w, n)) in
    snd (snd (snd out)) = S n
    ∧ (∀ v w1, fn w = (Ok v, w1) →
         ∃ s', out = (Ok v, (s', (w1, S n)))
               ∧ cache s' !! key = Some v ∧ last s' !! key = Some now)
    ∧ (∀ e w1, fn w = (Raise e, w1) → out = (Raise e, (s, (w1, S n)))).

(** ** Sample objects, for the instances at concrete inputs *)

(** A run time whose parsers reject every string. *)
Definition sample_runtime : Runtime :=
  {| float_of_str := λ _, None; int_of_str := λ _, None; str_other := λ _, "" |}.

(** Compute functions over a world of no content. *)
Definition const_fn (v : value) : SE unit value := λ w, (Ok v, w).
Definition raising_fn (e : exn) : SE unit value := λ w, (Raise e, w).

(** A Plex sensor of sensors_custom.py, just built, and with an entry for
    ["streams"] observed at time [0]. *)
Definition sample_plex : SensorsCustom.PlexBaseSensor.t :=
  SensorsCustom.PlexBaseSensor.__init__ "http://plex:32400/" "token" 30.
Definition sample_plex_warm : SensorsCustom.PlexBaseSensor.t :=
  SensorsCustom.PlexBaseSensor.set_last <["streams" := 0%float]>
    (SensorsCustom.PlexBaseSensor.set_cache <["streams" := VFloat 10]> sample_plex).

(** Proxmox sensors of sensors_custom.py and of sensors_custom_proxmox.py,
    just built, and with an entry for the node's uptime observed at time
    [0]. *)
Definition sample_pmx : SensorsCustom.ProxmoxBaseSensor.t :=
  SensorsCustom.ProxmoxBaseSensor.__init__ "https://pve:8006/" (Some "root@pam")
    (Some "monitor") "secret" "pve" false 30.
Definition sample_pmx_warm : SensorsCustom.ProxmoxBaseSensor.t :=
  SensorsCustom.ProxmoxBaseSensor.set_last <["nodeupt_pve" := 0%float]>
    (SensorsCustom.ProxmoxBaseSensor.set_cache <["nodeupt_pve" := VFloat 90061]>
       sample_pmx).
Definition sample_pmx1 : SensorsCustomProxmox.ProxmoxBaseSensor.t :=
  SensorsCustomProxmox.ProxmoxBaseSensor.__init__ "https://pve:8006/"
    (Some "root@pam") (Some "monitor") "secret" "pve" false 30.
Definition sample_pmx1_warm : SensorsCustomProxmox.ProxmoxBaseSensor.t :=
  SensorsCustomProxmox.ProxmoxBaseSensor.set_last <["nodeupt_pve" := 0%float]>
    (SensorsCustomProxmox.ProxmoxBaseSensor.set_cache
       <["nodeupt_pve" := VFloat 90061]> sample_pmx1).

(** The history after one more sample: appended, and the oldest sample
    dropped when that makes more than 200. *)
Definition pushed (h : list value) (v : value) : list value :=
  let h' := h ++ [v] in
  if 200 <? Z.of_nat (length h') then drop 1 h' else h'.

(** A sequence of calls of [_push], one per value, in the two classes of
    sensors_custom.py. *)
Definition sc_plex_pushes {W} (vs : list value)
  : SE (SensorsCustom.PlexBaseSensor.t * W) unit :=
  for_ vs tt (λ v _, SensorsCustom.PlexBaseSensor._push v).
Definition sc_pmx_pushes {W} (vs : list value)
  : SE (SensorsCustom.ProxmoxBaseSensor.t * W) unit :=
  for_ vs tt (λ v _, SensorsCustom.ProxmoxBaseSensor._push v).

(** The samples [0], [1], ..., [249]. *)
Definition sample_values : list value :=
  map (λ n, VInt (Z.of_nat n)) (seq 0 250).

(** ** The shapes of [as_numeric]

    Every [as_numeric] of sensors_custom.py but the uptime's is, up to the
    key and the compute function, one of the two bodies below; those of the
    two sensors of a virtual machine run the same methods through [super]. *)
Definition sc_plex_poll (key : string)
    (fn : SensorsCustom.PlexBaseSensor.t → SE Requests.World value) (now : float)
  : SE (SensorsCustom.PlexBaseSensor.t * Requests.World) value :=
  self <- get_self ;;
  v <- SensorsCustom.PlexBaseSensor._cached now key (fn self) ;;
  SensorsCustom.PlexBaseSensor._push v ;;;
  ret v.

Definition sc_pmx_poll (key : SensorsCustom.ProxmoxBaseSensor.t → string)
    (calc : SensorsCustom.ProxmoxBaseSensor.t → SE Requests.World value) (now : float)
  : SE (SensorsCustom.ProxmoxBaseSensor.t * Requests.World) value :=
  self <- get_self ;;
  v <- SensorsCustom.ProxmoxBaseSensor._cached now (key self) (calc self) ;;
  SensorsCustom.ProxmoxBaseSensor._push v ;;;
  ret v.

Definition sc_vm_poll (key : SensorsCustom.ProxmoxVMSensor.t → string)
    (calc : SensorsCustom.ProxmoxVMSensor.t → SE Requests.World value) (now : float)
  : SE (SensorsCustom.ProxmoxVMSensor.t * Requests.World) value :=
  self <- get_self ;;
  v <- SensorsCustom.ProxmoxVMSensor.super
         (SensorsCustom.ProxmoxBaseSensor._cached now (key self) (calc self)) ;;
  SensorsCustom.ProxmoxVMSensor.super (SensorsCustom.ProxmoxBaseSensor._push v) ;;;
  ret v.

(** The keys of the sensors of sensors_custom.py, as their methods spell
    them. *)
Definition node_key (prefix : string) (self : SensorsCustom.ProxmoxBaseSensor.t)
  : string :=
  prefix +:+ SensorsCustom.ProxmoxBaseSensor.node self.
Definition vm_key (prefix : string) (self : SensorsCustom.ProxmoxVMSensor.t)
  : string :=
  prefix +:+ SensorsCustom.ProxmoxBaseSensor.node (SensorsCustom.ProxmoxVMSensor.base self)
    +:+ "_" +:+ pretty (SensorsCustom.ProxmoxVMSensor.vmid self).

(** Calls of one [as_numeric] at the times [nows], one after the other;
    the values that they return, in order. *)
Fixpoint polls {Σ} (numeric : float → SE Σ value) (nows : list float)
  : SE Σ (list value) :=
  match nows with
  | [] => ret []
  | now :: nows' =>
      v <- numeric now ;;
      vs <- polls numeric nows' ;;
      ret (v :: vs)
  end.

(** What C10 says of one sensor with the history [hist]: every call that
    returns pushes the value it returns; a call on a fresh entry [c] sends
    no request, returns [view c] and pushes it; [k] such calls push [k]
    copies of it. *)
Definition pushes_on_every_call {S}
    (numeric : float → SE (S * Requests.World) value)
    (hist : S → list value) (cache : S → gmap string value)
    (last : S → gmap string float) (ttl : S → Z) (key : S → string)
    (view : value → res value) : Prop :=
  (∀ now s w v s' w',
     numeric now (s, w) = (Ok v, (s', w')) → hist s' = pushed (hist s) v)
  ∧
  (∀ now s w c t0 v,
     cache s !! key s = Some c → last s !! key s = Some t0 →
     float_lt_int (now - t0) (ttl s) = true → view c = Ok v →
     ∃ s', numeric now (s, w) = (Ok v, (s', w))
           ∧ hist s' = pushed (hist s) v)
  ∧
  (∀ nows s w c t0 v,
     cache s !! key s = Some c → last s !! key s = Some t0 →
     Forall (λ now, float_lt_int (now - t0) (ttl s) = true) nows →
     view c = Ok v →
     ∃ s', polls numeric nows (s, w) = (Ok (repeat v (length nows)), (s', w))
           ∧ hist s' = fold_left pushed (repeat v (length nows)) (hist s)
           ∧ ((length (hist s) + length nows ≤ 200)%nat →
              hist s' = hist s ++ repeat v (length nows))).

(** [pushes_on_every_call] for a class of sensors_custom.py: a Plex sensor
    with the key [key], a Proxmox sensor of a node and one of a virtual
    machine with a key that starts with [prefix]. *)
Definition plex_charted
    (numeric : float → SE (SensorsCustom.PlexBaseSensor.t * Requests.World) value)
    (key : string) : Prop :=
  pushes_on_every_call numeric
    SensorsCustom.PlexBaseSensor._hist SensorsCustom.PlexBaseSensor._cache
    SensorsCustom.PlexBaseSensor._last SensorsCustom.PlexBaseSensor._ttl
    (λ _, key) Ok.
Definition node_charted
    (numeric : float → SE (SensorsCustom.ProxmoxBaseSensor.t * Requests.World) value)
    (prefix : string) (view : value → res value) : Prop :=
  pushes_on_every_call numeric
    SensorsCustom.ProxmoxBaseSensor._hist SensorsCustom.ProxmoxBaseSensor._cache
    SensorsCustom.ProxmoxBaseSensor._last SensorsCustom.ProxmoxBaseSensor.cache_ttl
    (node_key prefix) view.
Definition vm_charted
    (numeric : float → SE (SensorsCustom.ProxmoxVMSensor.t * Requests.World) value)
    (prefix : string) : Prop :=
  pushes_on_every_call numeric
    (λ s, SensorsCustom.ProxmoxBaseSensor._hist (SensorsCustom.ProxmoxVMSensor.base s))
    (λ s, SensorsCustom.ProxmoxBaseSensor._cache (SensorsCustom.ProxmoxVMSensor.base s))
    (λ s, SensorsCustom.ProxmoxBaseSensor._last (SensorsCustom.ProxmoxVMSensor.base s))
    (λ s, SensorsCustom.ProxmoxBaseSensor.cache_ttl (SensorsCustom.ProxmoxVMSensor.base s))
    (vm_key prefix) Ok.

(** What the amended C10 says of a call that raises: it pushes nothing. *)
Definition raise_pushes_nothing {S}
    (numeric : float → SE (S * Requests.World) value) (hist : S → list value)
  : Prop :=
  ∀ now s w e s' w', numeric now (s, w) = (Raise e, (s', w')) → hist s' = hist s.

(** A world whose peer refuses every request, and that has sent none. *)
Definition sample_world : Requests.World :=
  {| Requests.peer := λ _ _, Raise RequestException; Requests.sent := [] |}.

(** ** The shapes of [as_numeric] in the two other files, which push
    nothing *)
Definition scp_plex_poll (key : string)
    (fn : SensorsCustomPlex.PlexBaseSensor.t → SE Requests.World value) (now : float)
  : SE (SensorsCustomPlex.PlexBaseSensor.t * Requests.World) value :=
  self <- get_self ;;
  SensorsCustomPlex.PlexBaseSensor._cached now key (fn self).

Definition scx_pmx_poll (key : SensorsCustomProxmox.ProxmoxBaseSensor.t → string)
    (calc : SensorsCustomProxmox.ProxmoxBaseSensor.t → SE Requests.World value)
    (now : float)
  : SE (SensorsCustomProxmox.ProxmoxBaseSensor.t * Requests.World) value :=
  self <- get_self ;;
  SensorsCustomProxmox.ProxmoxBaseSensor._cached now (key self) (calc self).

Definition scx_vm_poll (key : SensorsCustomProxmox.ProxmoxVMSensor.t → string)
    (calc : SensorsCustomProxmox.ProxmoxVMSensor.t → SE Requests.World value)
    (now : float)
  : SE (SensorsCustomProxmox.ProxmoxVMSensor.t * Requests.World) value :=
  self <- get_self ;;
  SensorsCustomProxmox.ProxmoxVMSensor.super
    (SensorsCustomProxmox.ProxmoxBaseSensor._cached now (key self) (calc self)).

Definition node_key1 (prefix : string)
    (self : SensorsCustomProxmox.ProxmoxBaseSensor.t) : string :=
  prefix +:+ SensorsCustomProxmox.ProxmoxBaseSensor.node self.
Definition vm_key1 (prefix : string)
    (self : SensorsCustomProxmox.ProxmoxVMSensor.t) : string :=
  prefix
  +:+ SensorsCustomProxmox.ProxmoxBaseSensor.node
        (SensorsCustomProxmox.ProxmoxVMSensor.base self)
  +:+ "_" +:+ pretty (SensorsCustomProxmox.ProxmoxVMSensor.vmid self).

(** ** The texts of [as_string], as functions of the cached value *)

Section Texts.
Context `{Runtime}.

(** [f"{int(c)}<unit>"] *)
Definition count_text (unit_ : string) (c : value) : res string :=
  n <-? int_ c ;;
  Ok (pretty n +:+ unit_).

(** [f"{c:.1f}<unit>"] *)
Definition fixed_text (unit_ : string) (c : value) : res string :=
  s <-? format_1f c ;;
  Ok (s +:+ unit_).

(** The breakdown of the uptime [sec] into days, hours and minutes. *)
Definition uptime_text (sec : value) : res string :=
  q <-? floordiv sec (VInt 86400) ;;
  d <-? int_ q ;;
  r <-? mod_ sec (VInt 86400) ;;
  q <-? floordiv r (VInt 3600) ;;
  h <-? int_ q ;;
  r <-? mod_ sec (VInt 3600) ;;
  q <-? floordiv r (VInt 60) ;;
  m <-? int_ q ;;
  Ok (pretty d +:+ "d " +:+ pretty h +:+ "h " +:+ pretty m +:+ "m").

End Texts.

(** What C7 says of one sensor: [as_string] is a function of the cache
    entry under the sensor's key alone ([0] when there is none), and after
    an [as_numeric] that returned [v] that entry is a value [c] of which
    [v] is the numeric view; so the text is the text of that [c]. *)
Definition reads_same_entry {S}
    (numeric : float → SE (S * Requests.World) value) (text : S → res string)
    (cache : S → gmap string value) (key : S → string)
    (nview : value → res value) (sview : value → res string) : Prop :=
  (∀ s, text s = sview (default (VInt 0) (cache s !! key s)))
  ∧
  (∀ now s w v s' w',
     numeric now (s, w) = (Ok v, (s', w')) →
     ∃ c, cache s' !! key s' = Some c ∧ nview c = Ok v ∧ text s' = sview c).

(** [reads_same_entry] for the classes of the three files: the Plex
    sensors, the Proxmox sensors of a node and those of a virtual machine,
    of sensors_custom.py first, of the two other files next. *)
Definition plex_paired
    (numeric : float → SE (SensorsCustom.PlexBaseSensor.t * Requests.World) value)
    (text : SensorsCustom.PlexBaseSensor.t → res string) (key : string)
    (sview : value → res string) : Prop :=
  reads_same_entry numeric text SensorsCustom.PlexBaseSensor._cache (λ _, key) Ok sview.
Definition node_paired
    (numeric : float → SE (SensorsCustom.ProxmoxBaseSensor.t * Requests.World) value)
    (text : SensorsCustom.ProxmoxBaseSensor.t → res string) (prefix : string)
    (nview : value → res value) (sview : value → res string) : Prop :=
  reads_same_entry numeric text SensorsCustom.ProxmoxBaseSensor._cache
    (node_key prefix) nview sview.
Definition vm_paired
    (numeric : float → SE (SensorsCustom.ProxmoxVMSensor.t * Requests.World) value)
    (text : SensorsCustom.ProxmoxVMSensor.t → res string) (prefix : string)
    (sview : value → res string) : Prop :=
  reads_same_entry numeric text
    (λ s, SensorsCustom.ProxmoxBaseSensor._cache (SensorsCustom.ProxmoxVMSensor.base s))
    (vm_key prefix) Ok sview.
Definition plex_paired1
    (numeric : float → SE (SensorsCustomPlex.PlexBaseSensor.t * Requests.World) value)
    (text : SensorsCustomPlex.PlexBaseSensor.t → res string) (key : string)
    (sview : value → res string) : Prop :=
  reads_same_entry numeric text SensorsCustomPlex.PlexBaseSensor._cache
    (λ _, key) Ok sview.
Definition node_paired1
    (numeric : float → SE (SensorsCustomProxmox.ProxmoxBaseSensor.t * Requests.World) value)
    (text : SensorsCustomProxmox.ProxmoxBaseSensor.t → res string) (prefix : string)
    (nview : value → res value) (sview : value → res string) : Prop :=
  reads_same_entry numeric text SensorsCustomProxmox.ProxmoxBaseSensor._cache
    (node_key1 prefix) nview sview.
Definition vm_paired1
    (numeric : float → SE (SensorsCustomProxmox.ProxmoxVMSensor.t * Requests.World) value)
    (text : SensorsCustomProxmox.ProxmoxVMSensor.t → res string) (prefix : string)
    (sview : value → res string) : Prop :=
  reads_same_entry numeric text
    (λ s, SensorsCustomProxmox.ProxmoxBaseSensor._cache
            (SensorsCustomProxmox.ProxmoxVMSensor.base s))
    (vm_key1 prefix) Ok sview.

(** Proxmox sensors built with an empty host, and a world in which the
    call of a path raises, as the library has it, and the peer answers every
    other request with the status 200 and a node status. *)
Definition sample_pmx_nohost : SensorsCustom.ProxmoxBaseSensor.t :=
  SensorsCustom.ProxmoxBaseSensor.__init__ "" None None "" "pve" true 30.
Definition sample_pmx1_nohost : SensorsCustomProxmox.ProxmoxBaseSensor.t :=
  SensorsCustomProxmox.ProxmoxBaseSensor.__init__ "" None None "" "pve" true 30.
Definition answering_world : Requests.World :=
  {| Requests.peer := λ _ rq,
       if Requests.is_path (Requests.url rq) then Raise RequestException
       else
         Ok {| Requests.status_code := 200;
               Requests.json :=
                 Ok (VDict [("data", VDict [("cpu", VFloat 0.5);
                                            ("uptime", VInt 90061)])]) |};
     Requests.sent := [] |}.

(** The peer of the specification's scenario: it answers the first request
    with 10 sessions, fails the second, and answers 20 from then on. *)
Definition scenario_world : Requests.World :=
  {| Requests.peer := λ before _,
       match before with
       | [] => Ok {| Requests.status_code := 200;
                     Requests.json :=
                       Ok (VDict [("MediaContainer", VDict [("size", VInt 10)])]) |}
       | [_] => Raise RequestException
       | _ => Ok {| Requests.status_code := 200;
                    Requests.json :=
                      Ok (VDict [("MediaContainer", VDict [("size", VInt 20)])]) |}
       end;
     Requests.sent := [] |}.

(** ** The transport, outcome by outcome *)

(** The world after one more call of [requests.get]. *)
Definition logged (w : Requests.World) (rq : Requests.Request) : Requests.World :=
  {| Requests.peer := Requests.peer w; Requests.sent := Requests.sent w ++ [rq] |}.

(** The request that a Plex and a Proxmox client make for an endpoint. *)
Definition plex_request (url : string) (headers : gmap string string) (ep : string)
  : Requests.Request :=
  {| Requests.url := url +:+ ep; Requests.headers := headers;
     Requests.timeout := 6; Requests.verify := true |}.
Definition pmx_request (api_base : string) (headers : gmap string string)
    (verify_ssl : bool) (ep : string) : Requests.Request :=
  {| Requests.url := api_base +:+ ep; Requests.headers := headers;
     Requests.timeout := 6; Requests.verify := verify_ssl |}.

(** What the two clients make of the outcome of the call: the body of an
    answer of status 200 (its ["data"], for Proxmox), [None] otherwise. *)
Definition plex_payload (o : res Requests.Response) : value :=
  match o with
  | Ok r =>
      if Requests.status_code r =? 200
      then match Requests.json r with Ok j => j | Raise _ => VNone end
      else VNone
  | Raise _ => VNone
  end.
Definition pmx_payload (o : res Requests.Response) : value :=
  match o with
  | Ok r =>
      if Requests.status_code r =? 200
      then match Requests.json r with
           | Ok (VDict d) => default VNone (assoc "data" d)
           | _ => VNone
           end
      else VNone
  | Raise _ => VNone
  end.

(** A call that raises leaves the object as it was. *)
Definition raise_leaves_object {S}
    (numeric : float → SE (S * Requests.World) value) : Prop :=
  ∀ now s w e s' w', numeric now (s, w) = (Raise e, (s', w')) → s' = s.

(** Every entry of the cache is a float. *)
Definition floats_only (cache : gmap string value) : Prop :=
  ∀ k c, cache !! k = Some c → ∃ f, c = VFloat f.

(** A call keeps the cache to floats, and returns a float when it
    returns. *)
Definition keeps_floats {S}
    (numeric : float → SE (S * Requests.World) value)
    (cache : S → gmap string value) : Prop :=
  ∀ now s w r s' w',
    floats_only (cache s) → numeric now (s, w) = (r, (s', w')) →
    floats_only (cache s') ∧ ∀ v, r = Ok v → ∃ f, v = VFloat f.

(** ** A peer that gives nothing

    What the properties on a failed fetch say of one sensor, whose one
    request (the first one, for a Plex count) is [request s] and reads its
    answer with [payload]: on an object that is [live], when the entry is
    missing or stale and the payload is [None] or another falsy value, the
    call sends that request and no other, returns [0.0], and stores [0.0]
    with the time of the call. *)
Definition unavailable_reads_zero {S}
    (numeric : float → SE (S * Requests.World) value)
    (cache : S → gmap string value) (last : S → gmap string float)
    (ttl : S → Z) (key : S → string) (live : S → Prop)
    (payload : res Requests.Response → value)
    (request : S → Requests.Request) : Prop :=
  ∀ now s w,
    live s →
    fresh_entry (cache s) (last s) (ttl s) now (key s) = false →
    truthy (payload (Requests.peer w (Requests.sent w) (request s))) = false →
    ∃ s', numeric now (s, w) = (Ok (VFloat 0), (s', logged w (request s)))
          ∧ cache s' !! key s = Some (VFloat 0)
          ∧ last s' !! key s = Some now.

(** The requests of the sensors: of the status of a node and of a virtual
    machine, of a Plex endpoint. *)
Definition node_request (path : string) (s : SensorsCustom.ProxmoxBaseSensor.t)
  : Requests.Request :=
  pmx_request (SensorsCustom.ProxmoxBaseSensor.api_base s)
    (SensorsCustom.ProxmoxBaseSensor.headers s)
    (SensorsCustom.ProxmoxBaseSensor.verify_ssl s)
    ("/nodes/" +:+ SensorsCustom.ProxmoxBaseSensor.node s +:+ path).
Definition vm_request (s : SensorsCustom.ProxmoxVMSensor.t) : Requests.Request :=
  let b := SensorsCustom.ProxmoxVMSensor.base s in
  pmx_request (SensorsCustom.ProxmoxBaseSensor.api_base b)
    (SensorsCustom.ProxmoxBaseSensor.headers b)
    (SensorsCustom.ProxmoxBaseSensor.verify_ssl b)
    ("/nodes/" +:+ SensorsCustom.ProxmoxBaseSensor.node b +:+ "/qemu/"
     +:+ pretty (SensorsCustom.ProxmoxVMSensor.vmid s) +:+ "/status/current").
Definition node_request1 (path : string) (s : SensorsCustomProxmox.ProxmoxBaseSensor.t)
  : Requests.Request :=
  pmx_request (SensorsCustomProxmox.ProxmoxBaseSensor.api_base s)
    (SensorsCustomProxmox.ProxmoxBaseSensor.headers s)
    (SensorsCustomProxmox.ProxmoxBaseSensor.verify_ssl s)
    ("/nodes/" +:+ SensorsCustomProxmox.ProxmoxBaseSensor.node s +:+ path).
Definition vm_request1 (s : SensorsCustomProxmox.ProxmoxVMSensor.t)
  : Requests.Request :=
  let b := SensorsCustomProxmox.ProxmoxVMSensor.base s in
  pmx_request (SensorsCustomProxmox.ProxmoxBaseSensor.api_base b)
    (SensorsCustomProxmox.ProxmoxBaseSensor.headers b)
    (SensorsCustomProxmox.ProxmoxBaseSensor.verify_ssl b)
    ("/nodes/" +:+ SensorsCustomProxmox.ProxmoxBaseSensor.node b +:+ "/qemu/"
     +:+ pretty (SensorsCustomProxmox.ProxmoxVMSensor.vmid s) +:+ "/status/current").
Definition plex_endpoint (ep : string) (s : SensorsCustom.PlexBaseSensor.t)
  : Requests.Request :=
  plex_request (SensorsCustom.PlexBaseSensor.url s)
    (SensorsCustom.PlexBaseSensor.headers s) ep.
Definition plex_endpoint1 (ep : string) (s : SensorsCustomPlex.PlexBaseSensor.t)
  : Requests.Request :=
  plex_request (SensorsCustomPlex.PlexBaseSensor.url s)
    (SensorsCustomPlex.PlexBaseSensor.headers s) ep.

(** [unavailable_reads_zero] for the classes of the three files. *)
Definition node_unavailable
    (numeric : float → SE (SensorsCustom.ProxmoxBaseSensor.t * Requests.World) value)
    (prefix path : string) : Prop :=
  unavailable_reads_zero numeric
    SensorsCustom.ProxmoxBaseSensor._cache SensorsCustom.ProxmoxBaseSensor._last
    SensorsCustom.ProxmoxBaseSensor.cache_ttl (node_key prefix) (λ _, True)
    pmx_payload (node_request path).
Definition vm_unavailable
    (numeric : float → SE (SensorsCustom.ProxmoxVMSensor.t * Requests.World) value)
    (prefix : string) : Prop :=
  unavailable_reads_zero numeric
    (λ s, SensorsCustom.ProxmoxBaseSensor._cache (SensorsCustom.ProxmoxVMSensor.base s))
    (λ s, SensorsCustom.ProxmoxBaseSensor._last (SensorsCustom.ProxmoxVMSensor.base s))
    (λ s, SensorsCustom.ProxmoxBaseSensor.cache_ttl (SensorsCustom.ProxmoxVMSensor.base s))
    (vm_key prefix) (λ _, True) pmx_payload vm_request.
Definition node_unavailable1
    (numeric : float → SE (SensorsCustomProxmox.ProxmoxBaseSensor.t * Requests.World) value)
    (prefix path : string) : Prop :=
  unavailable_reads_zero numeric
    SensorsCustomProxmox.ProxmoxBaseSensor._cache
    SensorsCustomProxmox.ProxmoxBaseSensor._last
    SensorsCustomProxmox.ProxmoxBaseSensor.cache_ttl (node_key1 prefix) (λ _, True)
    pmx_payload (node_request1 path).
Definition vm_unavailable1
    (numeric : float → SE (SensorsCustomProxmox.ProxmoxVMSensor.t * Requests.World) value)
    (prefix : string) : Prop :=
  unavailable_reads_zero numeric
    (λ s, SensorsCustomProxmox.ProxmoxBaseSensor._cache
            (SensorsCustomProxmox.ProxmoxVMSensor.base s))
    (λ s, SensorsCustomProxmox.ProxmoxBaseSensor._last
            (SensorsCustomProxmox.ProxmoxVMSensor.base s))
    (λ s, SensorsCustomProxmox.ProxmoxBaseSensor.cache_ttl
            (SensorsCustomProxmox.ProxmoxVMSensor.base s))
    (vm_key1 prefix) (λ _, True) pmx_payload vm_request1.
Definition plex_unavailable
    (numeric : float → SE (SensorsCustom.PlexBaseSensor.t * Requests.World) value)
    (key ep : string) : Prop :=
  unavailable_reads_zero numeric
    SensorsCustom.PlexBaseSensor._cache SensorsCustom.PlexBaseSensor._last
    SensorsCustom.PlexBaseSensor._ttl (λ _, key)
    (λ s, SensorsCustom.PlexBaseSensor.url s ≠ "")
    plex_payload (plex_endpoint ep).
Definition plex_unavailable1
    (numeric : float → SE (SensorsCustomPlex.PlexBaseSensor.t * Requests.World) value)
    (key ep : string) : Prop :=
  unavailable_reads_zero numeric
    SensorsCustomPlex.PlexBaseSensor._cache SensorsCustomPlex.PlexBaseSensor._last
    SensorsCustomPlex.PlexBaseSensor._ttl (λ _, key)
    (λ s, SensorsCustomPlex.PlexBaseSensor.url s ≠ "")
    plex_payload (plex_endpoint1 ep).

(** A world whose peer answers every request with the status 503. *)
Definition failing_world : Requests.World :=
  {| Requests.peer := λ _ _,
       Ok {| Requests.status_code := 503; Requests.json := Raise JSONDecodeError |};
     Requests.sent := [] |}.

(** ** The requests of one read

    What the property on the cost of a read says of one sensor whose
    compute function makes the one request [request s]: on an object that
    is [live], a call leaves the world as it was when the entry is fresh,
    and else has logged that one request, whatever the peer answered and
    whether the call returned or raised. *)
Definition one_request_per_refresh {S}
    (numeric : float → SE (S * Requests.World) value)
    (cache : S → gmap string value) (last : S → gmap string float)
    (ttl : S → Z) (key : S → string) (live : S → Prop)
    (request : S → Requests.Request) : Prop :=
  ∀ now s w,
    live s →
    snd (snd (numeric now (s, w)))
    = if fresh_entry (cache s) (last s) (ttl s) now (key s)
      then w else logged w (request s).

(** ** A payload of the wrong shape

    What the property on a malformed answer says of one sensor: when the
    entry is missing or stale and the payload is truthy and no dict (a
    list, a string, a number), the call raises [AttributeError], from the
    [.get] that the compute function calls on it, after its one request,
    and leaves the object as it was. *)
Definition malformed_raises {S}
    (numeric : float → SE (S * Requests.World) value)
    (cache : S → gmap string value) (last : S → gmap string float)
    (ttl : S → Z) (key : S → string) (live : S → Prop)
    (payload : res Requests.Response → value)
    (request : S → Requests.Request) : Prop :=
  ∀ now s w p,
    live s →
    fresh_entry (cache s) (last s) (ttl s) now (key s) = false →
    payload (Requests.peer w (Requests.sent w) (request s)) = p →
    truthy p = true → (∀ d, p ≠ VDict d) →
    numeric now (s, w) = (Raise AttributeError, (s, logged w (request s))).

(** The sensor of the memory of a virtual machine calls [.get] inside its
    [try]: on such a payload it returns [0.0], and stores it. *)
Definition malformed_reads_zero {S}
    (numeric : float → SE (S * Requests.World) value)
    (cache : S → gmap string value) (last : S → gmap string float)
    (ttl : S → Z) (key : S → string)
    (request : S → Requests.Request) : Prop :=
  ∀ now s w p,
    fresh_entry (cache s) (last s) (ttl s) now (key s) = false →
    pmx_payload (Requests.peer w (Requests.sent w) (request s)) = p →
    truthy p = true → (∀ d, p ≠ VDict d) →
    ∃ s', numeric now (s, w) = (Ok (VFloat 0), (s', logged w (request s)))
          ∧ cache s' !! key s = Some (VFloat 0).

(** A world whose peer answers every request with the status 200 and a
    body whose data is the list [[1]]. *)
Definition listing_world : Requests.World :=
  {| Requests.peer := λ _ _,
       Ok {| Requests.status_code := 200;
             Requests.json := Ok (VDict [("data", VList [VInt 1])]) |};
     Requests.sent := [] |}.

(** A world whose peer answers every request with the status 200 and the
    memory of a node, 2 GiB used of 8 GiB. *)
Definition memory_world : Requests.World :=
  {| Requests.peer := λ _ _,
       Ok {| Requests.status_code := 200;
             Requests.json :=
               Ok (VDict [("data",
                     VDict [("memory", VDict [("used", VInt 2147483648);
                                              ("total", VInt 8589934592)])])]) |};
     Requests.sent := [] |}.

(** ** The text after any reads *)

(** The state after calls of one [as_numeric] at the times [nows], one
    after the other, each of which has returned or raised (and was caught
    by its caller). *)
Fixpoint attempts {Σ} (numeric : float → SE Σ value) (nows : list float) (σ : Σ)
  : Σ :=
  match nows with
  | [] => σ
  | now :: nows' => attempts numeric nows' (snd (numeric now σ))
  end.

(** What the property on the texts says of one sensor: from an object whose
    cache holds floats only, as one just built, and after calls of
    [as_numeric] at whatever times and with whatever answers of the peer,
    [as_string] returns a text. *)
Definition always_prints {S}
    (numeric : float → SE (S * Requests.World) value) (text : S → res string)
    (cache : S → gmap string value) : Prop :=
  ∀ s nows w,
    floats_only (cache s) →
    ∃ t, text (fst (attempts numeric nows (s, w))) = Ok t.

(** ** The requests of any reads

    What the property on the log says of one sensor: on an object that is
    [live], after calls of [as_numeric] at whatever times, the peer is the
    same and the log has grown by copies of the one request of the sensor,
    at most one per call. *)
Definition same_request_every_time {S}
    (numeric : float → SE (S * Requests.World) value) (live : S → Prop)
    (request : S → Requests.Request) : Prop :=
  ∀ nows s w,
    live s →
    ∃ k, (k ≤ length nows)%nat
         ∧ snd (attempts numeric nows (s, w))
           = {| Requests.peer := Requests.peer w;
                Requests.sent := Requests.sent w ++ repeat (request s) k |}.

(** A call changes the cache, the times and the history only: the request
    of the object, and whether it is live, are what they were. *)
Definition keeps_request {S} (numeric : float → SE (S * Requests.World) value)
    (live : S → Prop) (request : S → Requests.Request) : Prop :=
  ∀ now s w,
    let s' := fst (snd (numeric now (s, w))) in
    request s' = request s ∧ (live s → live s').

(** ** The URL of the configuration *)

(** A run of [n] slashes. *)
Fixpoint slashes (n : nat) : string :=
  match n with
  | O => ""
  | S n' => String "/" (slashes n')
  end.

(** ** What [last_values] charts

    What the property on the chart says of one sensor of
    sensors_custom.py, whose [last_values] are the end of the history: after
    a call of [as_numeric] that returned [v], the most recent of the charted
    values is [v]. *)
Definition charts_the_reading {S}
    (numeric : float → SE (S * Requests.World) value) (values : S → list value)
  : Prop :=
  ∀ now s w v s' w',
    numeric now (s, w) = (Ok v, (s', w')) → last (values s') = Some v.

(** The same of one sensor of sensors_custom_proxmox.py, whose
    [last_values] is the one cached value: after a call of [as_numeric] that
    returned [v], it is [[c]] for the entry [c], of which [v] is the
    [view]. *)
Definition charts_the_entry {S}
    (numeric : float → SE (S * Requests.World) value) (values : S → list value)
    (view : value → res value) : Prop :=
  ∀ now s w v s' w',
    numeric now (s, w) = (Ok v, (s', w')) →
    ∃ c, values s' = [c] ∧ view c = Ok v.

(** ** The requests of a count of the Plex library *)

(** [d.get(k)] of a section [d] of the listing. *)
Definition field (k : string) (d : value) : value :=
  match d with
  | VDict dd => default VNone (assoc k dd)
  | _ => VNone
  end.

(** The sections that a count visits: those of the type [ty] and, under
    [guard] (the movies), with a truthy key. *)
Definition visited (guard : bool) (ty : string) (d : value) : bool :=
  eq_str (field "type" d) ty && (negb guard || truthy (field "key" d)).

(** The endpoint of the items of a section. *)
Definition section_endpoint `{Runtime} (suffix : string) (d : value) : string :=
  "/library/sections/" +:+ str_ (field "key" d) +:+ suffix.

(** The world after more calls of [requests.get]. *)
Definition logged_all (w : Requests.World) (rqs : list Requests.Request)
  : Requests.World :=
  {| Requests.peer := Requests.peer w; Requests.sent := Requests.sent w ++ rqs |}.

(** What the property on the requests of a count says of one compute
    function: on an object that is [live], when the listing of the sections
    is well formed, with the sections [ds], and the function returns, it
    has sent the request of the listing and then one request per visited
    section, in the order of the listing, and nothing else. *)
Definition count_requests `{Runtime} {S}
    (fn : S → SE Requests.World value) (live : S → Prop)
    (endpoint : string → S → Requests.Request)
    (guard : bool) (ty suffix : string) : Prop :=
  ∀ s w d mc ds v w',
    live s →
    plex_payload (Requests.peer w (Requests.sent w) (endpoint "/library/sections" s))
      = VDict d →
    assoc "MediaContainer" d = Some (VDict mc) →
    assoc "Directory" mc = Some (VList ds) →
    fn s w = (Ok v, w') →
    w' = logged_all w
           (endpoint "/library/sections" s
            :: map (λ d, endpoint (section_endpoint suffix d) s)
                 (List.filter (visited guard ty) ds)).

(** A listing of three sections: a movie section with the key 1, a show
    section with the key 2 and a movie section without a key; and a world
    whose peer answers the first request with that listing and every other
    request with a size of 7. *)
Definition library_listing : list value :=
  [VDict [("type", VStr "movie"); ("key", VStr "1")];
   VDict [("type", VStr "show"); ("key", VStr "2")];
   VDict [("type", VStr "movie")]].
Definition library_world : Requests.World :=
  {| Requests.peer := λ before _,
       match before with
       | [] =>
           Ok {| Requests.status_code := 200;
                 Requests.json :=
                   Ok (VDict [("MediaContainer",
                         VDict [("Directory", VList library_listing)])]) |}
       | _ =>
           Ok {| Requests.status_code := 200;
                 Requests.json :=
                   Ok (VDict [("MediaContainer", VDict [("size", VInt 7)])]) |}
       end;
     Requests.sent := [] |}.

(** * Properties *)

(** ** The monad, step by step *)

Lemma bind_ok {Σ A B} (c : SE Σ A) (k : A → SE Σ B) σ a σ' :
  c σ = (Ok a, σ') → bind c k σ = k a σ'.
Proof. intros E. unfold bind. now rewrite E. Qed.

Lemma bind_raise {Σ A B} (c : SE Σ A) (k : A → SE Σ B) σ e σ' :
  c σ = (Raise e, σ') → bind c k σ = (Raise e, σ').
Proof. intros E. unfold bind. now rewrite E. Qed.

Lemma bind_inv_ok {Σ A B} (c : SE Σ A) (k : A → SE Σ B) σ b σ2 :
  bind c k σ = (Ok b, σ2) → ∃ a σ1, c σ = (Ok a, σ1) ∧ k a σ1 = (Ok b, σ2).
Proof.
  unfold bind. destruct (c σ) as [[a|e] σ1]; intros E.
  - now exists a, σ1.
  - discriminate.
Qed.

Lemma io_run {S W A} (c : SE W A) (s : S) w :
  io c (s, w) = (fst (c w), (s, snd (c w))).
Proof. unfold io. simpl. now destruct (c w). Qed.

(** ** Comparisons of a float and an int *)

(** [ttl <= d] excludes [d < ttl]: "ttl or more has elapsed" is the
    negation of the cache's test of freshness. *)
Lemma int_le_float_not_lt n f :
  int_le_float n f = true → float_lt_int f n = false.
Proof.
  unfold int_le_float, float_lt_int.
  destruct (Prim2SF f) as [s|s| |s m e]; try discriminate.
  - intros E%Z.leb_le. apply Z.ltb_ge. lia.
  - now destruct s.
  - destruct (0 <=? e); intros E%Z.leb_le; apply Z.ltb_ge; lia.
Qed.

Lemma contains_lookup {A} (d : gmap string A) key :
  contains d key = true ↔ is_Some (d !! key).
Proof. unfold contains. apply bool_decide_eq_true. Qed.

Lemma contains_None {A} (d : gmap string A) key :
  d !! key = None → contains d key = false.
Proof.
  intros E. unfold contains. apply bool_decide_eq_false.
  rewrite E. intros [? ?]. discriminate.
Qed.

Lemma contains_Some {A} (d : gmap string A) key x :
  d !! key = Some x → contains d key = true.
Proof. intros E. apply contains_lookup. eauto. Qed.

Lemma fresh_entry_hit cache last ttl now key c t0 :
  cache !! key = Some c → last !! key = Some t0 →
  float_lt_int (now - t0) ttl = true →
  fresh_entry cache last ttl now key = true.
Proof.
  intros Ec El Ht. unfold fresh_entry.
  rewrite (contains_Some _ _ _ Ec), El. exact Ht.
Qed.

Lemma fresh_entry_stale cache last ttl now key t0 :
  last !! key = Some t0 → int_le_float ttl (now - t0) = true →
  fresh_entry cache last ttl now key = false.
Proof.
  intros El Ht. unfold fresh_entry. rewrite El. simpl.
  rewrite (int_le_float_not_lt _ _ Ht). apply andb_false_r.
Qed.

Lemma fresh_entry_cold cache last ttl now key :
  cache !! key = None → fresh_entry cache last ttl now key = false.
Proof. intros E. unfold fresh_entry. now rewrite (contains_None _ _ E). Qed.

(** ** [_cached], equation by equation *)

Ltac cached_eq_tac :=
  unfold fresh_entry, bind at 1, get_self, gets; simpl;
  destruct (_ && _);
  [ unfold getitem; now destruct (_ !! _)
  | unfold bind, io, update, modify, ret; simpl;
    match goal with |- context [?fn ?w] =>
      match type of (fn w) with (res value * _)%type =>
        destruct (fn w) as [[[]|] ?]; reflexivity
      end
    end ].

Section CombinedPlexCache.
Import SensorsCustom.PlexBaseSensor.
Context {W : Type}.
Implicit Types (fn : SE W value) (s : t) (w : W).

(** What [_cached] computes in sensors_custom.py's [PlexBaseSensor]: the
    entry when it is fresh, else one run of [fn] whose value is stored with
    the time of the call. *)
Lemma sc_plex_cached_eq now key fn s w :
  _cached now key fn (s, w) =
  if fresh_entry (_cache s) (_last s) (_ttl s) now key
  then match _cache s !! key with
       | Some c => (Ok c, (s, w))
       | None => (Raise KeyError, (s, w))
       end
  else match fn w with
       | (Ok v, w') =>
           (Ok v, (set_last <[key := now]> (set_cache <[key := v]> s), w'))
       | (Raise e, w') => (Raise e, (s, w'))
       end.
Proof. unfold _cached. cached_eq_tac. Qed.

End CombinedPlexCache.

Section CombinedProxmoxCache.
Import SensorsCustom.ProxmoxBaseSensor.
Context {W : Type}.
Implicit Types (fn : SE W value) (s : t) (w : W).

(** The same in sensors_custom.py's [ProxmoxBaseSensor]. *)
Lemma sc_pmx_cached_eq now key fn s w :
  _cached now key fn (s, w) =
  if fresh_entry (_cache s) (_last s) (cache_ttl s) now key
  then match _cache s !! key with
       | Some c => (Ok c, (s, w))
       | None => (Raise KeyError, (s, w))
       end
  else match fn w with
       | (Ok v, w') =>
           (Ok v, (set_last <[key := now]> (set_cache <[key := v]> s), w'))
       | (Raise e, w') => (Raise e, (s, w'))
       end.
Proof. unfold _cached. cached_eq_tac. Qed.

End CombinedProxmoxCache.

Section StandalonePlexCache.
Import SensorsCustomPlex.PlexBaseSensor.
Context {W : Type}.
Implicit Types (fn : SE W value) (s : t) (w : W).

(** The same in sensors_custom_plex.py. *)
Lemma scp_plex_cached_eq now key fn s w :
  _cached now key fn (s, w) =
  if fresh_entry (_cache s) (_last s) (_ttl s) now key
  then match _cache s !! key with
       | Some c => (Ok c, (s, w))
       | None => (Raise KeyError, (s, w))
       end
  else match fn w with
       | (Ok v, w') =>
           (Ok v, (set_last <[key := now]> (set_cache <[key := v]> s), w'))
       | (Raise e, w') => (Raise e, (s, w'))
       end.
Proof. unfold _cached. cached_eq_tac. Qed.

End StandalonePlexCache.

Section StandaloneProxmoxCache.
Import SensorsCustomProxmox.ProxmoxBaseSensor.
Context {W : Type}.
Implicit Types (fn : SE W value) (s : t) (w : W).

(** In sensors_custom_proxmox.py a [None] of [fn] stores nothing: the
    call returns [self._cache.get(key)] and leaves the object as it was. *)
Lemma scx_pmx_cached_eq now key fn s w :
  _cached now key fn (s, w) =
  if fresh_entry (_cache s) (_last s) (cache_ttl s) now key
  then match _cache s !! key with
       | Some c => (Ok c, (s, w))
       | None => (Raise KeyError, (s, w))
       end
  else match fn w with
       | (Ok VNone, w') => (Ok (default VNone (_cache s !! key)), (s, w'))
       | (Ok v, w') =>
           (Ok v, (set_last <[key := now]> (set_cache <[key := v]> s), w'))
       | (Raise e, w') => (Raise e, (s, w'))
       end.
Proof. unfold _cached. cached_eq_tac. Qed.

End StandaloneProxmoxCache.

(** ** The entry is served while it is fresh *)

Ltac cached_hit_tac eq :=
  intros Ec El Ht; rewrite eq, (fresh_entry_hit _ _ _ _ _ _ _ Ec El Ht), Ec;
  reflexivity.

Lemma sc_plex_cached_hit {W} now key (fn : SE W value) s w c t0 :
  SensorsCustom.PlexBaseSensor._cache s !! key = Some c →
  SensorsCustom.PlexBaseSensor._last s !! key = Some t0 →
  float_lt_int (now - t0) (SensorsCustom.PlexBaseSensor._ttl s) = true →
  SensorsCustom.PlexBaseSensor._cached now key fn (s, w) = (Ok c, (s, w)).
Proof. cached_hit_tac @sc_plex_cached_eq. Qed.

Lemma sc_pmx_cached_hit {W} now key (fn : SE W value) s w c t0 :
  SensorsCustom.ProxmoxBaseSensor._cache s !! key = Some c →
  SensorsCustom.ProxmoxBaseSensor._last s !! key = Some t0 →
  float_lt_int (now - t0) (SensorsCustom.ProxmoxBaseSensor.cache_ttl s) = true →
  SensorsCustom.ProxmoxBaseSensor._cached now key fn (s, w) = (Ok c, (s, w)).
Proof. cached_hit_tac @sc_pmx_cached_eq. Qed.

Lemma scp_plex_cached_hit {W} now key (fn : SE W value) s w c t0 :
  SensorsCustomPlex.PlexBaseSensor._cache s !! key = Some c →
  SensorsCustomPlex.PlexBaseSensor._last s !! key = Some t0 →
  float_lt_int (now - t0) (SensorsCustomPlex.PlexBaseSensor._ttl s) = true →
  SensorsCustomPlex.PlexBaseSensor._cached now key fn (s, w) = (Ok c, (s, w)).
Proof. cached_hit_tac @scp_plex_cached_eq. Qed.

Lemma scx_pmx_cached_hit {W} now key (fn : SE W value) s w c t0 :
  SensorsCustomProxmox.ProxmoxBaseSensor._cache s !! key = Some c →
  SensorsCustomProxmox.ProxmoxBaseSensor._last s !! key = Some t0 →
  float_lt_int (now - t0) (SensorsCustomProxmox.ProxmoxBaseSensor.cache_ttl s) = true →
  SensorsCustomProxmox.ProxmoxBaseSensor._cached now key fn (s, w) = (Ok c, (s, w)).
Proof. cached_hit_tac @scx_pmx_cached_eq. Qed.






(** ** A stale or missing entry: one run of the compute function *)

Ltac cached_miss_tac eq :=
  intros Hf E; rewrite eq, Hf, E; reflexivity.

Lemma sc_plex_cached_miss {W} now key (fn : SE W value) s w v w' :
  fresh_entry (SensorsCustom.PlexBaseSensor._cache s)
    (SensorsCustom.PlexBaseSensor._last s)
    (SensorsCustom.PlexBaseSensor._ttl s) now key = false →
  fn w = (Ok v, w') →
  SensorsCustom.PlexBaseSensor._cached now key fn (s, w) =
  (Ok v, (SensorsCustom.PlexBaseSensor.set_last <[key := now]>
            (SensorsCustom.PlexBaseSensor.set_cache <[key := v]> s), w')).
Proof. cached_miss_tac @sc_plex_cached_eq. Qed.

Lemma sc_pmx_cached_miss {W} now key (fn : SE W value) s w v w' :
  fresh_entry (SensorsCustom.ProxmoxBaseSensor._cache s)
    (SensorsCustom.ProxmoxBaseSensor._last s)
    (SensorsCustom.ProxmoxBaseSensor.cache_ttl s) now key = false →
  fn w = (Ok v, w') →
  SensorsCustom.ProxmoxBaseSensor._cached now key fn (s, w) =
  (Ok v, (SensorsCustom.ProxmoxBaseSensor.set_last <[key := now]>
            (SensorsCustom.ProxmoxBaseSensor.set_cache <[key := v]> s), w')).
Proof. cached_miss_tac @sc_pmx_cached_eq. Qed.

Lemma scp_plex_cached_miss {W} now key (fn : SE W value) s w v w' :
  fresh_entry (SensorsCustomPlex.PlexBaseSensor._cache s)
    (SensorsCustomPlex.PlexBaseSensor._last s)
    (SensorsCustomPlex.PlexBaseSensor._ttl s) now key = false →
  fn w = (Ok v, w') →
  SensorsCustomPlex.PlexBaseSensor._cached now key fn (s, w) =
  (Ok v, (SensorsCustomPlex.PlexBaseSensor.set_last <[key := now]>
            (SensorsCustomPlex.PlexBaseSensor.set_cache <[key := v]> s), w')).
Proof. cached_miss_tac @scp_plex_cached_eq. Qed.

Lemma scx_pmx_cached_miss {W} now key (fn : SE W value) s w v w' :
  fresh_entry (SensorsCustomProxmox.ProxmoxBaseSensor._cache s)
    (SensorsCustomProxmox.ProxmoxBaseSensor._last s)
    (SensorsCustomProxmox.ProxmoxBaseSensor.cache_ttl s) now key = false →
  fn w = (Ok v, w') →
  v ≠ VNone →
  SensorsCustomProxmox.ProxmoxBaseSensor._cached now key fn (s, w) =
  (Ok v, (SensorsCustomProxmox.ProxmoxBaseSensor.set_last <[key := now]>
            (SensorsCustomProxmox.ProxmoxBaseSensor.set_cache <[key := v]> s), w')).
Proof.
  intros Hf E Hv. rewrite scx_pmx_cached_eq, Hf, E.
  now destruct v.
Qed.

Lemma scx_pmx_cached_none {W} now key (fn : SE W value) s w w' :
  fresh_entry (SensorsCustomProxmox.ProxmoxBaseSensor._cache s)
    (SensorsCustomProxmox.ProxmoxBaseSensor._last s)
    (SensorsCustomProxmox.ProxmoxBaseSensor.cache_ttl s) now key = false →
  fn w = (Ok VNone, w') →
  SensorsCustomProxmox.ProxmoxBaseSensor._cached now key fn (s, w) =
  (Ok (default VNone (SensorsCustomProxmox.ProxmoxBaseSensor._cache s !! key)),
   (s, w')).
Proof. cached_miss_tac @scx_pmx_cached_eq. Qed.

(** C3. Retain-last-good, the [_cached] of sensors_custom_proxmox.py: for a
    key that has an entry, a call that runs the compute function (the entry
    is not fresh) and gets [None] from it returns the cached value and
    leaves the object as it was, so the value and its [observed_at] are the
    ones of before. *)
Theorem C3_retain_last_good_on_failure :
  ∀ W (fn : SE W value) key now s w w' c,
    SensorsCustomProxmox.ProxmoxBaseSensor._cache s !! key = Some c →
    float_lt_int
      (now - default 0%float (SensorsCustomProxmox.ProxmoxBaseSensor._last s !! key))
      (SensorsCustomProxmox.ProxmoxBaseSensor.cache_ttl s) = false →
    fn w = (Ok VNone, w') →
    ∃ s',
      SensorsCustomProxmox.ProxmoxBaseSensor._cached now key fn (s, w)
        = (Ok c, (s', w'))
      ∧ s' = s
      ∧ SensorsCustomProxmox.ProxmoxBaseSensor._cache s' !! key = Some c
      ∧ SensorsCustomProxmox.ProxmoxBaseSensor._last s' !! key
        = SensorsCustomProxmox.ProxmoxBaseSensor._last s !! key.
Proof.
  intros W fn key now s w w' c Ec Ht E. exists s.
  rewrite (scx_pmx_cached_none now key fn s w w'), Ec; auto.
  unfold fresh_entry. rewrite Ht. apply andb_false_r.
Qed.

(** C3 at a concrete input: the entry [90061] observed at time [0], a time
    to live of [30], a compute function that returns [None] at time [31]. *)
Lemma C3_witness :
  ∃ s',
    SensorsCustomProxmox.ProxmoxBaseSensor._cached 31 "nodeupt_pve"
      (const_fn VNone) (sample_pmx1_warm, tt)
      = (Ok (VFloat 90061), (s', tt))
    ∧ s' = sample_pmx1_warm
    ∧ SensorsCustomProxmox.ProxmoxBaseSensor._cache s' !! "nodeupt_pve"
      = Some (VFloat 90061)
    ∧ SensorsCustomProxmox.ProxmoxBaseSensor._last s' !! "nodeupt_pve"
      = SensorsCustomProxmox.ProxmoxBaseSensor._last sample_pmx1_warm !! "nodeupt_pve".
Proof.
  apply (C3_retain_last_good_on_failure unit (const_fn VNone) "nodeupt_pve"
           31%float sample_pmx1_warm tt tt (VFloat 90061)); reflexivity.
Defined.

(** C4. Accept-on-failure, the two [_cached] of sensors_custom.py: a call
    that runs the compute function stores whatever value it returns, the
    sentinel [0.0] of a failed fetch included, over any earlier entry, and
    sets [observed_at] to the time of the call. *)
Theorem C4_accept_on_failure_overwrites :
  (∀ W (fn : SE W value) key now s w w' v,
     fresh_entry (SensorsCustom.PlexBaseSensor._cache s)
       (SensorsCustom.PlexBaseSensor._last s)
       (SensorsCustom.PlexBaseSensor._ttl s) now key = false →
     fn w = (Ok v, w') →
     ∃ s',
       SensorsCustom.PlexBaseSensor._cached now key fn (s, w) = (Ok v, (s', w'))
       ∧ SensorsCustom.PlexBaseSensor._cache s' !! key = Some v
       ∧ SensorsCustom.PlexBaseSensor._last s' !! key = Some now)
  ∧
  (∀ W (fn : SE W value) key now s w w' v,
     fresh_entry (SensorsCustom.ProxmoxBaseSensor._cache s)
       (SensorsCustom.ProxmoxBaseSensor._last s)
       (SensorsCustom.ProxmoxBaseSensor.cache_ttl s) now key = false →
     fn w = (Ok v, w') →
     ∃ s',
       SensorsCustom.ProxmoxBaseSensor._cached now key fn (s, w) = (Ok v, (s', w'))
       ∧ SensorsCustom.ProxmoxBaseSensor._cache s' !! key = Some v
       ∧ SensorsCustom.ProxmoxBaseSensor._last s' !! key = Some now).
Proof.
  split; intros W fn key now s w w' v Hf E; eexists; split.
  - now apply sc_plex_cached_miss.
  - simpl. now rewrite !lookup_insert_eq.
  - now apply sc_pmx_cached_miss.
  - simpl. now rewrite !lookup_insert_eq.
Qed.

(** C4 at concrete inputs: the entry observed at time [0], a time to live
    of [30], and a compute function that returns the sentinel [0.0] at time
    [31]. *)
Lemma C4_witness :
  (∃ s',
     SensorsCustom.PlexBaseSensor._cached 31 "streams" (const_fn (VFloat 0))
       (sample_plex_warm, tt) = (Ok (VFloat 0), (s', tt))
     ∧ SensorsCustom.PlexBaseSensor._cache s' !! "streams" = Some (VFloat 0)
     ∧ SensorsCustom.PlexBaseSensor._last s' !! "streams" = Some 31%float)
  ∧
  (∃ s',
     SensorsCustom.ProxmoxBaseSensor._cached 31 "nodeupt_pve" (const_fn (VFloat 0))
       (sample_pmx_warm, tt) = (Ok (VFloat 0), (s', tt))
     ∧ SensorsCustom.ProxmoxBaseSensor._cache s' !! "nodeupt_pve" = Some (VFloat 0)
     ∧ SensorsCustom.ProxmoxBaseSensor._last s' !! "nodeupt_pve" = Some 31%float).
Proof.
  split.
  - apply (proj1 C4_accept_on_failure_overwrites unit (const_fn (VFloat 0))
             "streams" 31%float sample_plex_warm tt tt (VFloat 0)); reflexivity.
  - apply (proj2 C4_accept_on_failure_overwrites unit (const_fn (VFloat 0))
             "nodeupt_pve" 31%float sample_pmx_warm tt tt (VFloat 0)); reflexivity.
Defined.

Lemma counted_run {W} (fn : SE W value) w n r w' :
  fn w = (r, w') → counted fn (w, n) = (r, (w', S n)).
Proof. intros E. unfold counted. simpl. now rewrite E. Qed.

(** The claim C6 as the specification states it fails twice. On the
    [_cached] of sensors_custom_proxmox.py: with a time to live of [30], an
    entry observed at time [0] and a compute function that returns [None],
    the call at time [31] leaves [observed_at] at [0]. On the [_cached] of
    sensors_custom.py: with the same entry and a compute function that
    raises, the call at time [31] raises and leaves [observed_at] at [0]
    too. *)
Lemma C6_counterexample :
  (SensorsCustomProxmox.ProxmoxBaseSensor._last sample_pmx1_warm !! "nodeupt_pve"
     = Some 0%float
   ∧ int_le_float (SensorsCustomProxmox.ProxmoxBaseSensor.cache_ttl sample_pmx1_warm)
       (31 - 0) = true
   ∧ SensorsCustomProxmox.ProxmoxBaseSensor._cached 31 "nodeupt_pve"
       (counted (const_fn VNone)) (sample_pmx1_warm, (tt, 0%nat))
     = (Ok (VFloat 90061), (sample_pmx1_warm, (tt, 1%nat)))
   ∧ SensorsCustomProxmox.ProxmoxBaseSensor._last sample_pmx1_warm !! "nodeupt_pve"
     ≠ Some 31%float)
  ∧
  (SensorsCustom.PlexBaseSensor._last sample_plex_warm !! "streams" = Some 0%float
   ∧ int_le_float (SensorsCustom.PlexBaseSensor._ttl sample_plex_warm) (31 - 0) = true
   ∧ SensorsCustom.PlexBaseSensor._cached 31 "streams"
       (counted (raising_fn AttributeError)) (sample_plex_warm, (tt, 0%nat))
     = (Raise AttributeError, (sample_plex_warm, (tt, 1%nat)))
   ∧ SensorsCustom.PlexBaseSensor._last sample_plex_warm !! "streams"
     ≠ Some 31%float).
Proof.
  split; (repeat split; try reflexivity); intros E;
    apply (f_equal (λ o, match o with
                         | Some x => PrimFloat.eqb x 31
                         | None => false
                         end)) in E;
    vm_compute in E; discriminate.
Qed.

Ltac recomputes_tac eq :=
  intros fn key now s w n c t0 Ec El Ht; cbv zeta;
  rewrite eq, (fresh_entry_stale _ _ _ _ _ _ El Ht);
  unfold counted at 1 2 3; simpl;
  destruct (fn w) as [[v|e] w1]; simpl;
  (split; [reflexivity|]); split.

(** C6, amended. Once [ttl] or more has elapsed since the entry's
    [observed_at], the next call runs the compute function exactly once,
    whatever that function does, in the four [_cached]. A value that it
    returns is stored, with the time of the call as the new [observed_at],
    by the [_cached] of sensors_custom.py and of sensors_custom_plex.py; the
    [_cached] of sensors_custom_proxmox.py does the same for every value but
    [None], on which it returns the old value and leaves the entry, its
    [observed_at] included, as it was. When the compute function raises,
    the call raises, and the object, the entry and its [observed_at]
    included, is as it was, in the four of them. *)
Theorem C6_stale_entry_recomputed_once :
  (∀ W, recomputes_and_stores (W := W)
          (λ now key fn, SensorsCustom.PlexBaseSensor._cached now key fn)
          SensorsCustom.PlexBaseSensor._cache SensorsCustom.PlexBaseSensor._last
          SensorsCustom.PlexBaseSensor._ttl)
  ∧
  (∀ W, recomputes_and_stores (W := W)
          (λ now key fn, SensorsCustom.ProxmoxBaseSensor._cached now key fn)
          SensorsCustom.ProxmoxBaseSensor._cache SensorsCustom.ProxmoxBaseSensor._last
          SensorsCustom.ProxmoxBaseSensor.cache_ttl)
  ∧
  (∀ W, recomputes_and_stores (W := W)
          (λ now key fn, SensorsCustomPlex.PlexBaseSensor._cached now key fn)
          SensorsCustomPlex.PlexBaseSensor._cache SensorsCustomPlex.PlexBaseSensor._last
          SensorsCustomPlex.PlexBaseSensor._ttl)
  ∧
  (∀ W (fn : SE W value) key now s w n c t0,
     SensorsCustomProxmox.ProxmoxBaseSensor._cache s !! key = Some c →
     SensorsCustomProxmox.ProxmoxBaseSensor._last s !! key = Some t0 →
     int_le_float (SensorsCustomProxmox.ProxmoxBaseSensor.cache_ttl s) (now - t0) = true →
     let out := SensorsCustomProxmox.ProxmoxBaseSensor._cached now key (counted fn)
                  (s, (w, n)) in
     snd (snd (snd out)) = S n
     ∧ (∀ v w1, fn w = (Ok v, w1) →
          ∃ s',
            out = (Ok (match v with VNone => c | _ => v end), (s', (w1, S n)))
            ∧ match v with
              | VNone =>
                  s' = s
                  ∧ SensorsCustomProxmox.ProxmoxBaseSensor._cache s' !! key = Some c
                  ∧ SensorsCustomProxmox.ProxmoxBaseSensor._last s' !! key = Some t0
              | _ =>
                  SensorsCustomProxmox.ProxmoxBaseSensor._cache s' !! key = Some v
                  ∧ SensorsCustomProxmox.ProxmoxBaseSensor._last s' !! key = Some now
              end)
     ∧ (∀ e w1, fn w = (Raise e, w1) → out = (Raise e, (s, (w1, S n))))).
Proof.
  repeat match goal with |- _ ∧ _ => split end.
  - intros W. recomputes_tac @sc_plex_cached_eq.
    + intros ? ? [= <- <-]. eexists. split; [reflexivity|].
      simpl. now rewrite !lookup_insert_eq.
    + intros ? ? [=].
    + intros ? ? [=].
    + now intros ? ? [= <- <-].
  - intros W. recomputes_tac @sc_pmx_cached_eq.
    + intros ? ? [= <- <-]. eexists. split; [reflexivity|].
      simpl. now rewrite !lookup_insert_eq.
    + intros ? ? [=].
    + intros ? ? [=].
    + now intros ? ? [= <- <-].
  - intros W. recomputes_tac @scp_plex_cached_eq.
    + intros ? ? [= <- <-]. eexists. split; [reflexivity|].
      simpl. now rewrite !lookup_insert_eq.
    + intros ? ? [=].
    + intros ? ? [=].
    + now intros ? ? [= <- <-].
  - intros W fn key now s w n c t0 Ec El Ht. cbv zeta.
    rewrite scx_pmx_cached_eq, (fresh_entry_stale _ _ _ _ _ _ El Ht).
    unfold counted. simpl.
    destruct (fn w) as [[v|e] w1]; simpl.
    + destruct v; simpl;
        (split; [reflexivity|split; [|intros ? ? [=]]]);
        intros ? ? [= <- <-];
        try (eexists; split; [reflexivity|]; simpl; now rewrite !lookup_insert_eq).
      exists s. rewrite Ec. auto.
    + split; [reflexivity|split; [intros ? ? [=]|now intros ? ? [= <- <-]]].
Qed.

(** C6, amended, at concrete inputs: the entry observed at time [0], a time
    to live of [30], a call at time [31]; the compute function returns
    [20.0] to the first [_cached] and [None] to the last. *)
Lemma C6_witness :
  (∃ s',
     SensorsCustom.PlexBaseSensor._cached 31 "streams"
       (counted (const_fn (VFloat 20))) (sample_plex_warm, (tt, 0%nat))
       = (Ok (VFloat 20), (s', (tt, 1%nat)))
     ∧ SensorsCustom.PlexBaseSensor._cache s' !! "streams" = Some (VFloat 20)
     ∧ SensorsCustom.PlexBaseSensor._last s' !! "streams" = Some 31%float)
  ∧
  (∃ s',
     SensorsCustomProxmox.ProxmoxBaseSensor._cached 31 "nodeupt_pve"
       (counted (const_fn VNone)) (sample_pmx1_warm, (tt, 0%nat))
       = (Ok (VFloat 90061), (s', (tt, 1%nat)))
     ∧ s' = sample_pmx1_warm
     ∧ SensorsCustomProxmox.ProxmoxBaseSensor._cache s' !! "nodeupt_pve"
       = Some (VFloat 90061)
     ∧ SensorsCustomProxmox.ProxmoxBaseSensor._last s' !! "nodeupt_pve"
       = Some 0%float).
Proof.
  split.
  - refine (proj1 (proj2 (proj1 C6_stale_entry_recomputed_once unit
                            (const_fn (VFloat 20)) "streams" 31%float
                            sample_plex_warm tt 0%nat (VFloat 10) 0%float _ _ _))
              (VFloat 20) tt _); reflexivity.
  - refine (proj1 (proj2 (proj2 (proj2 (proj2 C6_stale_entry_recomputed_once)) unit
                            (const_fn VNone) "nodeupt_pve" 31%float
                            sample_pmx1_warm tt 0%nat (VFloat 90061) 0%float _ _ _))
              VNone tt _); reflexivity.
Defined.

(** ** No entry is half-updated *)

Ltac cached_atomic_tac eq :=
  intros ? ? ? ? ? ?; cbv zeta; rewrite eq;
  destruct (fresh_entry _ _ _ _ _);
  [ destruct (_ !! _); simpl; auto
  | match goal with |- context [?fn ?w] =>
      match type of (fn w) with (res value * _)%type =>
        destruct (fn w) as [[[]|] ?]; simpl; eauto
      end
    end ].

(** C9. Each of the four [_cached] either leaves both dictionaries as they
    were, or writes the value into [_cache] and the time of the call into
    [_last] under the same key: no call writes one without the other. *)
Theorem C9_value_and_timestamp_written_together :
  (∀ W (fn : SE W value) key now s w,
     let out := SensorsCustom.PlexBaseSensor._cached now key fn (s, w) in
     let s' := fst (snd out) in
     (SensorsCustom.PlexBaseSensor._cache s' = SensorsCustom.PlexBaseSensor._cache s
      ∧ SensorsCustom.PlexBaseSensor._last s' = SensorsCustom.PlexBaseSensor._last s)
     ∨ (∃ v, fst out = Ok v
        ∧ SensorsCustom.PlexBaseSensor._cache s'
          = <[key := v]> (SensorsCustom.PlexBaseSensor._cache s)
        ∧ SensorsCustom.PlexBaseSensor._last s'
          = <[key := now]> (SensorsCustom.PlexBaseSensor._last s)))
  ∧
  (∀ W (fn : SE W value) key now s w,
     let out := SensorsCustom.ProxmoxBaseSensor._cached now key fn (s, w) in
     let s' := fst (snd out) in
     (SensorsCustom.ProxmoxBaseSensor._cache s' = SensorsCustom.ProxmoxBaseSensor._cache s
      ∧ SensorsCustom.ProxmoxBaseSensor._last s' = SensorsCustom.ProxmoxBaseSensor._last s)
     ∨ (∃ v, fst out = Ok v
        ∧ SensorsCustom.ProxmoxBaseSensor._cache s'
          = <[key := v]> (SensorsCustom.ProxmoxBaseSensor._cache s)
        ∧ SensorsCustom.ProxmoxBaseSensor._last s'
          = <[key := now]> (SensorsCustom.ProxmoxBaseSensor._last s)))
  ∧
  (∀ W (fn : SE W value) key now s w,
     let out := SensorsCustomPlex.PlexBaseSensor._cached now key fn (s, w) in
     let s' := fst (snd out) in
     (SensorsCustomPlex.PlexBaseSensor._cache s' = SensorsCustomPlex.PlexBaseSensor._cache s
      ∧ SensorsCustomPlex.PlexBaseSensor._last s' = SensorsCustomPlex.PlexBaseSensor._last s)
     ∨ (∃ v, fst out = Ok v
        ∧ SensorsCustomPlex.PlexBaseSensor._cache s'
          = <[key := v]> (SensorsCustomPlex.PlexBaseSensor._cache s)
        ∧ SensorsCustomPlex.PlexBaseSensor._last s'
          = <[key := now]> (SensorsCustomPlex.PlexBaseSensor._last s)))
  ∧
  (∀ W (fn : SE W value) key now s w,
     let out := SensorsCustomProxmox.ProxmoxBaseSensor._cached now key fn (s, w) in
     let s' := fst (snd out) in
     (SensorsCustomProxmox.ProxmoxBaseSensor._cache s'
      = SensorsCustomProxmox.ProxmoxBaseSensor._cache s
      ∧ SensorsCustomProxmox.ProxmoxBaseSensor._last s'
        = SensorsCustomProxmox.ProxmoxBaseSensor._last s)
     ∨ (∃ v, fst out = Ok v ∧ v ≠ VNone
        ∧ SensorsCustomProxmox.ProxmoxBaseSensor._cache s'
          = <[key := v]> (SensorsCustomProxmox.ProxmoxBaseSensor._cache s)
        ∧ SensorsCustomProxmox.ProxmoxBaseSensor._last s'
          = <[key := now]> (SensorsCustomProxmox.ProxmoxBaseSensor._last s))).
Proof.
  split; [|split; [|split]].
  - cached_atomic_tac @sc_plex_cached_eq.
  - cached_atomic_tac @sc_pmx_cached_eq.
  - cached_atomic_tac @scp_plex_cached_eq.
  - cached_atomic_tac @scx_pmx_cached_eq; right; eexists; repeat split; discriminate.
Qed.

(** ** The history buffer *)

Lemma last_n_length {A} n (l : list A) :
  length (last_n n l) = Nat.min n (length l).
Proof. unfold last_n. rewrite length_drop. lia. Qed.

Lemma last_n_all {A} n (l : list A) :
  (length l ≤ n)%nat → last_n n l = l.
Proof.
  intros Hl. unfold last_n.
  assert (length l - n = 0)%nat as -> by lia. reflexivity.
Qed.

(** Keeping the last [n] before appending is keeping them after. *)
Lemma last_n_app {A} n (l k : list A) :
  last_n n (last_n n l ++ k) = last_n n (l ++ k).
Proof.
  destruct (le_lt_dec (length l) n) as [Hl|Hl].
  - now rewrite (last_n_all n l Hl).
  - unfold last_n at 1 3. rewrite length_app, last_n_length, length_app.
    unfold last_n.
    rewrite <- (drop_app_le l k (length l - n)) by lia.
    rewrite drop_drop. f_equal. lia.
Qed.

Lemma last_n_last_n {A} n m (l : list A) :
  (n ≤ m)%nat → last_n n (last_n m l) = last_n n l.
Proof.
  intros Hnm. unfold last_n at 1. rewrite last_n_length.
  unfold last_n. rewrite drop_drop. f_equal. lia.
Qed.

(** One push on a history within the bound keeps its last 200 samples. *)
Lemma pushed_last_n h v :
  (length h ≤ 200)%nat → pushed h v = last_n 200 (h ++ [v]).
Proof.
  intros Hl. unfold pushed, last_n. rewrite length_app. simpl.
  destruct (200 <? Z.of_nat (length h + 1)) eqn:E.
  - apply Z.ltb_lt in E. assert (length h + 1 - 200 = 1)%nat as -> by lia.
    reflexivity.
  - apply Z.ltb_ge in E. assert (length h + 1 - 200 = 0)%nat as -> by lia.
    reflexivity.
Qed.

Lemma pushed_length h v :
  (length h ≤ 200)%nat → (length (pushed h v) ≤ 200)%nat.
Proof. intros Hl. rewrite pushed_last_n, last_n_length by exact Hl. lia. Qed.

Lemma fold_pushed_last_n vs h :
  (length h ≤ 200)%nat →
  fold_left pushed vs h = last_n 200 (h ++ vs).
Proof.
  revert h. induction vs as [|v vs IH]; intros h Hl; simpl.
  - rewrite app_nil_r. symmetry. now apply last_n_all.
  - rewrite IH by now apply pushed_length.
    rewrite pushed_last_n by exact Hl.
    rewrite last_n_app, <- app_assoc. reflexivity.
Qed.

Lemma sc_plex_push_run {W} v s (w : W) :
  SensorsCustom.PlexBaseSensor._push v (s, w) =
  (Ok tt, (SensorsCustom.PlexBaseSensor.set_hist (λ h, pushed h v) s, w)).
Proof.
  unfold SensorsCustom.PlexBaseSensor._push, pushed, bind, update, modify,
    get_self, gets, ret, SensorsCustom.PlexBaseSensor.set_hist. simpl.
  now destruct (200 <? _).
Qed.

Lemma sc_pmx_push_run {W} v s (w : W) :
  SensorsCustom.ProxmoxBaseSensor._push v (s, w) =
  (Ok tt, (SensorsCustom.ProxmoxBaseSensor.set_hist (λ h, pushed h v) s, w)).
Proof.
  unfold SensorsCustom.ProxmoxBaseSensor._push, pushed, bind, update, modify,
    get_self, gets, ret, SensorsCustom.ProxmoxBaseSensor.set_hist. simpl.
  now destruct (200 <? _).
Qed.

Lemma sc_plex_pushes_run {W} vs s (w : W) :
  sc_plex_pushes vs (s, w) =
  (Ok tt, (SensorsCustom.PlexBaseSensor.set_hist (fold_left pushed vs) s, w)).
Proof.
  unfold sc_plex_pushes. revert s.
  induction vs as [|v vs IH]; intros s; simpl.
  - now destruct s.
  - unfold bind at 1. rewrite sc_plex_push_run, IH. reflexivity.
Qed.

Lemma sc_pmx_pushes_run {W} vs s (w : W) :
  sc_pmx_pushes vs (s, w) =
  (Ok tt, (SensorsCustom.ProxmoxBaseSensor.set_hist (fold_left pushed vs) s, w)).
Proof.
  unfold sc_pmx_pushes. revert s.
  induction vs as [|v vs IH]; intros s; simpl.
  - now destruct s.
  - unfold bind at 1. rewrite sc_pmx_push_run, IH. reflexivity.
Qed.

(** C5. Whatever values are pushed onto a sensor just built, in the two
    classes of sensors_custom.py the history holds the last 200 of them, in
    the order of the pushes, so it never has more than 200 elements;
    [last_values] is the last 40 of the values pushed, and after 250 pushes
    that is the 40 values from the 211th on. [last_values] is a function of
    the object: it changes nothing. *)
Theorem C5_history_bounded_fifo_recent_40 :
  (∀ W cfg_url cfg_token cache_ttl (vs : list value) (w : W),
     let s' := fst (snd (sc_plex_pushes vs
                 (SensorsCustom.PlexBaseSensor.__init__ cfg_url cfg_token cache_ttl, w))) in
     (length (SensorsCustom.PlexBaseSensor._hist s') ≤ 200)%nat
     ∧ SensorsCustom.PlexBaseSensor._hist s' = last_n 200 vs
     ∧ SensorsCustom.PlexBaseSensor.last_values s' = last_n 40 vs
     ∧ (length vs = 250%nat →
        SensorsCustom.PlexBaseSensor.last_values s' = drop 210 vs
        ∧ length (SensorsCustom.PlexBaseSensor.last_values s') = 40%nat))
  ∧
  (∀ W host username token_id token_secret node verify_ssl cache_ttl
     (vs : list value) (w : W),
     let s' := fst (snd (sc_pmx_pushes vs
                 (SensorsCustom.ProxmoxBaseSensor.__init__ host username token_id
                    token_secret node verify_ssl cache_ttl, w))) in
     (length (SensorsCustom.ProxmoxBaseSensor._hist s') ≤ 200)%nat
     ∧ SensorsCustom.ProxmoxBaseSensor._hist s' = last_n 200 vs
     ∧ SensorsCustom.ProxmoxBaseSensor.last_values s' = last_n 40 vs
     ∧ (length vs = 250%nat →
        SensorsCustom.ProxmoxBaseSensor.last_values s' = drop 210 vs
        ∧ length (SensorsCustom.ProxmoxBaseSensor.last_values s') = 40%nat)).
Proof.
  split.
  - intros W cfg_url cfg_token cache_ttl vs w. cbv zeta.
    rewrite sc_plex_pushes_run. unfold SensorsCustom.PlexBaseSensor.last_values.
    simpl. rewrite (fold_pushed_last_n vs []) by (simpl; lia). simpl.
    rewrite last_n_length, last_n_last_n by lia.
    split; [lia|]. split; [reflexivity|]. split; [reflexivity|].
    intros Hn. rewrite last_n_length. unfold last_n. rewrite Hn. split; reflexivity.
  - intros W host username token_id token_secret node verify_ssl cache_ttl vs w.
    cbv zeta.
    rewrite sc_pmx_pushes_run. unfold SensorsCustom.ProxmoxBaseSensor.last_values.
    simpl. rewrite (fold_pushed_last_n vs []) by (simpl; lia). simpl.
    rewrite last_n_length, last_n_last_n by lia.
    split; [lia|]. split; [reflexivity|]. split; [reflexivity|].
    intros Hn. rewrite last_n_length. unfold last_n. rewrite Hn. split; reflexivity.
Qed.

(** C5 at a concrete input: the values [0] to [249] pushed onto sensors
    just built leave [last_values] at [210], ..., [249]. *)
Lemma C5_witness :
  (SensorsCustom.PlexBaseSensor.last_values
     (fst (snd (sc_plex_pushes sample_values (sample_plex, tt))))
   = drop 210 sample_values
   ∧ length (SensorsCustom.PlexBaseSensor.last_values
               (fst (snd (sc_plex_pushes sample_values (sample_plex, tt)))))
     = 40%nat)
  ∧
  (SensorsCustom.ProxmoxBaseSensor.last_values
     (fst (snd (sc_pmx_pushes sample_values (sample_pmx, tt))))
   = drop 210 sample_values
   ∧ length (SensorsCustom.ProxmoxBaseSensor.last_values
               (fst (snd (sc_pmx_pushes sample_values (sample_pmx, tt)))))
     = 40%nat).
Proof.
  split.
  - apply (proj1 C5_history_bounded_fifo_recent_40 unit "http://plex:32400/"
             "token" 30 sample_values tt).
    reflexivity.
  - apply (proj2 C5_history_bounded_fifo_recent_40 unit "https://pve:8006/"
             (Some "root@pam") (Some "monitor") "secret" "pve" false 30
             sample_values tt).
    reflexivity.
Defined.

(** ** Every call pushes *)

Lemma pushed_below h v :
  (length h < 200)%nat → pushed h v = h ++ [v].
Proof.
  intros Hl. unfold pushed. rewrite length_app. simpl.
  destruct (200 <? _) eqn:E; [|reflexivity].
  apply Z.ltb_lt in E. lia.
Qed.

Lemma fold_pushed_repeat_below v k h :
  (length h + k ≤ 200)%nat →
  fold_left pushed (repeat v k) h = h ++ repeat v k.
Proof.
  revert h. induction k as [|k IH]; intros h Hl; simpl.
  - now rewrite app_nil_r.
  - rewrite pushed_below by lia. rewrite IH.
    + now rewrite <- app_assoc.
    + rewrite length_app. simpl. lia.
Qed.

(** From one call on a fresh entry to any number of them: the call leaves
    the entry and the world alone, so the next one finds them as they were. *)
Lemma polls_in_window {S} (numeric : float → SE (S * Requests.World) value)
    (hist : S → list value) (cache : S → gmap string value)
    (last : S → gmap string float) (ttl : S → Z) (key : S → string)
    (view : value → res value) (upd : value → S → S) :
  (∀ v s, hist (upd v s) = pushed (hist s) v ∧ cache (upd v s) = cache s
          ∧ last (upd v s) = last s ∧ ttl (upd v s) = ttl s
          ∧ key (upd v s) = key s) →
  (∀ now s w c t0 v,
     cache s !! key s = Some c → last s !! key s = Some t0 →
     float_lt_int (now - t0) (ttl s) = true → view c = Ok v →
     numeric now (s, w) = (Ok v, (upd v s, w))) →
  ∀ nows s w c t0 v,
    cache s !! key s = Some c → last s !! key s = Some t0 →
    Forall (λ now, float_lt_int (now - t0) (ttl s) = true) nows →
    view c = Ok v →
    ∃ s', polls numeric nows (s, w) = (Ok (repeat v (length nows)), (s', w))
          ∧ hist s' = fold_left pushed (repeat v (length nows)) (hist s)
          ∧ ((length (hist s) + length nows ≤ 200)%nat →
             hist s' = hist s ++ repeat v (length nows)).
Proof.
  intros Hupd Hhit nows.
  assert (∀ s w c t0 v,
    cache s !! key s = Some c → last s !! key s = Some t0 →
    Forall (λ now, float_lt_int (now - t0) (ttl s) = true) nows →
    view c = Ok v →
    ∃ s', polls numeric nows (s, w) = (Ok (repeat v (length nows)), (s', w))
          ∧ hist s' = fold_left pushed (repeat v (length nows)) (hist s)) as Hrun.
  { induction nows as [|now nows IH]; intros s w c t0 v Ec El Hall Hv.
    - exists s. split; reflexivity.
    - inversion Hall as [|? ? Hnow Hrest]; subst.
      destruct (Hupd v s) as (Hh & Hc & Hl & Ht & Hk).
      destruct (IH (upd v s) w c t0 v) as (s' & Erun & Ehist).
      + now rewrite Hc, Hk.
      + now rewrite Hl, Hk.
      + now rewrite Ht.
      + exact Hv.
      + exists s'. split.
        * simpl. unfold bind at 1. rewrite (Hhit now s w c t0 v Ec El Hnow Hv).
          unfold bind at 1. rewrite Erun. reflexivity.
        * simpl. now rewrite Ehist, Hh. }
  intros s w c t0 v Ec El Hall Hv.
  destruct (Hrun s w c t0 v Ec El Hall Hv) as (s' & Erun & Ehist).
  exists s'. repeat split; [exact Erun | exact Ehist |].
  intros Hlen. rewrite Ehist. now apply fold_pushed_repeat_below.
Qed.

(** [_cached] touches [_cache] and [_last] only. *)
Lemma sc_plex_cached_frame {W} now key (fn : SE W value) s w r s' w' :
  SensorsCustom.PlexBaseSensor._cached now key fn (s, w) = (r, (s', w')) →
  SensorsCustom.PlexBaseSensor._hist s' = SensorsCustom.PlexBaseSensor._hist s
  ∧ SensorsCustom.PlexBaseSensor._ttl s' = SensorsCustom.PlexBaseSensor._ttl s.
Proof.
  rewrite sc_plex_cached_eq.
  destruct (fresh_entry _ _ _ _ _).
  - destruct (_ !! _); intros [= <- <- <-]; auto.
  - destruct (fn w) as [[v|e] w1]; intros [= <- <- <-]; auto.
Qed.

Lemma sc_pmx_cached_frame {W} now key (fn : SE W value) s w r s' w' :
  SensorsCustom.ProxmoxBaseSensor._cached now key fn (s, w) = (r, (s', w')) →
  SensorsCustom.ProxmoxBaseSensor._hist s' = SensorsCustom.ProxmoxBaseSensor._hist s
  ∧ SensorsCustom.ProxmoxBaseSensor.cache_ttl s'
    = SensorsCustom.ProxmoxBaseSensor.cache_ttl s
  ∧ SensorsCustom.ProxmoxBaseSensor.node s' = SensorsCustom.ProxmoxBaseSensor.node s.
Proof.
  rewrite sc_pmx_cached_eq.
  destruct (fresh_entry _ _ _ _ _).
  - destruct (_ !! _); intros [= <- <- <-]; auto.
  - destruct (fn w) as [[v|e] w1]; intros [= <- <- <-]; auto.
Qed.

(** A call of the shape [sc_plex_poll] is [_cached], then a push of what
    it returned. *)
Lemma sc_plex_poll_eq key fn now s w :
  sc_plex_poll key fn now (s, w) =
  match SensorsCustom.PlexBaseSensor._cached now key (fn s) (s, w) with
  | (Ok v, (s1, w1)) =>
      (Ok v, (SensorsCustom.PlexBaseSensor.set_hist (λ h, pushed h v) s1, w1))
  | (Raise e, σ) => (Raise e, σ)
  end.
Proof.
  unfold sc_plex_poll, bind at 1, get_self, gets. simpl. unfold bind at 1.
  destruct (SensorsCustom.PlexBaseSensor._cached _ _ _ _) as [[v|e] [s1 w1]];
    [|reflexivity].
  unfold bind. now rewrite sc_plex_push_run.
Qed.

Lemma sc_pmx_poll_eq key calc now s w :
  sc_pmx_poll key calc now (s, w) =
  match SensorsCustom.ProxmoxBaseSensor._cached now (key s) (calc s) (s, w) with
  | (Ok v, (s1, w1)) =>
      (Ok v, (SensorsCustom.ProxmoxBaseSensor.set_hist (λ h, pushed h v) s1, w1))
  | (Raise e, σ) => (Raise e, σ)
  end.
Proof.
  unfold sc_pmx_poll, bind at 1, get_self, gets. simpl. unfold bind at 1.
  destruct (SensorsCustom.ProxmoxBaseSensor._cached _ _ _ _) as [[v|e] [s1 w1]];
    [|reflexivity].
  unfold bind. now rewrite sc_pmx_push_run.
Qed.

Lemma sc_vm_poll_eq key calc now s w :
  sc_vm_poll key calc now (s, w) =
  match SensorsCustom.ProxmoxBaseSensor._cached now (key s) (calc s)
          (SensorsCustom.ProxmoxVMSensor.base s, w) with
  | (Ok v, (b1, w1)) =>
      (Ok v, ({| SensorsCustom.ProxmoxVMSensor.base :=
                   SensorsCustom.ProxmoxBaseSensor.set_hist (λ h, pushed h v) b1;
                 SensorsCustom.ProxmoxVMSensor.vmid :=
                   SensorsCustom.ProxmoxVMSensor.vmid s |}, w1))
  | (Raise e, (b1, w1)) =>
      (Raise e, ({| SensorsCustom.ProxmoxVMSensor.base := b1;
                    SensorsCustom.ProxmoxVMSensor.vmid :=
                      SensorsCustom.ProxmoxVMSensor.vmid s |}, w1))
  end.
Proof.
  unfold sc_vm_poll, bind at 1, get_self, gets. simpl. unfold bind at 1.
  unfold SensorsCustom.ProxmoxVMSensor.super at 1. simpl.
  destruct (SensorsCustom.ProxmoxBaseSensor._cached _ _ _ _) as [[v|e] [b1 w1]];
    [|reflexivity].
  unfold bind, SensorsCustom.ProxmoxVMSensor.super. simpl.
  now rewrite sc_pmx_push_run.
Qed.

Lemma sc_plex_poll_pushes key fn :
  pushes_on_every_call (sc_plex_poll key fn)
    SensorsCustom.PlexBaseSensor._hist SensorsCustom.PlexBaseSensor._cache
    SensorsCustom.PlexBaseSensor._last SensorsCustom.PlexBaseSensor._ttl
    (λ _, key) Ok.
Proof.
  assert (∀ now s w c t0 v,
    SensorsCustom.PlexBaseSensor._cache s !! key = Some c →
    SensorsCustom.PlexBaseSensor._last s !! key = Some t0 →
    float_lt_int (now - t0) (SensorsCustom.PlexBaseSensor._ttl s) = true →
    Ok c = Ok v →
    sc_plex_poll key fn now (s, w)
    = (Ok v, (SensorsCustom.PlexBaseSensor.set_hist (λ h, pushed h v) s, w))) as Hhit.
  { intros now s w c t0 v Ec El Ht [= <-].
    now rewrite sc_plex_poll_eq, (sc_plex_cached_hit _ _ _ _ _ _ _ Ec El Ht). }
  split; [|split].
  - intros now s w v s' w'. rewrite sc_plex_poll_eq.
    destruct (SensorsCustom.PlexBaseSensor._cached _ _ _ _) as [[v1|e] [s1 w1]] eqn:E;
      [|discriminate].
    intros [= <- <- <-]. simpl.
    now destruct (sc_plex_cached_frame _ _ _ _ _ _ _ _ E) as [-> _].
  - intros now s w c t0 v Ec El Ht Hv. eexists. split.
    + exact (Hhit now s w c t0 v Ec El Ht Hv).
    + reflexivity.
  - apply (polls_in_window _ _ _ _ _ _ _
             (λ v, SensorsCustom.PlexBaseSensor.set_hist (λ h, pushed h v)));
      [now intros|exact Hhit].
Qed.

Lemma sc_pmx_poll_pushes prefix calc :
  pushes_on_every_call (sc_pmx_poll (node_key prefix) calc)
    SensorsCustom.ProxmoxBaseSensor._hist SensorsCustom.ProxmoxBaseSensor._cache
    SensorsCustom.ProxmoxBaseSensor._last SensorsCustom.ProxmoxBaseSensor.cache_ttl
    (node_key prefix) Ok.
Proof.
  assert (∀ now s w c t0 v,
    SensorsCustom.ProxmoxBaseSensor._cache s !! node_key prefix s = Some c →
    SensorsCustom.ProxmoxBaseSensor._last s !! node_key prefix s = Some t0 →
    float_lt_int (now - t0) (SensorsCustom.ProxmoxBaseSensor.cache_ttl s) = true →
    Ok c = Ok v →
    sc_pmx_poll (node_key prefix) calc now (s, w)
    = (Ok v, (SensorsCustom.ProxmoxBaseSensor.set_hist (λ h, pushed h v) s, w))) as Hhit.
  { intros now s w c t0 v Ec El Ht [= <-].
    now rewrite sc_pmx_poll_eq, (sc_pmx_cached_hit _ _ _ _ _ _ _ Ec El Ht). }
  split; [|split].
  - intros now s w v s' w'. rewrite sc_pmx_poll_eq.
    destruct (SensorsCustom.ProxmoxBaseSensor._cached _ _ _ _) as [[v1|e] [s1 w1]] eqn:E;
      [|discriminate].
    intros [= <- <- <-]. simpl.
    now destruct (sc_pmx_cached_frame _ _ _ _ _ _ _ _ E) as [-> _].
  - intros now s w c t0 v Ec El Ht Hv. eexists. split.
    + exact (Hhit now s w c t0 v Ec El Ht Hv).
    + reflexivity.
  - apply (polls_in_window _ _ _ _ _ _ _
             (λ v, SensorsCustom.ProxmoxBaseSensor.set_hist (λ h, pushed h v)));
      [now intros|exact Hhit].
Qed.

Lemma sc_vm_poll_pushes prefix calc :
  pushes_on_every_call (sc_vm_poll (vm_key prefix) calc)
    (λ s, SensorsCustom.ProxmoxBaseSensor._hist (SensorsCustom.ProxmoxVMSensor.base s))
    (λ s, SensorsCustom.ProxmoxBaseSensor._cache (SensorsCustom.ProxmoxVMSensor.base s))
    (λ s, SensorsCustom.ProxmoxBaseSensor._last (SensorsCustom.ProxmoxVMSensor.base s))
    (λ s, SensorsCustom.ProxmoxBaseSensor.cache_ttl (SensorsCustom.ProxmoxVMSensor.base s))
    (vm_key prefix) Ok.
Proof.
  pose (upd := λ v s,
    {| SensorsCustom.ProxmoxVMSensor.base :=
         SensorsCustom.ProxmoxBaseSensor.set_hist (λ h, pushed h v)
           (SensorsCustom.ProxmoxVMSensor.base s);
       SensorsCustom.ProxmoxVMSensor.vmid := SensorsCustom.ProxmoxVMSensor.vmid s |}).
  assert (∀ now s w c t0 v,
    SensorsCustom.ProxmoxBaseSensor._cache (SensorsCustom.ProxmoxVMSensor.base s)
      !! vm_key prefix s = Some c →
    SensorsCustom.ProxmoxBaseSensor._last (SensorsCustom.ProxmoxVMSensor.base s)
      !! vm_key prefix s = Some t0 →
    float_lt_int (now - t0)
      (SensorsCustom.ProxmoxBaseSensor.cache_ttl (SensorsCustom.ProxmoxVMSensor.base s))
      = true →
    Ok c = Ok v →
    sc_vm_poll (vm_key prefix) calc now (s, w) = (Ok v, (upd v s, w))) as Hhit.
  { intros now s w c t0 v Ec El Ht [= <-].
    now rewrite sc_vm_poll_eq, (sc_pmx_cached_hit _ _ _ _ _ _ _ Ec El Ht). }
  split; [|split].
  - intros now s w v s' w'. rewrite sc_vm_poll_eq.
    destruct (SensorsCustom.ProxmoxBaseSensor._cached _ _ _ _) as [[v1|e] [s1 w1]] eqn:E;
      [|discriminate].
    intros [= <- <- <-]. simpl.
    now destruct (sc_pmx_cached_frame _ _ _ _ _ _ _ _ E) as [-> _].
  - intros now s w c t0 v Ec El Ht Hv. eexists. split.
    + exact (Hhit now s w c t0 v Ec El Ht Hv).
    + reflexivity.
  - apply (polls_in_window _ _ _ _ _ _ _ upd); [now intros|exact Hhit].
Qed.

Section UptimePushes.
Import SensorsCustom.ProxmoxBaseSensor SensorsCustom.ProxmoxNodeUptimeSensor.
Context `{Runtime}.

(** The uptime's [as_numeric] converts what [_cached] returned to hours, and
    pushes the hours. *)
Lemma sc_uptime_numeric_eq now s w :
  as_numeric now (s, w) =
  match _cached now (node_key "nodeupt_" s) (_calc s) (s, w) with
  | (Ok sec, (s1, w1)) =>
      match truediv_float sec 3600 with
      | Ok hrs => (Ok hrs, (set_hist (λ h, pushed h hrs) s1, w1))
      | Raise e => (Raise e, (s1, w1))
      end
  | (Raise e, σ) => (Raise e, σ)
  end.
Proof.
  unfold as_numeric, bind at 1, get_self, gets. simpl. unfold bind at 1.
  fold (node_key "nodeupt_" s).
  destruct (_cached _ _ _ _) as [[sec|e] [s1 w1]]; [|reflexivity].
  unfold bind at 1, lift.
  destruct (truediv_float sec 3600) as [hrs|e]; [|reflexivity].
  unfold bind. now rewrite sc_pmx_push_run.
Qed.

Lemma sc_uptime_pushes :
  pushes_on_every_call as_numeric _hist _cache _last cache_ttl
    (node_key "nodeupt_") (λ sec, truediv_float sec 3600).
Proof.
  assert (∀ now s w c t0 v,
    _cache s !! node_key "nodeupt_" s = Some c →
    _last s !! node_key "nodeupt_" s = Some t0 →
    float_lt_int (now - t0) (cache_ttl s) = true →
    truediv_float c 3600 = Ok v →
    as_numeric now (s, w) = (Ok v, (set_hist (λ h, pushed h v) s, w))) as Hhit.
  { intros now s w c t0 v Ec El Ht Hv.
    now rewrite sc_uptime_numeric_eq, (sc_pmx_cached_hit _ _ _ _ _ _ _ Ec El Ht), Hv. }
  split; [|split].
  - intros now s w v s' w'. rewrite sc_uptime_numeric_eq.
    destruct (_cached _ _ _ _) as [[sec|e] [s1 w1]] eqn:E; [|discriminate].
    destruct (truediv_float sec 3600) as [hrs|e]; [|discriminate].
    intros [= <- <- <-]. simpl.
    now destruct (sc_pmx_cached_frame _ _ _ _ _ _ _ _ E) as [-> _].
  - intros now s w c t0 v Ec El Ht Hv. eexists. split.
    + exact (Hhit now s w c t0 v Ec El Ht Hv).
    + reflexivity.
  - apply (polls_in_window _ _ _ _ _ _ _ (λ v, set_hist (λ h, pushed h v)));
      [now intros|exact Hhit].
Qed.

End UptimePushes.

(** A call that raises has not reached [_push]. *)
Lemma sc_plex_poll_raise_hist key fn :
  raise_pushes_nothing (sc_plex_poll key fn) SensorsCustom.PlexBaseSensor._hist.
Proof.
  intros now s w e s' w'. rewrite sc_plex_poll_eq.
  destruct (SensorsCustom.PlexBaseSensor._cached _ _ _ _) as [[v|e1] [s1 w1]] eqn:E;
    [discriminate|].
  intros [= <- <- <-]. exact (proj1 (sc_plex_cached_frame _ _ _ _ _ _ _ _ E)).
Qed.

Lemma sc_pmx_poll_raise_hist key calc :
  raise_pushes_nothing (sc_pmx_poll key calc) SensorsCustom.ProxmoxBaseSensor._hist.
Proof.
  intros now s w e s' w'. rewrite sc_pmx_poll_eq.
  destruct (SensorsCustom.ProxmoxBaseSensor._cached _ _ _ _) as [[v|e1] [s1 w1]] eqn:E;
    [discriminate|].
  intros [= <- <- <-]. exact (proj1 (sc_pmx_cached_frame _ _ _ _ _ _ _ _ E)).
Qed.

Lemma sc_vm_poll_raise_hist key calc :
  raise_pushes_nothing (sc_vm_poll key calc)
    (λ s, SensorsCustom.ProxmoxBaseSensor._hist (SensorsCustom.ProxmoxVMSensor.base s)).
Proof.
  intros now s w e s' w'. rewrite sc_vm_poll_eq.
  destruct (SensorsCustom.ProxmoxBaseSensor._cached _ _ _ _) as [[v|e1] [b1 w1]] eqn:E;
    [discriminate|].
  intros [= <- <- <-]. exact (proj1 (sc_pmx_cached_frame _ _ _ _ _ _ _ _ E)).
Qed.

Lemma sc_uptime_raise_hist `{Runtime} :
  raise_pushes_nothing SensorsCustom.ProxmoxNodeUptimeSensor.as_numeric
    SensorsCustom.ProxmoxBaseSensor._hist.
Proof.
  intros now s w e s' w'. rewrite sc_uptime_numeric_eq.
  destruct (SensorsCustom.ProxmoxBaseSensor._cached _ _ _ _) as [[v|e1] [s1 w1]] eqn:E.
  - destruct (truediv_float v 3600); [discriminate|].
    intros [= <- <- <-]. exact (proj1 (sc_pmx_cached_frame _ _ _ _ _ _ _ _ E)).
  - intros [= <- <- <-]. exact (proj1 (sc_pmx_cached_frame _ _ _ _ _ _ _ _ E)).
Qed.

(** The claim C10 as the specification states it fails on a call that
    raises: the CPU sensor of sensors_custom.py, just built, read from a
    peer whose data is a list, raises [AttributeError] out of its compute
    function, and the history is as empty as it was. *)
Lemma C10_counterexample :
  fst (SensorsCustom.ProxmoxNodeCPUUsageSensor.as_numeric (H := sample_runtime) 5
         (sample_pmx, listing_world))
  = Raise AttributeError
  ∧ SensorsCustom.ProxmoxBaseSensor._hist sample_pmx = []
  ∧ SensorsCustom.ProxmoxBaseSensor._hist
      (fst (snd (SensorsCustom.ProxmoxNodeCPUUsageSensor.as_numeric
                   (H := sample_runtime) 5 (sample_pmx, listing_world))))
    = [].
Proof. vm_compute. repeat split. Qed.

(** C10, amended. In sensors_custom.py every [as_numeric], of the fifteen
    sensors, pushes the value that it returns, once per call that returns:
    a call served from the cache sends no request, leaves the entry alone
    and pushes the cached value (the uptime's pushes the hours that it
    returns), so [k] calls within one time to live push [k] copies of it;
    while the history has room they are appended, beyond 200 the oldest
    samples leave (see [pushed]). A call that raises pushes nothing. *)
Theorem C10_every_call_pushes_one_sample `{Runtime} :
  plex_charted SensorsCustom.PlexStreamsSensor.as_numeric "streams"
  ∧ plex_charted SensorsCustom.PlexMovieCountSensor.as_numeric "plex_movies"
  ∧ plex_charted SensorsCustom.PlexTVShowCountSensor.as_numeric "plex_shows"
  ∧ plex_charted SensorsCustom.PlexEpisodesCountSensor.as_numeric "plex_eps"
  ∧ plex_charted SensorsCustom.PlexAlbumCountSensor.as_numeric "plex_alb"
  ∧ plex_charted SensorsCustom.PlexSongsCountSensor.as_numeric "plex_sng"
  ∧ node_charted SensorsCustom.ProxmoxNodeCPUUsageSensor.as_numeric "nodecpu_" Ok
  ∧ node_charted SensorsCustom.ProxmoxNodeMemoryUsageSensor.as_numeric "nodemem_" Ok
  ∧ node_charted SensorsCustom.ProxmoxNodeDiskUsageSensor.as_numeric "nodedsk_" Ok
  ∧ node_charted SensorsCustom.ProxmoxNodeUptimeSensor.as_numeric "nodeupt_"
      (λ sec, truediv_float sec 3600)
  ∧ node_charted SensorsCustom.ProxmoxNodeNetworkSensor.as_numeric "nodenet_" Ok
  ∧ node_charted SensorsCustom.ProxmoxVMCountSensor.as_numeric "vmcnt_" Ok
  ∧ node_charted SensorsCustom.ProxmoxLXCCountSensor.as_numeric "lxccnt_" Ok
  ∧ vm_charted SensorsCustom.ProxmoxVMCPUUsageSensor.as_numeric "vmcpu_"
  ∧ vm_charted SensorsCustom.ProxmoxVMMemoryUsageSensor.as_numeric "vmmem_"
  ∧ raise_pushes_nothing SensorsCustom.PlexStreamsSensor.as_numeric SensorsCustom.PlexBaseSensor._hist
  ∧ raise_pushes_nothing SensorsCustom.PlexMovieCountSensor.as_numeric SensorsCustom.PlexBaseSensor._hist
  ∧ raise_pushes_nothing SensorsCustom.PlexTVShowCountSensor.as_numeric SensorsCustom.PlexBaseSensor._hist
  ∧ raise_pushes_nothing SensorsCustom.PlexEpisodesCountSensor.as_numeric SensorsCustom.PlexBaseSensor._hist
  ∧ raise_pushes_nothing SensorsCustom.PlexAlbumCountSensor.as_numeric SensorsCustom.PlexBaseSensor._hist
  ∧ raise_pushes_nothing SensorsCustom.PlexSongsCountSensor.as_numeric SensorsCustom.PlexBaseSensor._hist
  ∧ raise_pushes_nothing SensorsCustom.ProxmoxNodeCPUUsageSensor.as_numeric
      SensorsCustom.ProxmoxBaseSensor._hist
  ∧ raise_pushes_nothing SensorsCustom.ProxmoxNodeMemoryUsageSensor.as_numeric
      SensorsCustom.ProxmoxBaseSensor._hist
  ∧ raise_pushes_nothing SensorsCustom.ProxmoxNodeDiskUsageSensor.as_numeric
      SensorsCustom.ProxmoxBaseSensor._hist
  ∧ raise_pushes_nothing SensorsCustom.ProxmoxNodeUptimeSensor.as_numeric
      SensorsCustom.ProxmoxBaseSensor._hist
  ∧ raise_pushes_nothing SensorsCustom.ProxmoxNodeNetworkSensor.as_numeric
      SensorsCustom.ProxmoxBaseSensor._hist
  ∧ raise_pushes_nothing SensorsCustom.ProxmoxVMCountSensor.as_numeric
      SensorsCustom.ProxmoxBaseSensor._hist
  ∧ raise_pushes_nothing SensorsCustom.ProxmoxLXCCountSensor.as_numeric
      SensorsCustom.ProxmoxBaseSensor._hist
  ∧ raise_pushes_nothing SensorsCustom.ProxmoxVMCPUUsageSensor.as_numeric
      (λ s, SensorsCustom.ProxmoxBaseSensor._hist (SensorsCustom.ProxmoxVMSensor.base s))
  ∧ raise_pushes_nothing SensorsCustom.ProxmoxVMMemoryUsageSensor.as_numeric
      (λ s, SensorsCustom.ProxmoxBaseSensor._hist (SensorsCustom.ProxmoxVMSensor.base s)).
Proof.
  repeat match goal with |- _ ∧ _ => split end.
  - exact (sc_plex_poll_pushes "streams" SensorsCustom.PlexStreamsSensor.fn).
  - exact (sc_plex_poll_pushes "plex_movies" SensorsCustom.PlexMovieCountSensor.fn).
  - exact (sc_plex_poll_pushes "plex_shows" SensorsCustom.PlexTVShowCountSensor.fn).
  - exact (sc_plex_poll_pushes "plex_eps" SensorsCustom.PlexEpisodesCountSensor.fn).
  - exact (sc_plex_poll_pushes "plex_alb" SensorsCustom.PlexAlbumCountSensor.fn).
  - exact (sc_plex_poll_pushes "plex_sng" SensorsCustom.PlexSongsCountSensor.fn).
  - exact (sc_pmx_poll_pushes "nodecpu_" SensorsCustom.ProxmoxNodeCPUUsageSensor._calc).
  - exact (sc_pmx_poll_pushes "nodemem_" SensorsCustom.ProxmoxNodeMemoryUsageSensor._calc).
  - exact (sc_pmx_poll_pushes "nodedsk_" SensorsCustom.ProxmoxNodeDiskUsageSensor._calc).
  - exact sc_uptime_pushes.
  - exact (sc_pmx_poll_pushes "nodenet_" SensorsCustom.ProxmoxNodeNetworkSensor._calc).
  - exact (sc_pmx_poll_pushes "vmcnt_" SensorsCustom.ProxmoxVMCountSensor._calc).
  - exact (sc_pmx_poll_pushes "lxccnt_" SensorsCustom.ProxmoxLXCCountSensor._calc).
  - exact (sc_vm_poll_pushes "vmcpu_" SensorsCustom.ProxmoxVMCPUUsageSensor._calc).
  - exact (sc_vm_poll_pushes "vmmem_" SensorsCustom.ProxmoxVMMemoryUsageSensor._calc).
  - exact (sc_plex_poll_raise_hist "streams" SensorsCustom.PlexStreamsSensor.fn).
  - exact (sc_plex_poll_raise_hist "plex_movies" SensorsCustom.PlexMovieCountSensor.fn).
  - exact (sc_plex_poll_raise_hist "plex_shows" SensorsCustom.PlexTVShowCountSensor.fn).
  - exact (sc_plex_poll_raise_hist "plex_eps" SensorsCustom.PlexEpisodesCountSensor.fn).
  - exact (sc_plex_poll_raise_hist "plex_alb" SensorsCustom.PlexAlbumCountSensor.fn).
  - exact (sc_plex_poll_raise_hist "plex_sng" SensorsCustom.PlexSongsCountSensor.fn).
  - exact (sc_pmx_poll_raise_hist (node_key "nodecpu_") SensorsCustom.ProxmoxNodeCPUUsageSensor._calc).
  - exact (sc_pmx_poll_raise_hist (node_key "nodemem_") SensorsCustom.ProxmoxNodeMemoryUsageSensor._calc).
  - exact (sc_pmx_poll_raise_hist (node_key "nodedsk_") SensorsCustom.ProxmoxNodeDiskUsageSensor._calc).
  - exact sc_uptime_raise_hist.
  - exact (sc_pmx_poll_raise_hist (node_key "nodenet_") SensorsCustom.ProxmoxNodeNetworkSensor._calc).
  - exact (sc_pmx_poll_raise_hist (node_key "vmcnt_") SensorsCustom.ProxmoxVMCountSensor._calc).
  - exact (sc_pmx_poll_raise_hist (node_key "lxccnt_") SensorsCustom.ProxmoxLXCCountSensor._calc).
  - exact (sc_vm_poll_raise_hist (vm_key "vmcpu_") SensorsCustom.ProxmoxVMCPUUsageSensor._calc).
  - exact (sc_vm_poll_raise_hist (vm_key "vmmem_") SensorsCustom.ProxmoxVMMemoryUsageSensor._calc).
Qed.

(** C10 at a concrete input: three calls of the streams sensor at the times
    [1], [2] and [3], on the entry [10.0] observed at time [0] with a time
    to live of [30], push [10.0] three times and send nothing. *)
Lemma C10_witness :
  ∃ s',
    polls (SensorsCustom.PlexStreamsSensor.as_numeric (H := sample_runtime))
      [1; 2; 3]%float (sample_plex_warm, sample_world)
    = (Ok (repeat (VFloat 10) 3), (s', sample_world))
    ∧ SensorsCustom.PlexBaseSensor._hist s'
      = fold_left pushed (repeat (VFloat 10) 3)
          (SensorsCustom.PlexBaseSensor._hist sample_plex_warm)
    ∧ ((length (SensorsCustom.PlexBaseSensor._hist sample_plex_warm) + 3 ≤ 200)%nat →
       SensorsCustom.PlexBaseSensor._hist s'
       = SensorsCustom.PlexBaseSensor._hist sample_plex_warm ++ repeat (VFloat 10) 3).
Proof.
  apply (proj2 (proj2 (proj1 (C10_every_call_pushes_one_sample (H := sample_runtime))))
           [1; 2; 3]%float sample_plex_warm sample_world (VFloat 10) 0%float (VFloat 10));
    try reflexivity.
  repeat constructor.
Defined.

(** ** The numeric and the textual reading agree *)

(** After a call of [_cached] that returned [v], the entry is [v]. *)
Ltac cached_returns_tac eq :=
  rewrite eq; destruct (fresh_entry _ _ _ _ _);
  [ destruct (_ !! _) eqn:Ec; intros [= <- <- <-]; auto
  | match goal with |- context [?fn ?w] =>
      match type of (fn w) with (res value * _)%type =>
        destruct (fn w) as [[[]|] ?] eqn:Efn; intros [= <- <- <-];
        simpl; rewrite ?lookup_insert_eq; eauto
      end
    end ].

Lemma sc_plex_cached_returns {W} now key (fn : SE W value) s w v s' w' :
  SensorsCustom.PlexBaseSensor._cached now key fn (s, w) = (Ok v, (s', w')) →
  SensorsCustom.PlexBaseSensor._cache s' !! key = Some v.
Proof. cached_returns_tac @sc_plex_cached_eq. Qed.

Lemma sc_pmx_cached_returns {W} now key (fn : SE W value) s w v s' w' :
  SensorsCustom.ProxmoxBaseSensor._cached now key fn (s, w) = (Ok v, (s', w')) →
  SensorsCustom.ProxmoxBaseSensor._cache s' !! key = Some v
  ∧ SensorsCustom.ProxmoxBaseSensor.node s' = SensorsCustom.ProxmoxBaseSensor.node s.
Proof. cached_returns_tac @sc_pmx_cached_eq. Qed.

Lemma scp_plex_cached_returns {W} now key (fn : SE W value) s w v s' w' :
  SensorsCustomPlex.PlexBaseSensor._cached now key fn (s, w) = (Ok v, (s', w')) →
  SensorsCustomPlex.PlexBaseSensor._cache s' !! key = Some v.
Proof. cached_returns_tac @scp_plex_cached_eq. Qed.

(** With the [_cached] of sensors_custom_proxmox.py that holds unless the
    compute function returned [None]. *)
Lemma scx_pmx_cached_returns {W} now key (fn : SE W value) s w v s' w' :
  SensorsCustomProxmox.ProxmoxBaseSensor._cached now key fn (s, w) = (Ok v, (s', w')) →
  (SensorsCustomProxmox.ProxmoxBaseSensor._cache s' !! key = Some v
   ∨ ∃ w0, fn w = (Ok VNone, w0))
  ∧ SensorsCustomProxmox.ProxmoxBaseSensor.node s'
    = SensorsCustomProxmox.ProxmoxBaseSensor.node s.
Proof. cached_returns_tac @scx_pmx_cached_eq. Qed.

(** The compute functions of sensors_custom_proxmox.py return a float
    whenever they return: a failed fetch becomes [0.0] (or raises), never
    [None]. *)
Ltac returns_float H :=
  repeat (apply bind_inv_ok in H as (? & ? & _ & H); cbv beta zeta in H);
  unfold lift, ret, rtry, rbind in H;
  repeat match type of H with
         | context [match ?x with _ => _ end] =>
             lazymatch x with
             | context [match _ with _ => _ end] => fail
             | _ => destruct x; cbv beta iota in H; try discriminate
             end
         end;
  injection H as <- _; eauto.

Section StandaloneCalcs.
Context `{Runtime}.

Lemma scx_cpu_calc_float s w v w' :
  SensorsCustomProxmox.ProxmoxNodeCPUUsageSensor._calc s w = (Ok v, w') →
  ∃ f, v = VFloat f.
Proof.
  intros E. unfold SensorsCustomProxmox.ProxmoxNodeCPUUsageSensor._calc in E.
  returns_float E.
Qed.

Lemma scx_mem_calc_float s w v w' :
  SensorsCustomProxmox.ProxmoxNodeMemoryUsageSensor._calc s w = (Ok v, w') →
  ∃ f, v = VFloat f.
Proof.
  intros E. unfold SensorsCustomProxmox.ProxmoxNodeMemoryUsageSensor._calc in E.
  returns_float E.
Qed.

Lemma scx_dsk_calc_float s w v w' :
  SensorsCustomProxmox.ProxmoxNodeDiskUsageSensor._calc s w = (Ok v, w') →
  ∃ f, v = VFloat f.
Proof.
  intros E. unfold SensorsCustomProxmox.ProxmoxNodeDiskUsageSensor._calc in E.
  returns_float E.
Qed.

Lemma scx_upt_calc_float s w v w' :
  SensorsCustomProxmox.ProxmoxNodeUptimeSensor._calc s w = (Ok v, w') →
  ∃ f, v = VFloat f.
Proof.
  intros E. unfold SensorsCustomProxmox.ProxmoxNodeUptimeSensor._calc in E.
  returns_float E.
Qed.

Lemma scx_net_calc_float s w v w' :
  SensorsCustomProxmox.ProxmoxNodeNetworkSensor._calc s w = (Ok v, w') →
  ∃ f, v = VFloat f.
Proof.
  intros E. unfold SensorsCustomProxmox.ProxmoxNodeNetworkSensor._calc in E.
  returns_float E.
Qed.

Lemma scx_vmcnt_calc_float s w v w' :
  SensorsCustomProxmox.ProxmoxVMCountSensor._calc s w = (Ok v, w') →
  ∃ f, v = VFloat f.
Proof.
  intros E. unfold SensorsCustomProxmox.ProxmoxVMCountSensor._calc in E.
  returns_float E.
Qed.

Lemma scx_lxccnt_calc_float s w v w' :
  SensorsCustomProxmox.ProxmoxLXCCountSensor._calc s w = (Ok v, w') →
  ∃ f, v = VFloat f.
Proof.
  intros E. unfold SensorsCustomProxmox.ProxmoxLXCCountSensor._calc in E.
  returns_float E.
Qed.

Lemma scx_vmcpu_calc_float s w v w' :
  SensorsCustomProxmox.ProxmoxVMCPUUsageSensor._calc s w = (Ok v, w') →
  ∃ f, v = VFloat f.
Proof.
  intros E. unfold SensorsCustomProxmox.ProxmoxVMCPUUsageSensor._calc in E.
  returns_float E.
Qed.

Lemma scx_vmmem_calc_float s w v w' :
  SensorsCustomProxmox.ProxmoxVMMemoryUsageSensor._calc s w = (Ok v, w') →
  ∃ f, v = VFloat f.
Proof.
  intros E. unfold SensorsCustomProxmox.ProxmoxVMMemoryUsageSensor._calc in E.
  returns_float E.
Qed.

End StandaloneCalcs.

Lemma sc_plex_poll_paired key fn text sview :
  (∀ s, text s = sview (default (VInt 0) (SensorsCustom.PlexBaseSensor._cache s !! key))) →
  reads_same_entry (sc_plex_poll key fn) text
    SensorsCustom.PlexBaseSensor._cache (λ _, key) Ok sview.
Proof.
  intros Ht. split; [exact Ht|].
  intros now s w v s' w'. rewrite sc_plex_poll_eq.
  destruct (SensorsCustom.PlexBaseSensor._cached _ _ _ _) as [[v1|e] [s1 w1]] eqn:E;
    [|discriminate].
  intros [= <- <- <-]. exists v1.
  apply sc_plex_cached_returns in E. rewrite Ht. simpl. now rewrite E.
Qed.

Lemma sc_pmx_poll_paired prefix calc text sview :
  (∀ s, text s = sview (default (VInt 0)
                  (SensorsCustom.ProxmoxBaseSensor._cache s !! node_key prefix s))) →
  reads_same_entry (sc_pmx_poll (node_key prefix) calc) text
    SensorsCustom.ProxmoxBaseSensor._cache (node_key prefix) Ok sview.
Proof.
  intros Ht. split; [exact Ht|].
  intros now s w v s' w'. rewrite sc_pmx_poll_eq.
  destruct (SensorsCustom.ProxmoxBaseSensor._cached _ _ _ _) as [[v1|e] [s1 w1]] eqn:E;
    [|discriminate].
  intros [= <- <- <-]. exists v1.
  apply sc_pmx_cached_returns in E as [E En]. rewrite Ht.
  unfold node_key in *. simpl. now rewrite En, E.
Qed.

Lemma sc_vm_poll_paired prefix calc text sview :
  (∀ s, text s = sview (default (VInt 0)
           (SensorsCustom.ProxmoxBaseSensor._cache (SensorsCustom.ProxmoxVMSensor.base s)
              !! vm_key prefix s))) →
  reads_same_entry (sc_vm_poll (vm_key prefix) calc) text
    (λ s, SensorsCustom.ProxmoxBaseSensor._cache (SensorsCustom.ProxmoxVMSensor.base s))
    (vm_key prefix) Ok sview.
Proof.
  intros Ht. split; [exact Ht|].
  intros now s w v s' w'. rewrite sc_vm_poll_eq.
  destruct (SensorsCustom.ProxmoxBaseSensor._cached _ _ _ _) as [[v1|e] [s1 w1]] eqn:E;
    [|discriminate].
  intros [= <- <- <-]. exists v1.
  apply sc_pmx_cached_returns in E as [E En]. rewrite Ht.
  unfold vm_key in *. simpl. now rewrite En, E.
Qed.

Lemma sc_uptime_paired `{Runtime} :
  reads_same_entry SensorsCustom.ProxmoxNodeUptimeSensor.as_numeric
    SensorsCustom.ProxmoxNodeUptimeSensor.as_string
    SensorsCustom.ProxmoxBaseSensor._cache (node_key "nodeupt_")
    (λ sec, truediv_float sec 3600) uptime_text.
Proof.
  split; [reflexivity|].
  intros now s w v s' w'. rewrite sc_uptime_numeric_eq.
  destruct (SensorsCustom.ProxmoxBaseSensor._cached _ _ _ _) as [[sec|e] [s1 w1]] eqn:E;
    [|discriminate].
  destruct (truediv_float sec 3600) as [hrs|e] eqn:Eh; [|discriminate].
  intros [= <- <- <-]. exists sec.
  apply sc_pmx_cached_returns in E as [E En].
  unfold SensorsCustom.ProxmoxNodeUptimeSensor.as_string, uptime_text, node_key in *.
  simpl. now rewrite En, E.
Qed.

Lemma scp_plex_poll_paired key fn text sview :
  (∀ s, text s = sview (default (VInt 0)
                  (SensorsCustomPlex.PlexBaseSensor._cache s !! key))) →
  reads_same_entry (scp_plex_poll key fn) text
    SensorsCustomPlex.PlexBaseSensor._cache (λ _, key) Ok sview.
Proof.
  intros Ht. split; [exact Ht|].
  intros now s w v s' w' E. exists v.
  unfold scp_plex_poll, bind, get_self, gets in E. simpl in E.
  apply scp_plex_cached_returns in E. rewrite Ht. now rewrite E.
Qed.

Lemma scx_pmx_poll_paired prefix calc text sview :
  (∀ s w v w', calc s w = (Ok v, w') → ∃ f, v = VFloat f) →
  (∀ s, text s = sview (default (VInt 0)
           (SensorsCustomProxmox.ProxmoxBaseSensor._cache s !! node_key1 prefix s))) →
  reads_same_entry (scx_pmx_poll (node_key1 prefix) calc) text
    SensorsCustomProxmox.ProxmoxBaseSensor._cache (node_key1 prefix) Ok sview.
Proof.
  intros Hcalc Ht. split; [exact Ht|].
  intros now s w v s' w' E. exists v.
  unfold scx_pmx_poll, bind, get_self, gets in E. simpl in E.
  apply scx_pmx_cached_returns in E as [[E|[w0 E]] En].
  - rewrite Ht. unfold node_key1 in *. now rewrite En, E.
  - apply Hcalc in E as [f [=]].
Qed.

Lemma scx_vm_poll_paired prefix calc text sview :
  (∀ s w v w', calc s w = (Ok v, w') → ∃ f, v = VFloat f) →
  (∀ s, text s = sview (default (VInt 0)
           (SensorsCustomProxmox.ProxmoxBaseSensor._cache
              (SensorsCustomProxmox.ProxmoxVMSensor.base s) !! vm_key1 prefix s))) →
  reads_same_entry (scx_vm_poll (vm_key1 prefix) calc) text
    (λ s, SensorsCustomProxmox.ProxmoxBaseSensor._cache
            (SensorsCustomProxmox.ProxmoxVMSensor.base s))
    (vm_key1 prefix) Ok sview.
Proof.
  intros Hcalc Ht. split; [exact Ht|].
  intros now s w v s' w' E. exists v.
  unfold scx_vm_poll, bind, get_self, gets in E. simpl in E.
  unfold SensorsCustomProxmox.ProxmoxVMSensor.super in E. simpl in E.
  destruct (SensorsCustomProxmox.ProxmoxBaseSensor._cached _ _ _ _)
    as [r [b1 w1]] eqn:Ec.
  injection E as -> <- <-.
  apply scx_pmx_cached_returns in Ec as [[E|[w0 E]] En].
  - rewrite Ht. unfold vm_key1 in *. simpl. now rewrite En, E.
  - apply Hcalc in E as [f [=]].
Qed.

Lemma scx_uptime_paired `{Runtime} :
  reads_same_entry SensorsCustomProxmox.ProxmoxNodeUptimeSensor.as_numeric
    SensorsCustomProxmox.ProxmoxNodeUptimeSensor.as_string
    SensorsCustomProxmox.ProxmoxBaseSensor._cache (node_key1 "nodeupt_")
    (λ sec, truediv_float sec 3600) uptime_text.
Proof.
  split; [reflexivity|].
  intros now s w v s' w' E.
  unfold SensorsCustomProxmox.ProxmoxNodeUptimeSensor.as_numeric,
    bind at 1, get_self, gets in E. simpl in E.
  apply bind_inv_ok in E as (sec & [s1 w1] & Ec & E).
  unfold lift in E. injection E as E <- <-. exists sec.
  apply scx_pmx_cached_returns in Ec as [[Ec|[w0 Ec]] En].
  - unfold SensorsCustomProxmox.ProxmoxNodeUptimeSensor.as_string, uptime_text,
      node_key1 in *.
    simpl. now rewrite En, Ec.
  - apply scx_upt_calc_float in Ec as [f [=]].
Qed.

(** C7. For each of the thirty sensor classes of the three files,
    [as_string] is a function of the object alone (it takes no world, so it
    fetches nothing) that formats the cache entry under the sensor's key;
    and when [as_numeric] has returned a value, that entry is the value
    returned (for the uptime, the seconds of which the hours were returned).
    So [as_string], called next, formats the value that [as_numeric] just
    read or wrote. *)
Theorem C7_string_formats_the_value_numeric_returned `{Runtime} :
  plex_paired SensorsCustom.PlexStreamsSensor.as_numeric
      SensorsCustom.PlexStreamsSensor.as_string
      "streams" (count_text " streams")
  ∧ plex_paired SensorsCustom.PlexMovieCountSensor.as_numeric
      SensorsCustom.PlexMovieCountSensor.as_string
      "plex_movies" (count_text " movies")
  ∧ plex_paired SensorsCustom.PlexTVShowCountSensor.as_numeric
      SensorsCustom.PlexTVShowCountSensor.as_string
      "plex_shows" (count_text " shows")
  ∧ plex_paired SensorsCustom.PlexEpisodesCountSensor.as_numeric
      SensorsCustom.PlexEpisodesCountSensor.as_string
      "plex_eps" (count_text " episodes")
  ∧ plex_paired SensorsCustom.PlexAlbumCountSensor.as_numeric
      SensorsCustom.PlexAlbumCountSensor.as_string
      "plex_alb" (count_text " albums")
  ∧ plex_paired SensorsCustom.PlexSongsCountSensor.as_numeric
      SensorsCustom.PlexSongsCountSensor.as_string
      "plex_sng" (count_text " songs")
  ∧ node_paired SensorsCustom.ProxmoxNodeCPUUsageSensor.as_numeric
      SensorsCustom.ProxmoxNodeCPUUsageSensor.as_string
      "nodecpu_" Ok (fixed_text " %")
  ∧ node_paired SensorsCustom.ProxmoxNodeMemoryUsageSensor.as_numeric
      SensorsCustom.ProxmoxNodeMemoryUsageSensor.as_string
      "nodemem_" Ok (fixed_text " %")
  ∧ node_paired SensorsCustom.ProxmoxNodeDiskUsageSensor.as_numeric
      SensorsCustom.ProxmoxNodeDiskUsageSensor.as_string
      "nodedsk_" Ok (fixed_text " %")
  ∧ node_paired SensorsCustom.ProxmoxNodeUptimeSensor.as_numeric
      SensorsCustom.ProxmoxNodeUptimeSensor.as_string
      "nodeupt_" (λ sec, truediv_float sec 3600) uptime_text
  ∧ node_paired SensorsCustom.ProxmoxNodeNetworkSensor.as_numeric
      SensorsCustom.ProxmoxNodeNetworkSensor.as_string
      "nodenet_" Ok (fixed_text " MB")
  ∧ node_paired SensorsCustom.ProxmoxVMCountSensor.as_numeric
      SensorsCustom.ProxmoxVMCountSensor.as_string
      "vmcnt_" Ok (count_text " VMs")
  ∧ node_paired SensorsCustom.ProxmoxLXCCountSensor.as_numeric
      SensorsCustom.ProxmoxLXCCountSensor.as_string
      "lxccnt_" Ok (count_text " LXC")
  ∧ vm_paired SensorsCustom.ProxmoxVMCPUUsageSensor.as_numeric
      SensorsCustom.ProxmoxVMCPUUsageSensor.as_string
      "vmcpu_" (fixed_text " %")
  ∧ vm_paired SensorsCustom.ProxmoxVMMemoryUsageSensor.as_numeric
      SensorsCustom.ProxmoxVMMemoryUsageSensor.as_string
      "vmmem_" (fixed_text " %")
  ∧ plex_paired1 SensorsCustomPlex.PlexStreamsSensor.as_numeric
      SensorsCustomPlex.PlexStreamsSensor.as_string
      "streams" (count_text " streams")
  ∧ plex_paired1 SensorsCustomPlex.PlexMovieCountSensor.as_numeric
      SensorsCustomPlex.PlexMovieCountSensor.as_string
      "plex_movies" (count_text " movies")
  ∧ plex_paired1 SensorsCustomPlex.PlexTVShowCountSensor.as_numeric
      SensorsCustomPlex.PlexTVShowCountSensor.as_string
      "plex_shows" (count_text " shows")
  ∧ plex_paired1 SensorsCustomPlex.PlexEpisodesCountSensor.as_numeric
      SensorsCustomPlex.PlexEpisodesCountSensor.as_string
      "plex_eps" (count_text " episodes")
  ∧ plex_paired1 SensorsCustomPlex.PlexAlbumCountSensor.as_numeric
      SensorsCustomPlex.PlexAlbumCountSensor.as_string
      "plex_alb" (count_text " albums")
  ∧ plex_paired1 SensorsCustomPlex.PlexSongsCountSensor.as_numeric
      SensorsCustomPlex.PlexSongsCountSensor.as_string
      "plex_sng" (count_text " songs")
  ∧ node_paired1 SensorsCustomProxmox.ProxmoxNodeCPUUsageSensor.as_numeric
      SensorsCustomProxmox.ProxmoxNodeCPUUsageSensor.as_string
      "nodecpu_" Ok (fixed_text " %")
  ∧ node_paired1 SensorsCustomProxmox.ProxmoxNodeMemoryUsageSensor.as_numeric
      SensorsCustomProxmox.ProxmoxNodeMemoryUsageSensor.as_string
      "nodemem_" Ok (fixed_text " %")
  ∧ node_paired1 SensorsCustomProxmox.ProxmoxNodeDiskUsageSensor.as_numeric
      SensorsCustomProxmox.ProxmoxNodeDiskUsageSensor.as_string
      "nodedsk_" Ok (fixed_text " %")
  ∧ node_paired1 SensorsCustomProxmox.ProxmoxNodeUptimeSensor.as_numeric
      SensorsCustomProxmox.ProxmoxNodeUptimeSensor.as_string
      "nodeupt_" (λ sec, truediv_float sec 3600) uptime_text
  ∧ node_paired1 SensorsCustomProxmox.ProxmoxNodeNetworkSensor.as_numeric
      SensorsCustomProxmox.ProxmoxNodeNetworkSensor.as_string
      "nodenet_" Ok (fixed_text " MB")
  ∧ node_paired1 SensorsCustomProxmox.ProxmoxVMCountSensor.as_numeric
      SensorsCustomProxmox.ProxmoxVMCountSensor.as_string
      "vmcnt_" Ok (count_text " VMs")
  ∧ node_paired1 SensorsCustomProxmox.ProxmoxLXCCountSensor.as_numeric
      SensorsCustomProxmox.ProxmoxLXCCountSensor.as_string
      "lxccnt_" Ok (count_text " LXC")
  ∧ vm_paired1 SensorsCustomProxmox.ProxmoxVMCPUUsageSensor.as_numeric
      SensorsCustomProxmox.ProxmoxVMCPUUsageSensor.as_string
      "vmcpu_" (fixed_text " %")
  ∧ vm_paired1 SensorsCustomProxmox.ProxmoxVMMemoryUsageSensor.as_numeric
      SensorsCustomProxmox.ProxmoxVMMemoryUsageSensor.as_string
      "vmmem_" (fixed_text " %").
Proof.
  repeat match goal with |- _ ∧ _ => split end.
  - exact (sc_plex_poll_paired "streams"
             SensorsCustom.PlexStreamsSensor.fn
             SensorsCustom.PlexStreamsSensor.as_string
             (count_text " streams") (λ _, eq_refl)).
  - exact (sc_plex_poll_paired "plex_movies"
             SensorsCustom.PlexMovieCountSensor.fn
             SensorsCustom.PlexMovieCountSensor.as_string
             (count_text " movies") (λ _, eq_refl)).
  - exact (sc_plex_poll_paired "plex_shows"
             SensorsCustom.PlexTVShowCountSensor.fn
             SensorsCustom.PlexTVShowCountSensor.as_string
             (count_text " shows") (λ _, eq_refl)).
  - exact (sc_plex_poll_paired "plex_eps"
             SensorsCustom.PlexEpisodesCountSensor.fn
             SensorsCustom.PlexEpisodesCountSensor.as_string
             (count_text " episodes") (λ _, eq_refl)).
  - exact (sc_plex_poll_paired "plex_alb"
             SensorsCustom.PlexAlbumCountSensor.fn
             SensorsCustom.PlexAlbumCountSensor.as_string
             (count_text " albums") (λ _, eq_refl)).
  - exact (sc_plex_poll_paired "plex_sng"
             SensorsCustom.PlexSongsCountSensor.fn
             SensorsCustom.PlexSongsCountSensor.as_string
             (count_text " songs") (λ _, eq_refl)).
  - exact (sc_pmx_poll_paired "nodecpu_"
             SensorsCustom.ProxmoxNodeCPUUsageSensor._calc
             SensorsCustom.ProxmoxNodeCPUUsageSensor.as_string
             (fixed_text " %") (λ _, eq_refl)).
  - exact (sc_pmx_poll_paired "nodemem_"
             SensorsCustom.ProxmoxNodeMemoryUsageSensor._calc
             SensorsCustom.ProxmoxNodeMemoryUsageSensor.as_string
             (fixed_text " %") (λ _, eq_refl)).
  - exact (sc_pmx_poll_paired "nodedsk_"
             SensorsCustom.ProxmoxNodeDiskUsageSensor._calc
             SensorsCustom.ProxmoxNodeDiskUsageSensor.as_string
             (fixed_text " %") (λ _, eq_refl)).
  - exact sc_uptime_paired.
  - exact (sc_pmx_poll_paired "nodenet_"
             SensorsCustom.ProxmoxNodeNetworkSensor._calc
             SensorsCustom.ProxmoxNodeNetworkSensor.as_string
             (fixed_text " MB") (λ _, eq_refl)).
  - exact (sc_pmx_poll_paired "vmcnt_"
             SensorsCustom.ProxmoxVMCountSensor._calc
             SensorsCustom.ProxmoxVMCountSensor.as_string
             (count_text " VMs") (λ _, eq_refl)).
  - exact (sc_pmx_poll_paired "lxccnt_"
             SensorsCustom.ProxmoxLXCCountSensor._calc
             SensorsCustom.ProxmoxLXCCountSensor.as_string
             (count_text " LXC") (λ _, eq_refl)).
  - exact (sc_vm_poll_paired "vmcpu_"
             SensorsCustom.ProxmoxVMCPUUsageSensor._calc
             SensorsCustom.ProxmoxVMCPUUsageSensor.as_string
             (fixed_text " %") (λ _, eq_refl)).
  - exact (sc_vm_poll_paired "vmmem_"
             SensorsCustom.ProxmoxVMMemoryUsageSensor._calc
             SensorsCustom.ProxmoxVMMemoryUsageSensor.as_string
             (fixed_text " %") (λ _, eq_refl)).
  - exact (scp_plex_poll_paired "streams"
             SensorsCustomPlex.PlexStreamsSensor.fn
             SensorsCustomPlex.PlexStreamsSensor.as_string
             (count_text " streams") (λ _, eq_refl)).
  - exact (scp_plex_poll_paired "plex_movies"
             SensorsCustomPlex.PlexMovieCountSensor.fn
             SensorsCustomPlex.PlexMovieCountSensor.as_string
             (count_text " movies") (λ _, eq_refl)).
  - exact (scp_plex_poll_paired "plex_shows"
             SensorsCustomPlex.PlexTVShowCountSensor.fn
             SensorsCustomPlex.PlexTVShowCountSensor.as_string
             (count_text " shows") (λ _, eq_refl)).
  - exact (scp_plex_poll_paired "plex_eps"
             SensorsCustomPlex.PlexEpisodesCountSensor.fn
             SensorsCustomPlex.PlexEpisodesCountSensor.as_string
             (count_text " episodes") (λ _, eq_refl)).
  - exact (scp_plex_poll_paired "plex_alb"
             SensorsCustomPlex.PlexAlbumCountSensor.fn
             SensorsCustomPlex.PlexAlbumCountSensor.as_string
             (count_text " albums") (λ _, eq_refl)).
  - exact (scp_plex_poll_paired "plex_sng"
             SensorsCustomPlex.PlexSongsCountSensor.fn
             SensorsCustomPlex.PlexSongsCountSensor.as_string
             (count_text " songs") (λ _, eq_refl)).
  - exact (scx_pmx_poll_paired "nodecpu_"
             SensorsCustomProxmox.ProxmoxNodeCPUUsageSensor._calc
             SensorsCustomProxmox.ProxmoxNodeCPUUsageSensor.as_string
             (fixed_text " %") scx_cpu_calc_float (λ _, eq_refl)).
  - exact (scx_pmx_poll_paired "nodemem_"
             SensorsCustomProxmox.ProxmoxNodeMemoryUsageSensor._calc
             SensorsCustomProxmox.ProxmoxNodeMemoryUsageSensor.as_string
             (fixed_text " %") scx_mem_calc_float (λ _, eq_refl)).
  - exact (scx_pmx_poll_paired "nodedsk_"
             SensorsCustomProxmox.ProxmoxNodeDiskUsageSensor._calc
             SensorsCustomProxmox.ProxmoxNodeDiskUsageSensor.as_string
             (fixed_text " %") scx_dsk_calc_float (λ _, eq_refl)).
  - exact scx_uptime_paired.
  - exact (scx_pmx_poll_paired "nodenet_"
             SensorsCustomProxmox.ProxmoxNodeNetworkSensor._calc
             SensorsCustomProxmox.ProxmoxNodeNetworkSensor.as_string
             (fixed_text " MB") scx_net_calc_float (λ _, eq_refl)).
  - exact (scx_pmx_poll_paired "vmcnt_"
             SensorsCustomProxmox.ProxmoxVMCountSensor._calc
             SensorsCustomProxmox.ProxmoxVMCountSensor.as_string
             (count_text " VMs") scx_vmcnt_calc_float (λ _, eq_refl)).
  - exact (scx_pmx_poll_paired "lxccnt_"
             SensorsCustomProxmox.ProxmoxLXCCountSensor._calc
             SensorsCustomProxmox.ProxmoxLXCCountSensor.as_string
             (count_text " LXC") scx_lxccnt_calc_float (λ _, eq_refl)).
  - exact (scx_vm_poll_paired "vmcpu_"
             SensorsCustomProxmox.ProxmoxVMCPUUsageSensor._calc
             SensorsCustomProxmox.ProxmoxVMCPUUsageSensor.as_string
             (fixed_text " %") scx_vmcpu_calc_float (λ _, eq_refl)).
  - exact (scx_vm_poll_paired "vmmem_"
             SensorsCustomProxmox.ProxmoxVMMemoryUsageSensor._calc
             SensorsCustomProxmox.ProxmoxVMMemoryUsageSensor.as_string
             (fixed_text " %") scx_vmmem_calc_float (λ _, eq_refl)).
Qed.

(** ** The uptime of 90061 seconds *)

(* The decimal bounds 25.0169 and 25.0170 below stand for the floats nearest
   to them. *)
#[local] Set Warnings "-inexact-float".

Lemma uptime_text_90061 `{Runtime} : uptime_text (VFloat 90061) = Ok "1d 1h 1m".
Proof. vm_compute. reflexivity. Qed.

Lemma uptime_hours_90061 :
  truediv_float (VFloat 90061) 3600 = Ok (VFloat 0x1.90456789abcdfp+4).
Proof. vm_compute. reflexivity. Qed.

(** [_pmx_get], outcome by outcome: the call is logged, and the payload is
    what [pmx_payload] makes of its outcome. *)
Lemma sc_pmx_get_eq s ep w :
  let rq := pmx_request (SensorsCustom.ProxmoxBaseSensor.api_base s)
              (SensorsCustom.ProxmoxBaseSensor.headers s)
              (SensorsCustom.ProxmoxBaseSensor.verify_ssl s) ep in
  SensorsCustom.ProxmoxBaseSensor._pmx_get s ep w
  = (Ok (pmx_payload (Requests.peer w (Requests.sent w) rq)), logged w rq).
Proof.
  cbv zeta. unfold SensorsCustom.ProxmoxBaseSensor._pmx_get, try_except, bind,
    Requests.get, pmx_request, pmx_payload, logged, lift, ret.
  destruct (Requests.peer w _ _) as [r|e]; [|reflexivity].
  destruct (Requests.status_code r =? 200); [|reflexivity].
  destruct (Requests.json r) as [[]|]; reflexivity.
Qed.

Lemma scx_pmx_get_eq s ep w :
  let rq := pmx_request (SensorsCustomProxmox.ProxmoxBaseSensor.api_base s)
              (SensorsCustomProxmox.ProxmoxBaseSensor.headers s)
              (SensorsCustomProxmox.ProxmoxBaseSensor.verify_ssl s) ep in
  SensorsCustomProxmox.ProxmoxBaseSensor._pmx_get s ep w
  = (Ok (pmx_payload (Requests.peer w (Requests.sent w) rq)), logged w rq).
Proof.
  cbv zeta. unfold SensorsCustomProxmox.ProxmoxBaseSensor._pmx_get, try_except, bind,
    Requests.get, pmx_request, pmx_payload, logged, lift, ret.
  destruct (Requests.peer w _ _) as [r|e]; [|reflexivity].
  destruct (Requests.status_code r =? 200); [|reflexivity].
  destruct (Requests.json r) as [[]|]; reflexivity.
Qed.

(** The compute function of the uptime, on an answer that reports 90061
    seconds. *)
Lemma sc_uptime_calc_90061 `{Runtime} s w d :
  pmx_payload (Requests.peer w (Requests.sent w) (node_request "/status" s))
    = VDict d →
  float_ (default (VInt 0) (assoc "uptime" d)) = Ok 90061%float →
  SensorsCustom.ProxmoxNodeUptimeSensor._calc s w
  = (Ok (VFloat 90061), logged w (node_request "/status" s)).
Proof.
  unfold SensorsCustom.ProxmoxNodeUptimeSensor._calc, node_request.
  intros Hp Hf. unfold bind at 1.
  pose proof (sc_pmx_get_eq s
                ("/nodes/" +:+ SensorsCustom.ProxmoxBaseSensor.node s +:+ "/status") w)
    as E.
  cbv zeta in E. rewrite E, Hp. cbv beta iota zeta.
  assert (or_ (VDict d) (VDict []) = VDict d) as -> by now destruct d.
  unfold bind, lift, ret, get. now rewrite Hf.
Qed.

Lemma scx_uptime_calc_90061 `{Runtime} s w d :
  pmx_payload (Requests.peer w (Requests.sent w) (node_request1 "/status" s))
    = VDict d →
  float_ (default (VInt 0) (assoc "uptime" d)) = Ok 90061%float →
  SensorsCustomProxmox.ProxmoxNodeUptimeSensor._calc s w
  = (Ok (VFloat 90061), logged w (node_request1 "/status" s)).
Proof.
  unfold SensorsCustomProxmox.ProxmoxNodeUptimeSensor._calc, node_request1.
  intros Hp Hf. unfold bind at 1.
  pose proof (scx_pmx_get_eq s
                ("/nodes/" +:+ SensorsCustomProxmox.ProxmoxBaseSensor.node s
                 +:+ "/status") w) as E.
  cbv zeta in E. rewrite E, Hp. cbv beta iota zeta.
  assert (or_ (VDict d) (VDict []) = VDict d) as -> by now destruct d.
  unfold bind, lift, ret, get. now rewrite Hf.
Qed.

(** C8. The uptime sensor of sensors_custom.py and the one of
    sensors_custom_proxmox.py, on an uptime of 90061 seconds. A read while
    the entry [90061.0] is fresh returns the float [90061.0 / 3600.0],
    which is [0x1.90456789abcdfp+4], printed 25.016944444444444, between
    25.0169 and 25.0170, and sends nothing; a read that finds no fresh
    entry and is answered 90061 returns the same and caches [90061.0];
    [as_string] on that entry is ["1d 1h 1m"]; and whenever an
    [as_numeric] returns with that entry in the cache, what it returned is
    that float. *)
Theorem C8_uptime_90061_hours_and_text `{Runtime} :
  (∀ now s w t0,
     SensorsCustom.ProxmoxBaseSensor._cache s !! node_key "nodeupt_" s
       = Some (VFloat 90061) →
     SensorsCustom.ProxmoxBaseSensor._last s !! node_key "nodeupt_" s = Some t0 →
     float_lt_int (now - t0) (SensorsCustom.ProxmoxBaseSensor.cache_ttl s) = true →
     SensorsCustom.ProxmoxNodeUptimeSensor.as_numeric now (s, w)
       = (Ok (VFloat 0x1.90456789abcdfp+4),
          (SensorsCustom.ProxmoxBaseSensor.set_hist
             (λ h, pushed h (VFloat 0x1.90456789abcdfp+4)) s, w))
     ∧ SensorsCustom.ProxmoxNodeUptimeSensor.as_string s = Ok "1d 1h 1m")
  ∧
  (∀ now s w t0,
     SensorsCustomProxmox.ProxmoxBaseSensor._cache s !! node_key1 "nodeupt_" s
       = Some (VFloat 90061) →
     SensorsCustomProxmox.ProxmoxBaseSensor._last s !! node_key1 "nodeupt_" s
       = Some t0 →
     float_lt_int (now - t0) (SensorsCustomProxmox.ProxmoxBaseSensor.cache_ttl s)
       = true →
     SensorsCustomProxmox.ProxmoxNodeUptimeSensor.as_numeric now (s, w)
       = (Ok (VFloat 0x1.90456789abcdfp+4), (s, w))
     ∧ SensorsCustomProxmox.ProxmoxNodeUptimeSensor.as_string s = Ok "1d 1h 1m")
  ∧
  (∀ now s w d,
     fresh_entry (SensorsCustom.ProxmoxBaseSensor._cache s)
       (SensorsCustom.ProxmoxBaseSensor._last s)
       (SensorsCustom.ProxmoxBaseSensor.cache_ttl s) now (node_key "nodeupt_" s)
       = false →
     pmx_payload (Requests.peer w (Requests.sent w) (node_request "/status" s))
       = VDict d →
     float_ (default (VInt 0) (assoc "uptime" d)) = Ok 90061%float →
     ∃ s',
       SensorsCustom.ProxmoxNodeUptimeSensor.as_numeric now (s, w)
         = (Ok (VFloat 0x1.90456789abcdfp+4), (s', logged w (node_request "/status" s)))
       ∧ SensorsCustom.ProxmoxBaseSensor._cache s' !! node_key "nodeupt_" s'
         = Some (VFloat 90061)
       ∧ SensorsCustom.ProxmoxNodeUptimeSensor.as_string s' = Ok "1d 1h 1m")
  ∧
  (∀ now s w d,
     fresh_entry (SensorsCustomProxmox.ProxmoxBaseSensor._cache s)
       (SensorsCustomProxmox.ProxmoxBaseSensor._last s)
       (SensorsCustomProxmox.ProxmoxBaseSensor.cache_ttl s) now
       (node_key1 "nodeupt_" s) = false →
     pmx_payload (Requests.peer w (Requests.sent w) (node_request1 "/status" s))
       = VDict d →
     float_ (default (VInt 0) (assoc "uptime" d)) = Ok 90061%float →
     ∃ s',
       SensorsCustomProxmox.ProxmoxNodeUptimeSensor.as_numeric now (s, w)
         = (Ok (VFloat 0x1.90456789abcdfp+4), (s', logged w (node_request1 "/status" s)))
       ∧ SensorsCustomProxmox.ProxmoxBaseSensor._cache s' !! node_key1 "nodeupt_" s'
         = Some (VFloat 90061)
       ∧ SensorsCustomProxmox.ProxmoxNodeUptimeSensor.as_string s' = Ok "1d 1h 1m")
  ∧
  (∀ s,
     SensorsCustom.ProxmoxBaseSensor._cache s !! node_key "nodeupt_" s
       = Some (VFloat 90061) →
     SensorsCustom.ProxmoxNodeUptimeSensor.as_string s = Ok "1d 1h 1m")
  ∧
  (∀ now s w v s' w',
     SensorsCustom.ProxmoxNodeUptimeSensor.as_numeric now (s, w) = (Ok v, (s', w')) →
     SensorsCustom.ProxmoxBaseSensor._cache s' !! node_key "nodeupt_" s'
       = Some (VFloat 90061) →
     v = VFloat 0x1.90456789abcdfp+4
     ∧ SensorsCustom.ProxmoxNodeUptimeSensor.as_string s' = Ok "1d 1h 1m")
  ∧
  (∀ s,
     SensorsCustomProxmox.ProxmoxBaseSensor._cache s !! node_key1 "nodeupt_" s
       = Some (VFloat 90061) →
     SensorsCustomProxmox.ProxmoxNodeUptimeSensor.as_string s = Ok "1d 1h 1m")
  ∧
  (∀ now s w v s' w',
     SensorsCustomProxmox.ProxmoxNodeUptimeSensor.as_numeric now (s, w)
       = (Ok v, (s', w')) →
     SensorsCustomProxmox.ProxmoxBaseSensor._cache s' !! node_key1 "nodeupt_" s'
       = Some (VFloat 90061) →
     v = VFloat 0x1.90456789abcdfp+4
     ∧ SensorsCustomProxmox.ProxmoxNodeUptimeSensor.as_string s' = Ok "1d 1h 1m")
  ∧
  (90061 / 3600 =? 0x1.90456789abcdfp+4)%float = true
  ∧ (25.0169 <? 0x1.90456789abcdfp+4)%float = true
  ∧ (0x1.90456789abcdfp+4 <? 25.0170)%float = true.
Proof.
  repeat match goal with |- _ ∧ _ => split end.
  - intros now s w t0 Ec El Ht.
    rewrite sc_uptime_numeric_eq, (sc_pmx_cached_hit _ _ _ _ _ _ _ Ec El Ht),
      uptime_hours_90061.
    split; [reflexivity|].
    rewrite (proj1 sc_uptime_paired), Ec. apply uptime_text_90061.
  - intros now s w t0 Ec El Ht.
    unfold SensorsCustomProxmox.ProxmoxNodeUptimeSensor.as_numeric, bind at 1,
      get_self, gets. simpl. unfold bind, lift. fold (node_key1 "nodeupt_" s).
    rewrite (scx_pmx_cached_hit _ _ _ _ _ _ _ Ec El Ht), uptime_hours_90061.
    split; [reflexivity|].
    rewrite (proj1 scx_uptime_paired), Ec. apply uptime_text_90061.
  - intros now s w d Hf Hp Hu.
    rewrite sc_uptime_numeric_eq,
      (sc_pmx_cached_miss _ _ _ _ _ _ _ Hf (sc_uptime_calc_90061 s w d Hp Hu)),
      uptime_hours_90061.
    eexists. split; [reflexivity|].
    assert (∀ s0, SensorsCustom.ProxmoxBaseSensor._cache
                    (SensorsCustom.ProxmoxBaseSensor.set_hist
                       (λ h, pushed h (VFloat 0x1.90456789abcdfp+4))
                       (SensorsCustom.ProxmoxBaseSensor.set_last
                          <[node_key "nodeupt_" s := now]>
                          (SensorsCustom.ProxmoxBaseSensor.set_cache
                             <[node_key "nodeupt_" s := VFloat 90061]> s0)))
                  !! node_key "nodeupt_" s = Some (VFloat 90061)) as Hc
      by (intros s0; simpl; apply lookup_insert_eq).
    split; [exact (Hc s)|].
    rewrite (proj1 sc_uptime_paired).
    change (node_key "nodeupt_" _) with (node_key "nodeupt_" s).
    rewrite (Hc s). apply uptime_text_90061.
  - intros now s w d Hf Hp Hu.
    unfold SensorsCustomProxmox.ProxmoxNodeUptimeSensor.as_numeric, bind at 1,
      get_self, gets. simpl. unfold bind, lift. fold (node_key1 "nodeupt_" s).
    rewrite (scx_pmx_cached_miss _ _ _ _ _ _ _ Hf (scx_uptime_calc_90061 s w d Hp Hu))
      by discriminate.
    rewrite uptime_hours_90061.
    eexists. split; [reflexivity|].
    assert (∀ s0, SensorsCustomProxmox.ProxmoxBaseSensor._cache
                    (SensorsCustomProxmox.ProxmoxBaseSensor.set_last
                       <[node_key1 "nodeupt_" s := now]>
                       (SensorsCustomProxmox.ProxmoxBaseSensor.set_cache
                          <[node_key1 "nodeupt_" s := VFloat 90061]> s0))
                  !! node_key1 "nodeupt_" s = Some (VFloat 90061)) as Hc
      by (intros s0; simpl; apply lookup_insert_eq).
    split; [exact (Hc s)|].
    rewrite (proj1 scx_uptime_paired).
    change (node_key1 "nodeupt_" _) with (node_key1 "nodeupt_" s).
    rewrite (Hc s). apply uptime_text_90061.
  - intros s Ec. rewrite (proj1 sc_uptime_paired), Ec. apply uptime_text_90061.
  - intros now s w v s' w' E Ec.
    destruct (proj2 sc_uptime_paired _ _ _ _ _ _ E) as (c & Ec' & Ev & Et).
    rewrite Ec in Ec'. injection Ec' as <-.
    rewrite uptime_hours_90061 in Ev. injection Ev as <-.
    split; [reflexivity|]. rewrite Et. apply uptime_text_90061.
  - intros s Ec. rewrite (proj1 scx_uptime_paired), Ec. apply uptime_text_90061.
  - intros now s w v s' w' E Ec.
    destruct (proj2 scx_uptime_paired _ _ _ _ _ _ E) as (c & Ec' & Ev & Et).
    rewrite Ec in Ec'. injection Ec' as <-.
    rewrite uptime_hours_90061 in Ev. injection Ev as <-.
    split; [reflexivity|]. rewrite Et. apply uptime_text_90061.
  - vm_compute. reflexivity.
  - vm_compute. reflexivity.
  - vm_compute. reflexivity.
Qed.

(** C8 at concrete inputs: the two uptime sensors with the entry [90061.0]
    observed at time [0], read at time [5] with a time to live of [30]. *)
Lemma C8_witness :
  (SensorsCustom.ProxmoxNodeUptimeSensor.as_numeric (H := sample_runtime) 5
     (sample_pmx_warm, sample_world)
   = (Ok (VFloat 0x1.90456789abcdfp+4),
      (SensorsCustom.ProxmoxBaseSensor.set_hist
         (λ h, pushed h (VFloat 0x1.90456789abcdfp+4)) sample_pmx_warm, sample_world))
   ∧ SensorsCustom.ProxmoxNodeUptimeSensor.as_string (H := sample_runtime)
       sample_pmx_warm
     = Ok "1d 1h 1m")
  ∧
  (SensorsCustomProxmox.ProxmoxNodeUptimeSensor.as_numeric (H := sample_runtime) 5
     (sample_pmx1_warm, sample_world)
   = (Ok (VFloat 0x1.90456789abcdfp+4), (sample_pmx1_warm, sample_world))
   ∧ SensorsCustomProxmox.ProxmoxNodeUptimeSensor.as_string (H := sample_runtime)
       sample_pmx1_warm
     = Ok "1d 1h 1m").
Proof.
  split.
  - refine (proj1 (C8_uptime_90061_hours_and_text (H := sample_runtime))
              5%float sample_pmx_warm sample_world 0%float _ _ _); reflexivity.
  - refine (proj1 (proj2 (C8_uptime_90061_hours_and_text (H := sample_runtime)))
              5%float sample_pmx1_warm sample_world 0%float _ _ _); reflexivity.
Defined.

(** ** An empty base URL *)

(** [_plex_get] returns [None] at once when the URL is empty: the world is
    the one of before, no request is logged. *)
Lemma sc_plex_get_empty_url s ep w :
  SensorsCustom.PlexBaseSensor.url s = "" →
  SensorsCustom.PlexBaseSensor._plex_get s ep w = (Ok VNone, w).
Proof. intros E. unfold SensorsCustom.PlexBaseSensor._plex_get. now rewrite E. Qed.

Lemma scp_plex_get_empty_url s ep w :
  SensorsCustomPlex.PlexBaseSensor.url s = "" →
  SensorsCustomPlex.PlexBaseSensor._plex_get s ep w = (Ok VNone, w).
Proof. intros E. unfold SensorsCustomPlex.PlexBaseSensor._plex_get. now rewrite E. Qed.

(** [_pmx_get] has no such test: whatever the base, it calls
    [requests.get], and the call is logged whatever its outcome. *)
Lemma sc_pmx_get_sends s ep w :
  Requests.sent (snd (SensorsCustom.ProxmoxBaseSensor._pmx_get s ep w))
  = Requests.sent w
    ++ [{| Requests.url := SensorsCustom.ProxmoxBaseSensor.api_base s +:+ ep;
           Requests.headers := SensorsCustom.ProxmoxBaseSensor.headers s;
           Requests.timeout := 6;
           Requests.verify := SensorsCustom.ProxmoxBaseSensor.verify_ssl s |}].
Proof.
  unfold SensorsCustom.ProxmoxBaseSensor._pmx_get, try_except, bind, Requests.get,
    lift, ret.
  destruct (Requests.peer w _ _) as [r|e]; [|reflexivity].
  destruct (Requests.status_code r =? 200); [|reflexivity].
  destruct (Requests.json r) as [j|e]; [|reflexivity].
  now destruct (get j "data" VNone).
Qed.

Lemma scx_pmx_get_sends s ep w :
  Requests.sent (snd (SensorsCustomProxmox.ProxmoxBaseSensor._pmx_get s ep w))
  = Requests.sent w
    ++ [{| Requests.url := SensorsCustomProxmox.ProxmoxBaseSensor.api_base s +:+ ep;
           Requests.headers := SensorsCustomProxmox.ProxmoxBaseSensor.headers s;
           Requests.timeout := 6;
           Requests.verify := SensorsCustomProxmox.ProxmoxBaseSensor.verify_ssl s |}].
Proof.
  unfold SensorsCustomProxmox.ProxmoxBaseSensor._pmx_get, try_except, bind,
    Requests.get, lift, ret.
  destruct (Requests.peer w _ _) as [r|e]; [|reflexivity].
  destruct (Requests.status_code r =? 200); [|reflexivity].
  destruct (Requests.json r) as [j|e]; [|reflexivity].
  now destruct (get j "data" VNone).
Qed.

(** The call of a path, in a world in which the library refuses it:
    [_pmx_get] returns [None], after the call. *)
Lemma sc_pmx_get_refused s ep w :
  SensorsCustom.ProxmoxBaseSensor.api_base s = "" →
  Requests.is_path ep = true → Requests.refuses_paths w →
  SensorsCustom.ProxmoxBaseSensor._pmx_get s ep w
  = (Ok VNone, logged w (pmx_request "" (SensorsCustom.ProxmoxBaseSensor.headers s)
                           (SensorsCustom.ProxmoxBaseSensor.verify_ssl s) ep)).
Proof.
  intros Eb Hp Hw. pose proof (sc_pmx_get_eq s ep w) as E. cbv zeta in E.
  rewrite E, Eb.
  now rewrite (Hw (Requests.sent w)
                 (pmx_request "" (SensorsCustom.ProxmoxBaseSensor.headers s)
                    (SensorsCustom.ProxmoxBaseSensor.verify_ssl s) ep) Hp).
Qed.

Lemma scx_pmx_get_refused s ep w :
  SensorsCustomProxmox.ProxmoxBaseSensor.api_base s = "" →
  Requests.is_path ep = true → Requests.refuses_paths w →
  SensorsCustomProxmox.ProxmoxBaseSensor._pmx_get s ep w
  = (Ok VNone, logged w (pmx_request ""
                           (SensorsCustomProxmox.ProxmoxBaseSensor.headers s)
                           (SensorsCustomProxmox.ProxmoxBaseSensor.verify_ssl s) ep)).
Proof.
  intros Eb Hp Hw. pose proof (scx_pmx_get_eq s ep w) as E. cbv zeta in E.
  rewrite E, Eb.
  now rewrite (Hw (Requests.sent w)
                 (pmx_request "" (SensorsCustomProxmox.ProxmoxBaseSensor.headers s)
                    (SensorsCustomProxmox.ProxmoxBaseSensor.verify_ssl s) ep) Hp).
Qed.

(** C2, where the code departs from it. [_plex_get] tests the URL and
    returns [None] at once when it is empty, calling nothing. [_pmx_get],
    in sensors_custom.py and in sensors_custom_proxmox.py, has no such
    test: on an object built with an empty host, whose [api_base] is empty,
    it calls [requests.get] all the same, once per fetch, with the bare
    path of the endpoint as the URL. The library refuses such a URL before
    any I/O, so the call raises, [_pmx_get] returns [None] after it, and
    the first read of the CPU sensor returns [0.0], with that one call of
    [requests.get] in the log. *)
Theorem C2_proxmox_get_calls_requests_with_empty_base `{Runtime} :
  (∀ username token_id token_secret node verify_ssl cache_ttl ep w,
     let self := SensorsCustom.ProxmoxBaseSensor.__init__ "" username token_id
                   token_secret node verify_ssl cache_ttl in
     SensorsCustom.ProxmoxBaseSensor.api_base self = ""
     ∧ Requests.sent (snd (SensorsCustom.ProxmoxBaseSensor._pmx_get self ep w))
       = Requests.sent w
         ++ [{| Requests.url := ep;
                Requests.headers := SensorsCustom.ProxmoxBaseSensor.headers self;
                Requests.timeout := 6;
                Requests.verify := verify_ssl |}])
  ∧
  (∀ username token_id token_secret node verify_ssl cache_ttl ep w,
     let self := SensorsCustomProxmox.ProxmoxBaseSensor.__init__ "" username token_id
                   token_secret node verify_ssl cache_ttl in
     SensorsCustomProxmox.ProxmoxBaseSensor.api_base self = ""
     ∧ Requests.sent (snd (SensorsCustomProxmox.ProxmoxBaseSensor._pmx_get self ep w))
       = Requests.sent w
         ++ [{| Requests.url := ep;
                Requests.headers := SensorsCustomProxmox.ProxmoxBaseSensor.headers self;
                Requests.timeout := 6;
                Requests.verify := verify_ssl |}])
  ∧
  (∀ username token_id token_secret node verify_ssl cache_ttl ep w,
     let self := SensorsCustom.ProxmoxBaseSensor.__init__ "" username token_id
                   token_secret node verify_ssl cache_ttl in
     Requests.is_path ep = true → Requests.refuses_paths w →
     SensorsCustom.ProxmoxBaseSensor._pmx_get self ep w
     = (Ok VNone,
        logged w (pmx_request "" (SensorsCustom.ProxmoxBaseSensor.headers self)
                    verify_ssl ep)))
  ∧
  (∀ username token_id token_secret node verify_ssl cache_ttl ep w,
     let self := SensorsCustomProxmox.ProxmoxBaseSensor.__init__ "" username token_id
                   token_secret node verify_ssl cache_ttl in
     Requests.is_path ep = true → Requests.refuses_paths w →
     SensorsCustomProxmox.ProxmoxBaseSensor._pmx_get self ep w
     = (Ok VNone,
        logged w (pmx_request "" (SensorsCustomProxmox.ProxmoxBaseSensor.headers self)
                    verify_ssl ep)))
  ∧
  (∀ username token_id token_secret node verify_ssl cache_ttl now w,
     let self := SensorsCustom.ProxmoxBaseSensor.__init__ "" username token_id
                   token_secret node verify_ssl cache_ttl in
     Requests.refuses_paths w →
     ∃ s',
       SensorsCustom.ProxmoxNodeCPUUsageSensor.as_numeric now (self, w)
       = (Ok (VFloat 0), (s', logged w (node_request "/status" self)))
       ∧ Requests.url (node_request "/status" self) = "/nodes/" +:+ node +:+ "/status")
  ∧
  (∀ username token_id token_secret node verify_ssl cache_ttl now w,
     let self := SensorsCustomProxmox.ProxmoxBaseSensor.__init__ "" username token_id
                   token_secret node verify_ssl cache_ttl in
     Requests.refuses_paths w →
     ∃ s',
       SensorsCustomProxmox.ProxmoxNodeCPUUsageSensor.as_numeric now (self, w)
       = (Ok (VFloat 0), (s', logged w (node_request1 "/status" self)))
       ∧ Requests.url (node_request1 "/status" self)
         = "/nodes/" +:+ node +:+ "/status")
  ∧
  (∀ cfg_token cache_ttl ep w,
     SensorsCustom.PlexBaseSensor._plex_get
       (SensorsCustom.PlexBaseSensor.__init__ "" cfg_token cache_ttl) ep w
     = (Ok VNone, w))
  ∧
  (∀ cfg_token cache_ttl ep w,
     SensorsCustomPlex.PlexBaseSensor._plex_get
       (SensorsCustomPlex.PlexBaseSensor.__init__ "" cfg_token cache_ttl) ep w
     = (Ok VNone, w)).
Proof.
  repeat match goal with |- _ ∧ _ => split end.
  - intros username token_id token_secret node verify_ssl cache_ttl ep w. cbv zeta.
    split; [reflexivity|]. now rewrite sc_pmx_get_sends.
  - intros username token_id token_secret node verify_ssl cache_ttl ep w. cbv zeta.
    split; [reflexivity|]. now rewrite scx_pmx_get_sends.
  - intros username token_id token_secret node verify_ssl cache_ttl ep w. cbv zeta.
    intros Hp Hw. now apply sc_pmx_get_refused.
  - intros username token_id token_secret node verify_ssl cache_ttl ep w. cbv zeta.
    intros Hp Hw. now apply scx_pmx_get_refused.
  - intros username token_id token_secret node verify_ssl cache_ttl now w. cbv zeta.
    intros Hw.
    set (self := SensorsCustom.ProxmoxBaseSensor.__init__ "" username token_id
                   token_secret node verify_ssl cache_ttl).
    assert (SensorsCustom.ProxmoxNodeCPUUsageSensor._calc self w
            = (Ok (VFloat 0), logged w (node_request "/status" self))) as Ec.
    { unfold SensorsCustom.ProxmoxNodeCPUUsageSensor._calc. unfold bind at 1.
      rewrite (sc_pmx_get_refused self
                 ("/nodes/" +:+ SensorsCustom.ProxmoxBaseSensor.node self +:+ "/status")
                 w eq_refl eq_refl Hw).
      reflexivity. }
    change (SensorsCustom.ProxmoxNodeCPUUsageSensor.as_numeric now (self, w))
      with (sc_pmx_poll (node_key "nodecpu_")
              SensorsCustom.ProxmoxNodeCPUUsageSensor._calc now (self, w)).
    rewrite sc_pmx_poll_eq.
    rewrite (sc_pmx_cached_miss _ _ _ _ _ _ _
               (fresh_entry_cold _ _ _ _ _ (lookup_empty _)) Ec).
    eexists. split; reflexivity.
  - intros username token_id token_secret node verify_ssl cache_ttl now w. cbv zeta.
    intros Hw.
    set (self := SensorsCustomProxmox.ProxmoxBaseSensor.__init__ "" username token_id
                   token_secret node verify_ssl cache_ttl).
    assert (SensorsCustomProxmox.ProxmoxNodeCPUUsageSensor._calc self w
            = (Ok (VFloat 0), logged w (node_request1 "/status" self))) as Ec.
    { unfold SensorsCustomProxmox.ProxmoxNodeCPUUsageSensor._calc. unfold bind at 1.
      rewrite (scx_pmx_get_refused self
                 ("/nodes/" +:+ SensorsCustomProxmox.ProxmoxBaseSensor.node self
                  +:+ "/status") w eq_refl eq_refl Hw).
      reflexivity. }
    unfold SensorsCustomProxmox.ProxmoxNodeCPUUsageSensor.as_numeric, bind,
      get_self, gets. simpl.
    rewrite (scx_pmx_cached_miss _ _ _ _ _ _ _
               (fresh_entry_cold _ _ _ _ _ (lookup_empty _)) Ec) by discriminate.
    eexists. split; reflexivity.
  - intros cfg_token cache_ttl ep w. now apply sc_plex_get_empty_url.
  - intros cfg_token cache_ttl ep w. now apply scp_plex_get_empty_url.
Qed.

(** C2 at the failing input: the CPU sensors built with an empty host and
    the node ["pve"], read once in a world in which the call of a path
    raises and the peer would answer any other request with a CPU of 0.5.
    The read returns [0.0], and the log holds the call of [requests.get] on
    ["/nodes/pve/status"]. *)
Lemma C2_witness :
  (∃ s',
     SensorsCustom.ProxmoxNodeCPUUsageSensor.as_numeric (H := sample_runtime) 5
       (sample_pmx_nohost, answering_world)
     = (Ok (VFloat 0),
        (s', logged answering_world (node_request "/status" sample_pmx_nohost)))
     ∧ Requests.url (node_request "/status" sample_pmx_nohost) = "/nodes/pve/status")
  ∧
  (∃ s',
     SensorsCustomProxmox.ProxmoxNodeCPUUsageSensor.as_numeric (H := sample_runtime) 5
       (sample_pmx1_nohost, answering_world)
     = (Ok (VFloat 0),
        (s', logged answering_world (node_request1 "/status" sample_pmx1_nohost)))
     ∧ Requests.url (node_request1 "/status" sample_pmx1_nohost)
       = "/nodes/pve/status").
Proof.
  assert (Requests.refuses_paths answering_world) as Hw.
  { intros before rq Hp. simpl. now rewrite Hp. }
  split.
  - exact (proj1 (proj2 (proj2 (proj2 (proj2
             (C2_proxmox_get_calls_requests_with_empty_base (H := sample_runtime))))))
             None None "" "pve" true 30 5%float answering_world Hw).
  - exact (proj1 (proj2 (proj2 (proj2 (proj2 (proj2
             (C2_proxmox_get_calls_requests_with_empty_base (H := sample_runtime)))))))
             None None "" "pve" true 30 5%float answering_world Hw).
Defined.

(** The part of C2 that the code keeps: the Plex sensors. With an empty URL
    every compute function of theirs returns [0.0] and leaves the world, so
    the log of requests, as it was. *)
Ltac plex_fn_empty_tac lem :=
  intros E; unfold bind at 1; rewrite (lem _ _ _ E); reflexivity.

Section PlexUnavailable.
Context `{Runtime}.

Lemma sc_streams_fn_empty_url s w :
  SensorsCustom.PlexBaseSensor.url s = "" →
  SensorsCustom.PlexStreamsSensor.fn s w = (Ok (VFloat 0), w).
Proof.
  unfold SensorsCustom.PlexStreamsSensor.fn.
  plex_fn_empty_tac sc_plex_get_empty_url.
Qed.

Lemma sc_movies_fn_empty_url s w :
  SensorsCustom.PlexBaseSensor.url s = "" →
  SensorsCustom.PlexMovieCountSensor.fn s w = (Ok (VFloat 0), w).
Proof.
  unfold SensorsCustom.PlexMovieCountSensor.fn.
  plex_fn_empty_tac sc_plex_get_empty_url.
Qed.

Lemma sc_plex_count_empty_url ty suffix s w :
  SensorsCustom.PlexBaseSensor.url s = "" →
  SensorsCustom.plex_count s ty suffix w = (Ok (VFloat 0), w).
Proof.
  unfold SensorsCustom.plex_count.
  plex_fn_empty_tac sc_plex_get_empty_url.
Qed.

Lemma scp_streams_fn_empty_url s w :
  SensorsCustomPlex.PlexBaseSensor.url s = "" →
  SensorsCustomPlex.PlexStreamsSensor.fn s w = (Ok (VFloat 0), w).
Proof.
  unfold SensorsCustomPlex.PlexStreamsSensor.fn.
  plex_fn_empty_tac scp_plex_get_empty_url.
Qed.

Lemma scp_movies_fn_empty_url s w :
  SensorsCustomPlex.PlexBaseSensor.url s = "" →
  SensorsCustomPlex.PlexMovieCountSensor.fn s w = (Ok (VFloat 0), w).
Proof.
  unfold SensorsCustomPlex.PlexMovieCountSensor.fn.
  plex_fn_empty_tac scp_plex_get_empty_url.
Qed.

Lemma scp_plex_count_empty_url ty suffix s w :
  SensorsCustomPlex.PlexBaseSensor.url s = "" →
  SensorsCustomPlex.plex_count s ty suffix w = (Ok (VFloat 0), w).
Proof.
  unfold SensorsCustomPlex.plex_count.
  plex_fn_empty_tac scp_plex_get_empty_url.
Qed.

End PlexUnavailable.

(** Any number of calls of such a sensor, from a cache that holds nothing
    or [0.0] under its key: each returns [0.0], none sends a request. *)
Lemma sc_plex_poll_unavailable key fn :
  (∀ s w, SensorsCustom.PlexBaseSensor.url s = "" → fn s w = (Ok (VFloat 0), w)) →
  ∀ nows s w,
    SensorsCustom.PlexBaseSensor.url s = "" →
    (SensorsCustom.PlexBaseSensor._cache s !! key = None
     ∨ SensorsCustom.PlexBaseSensor._cache s !! key = Some (VFloat 0)) →
    ∃ s', polls (sc_plex_poll key fn) nows (s, w)
          = (Ok (repeat (VFloat 0) (length nows)), (s', w)).
Proof.
  intros Hfn nows. induction nows as [|now nows IH]; intros s w Eu Ec.
  - now exists s.
  - simpl. unfold bind at 1. rewrite sc_plex_poll_eq, sc_plex_cached_eq.
    destruct (fresh_entry _ _ _ _ _) eqn:Ef.
    + destruct Ec as [Ec|Ec].
      * rewrite (fresh_entry_cold _ _ _ _ _ Ec) in Ef. discriminate.
      * rewrite Ec.
        destruct (IH (SensorsCustom.PlexBaseSensor.set_hist
                        (λ h, pushed h (VFloat 0)) s) w Eu (or_intror Ec))
          as [s' Es'].
        exists s'. unfold bind at 1. now rewrite Es'.
    + rewrite (Hfn s w Eu).
      edestruct (IH (SensorsCustom.PlexBaseSensor.set_hist (λ h, pushed h (VFloat 0))
                       (SensorsCustom.PlexBaseSensor.set_last <[key := now]>
                          (SensorsCustom.PlexBaseSensor.set_cache
                             <[key := VFloat 0]> s))) w Eu) as [s' Es'].
      { right. simpl. apply lookup_insert_eq. }
      exists s'. unfold bind at 1. now rewrite Es'.
Qed.

Lemma scp_plex_poll_unavailable key fn :
  (∀ s w, SensorsCustomPlex.PlexBaseSensor.url s = "" → fn s w = (Ok (VFloat 0), w)) →
  ∀ nows s w,
    SensorsCustomPlex.PlexBaseSensor.url s = "" →
    (SensorsCustomPlex.PlexBaseSensor._cache s !! key = None
     ∨ SensorsCustomPlex.PlexBaseSensor._cache s !! key = Some (VFloat 0)) →
    ∃ s', polls (scp_plex_poll key fn) nows (s, w)
          = (Ok (repeat (VFloat 0) (length nows)), (s', w)).
Proof.
  intros Hfn nows. induction nows as [|now nows IH]; intros s w Eu Ec.
  - now exists s.
  - simpl. unfold bind at 1, scp_plex_poll at 1, bind at 1, get_self, gets.
    simpl. rewrite scp_plex_cached_eq.
    destruct (fresh_entry _ _ _ _ _) eqn:Ef.
    + destruct Ec as [Ec|Ec].
      * rewrite (fresh_entry_cold _ _ _ _ _ Ec) in Ef. discriminate.
      * rewrite Ec. destruct (IH s w Eu (or_intror Ec)) as [s' Es'].
        exists s'. unfold bind at 1. now rewrite Es'.
    + rewrite (Hfn s w Eu).
      edestruct (IH (SensorsCustomPlex.PlexBaseSensor.set_last <[key := now]>
                       (SensorsCustomPlex.PlexBaseSensor.set_cache
                          <[key := VFloat 0]> s)) w Eu) as [s' Es'].
      { right. simpl. apply lookup_insert_eq. }
      exists s'. unfold bind at 1. now rewrite Es'.
Qed.

(** Every [as_numeric] of the twelve Plex sensors, on a sensor built with an
    empty URL: whatever the times of the calls, each returns [0.0] and the
    world is left as it was, no request being logged. *)
Lemma plex_empty_url_reads_zero_without_request `{Runtime} :
  (∀ nows cfg_token cache_ttl w,
     ∃ s', polls SensorsCustom.PlexStreamsSensor.as_numeric nows
             (SensorsCustom.PlexBaseSensor.__init__ "" cfg_token cache_ttl, w)
           = (Ok (repeat (VFloat 0) (length nows)), (s', w)))
  ∧
  (∀ nows cfg_token cache_ttl w,
     ∃ s', polls SensorsCustom.PlexMovieCountSensor.as_numeric nows
             (SensorsCustom.PlexBaseSensor.__init__ "" cfg_token cache_ttl, w)
           = (Ok (repeat (VFloat 0) (length nows)), (s', w)))
  ∧
  (∀ nows cfg_token cache_ttl w,
     ∃ s', polls SensorsCustom.PlexTVShowCountSensor.as_numeric nows
             (SensorsCustom.PlexBaseSensor.__init__ "" cfg_token cache_ttl, w)
           = (Ok (repeat (VFloat 0) (length nows)), (s', w)))
  ∧
  (∀ nows cfg_token cache_ttl w,
     ∃ s', polls SensorsCustom.PlexEpisodesCountSensor.as_numeric nows
             (SensorsCustom.PlexBaseSensor.__init__ "" cfg_token cache_ttl, w)
           = (Ok (repeat (VFloat 0) (length nows)), (s', w)))
  ∧
  (∀ nows cfg_token cache_ttl w,
     ∃ s', polls SensorsCustom.PlexAlbumCountSensor.as_numeric nows
             (SensorsCustom.PlexBaseSensor.__init__ "" cfg_token cache_ttl, w)
           = (Ok (repeat (VFloat 0) (length nows)), (s', w)))
  ∧
  (∀ nows cfg_token cache_ttl w,
     ∃ s', polls SensorsCustom.PlexSongsCountSensor.as_numeric nows
             (SensorsCustom.PlexBaseSensor.__init__ "" cfg_token cache_ttl, w)
           = (Ok (repeat (VFloat 0) (length nows)), (s', w)))
  ∧
  (∀ nows cfg_token cache_ttl w,
     ∃ s', polls SensorsCustomPlex.PlexStreamsSensor.as_numeric nows
             (SensorsCustomPlex.PlexBaseSensor.__init__ "" cfg_token cache_ttl, w)
           = (Ok (repeat (VFloat 0) (length nows)), (s', w)))
  ∧
  (∀ nows cfg_token cache_ttl w,
     ∃ s', polls SensorsCustomPlex.PlexMovieCountSensor.as_numeric nows
             (SensorsCustomPlex.PlexBaseSensor.__init__ "" cfg_token cache_ttl, w)
           = (Ok (repeat (VFloat 0) (length nows)), (s', w)))
  ∧
  (∀ nows cfg_token cache_ttl w,
     ∃ s', polls SensorsCustomPlex.PlexTVShowCountSensor.as_numeric nows
             (SensorsCustomPlex.PlexBaseSensor.__init__ "" cfg_token cache_ttl, w)
           = (Ok (repeat (VFloat 0) (length nows)), (s', w)))
  ∧
  (∀ nows cfg_token cache_ttl w,
     ∃ s', polls SensorsCustomPlex.PlexEpisodesCountSensor.as_numeric nows
             (SensorsCustomPlex.PlexBaseSensor.__init__ "" cfg_token cache_ttl, w)
           = (Ok (repeat (VFloat 0) (length nows)), (s', w)))
  ∧
  (∀ nows cfg_token cache_ttl w,
     ∃ s', polls SensorsCustomPlex.PlexAlbumCountSensor.as_numeric nows
             (SensorsCustomPlex.PlexBaseSensor.__init__ "" cfg_token cache_ttl, w)
           = (Ok (repeat (VFloat 0) (length nows)), (s', w)))
  ∧
  (∀ nows cfg_token cache_ttl w,
     ∃ s', polls SensorsCustomPlex.PlexSongsCountSensor.as_numeric nows
             (SensorsCustomPlex.PlexBaseSensor.__init__ "" cfg_token cache_ttl, w)
           = (Ok (repeat (VFloat 0) (length nows)), (s', w))).
Proof.
  repeat match goal with |- _ ∧ _ => split end.
  - intros nows cfg_token cache_ttl w.
    apply (sc_plex_poll_unavailable "streams"
             SensorsCustom.PlexStreamsSensor.fn
             sc_streams_fn_empty_url);
      [reflexivity | now left].
  - intros nows cfg_token cache_ttl w.
    apply (sc_plex_poll_unavailable "plex_movies"
             SensorsCustom.PlexMovieCountSensor.fn
             sc_movies_fn_empty_url);
      [reflexivity | now left].
  - intros nows cfg_token cache_ttl w.
    apply (sc_plex_poll_unavailable "plex_shows"
             SensorsCustom.PlexTVShowCountSensor.fn
             (λ s w, sc_plex_count_empty_url _ _ s w));
      [reflexivity | now left].
  - intros nows cfg_token cache_ttl w.
    apply (sc_plex_poll_unavailable "plex_eps"
             SensorsCustom.PlexEpisodesCountSensor.fn
             (λ s w, sc_plex_count_empty_url _ _ s w));
      [reflexivity | now left].
  - intros nows cfg_token cache_ttl w.
    apply (sc_plex_poll_unavailable "plex_alb"
             SensorsCustom.PlexAlbumCountSensor.fn
             (λ s w, sc_plex_count_empty_url _ _ s w));
      [reflexivity | now left].
  - intros nows cfg_token cache_ttl w.
    apply (sc_plex_poll_unavailable "plex_sng"
             SensorsCustom.PlexSongsCountSensor.fn
             (λ s w, sc_plex_count_empty_url _ _ s w));
      [reflexivity | now left].
  - intros nows cfg_token cache_ttl w.
    apply (scp_plex_poll_unavailable "streams"
             SensorsCustomPlex.PlexStreamsSensor.fn
             scp_streams_fn_empty_url);
      [reflexivity | now left].
  - intros nows cfg_token cache_ttl w.
    apply (scp_plex_poll_unavailable "plex_movies"
             SensorsCustomPlex.PlexMovieCountSensor.fn
             scp_movies_fn_empty_url);
      [reflexivity | now left].
  - intros nows cfg_token cache_ttl w.
    apply (scp_plex_poll_unavailable "plex_shows"
             SensorsCustomPlex.PlexTVShowCountSensor.fn
             (λ s w, scp_plex_count_empty_url _ _ s w));
      [reflexivity | now left].
  - intros nows cfg_token cache_ttl w.
    apply (scp_plex_poll_unavailable "plex_eps"
             SensorsCustomPlex.PlexEpisodesCountSensor.fn
             (λ s w, scp_plex_count_empty_url _ _ s w));
      [reflexivity | now left].
  - intros nows cfg_token cache_ttl w.
    apply (scp_plex_poll_unavailable "plex_alb"
             SensorsCustomPlex.PlexAlbumCountSensor.fn
             (λ s w, scp_plex_count_empty_url _ _ s w));
      [reflexivity | now left].
  - intros nows cfg_token cache_ttl w.
    apply (scp_plex_poll_unavailable "plex_sng"
             SensorsCustomPlex.PlexSongsCountSensor.fn
             (λ s w, scp_plex_count_empty_url _ _ s w));
      [reflexivity | now left].
Qed.

(** ** The scenario of the specification

    A time to live of 30; the peer gives 10, then fails, then gives 20; the
    streams sensor of sensors_custom.py read at the times 0, 5, 31 and 32
    returns 10.0, 10.0 (cached), 0.0 (the sentinel of the failed fetch,
    which replaces the entry) and 0.0 (cached), after two requests in all. *)
Example scenario_accept_on_failure :
  let out := polls (SensorsCustom.PlexStreamsSensor.as_numeric (H := sample_runtime))
               [0; 5; 31; 32]%float (sample_plex, scenario_world) in
  fst out = Ok [VFloat 10; VFloat 10; VFloat 0; VFloat 0]
  ∧ length (Requests.sent (snd (snd out))) = 2%nat
  ∧ SensorsCustom.PlexBaseSensor._last (fst (snd out)) !! "streams" = Some 31%float
  ∧ SensorsCustom.PlexStreamsSensor.as_string (H := sample_runtime) (fst (snd out))
    = Ok "0 streams".
Proof. vm_compute. repeat split. Qed.

(** C7 at a concrete input: the streams sensor with the entry [10.0]
    observed at time [0], read at time [5]. *)
Lemma C7_witness :
  ∃ c,
    SensorsCustom.PlexBaseSensor._cache
      (SensorsCustom.PlexBaseSensor.set_hist (λ h, pushed h (VFloat 10)) sample_plex_warm)
      !! "streams" = Some c
    ∧ Ok c = Ok (VFloat 10)
    ∧ SensorsCustom.PlexStreamsSensor.as_string (H := sample_runtime)
        (SensorsCustom.PlexBaseSensor.set_hist (λ h, pushed h (VFloat 10))
           sample_plex_warm)
      = count_text (H := sample_runtime) " streams" c.
Proof.
  apply (proj2 (proj1 (C7_string_formats_the_value_numeric_returned
                         (H := sample_runtime)))
           5%float sample_plex_warm sample_world (VFloat 10)
           (SensorsCustom.PlexBaseSensor.set_hist (λ h, pushed h (VFloat 10))
              sample_plex_warm)
           sample_world).
  vm_compute. reflexivity.
Defined.

(** * Further properties of the code *)

(** ** The transport clients *)

Lemma sc_plex_get_eq s ep w :
  SensorsCustom.PlexBaseSensor.url s ≠ "" →
  let rq := plex_request (SensorsCustom.PlexBaseSensor.url s)
              (SensorsCustom.PlexBaseSensor.headers s) ep in
  SensorsCustom.PlexBaseSensor._plex_get s ep w
  = (Ok (plex_payload (Requests.peer w (Requests.sent w) rq)), logged w rq).
Proof.
  intros Hu. cbv zeta. unfold SensorsCustom.PlexBaseSensor._plex_get.
  destruct (SensorsCustom.PlexBaseSensor.url s) as [|c u] eqn:E; [easy|].
  simpl. unfold try_except, bind, Requests.get, plex_request, plex_payload, logged,
    lift, ret.
  destruct (Requests.peer w _ _) as [r|e]; [|reflexivity].
  destruct (Requests.status_code r =? 200); [|reflexivity].
  now destruct (Requests.json r).
Qed.

Lemma scp_plex_get_eq s ep w :
  SensorsCustomPlex.PlexBaseSensor.url s ≠ "" →
  let rq := plex_request (SensorsCustomPlex.PlexBaseSensor.url s)
              (SensorsCustomPlex.PlexBaseSensor.headers s) ep in
  SensorsCustomPlex.PlexBaseSensor._plex_get s ep w
  = (Ok (plex_payload (Requests.peer w (Requests.sent w) rq)), logged w rq).
Proof.
  intros Hu. cbv zeta. unfold SensorsCustomPlex.PlexBaseSensor._plex_get.
  destruct (SensorsCustomPlex.PlexBaseSensor.url s) as [|c u] eqn:E; [easy|].
  simpl. unfold try_except, bind, Requests.get, plex_request, plex_payload, logged,
    lift, ret.
  destruct (Requests.peer w _ _) as [r|e]; [|reflexivity].
  destruct (Requests.status_code r =? 200); [|reflexivity].
  now destruct (Requests.json r).
Qed.

(** A payload other than [None] is the body of an answer of status 200. *)
Lemma plex_payload_some o v :
  plex_payload o = v → v ≠ VNone →
  ∃ r, o = Ok r ∧ Requests.status_code r = 200 ∧ Requests.json r = Ok v.
Proof.
  unfold plex_payload. destruct o as [r|e]; [|congruence].
  destruct (Requests.status_code r =? 200) eqn:Es; [|congruence].
  apply Z.eqb_eq in Es.
  destruct (Requests.json r) as [j|e] eqn:Ej; [|congruence].
  intros -> _. eauto.
Qed.

Lemma pmx_payload_some o v :
  pmx_payload o = v → v ≠ VNone →
  ∃ r j, o = Ok r ∧ Requests.status_code r = 200 ∧ Requests.json r = Ok j
         ∧ get j "data" VNone = Ok v.
Proof.
  unfold pmx_payload. destruct o as [r|e]; [|congruence].
  destruct (Requests.status_code r =? 200) eqn:Es; [|congruence].
  apply Z.eqb_eq in Es.
  destruct (Requests.json r) as [[]|e] eqn:Ej; try congruence.
  intros <- _. exists r. eexists. eauto.
Qed.

(** X1. [_plex_get], in sensors_custom.py and in sensors_custom_plex.py,
    never raises, whatever the peer does. When the URL is empty it returns
    [None] at once and calls nothing: the world is as it was. When the URL
    is not empty it calls [requests.get] exactly once, with the URL followed
    by the endpoint, the object's headers and the time-out 6, and never
    changes the peer; and a result other than [None] is the JSON body of an
    answer of status 200 to that very request. *)
Theorem X1_plex_get_single_attempt_never_raises :
  (∀ s ep w,
     let rq := plex_request (SensorsCustom.PlexBaseSensor.url s)
                 (SensorsCustom.PlexBaseSensor.headers s) ep in
     (SensorsCustom.PlexBaseSensor.url s = "" →
      SensorsCustom.PlexBaseSensor._plex_get s ep w = (Ok VNone, w))
     ∧ (SensorsCustom.PlexBaseSensor.url s ≠ "" →
        ∃ v,
          SensorsCustom.PlexBaseSensor._plex_get s ep w = (Ok v, logged w rq)
          ∧ (v ≠ VNone →
             ∃ r, Requests.peer w (Requests.sent w) rq = Ok r
                  ∧ Requests.status_code r = 200 ∧ Requests.json r = Ok v))
     ∧ ∃ v w', SensorsCustom.PlexBaseSensor._plex_get s ep w = (Ok v, w'))
  ∧
  (∀ s ep w,
     let rq := plex_request (SensorsCustomPlex.PlexBaseSensor.url s)
                 (SensorsCustomPlex.PlexBaseSensor.headers s) ep in
     (SensorsCustomPlex.PlexBaseSensor.url s = "" →
      SensorsCustomPlex.PlexBaseSensor._plex_get s ep w = (Ok VNone, w))
     ∧ (SensorsCustomPlex.PlexBaseSensor.url s ≠ "" →
        ∃ v,
          SensorsCustomPlex.PlexBaseSensor._plex_get s ep w = (Ok v, logged w rq)
          ∧ (v ≠ VNone →
             ∃ r, Requests.peer w (Requests.sent w) rq = Ok r
                  ∧ Requests.status_code r = 200 ∧ Requests.json r = Ok v))
     ∧ ∃ v w', SensorsCustomPlex.PlexBaseSensor._plex_get s ep w = (Ok v, w')).
Proof.
  split; intros s ep w; cbv zeta.
  - split; [apply sc_plex_get_empty_url|].
    split.
    + intros E. eexists. split; [apply (sc_plex_get_eq _ _ _ E)|].
      intros Hv. now apply plex_payload_some.
    + destruct (String.eqb_spec (SensorsCustom.PlexBaseSensor.url s) "") as [E|E].
      * eexists; eexists. apply (sc_plex_get_empty_url _ _ _ E).
      * eexists; eexists. apply (sc_plex_get_eq _ _ _ E).
  - split; [apply scp_plex_get_empty_url|].
    split.
    + intros E. eexists. split; [apply (scp_plex_get_eq _ _ _ E)|].
      intros Hv. now apply plex_payload_some.
    + destruct (String.eqb_spec (SensorsCustomPlex.PlexBaseSensor.url s) "") as [E|E].
      * eexists; eexists. apply (scp_plex_get_empty_url _ _ _ E).
      * eexists; eexists. apply (scp_plex_get_eq _ _ _ E).
Qed.

(** X1 at concrete inputs: an object built with an empty URL calls
    nothing; the sample object, whose URL is not empty, calls once. *)
Lemma X1_witness :
  SensorsCustom.PlexBaseSensor._plex_get
    (SensorsCustom.PlexBaseSensor.__init__ "" "token" 30) "/status/sessions"
    failing_world
  = (Ok VNone, failing_world)
  ∧ ∃ v,
      SensorsCustom.PlexBaseSensor._plex_get sample_plex "/status/sessions"
        failing_world
      = (Ok v, logged failing_world
                 (plex_request (SensorsCustom.PlexBaseSensor.url sample_plex)
                    (SensorsCustom.PlexBaseSensor.headers sample_plex)
                    "/status/sessions"))
      ∧ (v ≠ VNone →
         ∃ r, Requests.peer failing_world (Requests.sent failing_world)
                (plex_request (SensorsCustom.PlexBaseSensor.url sample_plex)
                   (SensorsCustom.PlexBaseSensor.headers sample_plex)
                   "/status/sessions") = Ok r
              ∧ Requests.status_code r = 200 ∧ Requests.json r = Ok v).
Proof.
  split.
  - apply (proj1 (proj1 X1_plex_get_single_attempt_never_raises
                    (SensorsCustom.PlexBaseSensor.__init__ "" "token" 30)
                    "/status/sessions" failing_world)).
    reflexivity.
  - apply (proj1 (proj2 (proj1 X1_plex_get_single_attempt_never_raises
                           sample_plex "/status/sessions" failing_world))).
    discriminate.
Defined.

(** X2. [_pmx_get], in sensors_custom.py and in sensors_custom_proxmox.py,
    never raises either; it always makes exactly one attempt, with the
    time-out 6, the object's headers and its [verify_ssl]; and a result other
    than [None] is the ["data"] of the JSON body of an answer of status 200. *)
Theorem X2_pmx_get_one_attempt_never_raises :
  (∀ s ep w,
     let rq := pmx_request (SensorsCustom.ProxmoxBaseSensor.api_base s)
                 (SensorsCustom.ProxmoxBaseSensor.headers s)
                 (SensorsCustom.ProxmoxBaseSensor.verify_ssl s) ep in
     ∃ v,
       SensorsCustom.ProxmoxBaseSensor._pmx_get s ep w = (Ok v, logged w rq)
       ∧ (v ≠ VNone →
          ∃ r j, Requests.peer w (Requests.sent w) rq = Ok r
                 ∧ Requests.status_code r = 200 ∧ Requests.json r = Ok j
                 ∧ get j "data" VNone = Ok v))
  ∧
  (∀ s ep w,
     let rq := pmx_request (SensorsCustomProxmox.ProxmoxBaseSensor.api_base s)
                 (SensorsCustomProxmox.ProxmoxBaseSensor.headers s)
                 (SensorsCustomProxmox.ProxmoxBaseSensor.verify_ssl s) ep in
     ∃ v,
       SensorsCustomProxmox.ProxmoxBaseSensor._pmx_get s ep w = (Ok v, logged w rq)
       ∧ (v ≠ VNone →
          ∃ r j, Requests.peer w (Requests.sent w) rq = Ok r
                 ∧ Requests.status_code r = 200 ∧ Requests.json r = Ok j
                 ∧ get j "data" VNone = Ok v)).
Proof.
  split; intros s ep w; cbv zeta; eexists; split.
  - apply sc_pmx_get_eq.
  - now apply pmx_payload_some.
  - apply scx_pmx_get_eq.
  - now apply pmx_payload_some.
Qed.

(** ** What the compute functions return *)

(** Those of sensors_custom.py and of sensors_custom_plex.py return a float
    whenever they return, as those of sensors_custom_proxmox.py do. *)
Section ComputeFloats.
Context `{Runtime}.

Lemma sc_streams_fn_float s w v w' :
  SensorsCustom.PlexStreamsSensor.fn s w = (Ok v, w') →
  ∃ f, v = VFloat f.
Proof.
  intros E. unfold SensorsCustom.PlexStreamsSensor.fn in E.
  returns_float E.
Qed.

Lemma sc_movies_fn_float s w v w' :
  SensorsCustom.PlexMovieCountSensor.fn s w = (Ok v, w') →
  ∃ f, v = VFloat f.
Proof.
  intros E. unfold SensorsCustom.PlexMovieCountSensor.fn in E.
  returns_float E.
Qed.

Lemma scp_streams_fn_float s w v w' :
  SensorsCustomPlex.PlexStreamsSensor.fn s w = (Ok v, w') →
  ∃ f, v = VFloat f.
Proof.
  intros E. unfold SensorsCustomPlex.PlexStreamsSensor.fn in E.
  returns_float E.
Qed.

Lemma scp_movies_fn_float s w v w' :
  SensorsCustomPlex.PlexMovieCountSensor.fn s w = (Ok v, w') →
  ∃ f, v = VFloat f.
Proof.
  intros E. unfold SensorsCustomPlex.PlexMovieCountSensor.fn in E.
  returns_float E.
Qed.

Lemma sc_cpu_calc_float s w v w' :
  SensorsCustom.ProxmoxNodeCPUUsageSensor._calc s w = (Ok v, w') →
  ∃ f, v = VFloat f.
Proof.
  intros E. unfold SensorsCustom.ProxmoxNodeCPUUsageSensor._calc in E.
  returns_float E.
Qed.

Lemma sc_mem_calc_float s w v w' :
  SensorsCustom.ProxmoxNodeMemoryUsageSensor._calc s w = (Ok v, w') →
  ∃ f, v = VFloat f.
Proof.
  intros E. unfold SensorsCustom.ProxmoxNodeMemoryUsageSensor._calc in E.
  returns_float E.
Qed.

Lemma sc_dsk_calc_float s w v w' :
  SensorsCustom.ProxmoxNodeDiskUsageSensor._calc s w = (Ok v, w') →
  ∃ f, v = VFloat f.
Proof.
  intros E. unfold SensorsCustom.ProxmoxNodeDiskUsageSensor._calc in E.
  returns_float E.
Qed.

Lemma sc_upt_calc_float s w v w' :
  SensorsCustom.ProxmoxNodeUptimeSensor._calc s w = (Ok v, w') →
  ∃ f, v = VFloat f.
Proof.
  intros E. unfold SensorsCustom.ProxmoxNodeUptimeSensor._calc in E.
  returns_float E.
Qed.

Lemma sc_net_calc_float s w v w' :
  SensorsCustom.ProxmoxNodeNetworkSensor._calc s w = (Ok v, w') →
  ∃ f, v = VFloat f.
Proof.
  intros E. unfold SensorsCustom.ProxmoxNodeNetworkSensor._calc in E.
  returns_float E.
Qed.

Lemma sc_vmcnt_calc_float s w v w' :
  SensorsCustom.ProxmoxVMCountSensor._calc s w = (Ok v, w') →
  ∃ f, v = VFloat f.
Proof.
  intros E. unfold SensorsCustom.ProxmoxVMCountSensor._calc in E.
  returns_float E.
Qed.

Lemma sc_lxccnt_calc_float s w v w' :
  SensorsCustom.ProxmoxLXCCountSensor._calc s w = (Ok v, w') →
  ∃ f, v = VFloat f.
Proof.
  intros E. unfold SensorsCustom.ProxmoxLXCCountSensor._calc in E.
  returns_float E.
Qed.

Lemma sc_vmcpu_calc_float s w v w' :
  SensorsCustom.ProxmoxVMCPUUsageSensor._calc s w = (Ok v, w') →
  ∃ f, v = VFloat f.
Proof.
  intros E. unfold SensorsCustom.ProxmoxVMCPUUsageSensor._calc in E.
  returns_float E.
Qed.

Lemma sc_vmmem_calc_float s w v w' :
  SensorsCustom.ProxmoxVMMemoryUsageSensor._calc s w = (Ok v, w') →
  ∃ f, v = VFloat f.
Proof.
  intros E. unfold SensorsCustom.ProxmoxVMMemoryUsageSensor._calc in E.
  returns_float E.
Qed.

Lemma sc_plex_count_float ty suffix s w v w' :
  SensorsCustom.plex_count s ty suffix w = (Ok v, w') →
  ∃ f, v = VFloat f.
Proof.
  intros E. unfold SensorsCustom.plex_count in E.
  returns_float E.
Qed.

Lemma scp_plex_count_float ty suffix s w v w' :
  SensorsCustomPlex.plex_count s ty suffix w = (Ok v, w') →
  ∃ f, v = VFloat f.
Proof.
  intros E. unfold SensorsCustomPlex.plex_count in E.
  returns_float E.
Qed.

End ComputeFloats.

(** ** [_cached]: other keys, exceptions, a cold cache *)

(** X3. A call of [_cached] for one key leaves the entries of every other
    key, value and [observed_at], as they were; in the four [_cached]. *)
Theorem X3_cached_leaves_other_keys :
  (∀ W (fn : SE W value) key now s w k,
     k ≠ key →
     let s' := fst (snd (SensorsCustom.PlexBaseSensor._cached now key fn (s, w))) in
     SensorsCustom.PlexBaseSensor._cache s' !! k = SensorsCustom.PlexBaseSensor._cache s !! k
     ∧ SensorsCustom.PlexBaseSensor._last s' !! k = SensorsCustom.PlexBaseSensor._last s !! k)
  ∧
  (∀ W (fn : SE W value) key now s w k,
     k ≠ key →
     let s' := fst (snd (SensorsCustom.ProxmoxBaseSensor._cached now key fn (s, w))) in
     SensorsCustom.ProxmoxBaseSensor._cache s' !! k = SensorsCustom.ProxmoxBaseSensor._cache s !! k
     ∧ SensorsCustom.ProxmoxBaseSensor._last s' !! k = SensorsCustom.ProxmoxBaseSensor._last s !! k)
  ∧
  (∀ W (fn : SE W value) key now s w k,
     k ≠ key →
     let s' := fst (snd (SensorsCustomPlex.PlexBaseSensor._cached now key fn (s, w))) in
     SensorsCustomPlex.PlexBaseSensor._cache s' !! k = SensorsCustomPlex.PlexBaseSensor._cache s !! k
     ∧ SensorsCustomPlex.PlexBaseSensor._last s' !! k = SensorsCustomPlex.PlexBaseSensor._last s !! k)
  ∧
  (∀ W (fn : SE W value) key now s w k,
     k ≠ key →
     let s' := fst (snd (SensorsCustomProxmox.ProxmoxBaseSensor._cached now key fn (s, w))) in
     SensorsCustomProxmox.ProxmoxBaseSensor._cache s' !! k = SensorsCustomProxmox.ProxmoxBaseSensor._cache s !! k
     ∧ SensorsCustomProxmox.ProxmoxBaseSensor._last s' !! k = SensorsCustomProxmox.ProxmoxBaseSensor._last s !! k).
Proof.
  repeat match goal with |- _ ∧ _ => split end.
  - intros W fn key now s w k Hk. cbv zeta. rewrite sc_plex_cached_eq.
    destruct (fresh_entry _ _ _ _ _).
    + now destruct (_ !! key).
    + destruct (fn w) as [[[]|] ?]; simpl; rewrite ?lookup_insert_ne by congruence;
        auto.
  - intros W fn key now s w k Hk. cbv zeta. rewrite sc_pmx_cached_eq.
    destruct (fresh_entry _ _ _ _ _).
    + now destruct (_ !! key).
    + destruct (fn w) as [[[]|] ?]; simpl; rewrite ?lookup_insert_ne by congruence;
        auto.
  - intros W fn key now s w k Hk. cbv zeta. rewrite scp_plex_cached_eq.
    destruct (fresh_entry _ _ _ _ _).
    + now destruct (_ !! key).
    + destruct (fn w) as [[[]|] ?]; simpl; rewrite ?lookup_insert_ne by congruence;
        auto.
  - intros W fn key now s w k Hk. cbv zeta. rewrite scx_pmx_cached_eq.
    destruct (fresh_entry _ _ _ _ _).
    + now destruct (_ !! key).
    + destruct (fn w) as [[[]|] ?]; simpl; rewrite ?lookup_insert_ne by congruence;
        auto.
Qed.

(** X3 at a concrete input: a call for ["other"] at time [31] computes and
    stores, and leaves the entry of ["streams"] alone. *)
Lemma X3_witness :
  let s' := fst (snd (SensorsCustom.PlexBaseSensor._cached 31 "other"
                        (const_fn (VFloat 7)) (sample_plex_warm, tt))) in
  SensorsCustom.PlexBaseSensor._cache s' !! "streams"
  = SensorsCustom.PlexBaseSensor._cache sample_plex_warm !! "streams"
  ∧ SensorsCustom.PlexBaseSensor._last s' !! "streams"
    = SensorsCustom.PlexBaseSensor._last sample_plex_warm !! "streams".
Proof.
  apply (proj1 X3_cached_leaves_other_keys unit (const_fn (VFloat 7)) "other"
           31%float sample_plex_warm tt "streams").
  discriminate.
Defined.

(** X4. [_cached] raises exactly when it runs the compute function (the
    entry is missing or not fresh) and that function raises: the exception
    is the function's, the object is left as it was, and the world is the
    one the function left. In particular [self._cache[key]] never raises a
    [KeyError]. In the four [_cached]. *)
Theorem X4_cached_raises_only_what_compute_raises :
  (∀ W (fn : SE W value) key now s w e σ,
     SensorsCustom.PlexBaseSensor._cached now key fn (s, w) = (Raise e, σ)
     ↔ fresh_entry (SensorsCustom.PlexBaseSensor._cache s) (SensorsCustom.PlexBaseSensor._last s)
         (SensorsCustom.PlexBaseSensor._ttl s) now key = false
       ∧ ∃ w', fn w = (Raise e, w') ∧ σ = (s, w'))
  ∧
  (∀ W (fn : SE W value) key now s w e σ,
     SensorsCustom.ProxmoxBaseSensor._cached now key fn (s, w) = (Raise e, σ)
     ↔ fresh_entry (SensorsCustom.ProxmoxBaseSensor._cache s) (SensorsCustom.ProxmoxBaseSensor._last s)
         (SensorsCustom.ProxmoxBaseSensor.cache_ttl s) now key = false
       ∧ ∃ w', fn w = (Raise e, w') ∧ σ = (s, w'))
  ∧
  (∀ W (fn : SE W value) key now s w e σ,
     SensorsCustomPlex.PlexBaseSensor._cached now key fn (s, w) = (Raise e, σ)
     ↔ fresh_entry (SensorsCustomPlex.PlexBaseSensor._cache s) (SensorsCustomPlex.PlexBaseSensor._last s)
         (SensorsCustomPlex.PlexBaseSensor._ttl s) now key = false
       ∧ ∃ w', fn w = (Raise e, w') ∧ σ = (s, w'))
  ∧
  (∀ W (fn : SE W value) key now s w e σ,
     SensorsCustomProxmox.ProxmoxBaseSensor._cached now key fn (s, w) = (Raise e, σ)
     ↔ fresh_entry (SensorsCustomProxmox.ProxmoxBaseSensor._cache s) (SensorsCustomProxmox.ProxmoxBaseSensor._last s)
         (SensorsCustomProxmox.ProxmoxBaseSensor.cache_ttl s) now key = false
       ∧ ∃ w', fn w = (Raise e, w') ∧ σ = (s, w')).
Proof.
  repeat match goal with |- _ ∧ _ => split end.
  - intros W fn key now s w e σ. rewrite sc_plex_cached_eq.
    unfold fresh_entry. destruct (contains _ key) eqn:Ec; simpl.
    + apply contains_lookup in Ec as [c Ec]. rewrite Ec.
      destruct (float_lt_int _ _).
      * split; [discriminate|]. now intros [? _].
      * destruct (fn w) as [[[]|e'] w']; split;
          try discriminate; try (intros [_ (? & [=] & _)]; fail).
        -- intros [= -> <-]. eauto.
        -- intros [_ (w1 & [= -> ->] & ->)]. reflexivity.
    + destruct (fn w) as [[[]|e'] w']; split;
        try discriminate; try (intros [_ (? & [=] & _)]; fail).
      * intros [= -> <-]. eauto.
      * intros [_ (w1 & [= -> ->] & ->)]. reflexivity.
  - intros W fn key now s w e σ. rewrite sc_pmx_cached_eq.
    unfold fresh_entry. destruct (contains _ key) eqn:Ec; simpl.
    + apply contains_lookup in Ec as [c Ec]. rewrite Ec.
      destruct (float_lt_int _ _).
      * split; [discriminate|]. now intros [? _].
      * destruct (fn w) as [[[]|e'] w']; split;
          try discriminate; try (intros [_ (? & [=] & _)]; fail).
        -- intros [= -> <-]. eauto.
        -- intros [_ (w1 & [= -> ->] & ->)]. reflexivity.
    + destruct (fn w) as [[[]|e'] w']; split;
        try discriminate; try (intros [_ (? & [=] & _)]; fail).
      * intros [= -> <-]. eauto.
      * intros [_ (w1 & [= -> ->] & ->)]. reflexivity.
  - intros W fn key now s w e σ. rewrite scp_plex_cached_eq.
    unfold fresh_entry. destruct (contains _ key) eqn:Ec; simpl.
    + apply contains_lookup in Ec as [c Ec]. rewrite Ec.
      destruct (float_lt_int _ _).
      * split; [discriminate|]. now intros [? _].
      * destruct (fn w) as [[[]|e'] w']; split;
          try discriminate; try (intros [_ (? & [=] & _)]; fail).
        -- intros [= -> <-]. eauto.
        -- intros [_ (w1 & [= -> ->] & ->)]. reflexivity.
    + destruct (fn w) as [[[]|e'] w']; split;
        try discriminate; try (intros [_ (? & [=] & _)]; fail).
      * intros [= -> <-]. eauto.
      * intros [_ (w1 & [= -> ->] & ->)]. reflexivity.
  - intros W fn key now s w e σ. rewrite scx_pmx_cached_eq.
    unfold fresh_entry. destruct (contains _ key) eqn:Ec; simpl.
    + apply contains_lookup in Ec as [c Ec]. rewrite Ec.
      destruct (float_lt_int _ _).
      * split; [discriminate|]. now intros [? _].
      * destruct (fn w) as [[[]|e'] w']; split;
          try discriminate; try (intros [_ (? & [=] & _)]; fail).
        -- intros [= -> <-]. eauto.
        -- intros [_ (w1 & [= -> ->] & ->)]. reflexivity.
    + destruct (fn w) as [[[]|e'] w']; split;
        try discriminate; try (intros [_ (? & [=] & _)]; fail).
      * intros [= -> <-]. eauto.
      * intros [_ (w1 & [= -> ->] & ->)]. reflexivity.
Qed.

(** X5. The [_cached] of sensors_custom_proxmox.py on a key without an
    entry, when the compute function returns [None]: the call returns
    [None] and creates no entry, so the next call, at whatever time, runs
    the compute function again. *)
Theorem X5_retain_cold_none_returns_none :
  ∀ W (fn : SE W value) key now s w w1,
    SensorsCustomProxmox.ProxmoxBaseSensor._cache s !! key = None →
    fn w = (Ok VNone, w1) →
    SensorsCustomProxmox.ProxmoxBaseSensor._cached now key (counted fn) (s, (w, 0%nat))
    = (Ok VNone, (s, (w1, 1%nat)))
    ∧ ∀ now2,
        snd (snd (snd (SensorsCustomProxmox.ProxmoxBaseSensor._cached now2 key
                         (counted fn) (s, (w1, 1%nat))))) = 2%nat.
Proof.
  intros W fn key now s w w1 Ec E. split.
  - rewrite scx_pmx_cached_eq, (fresh_entry_cold _ _ _ _ _ Ec).
    rewrite (counted_run fn w 0 _ _ E), Ec. reflexivity.
  - intros now2. rewrite scx_pmx_cached_eq, (fresh_entry_cold _ _ _ _ _ Ec).
    unfold counted. simpl. now destruct (fn w1) as [[[]|] ?].
Qed.

(** X5 at a concrete input: a sensor just built and a compute function that
    returns [None]. *)
Lemma X5_witness :
  SensorsCustomProxmox.ProxmoxBaseSensor._cached 5 "nodecpu_pve"
    (counted (const_fn VNone)) (sample_pmx1, (tt, 0%nat))
  = (Ok VNone, (sample_pmx1, (tt, 1%nat)))
  ∧ ∀ now2,
      snd (snd (snd (SensorsCustomProxmox.ProxmoxBaseSensor._cached now2 "nodecpu_pve"
                       (counted (const_fn VNone)) (sample_pmx1, (tt, 1%nat)))))
      = 2%nat.
Proof.
  apply (X5_retain_cold_none_returns_none unit (const_fn VNone) "nodecpu_pve"
           5%float sample_pmx1 tt tt); reflexivity.
Defined.

(** ** A read that raises *)

Ltac cached_raise_tac eq :=
  rewrite eq; destruct (fresh_entry _ _ _ _ _);
  [ destruct (_ !! _); intros [= <- <- <-]; reflexivity
  | match goal with |- context [?fn ?w] =>
      match type of (fn w) with (res value * _)%type =>
        destruct (fn w) as [[[]|] ?]; intros [= <- <- <-]; reflexivity
      end
    end ].

Lemma sc_plex_cached_raise {W} now key (fn : SE W value) s w e s' w' :
  SensorsCustom.PlexBaseSensor._cached now key fn (s, w) = (Raise e, (s', w')) →
  s' = s.
Proof. cached_raise_tac @sc_plex_cached_eq. Qed.

Lemma sc_pmx_cached_raise {W} now key (fn : SE W value) s w e s' w' :
  SensorsCustom.ProxmoxBaseSensor._cached now key fn (s, w) = (Raise e, (s', w')) →
  s' = s.
Proof. cached_raise_tac @sc_pmx_cached_eq. Qed.

Lemma scp_plex_cached_raise {W} now key (fn : SE W value) s w e s' w' :
  SensorsCustomPlex.PlexBaseSensor._cached now key fn (s, w) = (Raise e, (s', w')) →
  s' = s.
Proof. cached_raise_tac @scp_plex_cached_eq. Qed.

Lemma scx_pmx_cached_raise {W} now key (fn : SE W value) s w e s' w' :
  SensorsCustomProxmox.ProxmoxBaseSensor._cached now key fn (s, w)
    = (Raise e, (s', w')) →
  s' = s.
Proof. cached_raise_tac @scx_pmx_cached_eq. Qed.

Lemma sc_plex_poll_raise key fn : raise_leaves_object (sc_plex_poll key fn).
Proof.
  intros now s w e s' w'. rewrite sc_plex_poll_eq.
  destruct (SensorsCustom.PlexBaseSensor._cached _ _ _ _) as [[v|e1] [s1 w1]] eqn:E;
    [discriminate|].
  intros [= <- <- <-]. exact (sc_plex_cached_raise _ _ _ _ _ _ _ _ E).
Qed.

Lemma sc_pmx_poll_raise key calc : raise_leaves_object (sc_pmx_poll key calc).
Proof.
  intros now s w e s' w'. rewrite sc_pmx_poll_eq.
  destruct (SensorsCustom.ProxmoxBaseSensor._cached _ _ _ _) as [[v|e1] [s1 w1]] eqn:E;
    [discriminate|].
  intros [= <- <- <-]. exact (sc_pmx_cached_raise _ _ _ _ _ _ _ _ E).
Qed.

Lemma sc_vm_poll_raise key calc : raise_leaves_object (sc_vm_poll key calc).
Proof.
  intros now s w e s' w'. rewrite sc_vm_poll_eq.
  destruct (SensorsCustom.ProxmoxBaseSensor._cached _ _ _ _) as [[v|e1] [b1 w1]] eqn:E;
    [discriminate|].
  intros [= <- <- <-]. rewrite (sc_pmx_cached_raise _ _ _ _ _ _ _ _ E).
  now destruct s.
Qed.

Lemma scp_plex_poll_raise key fn : raise_leaves_object (scp_plex_poll key fn).
Proof.
  intros now s w e s' w' E.
  unfold scp_plex_poll, bind, get_self, gets in E. simpl in E.
  exact (scp_plex_cached_raise _ _ _ _ _ _ _ _ E).
Qed.

Lemma scx_pmx_poll_raise key calc : raise_leaves_object (scx_pmx_poll key calc).
Proof.
  intros now s w e s' w' E.
  unfold scx_pmx_poll, bind, get_self, gets in E. simpl in E.
  exact (scx_pmx_cached_raise _ _ _ _ _ _ _ _ E).
Qed.

Lemma scx_vm_poll_raise key calc : raise_leaves_object (scx_vm_poll key calc).
Proof.
  intros now s w e s' w' E.
  unfold scx_vm_poll, bind, get_self, gets in E. simpl in E.
  unfold SensorsCustomProxmox.ProxmoxVMSensor.super in E. simpl in E.
  destruct (SensorsCustomProxmox.ProxmoxBaseSensor._cached _ _ _ _)
    as [r [b1 w1]] eqn:Ec.
  injection E as -> <- <-.
  rewrite (scx_pmx_cached_raise _ _ _ _ _ _ _ _ Ec). now destruct s.
Qed.

(** The uptime sensors divide what [_cached] returned: the division raises
    on no float, and a compute function that ran returned a float. *)
Lemma truediv_float_of_float f : ∃ q, truediv_float (VFloat f) 3600 = Ok (VFloat q).
Proof. eexists. unfold truediv_float. simpl. reflexivity. Qed.

Lemma sc_uptime_raise `{Runtime} :
  raise_leaves_object SensorsCustom.ProxmoxNodeUptimeSensor.as_numeric.
Proof.
  intros now s w e s' w'. rewrite sc_uptime_numeric_eq, sc_pmx_cached_eq.
  destruct (fresh_entry _ _ _ _ _).
  - destruct (_ !! _) as [c|]; [|now intros [= <- <- <-]].
    destruct (truediv_float c 3600); [discriminate|now intros [= <- <- <-]].
  - destruct (SensorsCustom.ProxmoxNodeUptimeSensor._calc s w) as [[v|e1] w1] eqn:E;
      [|now intros [= <- <- <-]].
    apply sc_upt_calc_float in E as [f ->].
    destruct (truediv_float_of_float f) as [q ->]. discriminate.
Qed.

Lemma scx_uptime_raise `{Runtime} :
  raise_leaves_object SensorsCustomProxmox.ProxmoxNodeUptimeSensor.as_numeric.
Proof.
  intros now s w e s' w'.
  unfold SensorsCustomProxmox.ProxmoxNodeUptimeSensor.as_numeric, bind at 1,
    get_self, gets. simpl. unfold bind, lift. rewrite scx_pmx_cached_eq.
  destruct (fresh_entry _ _ _ _ _).
  - destruct (_ !! _) as [c|]; [|now intros [= <- <- <-]].
    destruct (truediv_float c 3600); [discriminate|now intros [= <- <- <-]].
  - destruct (SensorsCustomProxmox.ProxmoxNodeUptimeSensor._calc s w)
      as [[v|e1] w1] eqn:E; [|now intros [= <- <- <-]].
    apply scx_upt_calc_float in E as [f ->].
    destruct (truediv_float_of_float f) as [q ->]. discriminate.
Qed.

(** X6. When an [as_numeric] raises (the payload had an unexpected shape),
    the object is as it was before the call: no entry written, no
    [observed_at] moved, no sample pushed. For the thirty sensor classes. *)
Theorem X6_numeric_that_raises_changes_nothing `{Runtime} :
  raise_leaves_object SensorsCustom.PlexStreamsSensor.as_numeric
  ∧ raise_leaves_object SensorsCustom.PlexMovieCountSensor.as_numeric
  ∧ raise_leaves_object SensorsCustom.PlexTVShowCountSensor.as_numeric
  ∧ raise_leaves_object SensorsCustom.PlexEpisodesCountSensor.as_numeric
  ∧ raise_leaves_object SensorsCustom.PlexAlbumCountSensor.as_numeric
  ∧ raise_leaves_object SensorsCustom.PlexSongsCountSensor.as_numeric
  ∧ raise_leaves_object SensorsCustom.ProxmoxNodeCPUUsageSensor.as_numeric
  ∧ raise_leaves_object SensorsCustom.ProxmoxNodeMemoryUsageSensor.as_numeric
  ∧ raise_leaves_object SensorsCustom.ProxmoxNodeDiskUsageSensor.as_numeric
  ∧ raise_leaves_object SensorsCustom.ProxmoxNodeUptimeSensor.as_numeric
  ∧ raise_leaves_object SensorsCustom.ProxmoxNodeNetworkSensor.as_numeric
  ∧ raise_leaves_object SensorsCustom.ProxmoxVMCountSensor.as_numeric
  ∧ raise_leaves_object SensorsCustom.ProxmoxLXCCountSensor.as_numeric
  ∧ raise_leaves_object SensorsCustom.ProxmoxVMCPUUsageSensor.as_numeric
  ∧ raise_leaves_object SensorsCustom.ProxmoxVMMemoryUsageSensor.as_numeric
  ∧ raise_leaves_object SensorsCustomPlex.PlexStreamsSensor.as_numeric
  ∧ raise_leaves_object SensorsCustomPlex.PlexMovieCountSensor.as_numeric
  ∧ raise_leaves_object SensorsCustomPlex.PlexTVShowCountSensor.as_numeric
  ∧ raise_leaves_object SensorsCustomPlex.PlexEpisodesCountSensor.as_numeric
  ∧ raise_leaves_object SensorsCustomPlex.PlexAlbumCountSensor.as_numeric
  ∧ raise_leaves_object SensorsCustomPlex.PlexSongsCountSensor.as_numeric
  ∧ raise_leaves_object SensorsCustomProxmox.ProxmoxNodeCPUUsageSensor.as_numeric
  ∧ raise_leaves_object SensorsCustomProxmox.ProxmoxNodeMemoryUsageSensor.as_numeric
  ∧ raise_leaves_object SensorsCustomProxmox.ProxmoxNodeDiskUsageSensor.as_numeric
  ∧ raise_leaves_object SensorsCustomProxmox.ProxmoxNodeUptimeSensor.as_numeric
  ∧ raise_leaves_object SensorsCustomProxmox.ProxmoxNodeNetworkSensor.as_numeric
  ∧ raise_leaves_object SensorsCustomProxmox.ProxmoxVMCountSensor.as_numeric
  ∧ raise_leaves_object SensorsCustomProxmox.ProxmoxLXCCountSensor.as_numeric
  ∧ raise_leaves_object SensorsCustomProxmox.ProxmoxVMCPUUsageSensor.as_numeric
  ∧ raise_leaves_object SensorsCustomProxmox.ProxmoxVMMemoryUsageSensor.as_numeric.
Proof.
  repeat match goal with |- _ ∧ _ => split end.
  - exact (sc_plex_poll_raise "streams" SensorsCustom.PlexStreamsSensor.fn).
  - exact (sc_plex_poll_raise "plex_movies" SensorsCustom.PlexMovieCountSensor.fn).
  - exact (sc_plex_poll_raise "plex_shows" SensorsCustom.PlexTVShowCountSensor.fn).
  - exact (sc_plex_poll_raise "plex_eps" SensorsCustom.PlexEpisodesCountSensor.fn).
  - exact (sc_plex_poll_raise "plex_alb" SensorsCustom.PlexAlbumCountSensor.fn).
  - exact (sc_plex_poll_raise "plex_sng" SensorsCustom.PlexSongsCountSensor.fn).
  - exact (sc_pmx_poll_raise (node_key "nodecpu_") SensorsCustom.ProxmoxNodeCPUUsageSensor._calc).
  - exact (sc_pmx_poll_raise (node_key "nodemem_") SensorsCustom.ProxmoxNodeMemoryUsageSensor._calc).
  - exact (sc_pmx_poll_raise (node_key "nodedsk_") SensorsCustom.ProxmoxNodeDiskUsageSensor._calc).
  - exact sc_uptime_raise.
  - exact (sc_pmx_poll_raise (node_key "nodenet_") SensorsCustom.ProxmoxNodeNetworkSensor._calc).
  - exact (sc_pmx_poll_raise (node_key "vmcnt_") SensorsCustom.ProxmoxVMCountSensor._calc).
  - exact (sc_pmx_poll_raise (node_key "lxccnt_") SensorsCustom.ProxmoxLXCCountSensor._calc).
  - exact (sc_vm_poll_raise (vm_key "vmcpu_") SensorsCustom.ProxmoxVMCPUUsageSensor._calc).
  - exact (sc_vm_poll_raise (vm_key "vmmem_") SensorsCustom.ProxmoxVMMemoryUsageSensor._calc).
  - exact (scp_plex_poll_raise "streams" SensorsCustomPlex.PlexStreamsSensor.fn).
  - exact (scp_plex_poll_raise "plex_movies" SensorsCustomPlex.PlexMovieCountSensor.fn).
  - exact (scp_plex_poll_raise "plex_shows" SensorsCustomPlex.PlexTVShowCountSensor.fn).
  - exact (scp_plex_poll_raise "plex_eps" SensorsCustomPlex.PlexEpisodesCountSensor.fn).
  - exact (scp_plex_poll_raise "plex_alb" SensorsCustomPlex.PlexAlbumCountSensor.fn).
  - exact (scp_plex_poll_raise "plex_sng" SensorsCustomPlex.PlexSongsCountSensor.fn).
  - exact (scx_pmx_poll_raise (node_key1 "nodecpu_") SensorsCustomProxmox.ProxmoxNodeCPUUsageSensor._calc).
  - exact (scx_pmx_poll_raise (node_key1 "nodemem_") SensorsCustomProxmox.ProxmoxNodeMemoryUsageSensor._calc).
  - exact (scx_pmx_poll_raise (node_key1 "nodedsk_") SensorsCustomProxmox.ProxmoxNodeDiskUsageSensor._calc).
  - exact scx_uptime_raise.
  - exact (scx_pmx_poll_raise (node_key1 "nodenet_") SensorsCustomProxmox.ProxmoxNodeNetworkSensor._calc).
  - exact (scx_pmx_poll_raise (node_key1 "vmcnt_") SensorsCustomProxmox.ProxmoxVMCountSensor._calc).
  - exact (scx_pmx_poll_raise (node_key1 "lxccnt_") SensorsCustomProxmox.ProxmoxLXCCountSensor._calc).
  - exact (scx_vm_poll_raise (vm_key1 "vmcpu_") SensorsCustomProxmox.ProxmoxVMCPUUsageSensor._calc).
  - exact (scx_vm_poll_raise (vm_key1 "vmmem_") SensorsCustomProxmox.ProxmoxVMMemoryUsageSensor._calc).
Qed.

(** X6 at a concrete input: the sensor of the node's CPU of
    sensors_custom_proxmox.py, just built, read from a peer whose data is a
    list; the call raises and the object is the one just built. *)
Lemma X6_witness :
  let out := SensorsCustomProxmox.ProxmoxNodeCPUUsageSensor.as_numeric
               (H := sample_runtime) 5 (sample_pmx1, listing_world) in
  fst out = Raise AttributeError ∧ fst (snd out) = sample_pmx1.
Proof.
  cbv zeta. split; [vm_compute; reflexivity|].
  refine ((proj1 (proj2 (proj2 (proj2 (proj2 (proj2 (proj2 (proj2 (proj2 (proj2 (proj2 (proj2 (proj2 (proj2 (proj2 (proj2 (proj2 (proj2 (proj2 (proj2 (proj2 (proj2 (X6_numeric_that_raises_changes_nothing (H := sample_runtime))))))))))))))))))))))))
            5%float sample_pmx1 listing_world AttributeError _
            (snd (snd (SensorsCustomProxmox.ProxmoxNodeCPUUsageSensor.as_numeric
                         (H := sample_runtime) 5 (sample_pmx1, listing_world)))) _).
  vm_compute. reflexivity.
Defined.

(** ** The cache holds floats only *)

Lemma floats_only_empty : floats_only ∅.
Proof. intros k c E. now rewrite lookup_empty in E. Qed.

Lemma floats_only_insert cache key f :
  floats_only cache → floats_only (<[key := VFloat f]> cache).
Proof.
  intros Hc k c. destruct (decide (k = key)) as [->|Hk].
  - rewrite lookup_insert_eq. intros [= <-]. eauto.
  - rewrite lookup_insert_ne by congruence. apply Hc.
Qed.

Ltac cached_floats_tac eq :=
  intros Hfn Hc; rewrite eq;
  destruct (fresh_entry _ _ _ _ _);
  [ destruct (_ !! _) as [c|] eqn:Ec; intros [= <- <- <-];
    (split; [exact Hc|]); intros v Hv;
    [injection Hv as <-; exact (Hc _ _ Ec) | discriminate Hv]
  | match goal with |- context [?fn ?w] =>
      match type of (fn w) with (res value * _)%type =>
        destruct (fn w) as [[v0|e] w1] eqn:Ef
      end
    end;
    [ match goal with Hf : _ = (Ok _, _) |- _ =>
        destruct (Hfn _ _ _ Hf) as [f ->]
      end; cbv beta iota; intros [= <- <- <-];
      split; [apply floats_only_insert, Hc | intros v [= <-]; eauto]
    | intros [= <- <- <-]; split; [exact Hc | intros v Hv; discriminate Hv] ] ].

Lemma sc_plex_cached_floats {W} now key (fn : SE W value) s w r s' w' :
  (∀ w v w', fn w = (Ok v, w') → ∃ f, v = VFloat f) →
  floats_only (SensorsCustom.PlexBaseSensor._cache s) →
  SensorsCustom.PlexBaseSensor._cached now key fn (s, w) = (r, (s', w')) →
  floats_only (SensorsCustom.PlexBaseSensor._cache s')
  ∧ ∀ v, r = Ok v → ∃ f, v = VFloat f.
Proof. cached_floats_tac @sc_plex_cached_eq. Qed.

Lemma sc_pmx_cached_floats {W} now key (fn : SE W value) s w r s' w' :
  (∀ w v w', fn w = (Ok v, w') → ∃ f, v = VFloat f) →
  floats_only (SensorsCustom.ProxmoxBaseSensor._cache s) →
  SensorsCustom.ProxmoxBaseSensor._cached now key fn (s, w) = (r, (s', w')) →
  floats_only (SensorsCustom.ProxmoxBaseSensor._cache s')
  ∧ ∀ v, r = Ok v → ∃ f, v = VFloat f.
Proof. cached_floats_tac @sc_pmx_cached_eq. Qed.

Lemma scp_plex_cached_floats {W} now key (fn : SE W value) s w r s' w' :
  (∀ w v w', fn w = (Ok v, w') → ∃ f, v = VFloat f) →
  floats_only (SensorsCustomPlex.PlexBaseSensor._cache s) →
  SensorsCustomPlex.PlexBaseSensor._cached now key fn (s, w) = (r, (s', w')) →
  floats_only (SensorsCustomPlex.PlexBaseSensor._cache s')
  ∧ ∀ v, r = Ok v → ∃ f, v = VFloat f.
Proof. cached_floats_tac @scp_plex_cached_eq. Qed.

Lemma scx_pmx_cached_floats {W} now key (fn : SE W value) s w r s' w' :
  (∀ w v w', fn w = (Ok v, w') → ∃ f, v = VFloat f) →
  floats_only (SensorsCustomProxmox.ProxmoxBaseSensor._cache s) →
  SensorsCustomProxmox.ProxmoxBaseSensor._cached now key fn (s, w) = (r, (s', w')) →
  floats_only (SensorsCustomProxmox.ProxmoxBaseSensor._cache s')
  ∧ ∀ v, r = Ok v → ∃ f, v = VFloat f.
Proof. cached_floats_tac @scx_pmx_cached_eq. Qed.

Lemma sc_plex_poll_floats key fn :
  (∀ s w v w', fn s w = (Ok v, w') → ∃ f, v = VFloat f) →
  keeps_floats (sc_plex_poll key fn) SensorsCustom.PlexBaseSensor._cache.
Proof.
  intros Hfn now s w r s' w' Hc. rewrite sc_plex_poll_eq.
  destruct (SensorsCustom.PlexBaseSensor._cached _ _ _ _) as [r1 [s1 w1]] eqn:E.
  apply (sc_plex_cached_floats _ _ _ _ _ _ _ _ (Hfn s) Hc) in E as [Hc1 Hr].
  destruct r1 as [v|e]; intros [= <- <- <-]; split; auto; intros ? [=].
Qed.

Lemma sc_pmx_poll_floats key calc :
  (∀ s w v w', calc s w = (Ok v, w') → ∃ f, v = VFloat f) →
  keeps_floats (sc_pmx_poll key calc) SensorsCustom.ProxmoxBaseSensor._cache.
Proof.
  intros Hfn now s w r s' w' Hc. rewrite sc_pmx_poll_eq.
  destruct (SensorsCustom.ProxmoxBaseSensor._cached _ _ _ _) as [r1 [s1 w1]] eqn:E.
  apply (sc_pmx_cached_floats _ _ _ _ _ _ _ _ (Hfn s) Hc) in E as [Hc1 Hr].
  destruct r1 as [v|e]; intros [= <- <- <-]; split; auto; intros ? [=].
Qed.

Lemma sc_vm_poll_floats key calc :
  (∀ s w v w', calc s w = (Ok v, w') → ∃ f, v = VFloat f) →
  keeps_floats (sc_vm_poll key calc)
    (λ s, SensorsCustom.ProxmoxBaseSensor._cache (SensorsCustom.ProxmoxVMSensor.base s)).
Proof.
  intros Hfn now s w r s' w' Hc. rewrite sc_vm_poll_eq.
  destruct (SensorsCustom.ProxmoxBaseSensor._cached _ _ _ _) as [r1 [s1 w1]] eqn:E.
  apply (sc_pmx_cached_floats _ _ _ _ _ _ _ _ (Hfn s) Hc) in E as [Hc1 Hr].
  destruct r1 as [v|e]; intros [= <- <- <-]; split; auto; intros ? [=].
Qed.

Lemma scp_plex_poll_floats key fn :
  (∀ s w v w', fn s w = (Ok v, w') → ∃ f, v = VFloat f) →
  keeps_floats (scp_plex_poll key fn) SensorsCustomPlex.PlexBaseSensor._cache.
Proof.
  intros Hfn now s w r s' w' Hc E.
  unfold scp_plex_poll, bind, get_self, gets in E. simpl in E.
  exact (scp_plex_cached_floats _ _ _ _ _ _ _ _ (Hfn s) Hc E).
Qed.

Lemma scx_pmx_poll_floats key calc :
  (∀ s w v w', calc s w = (Ok v, w') → ∃ f, v = VFloat f) →
  keeps_floats (scx_pmx_poll key calc) SensorsCustomProxmox.ProxmoxBaseSensor._cache.
Proof.
  intros Hfn now s w r s' w' Hc E.
  unfold scx_pmx_poll, bind, get_self, gets in E. simpl in E.
  exact (scx_pmx_cached_floats _ _ _ _ _ _ _ _ (Hfn s) Hc E).
Qed.

Lemma scx_vm_poll_floats key calc :
  (∀ s w v w', calc s w = (Ok v, w') → ∃ f, v = VFloat f) →
  keeps_floats (scx_vm_poll key calc)
    (λ s, SensorsCustomProxmox.ProxmoxBaseSensor._cache
            (SensorsCustomProxmox.ProxmoxVMSensor.base s)).
Proof.
  intros Hfn now s w r s' w' Hc E.
  unfold scx_vm_poll, bind, get_self, gets in E. simpl in E.
  unfold SensorsCustomProxmox.ProxmoxVMSensor.super in E. simpl in E.
  destruct (SensorsCustomProxmox.ProxmoxBaseSensor._cached _ _ _ _)
    as [r1 [b1 w1]] eqn:Ec.
  injection E as <- <- <-.
  exact (scx_pmx_cached_floats _ _ _ _ _ _ _ _ (Hfn s) Hc Ec).
Qed.

Lemma sc_uptime_floats `{Runtime} :
  keeps_floats SensorsCustom.ProxmoxNodeUptimeSensor.as_numeric
    SensorsCustom.ProxmoxBaseSensor._cache.
Proof.
  intros now s w r s' w' Hc. rewrite sc_uptime_numeric_eq.
  destruct (SensorsCustom.ProxmoxBaseSensor._cached _ _ _ _) as [r1 [s1 w1]] eqn:E.
  apply (sc_pmx_cached_floats _ _ _ _ _ _ _ _ (sc_upt_calc_float s) Hc) in E
    as [Hc1 Hr].
  destruct r1 as [sec|e]; [|intros [= <- <- <-]; split; auto; intros ? [=]].
  destruct (Hr _ eq_refl) as [f ->].
  destruct (truediv_float_of_float f) as [q ->].
  intros [= <- <- <-]. split; [exact Hc1|]. intros ? [= <-]. eauto.
Qed.

Lemma scx_uptime_floats `{Runtime} :
  keeps_floats SensorsCustomProxmox.ProxmoxNodeUptimeSensor.as_numeric
    SensorsCustomProxmox.ProxmoxBaseSensor._cache.
Proof.
  intros now s w r s' w' Hc.
  unfold SensorsCustomProxmox.ProxmoxNodeUptimeSensor.as_numeric, bind at 1,
    get_self, gets. simpl. unfold bind, lift.
  destruct (SensorsCustomProxmox.ProxmoxBaseSensor._cached _ _ _ _)
    as [r1 [s1 w1]] eqn:E.
  apply (scx_pmx_cached_floats _ _ _ _ _ _ _ _ (scx_upt_calc_float s) Hc) in E
    as [Hc1 Hr].
  destruct r1 as [sec|e]; [|intros [= <- <- <-]; split; auto; intros ? [=]].
  destruct (Hr _ eq_refl) as [f ->].
  destruct (truediv_float_of_float f) as [q ->].
  intros [= <- <- <-]. split; [exact Hc1|]. intros ? [= <-]. eauto.
Qed.

(** X7. The cache of a sensor holds floats only: it is empty when the
    object is built, and an [as_numeric] of any of the thirty classes, on a
    cache of floats, leaves a cache of floats, whatever the peer answers
    and whether the call returns or raises; and what it returns is a float. *)
Theorem X7_cache_holds_floats_only `{Runtime} :
  (∀ url token ttl, floats_only (SensorsCustom.PlexBaseSensor._cache
       (SensorsCustom.PlexBaseSensor.__init__ url token ttl)))
  ∧ (∀ host user tid secret node verify ttl, floats_only (SensorsCustom.ProxmoxBaseSensor._cache
       (SensorsCustom.ProxmoxBaseSensor.__init__ host user tid secret node verify ttl)))
  ∧ (∀ url token ttl, floats_only (SensorsCustomPlex.PlexBaseSensor._cache
       (SensorsCustomPlex.PlexBaseSensor.__init__ url token ttl)))
  ∧ (∀ host user tid secret node verify ttl, floats_only (SensorsCustomProxmox.ProxmoxBaseSensor._cache
       (SensorsCustomProxmox.ProxmoxBaseSensor.__init__ host user tid secret node verify ttl)))
  ∧ keeps_floats SensorsCustom.PlexStreamsSensor.as_numeric SensorsCustom.PlexBaseSensor._cache
  ∧ keeps_floats SensorsCustom.PlexMovieCountSensor.as_numeric SensorsCustom.PlexBaseSensor._cache
  ∧ keeps_floats SensorsCustom.PlexTVShowCountSensor.as_numeric SensorsCustom.PlexBaseSensor._cache
  ∧ keeps_floats SensorsCustom.PlexEpisodesCountSensor.as_numeric SensorsCustom.PlexBaseSensor._cache
  ∧ keeps_floats SensorsCustom.PlexAlbumCountSensor.as_numeric SensorsCustom.PlexBaseSensor._cache
  ∧ keeps_floats SensorsCustom.PlexSongsCountSensor.as_numeric SensorsCustom.PlexBaseSensor._cache
  ∧ keeps_floats SensorsCustom.ProxmoxNodeCPUUsageSensor.as_numeric SensorsCustom.ProxmoxBaseSensor._cache
  ∧ keeps_floats SensorsCustom.ProxmoxNodeMemoryUsageSensor.as_numeric SensorsCustom.ProxmoxBaseSensor._cache
  ∧ keeps_floats SensorsCustom.ProxmoxNodeDiskUsageSensor.as_numeric SensorsCustom.ProxmoxBaseSensor._cache
  ∧ keeps_floats SensorsCustom.ProxmoxNodeUptimeSensor.as_numeric SensorsCustom.ProxmoxBaseSensor._cache
  ∧ keeps_floats SensorsCustom.ProxmoxNodeNetworkSensor.as_numeric SensorsCustom.ProxmoxBaseSensor._cache
  ∧ keeps_floats SensorsCustom.ProxmoxVMCountSensor.as_numeric SensorsCustom.ProxmoxBaseSensor._cache
  ∧ keeps_floats SensorsCustom.ProxmoxLXCCountSensor.as_numeric SensorsCustom.ProxmoxBaseSensor._cache
  ∧ keeps_floats SensorsCustom.ProxmoxVMCPUUsageSensor.as_numeric
      (λ s, SensorsCustom.ProxmoxBaseSensor._cache (SensorsCustom.ProxmoxVMSensor.base s))
  ∧ keeps_floats SensorsCustom.ProxmoxVMMemoryUsageSensor.as_numeric
      (λ s, SensorsCustom.ProxmoxBaseSensor._cache (SensorsCustom.ProxmoxVMSensor.base s))
  ∧ keeps_floats SensorsCustomPlex.PlexStreamsSensor.as_numeric SensorsCustomPlex.PlexBaseSensor._cache
  ∧ keeps_floats SensorsCustomPlex.PlexMovieCountSensor.as_numeric SensorsCustomPlex.PlexBaseSensor._cache
  ∧ keeps_floats SensorsCustomPlex.PlexTVShowCountSensor.as_numeric SensorsCustomPlex.PlexBaseSensor._cache
  ∧ keeps_floats SensorsCustomPlex.PlexEpisodesCountSensor.as_numeric SensorsCustomPlex.PlexBaseSensor._cache
  ∧ keeps_floats SensorsCustomPlex.PlexAlbumCountSensor.as_numeric SensorsCustomPlex.PlexBaseSensor._cache
  ∧ keeps_floats SensorsCustomPlex.PlexSongsCountSensor.as_numeric SensorsCustomPlex.PlexBaseSensor._cache
  ∧ keeps_floats SensorsCustomProxmox.ProxmoxNodeCPUUsageSensor.as_numeric SensorsCustomProxmox.ProxmoxBaseSensor._cache
  ∧ keeps_floats SensorsCustomProxmox.ProxmoxNodeMemoryUsageSensor.as_numeric SensorsCustomProxmox.ProxmoxBaseSensor._cache
  ∧ keeps_floats SensorsCustomProxmox.ProxmoxNodeDiskUsageSensor.as_numeric SensorsCustomProxmox.ProxmoxBaseSensor._cache
  ∧ keeps_floats SensorsCustomProxmox.ProxmoxNodeUptimeSensor.as_numeric SensorsCustomProxmox.ProxmoxBaseSensor._cache
  ∧ keeps_floats SensorsCustomProxmox.ProxmoxNodeNetworkSensor.as_numeric SensorsCustomProxmox.ProxmoxBaseSensor._cache
  ∧ keeps_floats SensorsCustomProxmox.ProxmoxVMCountSensor.as_numeric SensorsCustomProxmox.ProxmoxBaseSensor._cache
  ∧ keeps_floats SensorsCustomProxmox.ProxmoxLXCCountSensor.as_numeric SensorsCustomProxmox.ProxmoxBaseSensor._cache
  ∧ keeps_floats SensorsCustomProxmox.ProxmoxVMCPUUsageSensor.as_numeric
      (λ s, SensorsCustomProxmox.ProxmoxBaseSensor._cache (SensorsCustomProxmox.ProxmoxVMSensor.base s))
  ∧ keeps_floats SensorsCustomProxmox.ProxmoxVMMemoryUsageSensor.as_numeric
      (λ s, SensorsCustomProxmox.ProxmoxBaseSensor._cache (SensorsCustomProxmox.ProxmoxVMSensor.base s)).
Proof.
  repeat match goal with |- _ ∧ _ => split end.
  - intros; apply floats_only_empty.
  - intros; apply floats_only_empty.
  - intros; apply floats_only_empty.
  - intros; apply floats_only_empty.
  - exact (sc_plex_poll_floats "streams" SensorsCustom.PlexStreamsSensor.fn sc_streams_fn_float).
  - exact (sc_plex_poll_floats "plex_movies" SensorsCustom.PlexMovieCountSensor.fn sc_movies_fn_float).
  - exact (sc_plex_poll_floats "plex_shows" SensorsCustom.PlexTVShowCountSensor.fn (λ s w v w', sc_plex_count_float _ _ s w v w')).
  - exact (sc_plex_poll_floats "plex_eps" SensorsCustom.PlexEpisodesCountSensor.fn (λ s w v w', sc_plex_count_float _ _ s w v w')).
  - exact (sc_plex_poll_floats "plex_alb" SensorsCustom.PlexAlbumCountSensor.fn (λ s w v w', sc_plex_count_float _ _ s w v w')).
  - exact (sc_plex_poll_floats "plex_sng" SensorsCustom.PlexSongsCountSensor.fn (λ s w v w', sc_plex_count_float _ _ s w v w')).
  - exact (sc_pmx_poll_floats (node_key "nodecpu_") SensorsCustom.ProxmoxNodeCPUUsageSensor._calc sc_cpu_calc_float).
  - exact (sc_pmx_poll_floats (node_key "nodemem_") SensorsCustom.ProxmoxNodeMemoryUsageSensor._calc sc_mem_calc_float).
  - exact (sc_pmx_poll_floats (node_key "nodedsk_") SensorsCustom.ProxmoxNodeDiskUsageSensor._calc sc_dsk_calc_float).
  - exact sc_uptime_floats.
  - exact (sc_pmx_poll_floats (node_key "nodenet_") SensorsCustom.ProxmoxNodeNetworkSensor._calc sc_net_calc_float).
  - exact (sc_pmx_poll_floats (node_key "vmcnt_") SensorsCustom.ProxmoxVMCountSensor._calc sc_vmcnt_calc_float).
  - exact (sc_pmx_poll_floats (node_key "lxccnt_") SensorsCustom.ProxmoxLXCCountSensor._calc sc_lxccnt_calc_float).
  - exact (sc_vm_poll_floats (vm_key "vmcpu_") SensorsCustom.ProxmoxVMCPUUsageSensor._calc sc_vmcpu_calc_float).
  - exact (sc_vm_poll_floats (vm_key "vmmem_") SensorsCustom.ProxmoxVMMemoryUsageSensor._calc sc_vmmem_calc_float).
  - exact (scp_plex_poll_floats "streams" SensorsCustomPlex.PlexStreamsSensor.fn scp_streams_fn_float).
  - exact (scp_plex_poll_floats "plex_movies" SensorsCustomPlex.PlexMovieCountSensor.fn scp_movies_fn_float).
  - exact (scp_plex_poll_floats "plex_shows" SensorsCustomPlex.PlexTVShowCountSensor.fn (λ s w v w', scp_plex_count_float _ _ s w v w')).
  - exact (scp_plex_poll_floats "plex_eps" SensorsCustomPlex.PlexEpisodesCountSensor.fn (λ s w v w', scp_plex_count_float _ _ s w v w')).
  - exact (scp_plex_poll_floats "plex_alb" SensorsCustomPlex.PlexAlbumCountSensor.fn (λ s w v w', scp_plex_count_float _ _ s w v w')).
  - exact (scp_plex_poll_floats "plex_sng" SensorsCustomPlex.PlexSongsCountSensor.fn (λ s w v w', scp_plex_count_float _ _ s w v w')).
  - exact (scx_pmx_poll_floats (node_key1 "nodecpu_") SensorsCustomProxmox.ProxmoxNodeCPUUsageSensor._calc scx_cpu_calc_float).
  - exact (scx_pmx_poll_floats (node_key1 "nodemem_") SensorsCustomProxmox.ProxmoxNodeMemoryUsageSensor._calc scx_mem_calc_float).
  - exact (scx_pmx_poll_floats (node_key1 "nodedsk_") SensorsCustomProxmox.ProxmoxNodeDiskUsageSensor._calc scx_dsk_calc_float).
  - exact scx_uptime_floats.
  - exact (scx_pmx_poll_floats (node_key1 "nodenet_") SensorsCustomProxmox.ProxmoxNodeNetworkSensor._calc scx_net_calc_float).
  - exact (scx_pmx_poll_floats (node_key1 "vmcnt_") SensorsCustomProxmox.ProxmoxVMCountSensor._calc scx_vmcnt_calc_float).
  - exact (scx_pmx_poll_floats (node_key1 "lxccnt_") SensorsCustomProxmox.ProxmoxLXCCountSensor._calc scx_lxccnt_calc_float).
  - exact (scx_vm_poll_floats (vm_key1 "vmcpu_") SensorsCustomProxmox.ProxmoxVMCPUUsageSensor._calc scx_vmcpu_calc_float).
  - exact (scx_vm_poll_floats (vm_key1 "vmmem_") SensorsCustomProxmox.ProxmoxVMMemoryUsageSensor._calc scx_vmmem_calc_float).
Qed.

(** ** A peer that gives nothing *)

Lemma sc_plex_get_run s ep w :
  SensorsCustom.PlexBaseSensor.url s ≠ "" →
  SensorsCustom.PlexBaseSensor._plex_get s ep w
  = (Ok (plex_payload (Requests.peer w (Requests.sent w) (plex_endpoint ep s))),
     logged w (plex_endpoint ep s)).
Proof. exact (sc_plex_get_eq s ep w). Qed.

Lemma scp_plex_get_run s ep w :
  SensorsCustomPlex.PlexBaseSensor.url s ≠ "" →
  SensorsCustomPlex.PlexBaseSensor._plex_get s ep w
  = (Ok (plex_payload (Requests.peer w (Requests.sent w) (plex_endpoint1 ep s))),
     logged w (plex_endpoint1 ep s)).
Proof. exact (scp_plex_get_eq s ep w). Qed.

Lemma sc_pmx_get_run s ep w :
  SensorsCustom.ProxmoxBaseSensor._pmx_get s ep w
  = (Ok (pmx_payload (Requests.peer w (Requests.sent w)
           (pmx_request (SensorsCustom.ProxmoxBaseSensor.api_base s)
              (SensorsCustom.ProxmoxBaseSensor.headers s)
              (SensorsCustom.ProxmoxBaseSensor.verify_ssl s) ep))),
     logged w (pmx_request (SensorsCustom.ProxmoxBaseSensor.api_base s)
                 (SensorsCustom.ProxmoxBaseSensor.headers s)
                 (SensorsCustom.ProxmoxBaseSensor.verify_ssl s) ep)).
Proof. exact (sc_pmx_get_eq s ep w). Qed.

Lemma scx_pmx_get_run s ep w :
  SensorsCustomProxmox.ProxmoxBaseSensor._pmx_get s ep w
  = (Ok (pmx_payload (Requests.peer w (Requests.sent w)
           (pmx_request (SensorsCustomProxmox.ProxmoxBaseSensor.api_base s)
              (SensorsCustomProxmox.ProxmoxBaseSensor.headers s)
              (SensorsCustomProxmox.ProxmoxBaseSensor.verify_ssl s) ep))),
     logged w (pmx_request (SensorsCustomProxmox.ProxmoxBaseSensor.api_base s)
                 (SensorsCustomProxmox.ProxmoxBaseSensor.headers s)
                 (SensorsCustomProxmox.ProxmoxBaseSensor.verify_ssl s) ep)).
Proof. exact (scx_pmx_get_eq s ep w). Qed.

(** The compute functions on a falsy payload: [or] puts an empty dict or
    list in its place, whose defaults give [0.0]. *)
Ltac calc_zero_tac run :=
  intros Hp; unfold bind at 1; rewrite run by assumption; cbv beta iota zeta;
  unfold or_; rewrite Hp; reflexivity.

Section ComputeZero.
Context `{Runtime}.

Lemma sc_cpu_calc_zero s w :
  truthy (pmx_payload (Requests.peer w (Requests.sent w) ((node_request "/status") s))) = false →
  SensorsCustom.ProxmoxNodeCPUUsageSensor._calc s w = (Ok (VFloat 0), logged w ((node_request "/status") s)).
Proof.
  unfold SensorsCustom.ProxmoxNodeCPUUsageSensor._calc, node_request.
  calc_zero_tac sc_pmx_get_run.
Qed.

Lemma sc_mem_calc_zero s w :
  truthy (pmx_payload (Requests.peer w (Requests.sent w) ((node_request "/status") s))) = false →
  SensorsCustom.ProxmoxNodeMemoryUsageSensor._calc s w = (Ok (VFloat 0), logged w ((node_request "/status") s)).
Proof.
  unfold SensorsCustom.ProxmoxNodeMemoryUsageSensor._calc, node_request.
  calc_zero_tac sc_pmx_get_run.
Qed.

Lemma sc_dsk_calc_zero s w :
  truthy (pmx_payload (Requests.peer w (Requests.sent w) ((node_request "/status") s))) = false →
  SensorsCustom.ProxmoxNodeDiskUsageSensor._calc s w = (Ok (VFloat 0), logged w ((node_request "/status") s)).
Proof.
  unfold SensorsCustom.ProxmoxNodeDiskUsageSensor._calc, node_request.
  calc_zero_tac sc_pmx_get_run.
Qed.

Lemma sc_upt_calc_zero s w :
  truthy (pmx_payload (Requests.peer w (Requests.sent w) ((node_request "/status") s))) = false →
  SensorsCustom.ProxmoxNodeUptimeSensor._calc s w = (Ok (VFloat 0), logged w ((node_request "/status") s)).
Proof.
  unfold SensorsCustom.ProxmoxNodeUptimeSensor._calc, node_request.
  calc_zero_tac sc_pmx_get_run.
Qed.

Lemma sc_net_calc_zero s w :
  truthy (pmx_payload (Requests.peer w (Requests.sent w) ((node_request "/netstat") s))) = false →
  SensorsCustom.ProxmoxNodeNetworkSensor._calc s w = (Ok (VFloat 0), logged w ((node_request "/netstat") s)).
Proof.
  unfold SensorsCustom.ProxmoxNodeNetworkSensor._calc, node_request.
  calc_zero_tac sc_pmx_get_run.
Qed.

Lemma sc_vmcnt_calc_zero s w :
  truthy (pmx_payload (Requests.peer w (Requests.sent w) ((node_request "/qemu") s))) = false →
  SensorsCustom.ProxmoxVMCountSensor._calc s w = (Ok (VFloat 0), logged w ((node_request "/qemu") s)).
Proof.
  unfold SensorsCustom.ProxmoxVMCountSensor._calc, node_request.
  calc_zero_tac sc_pmx_get_run.
Qed.

Lemma sc_lxccnt_calc_zero s w :
  truthy (pmx_payload (Requests.peer w (Requests.sent w) ((node_request "/lxc") s))) = false →
  SensorsCustom.ProxmoxLXCCountSensor._calc s w = (Ok (VFloat 0), logged w ((node_request "/lxc") s)).
Proof.
  unfold SensorsCustom.ProxmoxLXCCountSensor._calc, node_request.
  calc_zero_tac sc_pmx_get_run.
Qed.

Lemma sc_vmcpu_calc_zero s w :
  truthy (pmx_payload (Requests.peer w (Requests.sent w) (vm_request s))) = false →
  SensorsCustom.ProxmoxVMCPUUsageSensor._calc s w = (Ok (VFloat 0), logged w (vm_request s)).
Proof.
  unfold SensorsCustom.ProxmoxVMCPUUsageSensor._calc, vm_request.
  calc_zero_tac sc_pmx_get_run.
Qed.

Lemma sc_vmmem_calc_zero s w :
  truthy (pmx_payload (Requests.peer w (Requests.sent w) (vm_request s))) = false →
  SensorsCustom.ProxmoxVMMemoryUsageSensor._calc s w = (Ok (VFloat 0), logged w (vm_request s)).
Proof.
  unfold SensorsCustom.ProxmoxVMMemoryUsageSensor._calc, vm_request.
  calc_zero_tac sc_pmx_get_run.
Qed.

Lemma scx_cpu_calc_zero s w :
  truthy (pmx_payload (Requests.peer w (Requests.sent w) ((node_request1 "/status") s))) = false →
  SensorsCustomProxmox.ProxmoxNodeCPUUsageSensor._calc s w = (Ok (VFloat 0), logged w ((node_request1 "/status") s)).
Proof.
  unfold SensorsCustomProxmox.ProxmoxNodeCPUUsageSensor._calc, node_request1.
  calc_zero_tac scx_pmx_get_run.
Qed.

Lemma scx_mem_calc_zero s w :
  truthy (pmx_payload (Requests.peer w (Requests.sent w) ((node_request1 "/status") s))) = false →
  SensorsCustomProxmox.ProxmoxNodeMemoryUsageSensor._calc s w = (Ok (VFloat 0), logged w ((node_request1 "/status") s)).
Proof.
  unfold SensorsCustomProxmox.ProxmoxNodeMemoryUsageSensor._calc, node_request1.
  calc_zero_tac scx_pmx_get_run.
Qed.

Lemma scx_dsk_calc_zero s w :
  truthy (pmx_payload (Requests.peer w (Requests.sent w) ((node_request1 "/status") s))) = false →
  SensorsCustomProxmox.ProxmoxNodeDiskUsageSensor._calc s w = (Ok (VFloat 0), logged w ((node_request1 "/status") s)).
Proof.
  unfold SensorsCustomProxmox.ProxmoxNodeDiskUsageSensor._calc, node_request1.
  calc_zero_tac scx_pmx_get_run.
Qed.

Lemma scx_upt_calc_zero s w :
  truthy (pmx_payload (Requests.peer w (Requests.sent w) ((node_request1 "/status") s))) = false →
  SensorsCustomProxmox.ProxmoxNodeUptimeSensor._calc s w = (Ok (VFloat 0), logged w ((node_request1 "/status") s)).
Proof.
  unfold SensorsCustomProxmox.ProxmoxNodeUptimeSensor._calc, node_request1.
  calc_zero_tac scx_pmx_get_run.
Qed.

Lemma scx_net_calc_zero s w :
  truthy (pmx_payload (Requests.peer w (Requests.sent w) ((node_request1 "/netstat") s))) = false →
  SensorsCustomProxmox.ProxmoxNodeNetworkSensor._calc s w = (Ok (VFloat 0), logged w ((node_request1 "/netstat") s)).
Proof.
  unfold SensorsCustomProxmox.ProxmoxNodeNetworkSensor._calc, node_request1.
  calc_zero_tac scx_pmx_get_run.
Qed.

Lemma scx_vmcnt_calc_zero s w :
  truthy (pmx_payload (Requests.peer w (Requests.sent w) ((node_request1 "/qemu") s))) = false →
  SensorsCustomProxmox.ProxmoxVMCountSensor._calc s w = (Ok (VFloat 0), logged w ((node_request1 "/qemu") s)).
Proof.
  unfold SensorsCustomProxmox.ProxmoxVMCountSensor._calc, node_request1.
  calc_zero_tac scx_pmx_get_run.
Qed.

Lemma scx_lxccnt_calc_zero s w :
  truthy (pmx_payload (Requests.peer w (Requests.sent w) ((node_request1 "/lxc") s))) = false →
  SensorsCustomProxmox.ProxmoxLXCCountSensor._calc s w = (Ok (VFloat 0), logged w ((node_request1 "/lxc") s)).
Proof.
  unfold SensorsCustomProxmox.ProxmoxLXCCountSensor._calc, node_request1.
  calc_zero_tac scx_pmx_get_run.
Qed.

Lemma scx_vmcpu_calc_zero s w :
  truthy (pmx_payload (Requests.peer w (Requests.sent w) (vm_request1 s))) = false →
  SensorsCustomProxmox.ProxmoxVMCPUUsageSensor._calc s w = (Ok (VFloat 0), logged w (vm_request1 s)).
Proof.
  unfold SensorsCustomProxmox.ProxmoxVMCPUUsageSensor._calc, vm_request1.
  calc_zero_tac scx_pmx_get_run.
Qed.

Lemma scx_vmmem_calc_zero s w :
  truthy (pmx_payload (Requests.peer w (Requests.sent w) (vm_request1 s))) = false →
  SensorsCustomProxmox.ProxmoxVMMemoryUsageSensor._calc s w = (Ok (VFloat 0), logged w (vm_request1 s)).
Proof.
  unfold SensorsCustomProxmox.ProxmoxVMMemoryUsageSensor._calc, vm_request1.
  calc_zero_tac scx_pmx_get_run.
Qed.

Lemma sc_streams_fn_zero s w :
  SensorsCustom.PlexBaseSensor.url s ≠ "" →
  truthy (plex_payload (Requests.peer w (Requests.sent w) ((plex_endpoint "/status/sessions") s))) = false →
  SensorsCustom.PlexStreamsSensor.fn s w = (Ok (VFloat 0), logged w ((plex_endpoint "/status/sessions") s)).
Proof.
  intros Hu. unfold SensorsCustom.PlexStreamsSensor.fn.
  calc_zero_tac sc_plex_get_run.
Qed.

Lemma sc_movies_fn_zero s w :
  SensorsCustom.PlexBaseSensor.url s ≠ "" →
  truthy (plex_payload (Requests.peer w (Requests.sent w) ((plex_endpoint "/library/sections") s))) = false →
  SensorsCustom.PlexMovieCountSensor.fn s w = (Ok (VFloat 0), logged w ((plex_endpoint "/library/sections") s)).
Proof.
  intros Hu. unfold SensorsCustom.PlexMovieCountSensor.fn.
  calc_zero_tac sc_plex_get_run.
Qed.

Lemma sc_shows_fn_zero s w :
  SensorsCustom.PlexBaseSensor.url s ≠ "" →
  truthy (plex_payload (Requests.peer w (Requests.sent w) ((plex_endpoint "/library/sections") s))) = false →
  SensorsCustom.PlexTVShowCountSensor.fn s w = (Ok (VFloat 0), logged w ((plex_endpoint "/library/sections") s)).
Proof.
  intros Hu. unfold SensorsCustom.PlexTVShowCountSensor.fn, SensorsCustom.plex_count.
  calc_zero_tac sc_plex_get_run.
Qed.

Lemma sc_eps_fn_zero s w :
  SensorsCustom.PlexBaseSensor.url s ≠ "" →
  truthy (plex_payload (Requests.peer w (Requests.sent w) ((plex_endpoint "/library/sections") s))) = false →
  SensorsCustom.PlexEpisodesCountSensor.fn s w = (Ok (VFloat 0), logged w ((plex_endpoint "/library/sections") s)).
Proof.
  intros Hu. unfold SensorsCustom.PlexEpisodesCountSensor.fn, SensorsCustom.plex_count.
  calc_zero_tac sc_plex_get_run.
Qed.

Lemma sc_alb_fn_zero s w :
  SensorsCustom.PlexBaseSensor.url s ≠ "" →
  truthy (plex_payload (Requests.peer w (Requests.sent w) ((plex_endpoint "/library/sections") s))) = false →
  SensorsCustom.PlexAlbumCountSensor.fn s w = (Ok (VFloat 0), logged w ((plex_endpoint "/library/sections") s)).
Proof.
  intros Hu. unfold SensorsCustom.PlexAlbumCountSensor.fn, SensorsCustom.plex_count.
  calc_zero_tac sc_plex_get_run.
Qed.

Lemma sc_sng_fn_zero s w :
  SensorsCustom.PlexBaseSensor.url s ≠ "" →
  truthy (plex_payload (Requests.peer w (Requests.sent w) ((plex_endpoint "/library/sections") s))) = false →
  SensorsCustom.PlexSongsCountSensor.fn s w = (Ok (VFloat 0), logged w ((plex_endpoint "/library/sections") s)).
Proof.
  intros Hu. unfold SensorsCustom.PlexSongsCountSensor.fn, SensorsCustom.plex_count.
  calc_zero_tac sc_plex_get_run.
Qed.

Lemma scp_streams_fn_zero s w :
  SensorsCustomPlex.PlexBaseSensor.url s ≠ "" →
  truthy (plex_payload (Requests.peer w (Requests.sent w) ((plex_endpoint1 "/status/sessions") s))) = false →
  SensorsCustomPlex.PlexStreamsSensor.fn s w = (Ok (VFloat 0), logged w ((plex_endpoint1 "/status/sessions") s)).
Proof.
  intros Hu. unfold SensorsCustomPlex.PlexStreamsSensor.fn.
  calc_zero_tac scp_plex_get_run.
Qed.

Lemma scp_movies_fn_zero s w :
  SensorsCustomPlex.PlexBaseSensor.url s ≠ "" →
  truthy (plex_payload (Requests.peer w (Requests.sent w) ((plex_endpoint1 "/library/sections") s))) = false →
  SensorsCustomPlex.PlexMovieCountSensor.fn s w = (Ok (VFloat 0), logged w ((plex_endpoint1 "/library/sections") s)).
Proof.
  intros Hu. unfold SensorsCustomPlex.PlexMovieCountSensor.fn.
  calc_zero_tac scp_plex_get_run.
Qed.

Lemma scp_shows_fn_zero s w :
  SensorsCustomPlex.PlexBaseSensor.url s ≠ "" →
  truthy (plex_payload (Requests.peer w (Requests.sent w) ((plex_endpoint1 "/library/sections") s))) = false →
  SensorsCustomPlex.PlexTVShowCountSensor.fn s w = (Ok (VFloat 0), logged w ((plex_endpoint1 "/library/sections") s)).
Proof.
  intros Hu. unfold SensorsCustomPlex.PlexTVShowCountSensor.fn, SensorsCustomPlex.plex_count.
  calc_zero_tac scp_plex_get_run.
Qed.

Lemma scp_eps_fn_zero s w :
  SensorsCustomPlex.PlexBaseSensor.url s ≠ "" →
  truthy (plex_payload (Requests.peer w (Requests.sent w) ((plex_endpoint1 "/library/sections") s))) = false →
  SensorsCustomPlex.PlexEpisodesCountSensor.fn s w = (Ok (VFloat 0), logged w ((plex_endpoint1 "/library/sections") s)).
Proof.
  intros Hu. unfold SensorsCustomPlex.PlexEpisodesCountSensor.fn, SensorsCustomPlex.plex_count.
  calc_zero_tac scp_plex_get_run.
Qed.

Lemma scp_alb_fn_zero s w :
  SensorsCustomPlex.PlexBaseSensor.url s ≠ "" →
  truthy (plex_payload (Requests.peer w (Requests.sent w) ((plex_endpoint1 "/library/sections") s))) = false →
  SensorsCustomPlex.PlexAlbumCountSensor.fn s w = (Ok (VFloat 0), logged w ((plex_endpoint1 "/library/sections") s)).
Proof.
  intros Hu. unfold SensorsCustomPlex.PlexAlbumCountSensor.fn, SensorsCustomPlex.plex_count.
  calc_zero_tac scp_plex_get_run.
Qed.

Lemma scp_sng_fn_zero s w :
  SensorsCustomPlex.PlexBaseSensor.url s ≠ "" →
  truthy (plex_payload (Requests.peer w (Requests.sent w) ((plex_endpoint1 "/library/sections") s))) = false →
  SensorsCustomPlex.PlexSongsCountSensor.fn s w = (Ok (VFloat 0), logged w ((plex_endpoint1 "/library/sections") s)).
Proof.
  intros Hu. unfold SensorsCustomPlex.PlexSongsCountSensor.fn, SensorsCustomPlex.plex_count.
  calc_zero_tac scp_plex_get_run.
Qed.

End ComputeZero.

(** The shapes of [as_numeric], given such a compute function. *)
Lemma sc_plex_poll_zero key fn ep :
  (∀ s w, SensorsCustom.PlexBaseSensor.url s ≠ "" →
     truthy (plex_payload (Requests.peer w (Requests.sent w) (plex_endpoint ep s)))
       = false →
     fn s w = (Ok (VFloat 0), logged w (plex_endpoint ep s))) →
  plex_unavailable (sc_plex_poll key fn) key ep.
Proof.
  intros Hfn now s w Hl Hf Hp.
  rewrite sc_plex_poll_eq, (sc_plex_cached_miss _ _ _ _ _ _ _ Hf (Hfn s w Hl Hp)).
  eexists. split; [reflexivity|]. simpl. now rewrite !lookup_insert_eq.
Qed.

Lemma scp_plex_poll_zero key fn ep :
  (∀ s w, SensorsCustomPlex.PlexBaseSensor.url s ≠ "" →
     truthy (plex_payload (Requests.peer w (Requests.sent w) (plex_endpoint1 ep s)))
       = false →
     fn s w = (Ok (VFloat 0), logged w (plex_endpoint1 ep s))) →
  plex_unavailable1 (scp_plex_poll key fn) key ep.
Proof.
  intros Hfn now s w Hl Hf Hp.
  unfold scp_plex_poll, bind, get_self, gets. simpl.
  rewrite (scp_plex_cached_miss _ _ _ _ _ _ _ Hf (Hfn s w Hl Hp)).
  eexists. split; [reflexivity|]. simpl. now rewrite !lookup_insert_eq.
Qed.

Lemma sc_pmx_poll_zero prefix calc path :
  (∀ s w,
     truthy (pmx_payload (Requests.peer w (Requests.sent w) (node_request path s)))
       = false →
     calc s w = (Ok (VFloat 0), logged w (node_request path s))) →
  node_unavailable (sc_pmx_poll (node_key prefix) calc) prefix path.
Proof.
  intros Hfn now s w _ Hf Hp.
  rewrite sc_pmx_poll_eq, (sc_pmx_cached_miss _ _ _ _ _ _ _ Hf (Hfn s w Hp)).
  eexists. split; [reflexivity|]. simpl. now rewrite !lookup_insert_eq.
Qed.

Lemma sc_vm_poll_zero prefix calc :
  (∀ s w,
     truthy (pmx_payload (Requests.peer w (Requests.sent w) (vm_request s))) = false →
     calc s w = (Ok (VFloat 0), logged w (vm_request s))) →
  vm_unavailable (sc_vm_poll (vm_key prefix) calc) prefix.
Proof.
  intros Hfn now s w _ Hf Hp.
  rewrite sc_vm_poll_eq, (sc_pmx_cached_miss _ _ _ _ _ _ _ Hf (Hfn s w Hp)).
  eexists. split; [reflexivity|]. simpl. now rewrite !lookup_insert_eq.
Qed.

Lemma scx_pmx_poll_zero prefix calc path :
  (∀ s w,
     truthy (pmx_payload (Requests.peer w (Requests.sent w) (node_request1 path s)))
       = false →
     calc s w = (Ok (VFloat 0), logged w (node_request1 path s))) →
  node_unavailable1 (scx_pmx_poll (node_key1 prefix) calc) prefix path.
Proof.
  intros Hfn now s w _ Hf Hp.
  unfold scx_pmx_poll, bind, get_self, gets. simpl.
  rewrite (scx_pmx_cached_miss _ _ _ _ _ _ _ Hf (Hfn s w Hp)) by discriminate.
  eexists. split; [reflexivity|]. simpl. now rewrite !lookup_insert_eq.
Qed.

Lemma scx_vm_poll_zero prefix calc :
  (∀ s w,
     truthy (pmx_payload (Requests.peer w (Requests.sent w) (vm_request1 s))) = false →
     calc s w = (Ok (VFloat 0), logged w (vm_request1 s))) →
  vm_unavailable1 (scx_vm_poll (vm_key1 prefix) calc) prefix.
Proof.
  intros Hfn now s w _ Hf Hp.
  unfold scx_vm_poll, bind, get_self, gets. simpl.
  unfold SensorsCustomProxmox.ProxmoxVMSensor.super. simpl.
  rewrite (scx_pmx_cached_miss _ _ _ _ _ _ _ Hf (Hfn s w Hp)) by discriminate.
  eexists. split; [reflexivity|]. simpl. now rewrite !lookup_insert_eq.
Qed.

Lemma sc_uptime_zero `{Runtime} :
  node_unavailable SensorsCustom.ProxmoxNodeUptimeSensor.as_numeric
    "nodeupt_" "/status".
Proof.
  intros now s w _ Hf Hp.
  rewrite sc_uptime_numeric_eq,
    (sc_pmx_cached_miss _ _ _ _ _ _ _ Hf (sc_upt_calc_zero s w Hp)).
  eexists. split; [reflexivity|]. simpl. now rewrite !lookup_insert_eq.
Qed.

Lemma scx_uptime_zero `{Runtime} :
  node_unavailable1 SensorsCustomProxmox.ProxmoxNodeUptimeSensor.as_numeric
    "nodeupt_" "/status".
Proof.
  intros now s w _ Hf Hp.
  unfold SensorsCustomProxmox.ProxmoxNodeUptimeSensor.as_numeric, bind at 1,
    get_self, gets. simpl. unfold bind, lift.
  fold (node_key1 "nodeupt_" s).
  rewrite (scx_pmx_cached_miss _ _ _ _ _ _ _ Hf (scx_upt_calc_zero s w Hp))
    by discriminate.
  eexists. split; [reflexivity|]. simpl. now rewrite !lookup_insert_eq.
Qed.

(** X8. A Proxmox sensor whose entry is missing or stale, and whose peer
    gives nothing (the request raises, the status is not 200, the body is
    no JSON or has no ["data"], or the data is empty): the call sends its
    one request, returns [0.0] and stores [0.0] with the time of the call,
    over whatever value was stored. For the nine classes of
    sensors_custom.py and the nine of sensors_custom_proxmox.py; in the
    latter the compute functions turn the [None] of [_pmx_get] into [0.0],
    so the branch of [_cached] that keeps the last good value is not the
    one taken. *)
Theorem X8_proxmox_failed_fetch_reads_and_stores_zero `{Runtime} :
  node_unavailable SensorsCustom.ProxmoxNodeCPUUsageSensor.as_numeric "nodecpu_" "/status"
  ∧ node_unavailable SensorsCustom.ProxmoxNodeMemoryUsageSensor.as_numeric "nodemem_" "/status"
  ∧ node_unavailable SensorsCustom.ProxmoxNodeDiskUsageSensor.as_numeric "nodedsk_" "/status"
  ∧ node_unavailable SensorsCustom.ProxmoxNodeUptimeSensor.as_numeric "nodeupt_" "/status"
  ∧ node_unavailable SensorsCustom.ProxmoxNodeNetworkSensor.as_numeric "nodenet_" "/netstat"
  ∧ node_unavailable SensorsCustom.ProxmoxVMCountSensor.as_numeric "vmcnt_" "/qemu"
  ∧ node_unavailable SensorsCustom.ProxmoxLXCCountSensor.as_numeric "lxccnt_" "/lxc"
  ∧ vm_unavailable SensorsCustom.ProxmoxVMCPUUsageSensor.as_numeric "vmcpu_"
  ∧ vm_unavailable SensorsCustom.ProxmoxVMMemoryUsageSensor.as_numeric "vmmem_"
  ∧ node_unavailable1 SensorsCustomProxmox.ProxmoxNodeCPUUsageSensor.as_numeric "nodecpu_" "/status"
  ∧ node_unavailable1 SensorsCustomProxmox.ProxmoxNodeMemoryUsageSensor.as_numeric "nodemem_" "/status"
  ∧ node_unavailable1 SensorsCustomProxmox.ProxmoxNodeDiskUsageSensor.as_numeric "nodedsk_" "/status"
  ∧ node_unavailable1 SensorsCustomProxmox.ProxmoxNodeUptimeSensor.as_numeric "nodeupt_" "/status"
  ∧ node_unavailable1 SensorsCustomProxmox.ProxmoxNodeNetworkSensor.as_numeric "nodenet_" "/netstat"
  ∧ node_unavailable1 SensorsCustomProxmox.ProxmoxVMCountSensor.as_numeric "vmcnt_" "/qemu"
  ∧ node_unavailable1 SensorsCustomProxmox.ProxmoxLXCCountSensor.as_numeric "lxccnt_" "/lxc"
  ∧ vm_unavailable1 SensorsCustomProxmox.ProxmoxVMCPUUsageSensor.as_numeric "vmcpu_"
  ∧ vm_unavailable1 SensorsCustomProxmox.ProxmoxVMMemoryUsageSensor.as_numeric "vmmem_".
Proof.
  repeat match goal with |- _ ∧ _ => split end.
  - exact (sc_pmx_poll_zero "nodecpu_" SensorsCustom.ProxmoxNodeCPUUsageSensor._calc "/status" sc_cpu_calc_zero).
  - exact (sc_pmx_poll_zero "nodemem_" SensorsCustom.ProxmoxNodeMemoryUsageSensor._calc "/status" sc_mem_calc_zero).
  - exact (sc_pmx_poll_zero "nodedsk_" SensorsCustom.ProxmoxNodeDiskUsageSensor._calc "/status" sc_dsk_calc_zero).
  - exact sc_uptime_zero.
  - exact (sc_pmx_poll_zero "nodenet_" SensorsCustom.ProxmoxNodeNetworkSensor._calc "/netstat" sc_net_calc_zero).
  - exact (sc_pmx_poll_zero "vmcnt_" SensorsCustom.ProxmoxVMCountSensor._calc "/qemu" sc_vmcnt_calc_zero).
  - exact (sc_pmx_poll_zero "lxccnt_" SensorsCustom.ProxmoxLXCCountSensor._calc "/lxc" sc_lxccnt_calc_zero).
  - exact (sc_vm_poll_zero "vmcpu_" SensorsCustom.ProxmoxVMCPUUsageSensor._calc sc_vmcpu_calc_zero).
  - exact (sc_vm_poll_zero "vmmem_" SensorsCustom.ProxmoxVMMemoryUsageSensor._calc sc_vmmem_calc_zero).
  - exact (scx_pmx_poll_zero "nodecpu_" SensorsCustomProxmox.ProxmoxNodeCPUUsageSensor._calc "/status" scx_cpu_calc_zero).
  - exact (scx_pmx_poll_zero "nodemem_" SensorsCustomProxmox.ProxmoxNodeMemoryUsageSensor._calc "/status" scx_mem_calc_zero).
  - exact (scx_pmx_poll_zero "nodedsk_" SensorsCustomProxmox.ProxmoxNodeDiskUsageSensor._calc "/status" scx_dsk_calc_zero).
  - exact scx_uptime_zero.
  - exact (scx_pmx_poll_zero "nodenet_" SensorsCustomProxmox.ProxmoxNodeNetworkSensor._calc "/netstat" scx_net_calc_zero).
  - exact (scx_pmx_poll_zero "vmcnt_" SensorsCustomProxmox.ProxmoxVMCountSensor._calc "/qemu" scx_vmcnt_calc_zero).
  - exact (scx_pmx_poll_zero "lxccnt_" SensorsCustomProxmox.ProxmoxLXCCountSensor._calc "/lxc" scx_lxccnt_calc_zero).
  - exact (scx_vm_poll_zero "vmcpu_" SensorsCustomProxmox.ProxmoxVMCPUUsageSensor._calc scx_vmcpu_calc_zero).
  - exact (scx_vm_poll_zero "vmmem_" SensorsCustomProxmox.ProxmoxVMMemoryUsageSensor._calc scx_vmmem_calc_zero).
Qed.

(** X8 at a concrete input: the sensor of the node's CPU of
    sensors_custom_proxmox.py, holding 12.5 observed at time 0 with a time
    to live of 30, read at time 31 from a peer that answers 503. *)
Lemma X8_witness :
  let s := SensorsCustomProxmox.ProxmoxBaseSensor.set_last <["nodecpu_pve" := 0%float]>
             (SensorsCustomProxmox.ProxmoxBaseSensor.set_cache
                <["nodecpu_pve" := VFloat 12.5]> sample_pmx1) in
  ∃ s', SensorsCustomProxmox.ProxmoxNodeCPUUsageSensor.as_numeric
          (H := sample_runtime) 31 (s, failing_world)
        = (Ok (VFloat 0), (s', logged failing_world (node_request1 "/status" s)))
        ∧ SensorsCustomProxmox.ProxmoxBaseSensor._cache s' !! "nodecpu_pve"
          = Some (VFloat 0)
        ∧ SensorsCustomProxmox.ProxmoxBaseSensor._last s' !! "nodecpu_pve"
          = Some 31%float.
Proof.
  cbv zeta.
  refine (proj1 (proj2 (proj2 (proj2 (proj2 (proj2 (proj2 (proj2 (proj2 (proj2
            (X8_proxmox_failed_fetch_reads_and_stores_zero (H := sample_runtime)))))))))))
            31%float _ failing_world I _ _).
  - vm_compute. reflexivity.
  - reflexivity.
Defined.

(** X9. A Plex sensor with a URL, whose entry is missing or stale and whose
    peer gives nothing for the sessions (for the streams) or for the list of
    the library sections (for the five counts): the call sends that one
    request and no other, returns [0.0] and stores [0.0] with the time of
    the call. For the six classes of sensors_custom.py and the six of
    sensors_custom_plex.py. *)
Theorem X9_plex_failed_fetch_reads_and_stores_zero `{Runtime} :
  plex_unavailable SensorsCustom.PlexStreamsSensor.as_numeric "streams" "/status/sessions"
  ∧ plex_unavailable SensorsCustom.PlexMovieCountSensor.as_numeric "plex_movies" "/library/sections"
  ∧ plex_unavailable SensorsCustom.PlexTVShowCountSensor.as_numeric "plex_shows" "/library/sections"
  ∧ plex_unavailable SensorsCustom.PlexEpisodesCountSensor.as_numeric "plex_eps" "/library/sections"
  ∧ plex_unavailable SensorsCustom.PlexAlbumCountSensor.as_numeric "plex_alb" "/library/sections"
  ∧ plex_unavailable SensorsCustom.PlexSongsCountSensor.as_numeric "plex_sng" "/library/sections"
  ∧ plex_unavailable1 SensorsCustomPlex.PlexStreamsSensor.as_numeric "streams" "/status/sessions"
  ∧ plex_unavailable1 SensorsCustomPlex.PlexMovieCountSensor.as_numeric "plex_movies" "/library/sections"
  ∧ plex_unavailable1 SensorsCustomPlex.PlexTVShowCountSensor.as_numeric "plex_shows" "/library/sections"
  ∧ plex_unavailable1 SensorsCustomPlex.PlexEpisodesCountSensor.as_numeric "plex_eps" "/library/sections"
  ∧ plex_unavailable1 SensorsCustomPlex.PlexAlbumCountSensor.as_numeric "plex_alb" "/library/sections"
  ∧ plex_unavailable1 SensorsCustomPlex.PlexSongsCountSensor.as_numeric "plex_sng" "/library/sections".
Proof.
  repeat match goal with |- _ ∧ _ => split end.
  - exact (sc_plex_poll_zero "streams" SensorsCustom.PlexStreamsSensor.fn "/status/sessions" sc_streams_fn_zero).
  - exact (sc_plex_poll_zero "plex_movies" SensorsCustom.PlexMovieCountSensor.fn "/library/sections" sc_movies_fn_zero).
  - exact (sc_plex_poll_zero "plex_shows" SensorsCustom.PlexTVShowCountSensor.fn "/library/sections" sc_shows_fn_zero).
  - exact (sc_plex_poll_zero "plex_eps" SensorsCustom.PlexEpisodesCountSensor.fn "/library/sections" sc_eps_fn_zero).
  - exact (sc_plex_poll_zero "plex_alb" SensorsCustom.PlexAlbumCountSensor.fn "/library/sections" sc_alb_fn_zero).
  - exact (sc_plex_poll_zero "plex_sng" SensorsCustom.PlexSongsCountSensor.fn "/library/sections" sc_sng_fn_zero).
  - exact (scp_plex_poll_zero "streams" SensorsCustomPlex.PlexStreamsSensor.fn "/status/sessions" scp_streams_fn_zero).
  - exact (scp_plex_poll_zero "plex_movies" SensorsCustomPlex.PlexMovieCountSensor.fn "/library/sections" scp_movies_fn_zero).
  - exact (scp_plex_poll_zero "plex_shows" SensorsCustomPlex.PlexTVShowCountSensor.fn "/library/sections" scp_shows_fn_zero).
  - exact (scp_plex_poll_zero "plex_eps" SensorsCustomPlex.PlexEpisodesCountSensor.fn "/library/sections" scp_eps_fn_zero).
  - exact (scp_plex_poll_zero "plex_alb" SensorsCustomPlex.PlexAlbumCountSensor.fn "/library/sections" scp_alb_fn_zero).
  - exact (scp_plex_poll_zero "plex_sng" SensorsCustomPlex.PlexSongsCountSensor.fn "/library/sections" scp_sng_fn_zero).
Qed.

(** X9 at a concrete input: the streams of sensors_custom.py, holding 10
    observed at time 0 with a time to live of 30, read at time 31 from a
    peer that answers 503. *)
Lemma X9_witness :
  ∃ s', SensorsCustom.PlexStreamsSensor.as_numeric (H := sample_runtime) 31
          (sample_plex_warm, failing_world)
        = (Ok (VFloat 0),
           (s', logged failing_world (plex_endpoint "/status/sessions" sample_plex_warm)))
        ∧ SensorsCustom.PlexBaseSensor._cache s' !! "streams" = Some (VFloat 0)
        ∧ SensorsCustom.PlexBaseSensor._last s' !! "streams" = Some 31%float.
Proof.
  refine (proj1 (X9_plex_failed_fetch_reads_and_stores_zero (H := sample_runtime))
            31%float sample_plex_warm failing_world _ _ _).
  - discriminate.
  - vm_compute. reflexivity.
  - reflexivity.
Defined.

(** ** The requests of one read *)

(** A loop whose body leaves the state alone leaves the state alone. *)
Lemma for_frame {Σ A B} (l : list A) (body : A → B → SE Σ B) :
  (∀ x acc σ, snd (body x acc σ) = σ) →
  ∀ acc σ, snd (for_ l acc body σ) = σ.
Proof.
  intros Hb. induction l as [|x l IH]; intros acc σ; simpl; [reflexivity|].
  unfold bind. specialize (Hb x acc σ).
  destruct (body x acc σ) as [[acc'|e] σ1]; simpl in Hb; subst σ1; [apply IH|reflexivity].
Qed.

(** What is left of a compute function after its request touches the world
    no more. *)
Ltac pure_rest :=
  cbv beta iota zeta; unfold bind, lift, ret, rtry, rbind;
  repeat match goal with
         | |- context [match ?x with _ => _ end] =>
             lazymatch x with
             | context [match _ with _ => _ end] => fail
             | _ => destruct x; cbv beta iota
             end
         end;
  reflexivity.

Ltac calc_world_tac run :=
  unfold bind at 1; rewrite run by assumption; pure_rest.

Section ComputeWorld.
Context `{Runtime}.

Lemma sc_cpu_calc_world s w :
  snd (SensorsCustom.ProxmoxNodeCPUUsageSensor._calc s w) = logged w ((node_request "/status") s).
Proof.
  unfold SensorsCustom.ProxmoxNodeCPUUsageSensor._calc, node_request.
  calc_world_tac sc_pmx_get_run.
Qed.

Lemma sc_mem_calc_world s w :
  snd (SensorsCustom.ProxmoxNodeMemoryUsageSensor._calc s w) = logged w ((node_request "/status") s).
Proof.
  unfold SensorsCustom.ProxmoxNodeMemoryUsageSensor._calc, node_request.
  calc_world_tac sc_pmx_get_run.
Qed.

Lemma sc_dsk_calc_world s w :
  snd (SensorsCustom.ProxmoxNodeDiskUsageSensor._calc s w) = logged w ((node_request "/status") s).
Proof.
  unfold SensorsCustom.ProxmoxNodeDiskUsageSensor._calc, node_request.
  calc_world_tac sc_pmx_get_run.
Qed.

Lemma sc_upt_calc_world s w :
  snd (SensorsCustom.ProxmoxNodeUptimeSensor._calc s w) = logged w ((node_request "/status") s).
Proof.
  unfold SensorsCustom.ProxmoxNodeUptimeSensor._calc, node_request.
  calc_world_tac sc_pmx_get_run.
Qed.

Lemma sc_net_calc_world s w :
  snd (SensorsCustom.ProxmoxNodeNetworkSensor._calc s w) = logged w ((node_request "/netstat") s).
Proof.
  unfold SensorsCustom.ProxmoxNodeNetworkSensor._calc, node_request.
  unfold bind at 1. rewrite sc_pmx_get_run. cbv beta iota zeta.
  unfold bind at 1, lift at 1. destruct (iter_ _) as [ifaces|e]; [|reflexivity].
  unfold bind at 1.
  match goal with |- context [for_ ifaces ?a ?b ?σ] =>
    pose proof (for_frame ifaces b) as Hl; specialize (Hl ltac:(intros; pure_rest) a σ);
    destruct (for_ ifaces a b σ) as [[t|e] σ1]
  end; simpl in Hl; subst σ1; reflexivity.
Qed.

Lemma sc_vmcnt_calc_world s w :
  snd (SensorsCustom.ProxmoxVMCountSensor._calc s w) = logged w ((node_request "/qemu") s).
Proof.
  unfold SensorsCustom.ProxmoxVMCountSensor._calc, node_request.
  calc_world_tac sc_pmx_get_run.
Qed.

Lemma sc_lxccnt_calc_world s w :
  snd (SensorsCustom.ProxmoxLXCCountSensor._calc s w) = logged w ((node_request "/lxc") s).
Proof.
  unfold SensorsCustom.ProxmoxLXCCountSensor._calc, node_request.
  calc_world_tac sc_pmx_get_run.
Qed.

Lemma sc_vmcpu_calc_world s w :
  snd (SensorsCustom.ProxmoxVMCPUUsageSensor._calc s w) = logged w (vm_request s).
Proof.
  unfold SensorsCustom.ProxmoxVMCPUUsageSensor._calc, vm_request.
  calc_world_tac sc_pmx_get_run.
Qed.

Lemma sc_vmmem_calc_world s w :
  snd (SensorsCustom.ProxmoxVMMemoryUsageSensor._calc s w) = logged w (vm_request s).
Proof.
  unfold SensorsCustom.ProxmoxVMMemoryUsageSensor._calc, vm_request.
  calc_world_tac sc_pmx_get_run.
Qed.

Lemma scx_cpu_calc_world s w :
  snd (SensorsCustomProxmox.ProxmoxNodeCPUUsageSensor._calc s w) = logged w ((node_request1 "/status") s).
Proof.
  unfold SensorsCustomProxmox.ProxmoxNodeCPUUsageSensor._calc, node_request1.
  calc_world_tac scx_pmx_get_run.
Qed.

Lemma scx_mem_calc_world s w :
  snd (SensorsCustomProxmox.ProxmoxNodeMemoryUsageSensor._calc s w) = logged w ((node_request1 "/status") s).
Proof.
  unfold SensorsCustomProxmox.ProxmoxNodeMemoryUsageSensor._calc, node_request1.
  calc_world_tac scx_pmx_get_run.
Qed.

Lemma scx_dsk_calc_world s w :
  snd (SensorsCustomProxmox.ProxmoxNodeDiskUsageSensor._calc s w) = logged w ((node_request1 "/status") s).
Proof.
  unfold SensorsCustomProxmox.ProxmoxNodeDiskUsageSensor._calc, node_request1.
  calc_world_tac scx_pmx_get_run.
Qed.

Lemma scx_upt_calc_world s w :
  snd (SensorsCustomProxmox.ProxmoxNodeUptimeSensor._calc s w) = logged w ((node_request1 "/status") s).
Proof.
  unfold SensorsCustomProxmox.ProxmoxNodeUptimeSensor._calc, node_request1.
  calc_world_tac scx_pmx_get_run.
Qed.

Lemma scx_net_calc_world s w :
  snd (SensorsCustomProxmox.ProxmoxNodeNetworkSensor._calc s w) = logged w ((node_request1 "/netstat") s).
Proof.
  unfold SensorsCustomProxmox.ProxmoxNodeNetworkSensor._calc, node_request1.
  unfold bind at 1. rewrite scx_pmx_get_run. cbv beta iota zeta.
  unfold bind at 1, lift at 1. destruct (iter_ _) as [ifaces|e]; [|reflexivity].
  unfold bind at 1.
  match goal with |- context [for_ ifaces ?a ?b ?σ] =>
    pose proof (for_frame ifaces b) as Hl; specialize (Hl ltac:(intros; pure_rest) a σ);
    destruct (for_ ifaces a b σ) as [[t|e] σ1]
  end; simpl in Hl; subst σ1; reflexivity.
Qed.

Lemma scx_vmcnt_calc_world s w :
  snd (SensorsCustomProxmox.ProxmoxVMCountSensor._calc s w) = logged w ((node_request1 "/qemu") s).
Proof.
  unfold SensorsCustomProxmox.ProxmoxVMCountSensor._calc, node_request1.
  calc_world_tac scx_pmx_get_run.
Qed.

Lemma scx_lxccnt_calc_world s w :
  snd (SensorsCustomProxmox.ProxmoxLXCCountSensor._calc s w) = logged w ((node_request1 "/lxc") s).
Proof.
  unfold SensorsCustomProxmox.ProxmoxLXCCountSensor._calc, node_request1.
  calc_world_tac scx_pmx_get_run.
Qed.

Lemma scx_vmcpu_calc_world s w :
  snd (SensorsCustomProxmox.ProxmoxVMCPUUsageSensor._calc s w) = logged w (vm_request1 s).
Proof.
  unfold SensorsCustomProxmox.ProxmoxVMCPUUsageSensor._calc, vm_request1.
  calc_world_tac scx_pmx_get_run.
Qed.

Lemma scx_vmmem_calc_world s w :
  snd (SensorsCustomProxmox.ProxmoxVMMemoryUsageSensor._calc s w) = logged w (vm_request1 s).
Proof.
  unfold SensorsCustomProxmox.ProxmoxVMMemoryUsageSensor._calc, vm_request1.
  calc_world_tac scx_pmx_get_run.
Qed.

Lemma sc_streams_fn_world s w :
  SensorsCustom.PlexBaseSensor.url s ≠ "" →
  snd (SensorsCustom.PlexStreamsSensor.fn s w) = logged w ((plex_endpoint "/status/sessions") s).
Proof.
  intros Hu. unfold SensorsCustom.PlexStreamsSensor.fn.
  calc_world_tac sc_plex_get_run.
Qed.

Lemma scp_streams_fn_world s w :
  SensorsCustomPlex.PlexBaseSensor.url s ≠ "" →
  snd (SensorsCustomPlex.PlexStreamsSensor.fn s w) = logged w ((plex_endpoint1 "/status/sessions") s).
Proof.
  intros Hu. unfold SensorsCustomPlex.PlexStreamsSensor.fn.
  calc_world_tac scp_plex_get_run.
Qed.

End ComputeWorld.

(** The world after [_cached]: the one it was given when the entry is
    fresh, else the one the compute function left. *)
Ltac cached_world_tac eq :=
  rewrite eq; destruct (fresh_entry _ _ _ _ _);
  [ now destruct (_ !! _)
  | match goal with |- context [?fn ?w] =>
      match type of (fn w) with (res value * _)%type =>
        destruct (fn w) as [[[]|] ?]; reflexivity
      end
    end ].

Lemma sc_plex_cached_world {W} now key (fn : SE W value) s w :
  snd (snd (SensorsCustom.PlexBaseSensor._cached now key fn (s, w)))
  = if fresh_entry (SensorsCustom.PlexBaseSensor._cache s)
         (SensorsCustom.PlexBaseSensor._last s)
         (SensorsCustom.PlexBaseSensor._ttl s) now key
    then w else snd (fn w).
Proof. cached_world_tac @sc_plex_cached_eq. Qed.

Lemma sc_pmx_cached_world {W} now key (fn : SE W value) s w :
  snd (snd (SensorsCustom.ProxmoxBaseSensor._cached now key fn (s, w)))
  = if fresh_entry (SensorsCustom.ProxmoxBaseSensor._cache s)
         (SensorsCustom.ProxmoxBaseSensor._last s)
         (SensorsCustom.ProxmoxBaseSensor.cache_ttl s) now key
    then w else snd (fn w).
Proof. cached_world_tac @sc_pmx_cached_eq. Qed.

Lemma scp_plex_cached_world {W} now key (fn : SE W value) s w :
  snd (snd (SensorsCustomPlex.PlexBaseSensor._cached now key fn (s, w)))
  = if fresh_entry (SensorsCustomPlex.PlexBaseSensor._cache s)
         (SensorsCustomPlex.PlexBaseSensor._last s)
         (SensorsCustomPlex.PlexBaseSensor._ttl s) now key
    then w else snd (fn w).
Proof. cached_world_tac @scp_plex_cached_eq. Qed.

Lemma scx_pmx_cached_world {W} now key (fn : SE W value) s w :
  snd (snd (SensorsCustomProxmox.ProxmoxBaseSensor._cached now key fn (s, w)))
  = if fresh_entry (SensorsCustomProxmox.ProxmoxBaseSensor._cache s)
         (SensorsCustomProxmox.ProxmoxBaseSensor._last s)
         (SensorsCustomProxmox.ProxmoxBaseSensor.cache_ttl s) now key
    then w else snd (fn w).
Proof. cached_world_tac @scx_pmx_cached_eq. Qed.

(** The shapes of [as_numeric] add no request of their own. *)
Lemma sc_plex_poll_world key fn now s w :
  snd (snd (sc_plex_poll key fn now (s, w)))
  = snd (snd (SensorsCustom.PlexBaseSensor._cached now key (fn s) (s, w))).
Proof.
  rewrite sc_plex_poll_eq.
  now destruct (SensorsCustom.PlexBaseSensor._cached _ _ _ _) as [[v|e] [s1 w1]].
Qed.

Lemma sc_pmx_poll_world key calc now s w :
  snd (snd (sc_pmx_poll key calc now (s, w)))
  = snd (snd (SensorsCustom.ProxmoxBaseSensor._cached now (key s) (calc s) (s, w))).
Proof.
  rewrite sc_pmx_poll_eq.
  now destruct (SensorsCustom.ProxmoxBaseSensor._cached _ _ _ _) as [[v|e] [s1 w1]].
Qed.

Lemma sc_vm_poll_world key calc now s w :
  snd (snd (sc_vm_poll key calc now (s, w)))
  = snd (snd (SensorsCustom.ProxmoxBaseSensor._cached now (key s) (calc s)
                (SensorsCustom.ProxmoxVMSensor.base s, w))).
Proof.
  rewrite sc_vm_poll_eq.
  now destruct (SensorsCustom.ProxmoxBaseSensor._cached _ _ _ _) as [[v|e] [s1 w1]].
Qed.

Lemma sc_uptime_world `{Runtime} now s w :
  snd (snd (SensorsCustom.ProxmoxNodeUptimeSensor.as_numeric now (s, w)))
  = snd (snd (SensorsCustom.ProxmoxBaseSensor._cached now (node_key "nodeupt_" s)
                (SensorsCustom.ProxmoxNodeUptimeSensor._calc s) (s, w))).
Proof.
  rewrite sc_uptime_numeric_eq.
  destruct (SensorsCustom.ProxmoxBaseSensor._cached _ _ _ _) as [[v|e] [s1 w1]];
    [|reflexivity].
  now destruct (truediv_float v 3600).
Qed.

Lemma scx_uptime_world `{Runtime} now s w :
  snd (snd (SensorsCustomProxmox.ProxmoxNodeUptimeSensor.as_numeric now (s, w)))
  = snd (snd (SensorsCustomProxmox.ProxmoxBaseSensor._cached now
                (node_key1 "nodeupt_" s)
                (SensorsCustomProxmox.ProxmoxNodeUptimeSensor._calc s) (s, w))).
Proof.
  unfold SensorsCustomProxmox.ProxmoxNodeUptimeSensor.as_numeric, bind at 1,
    get_self, gets. simpl. unfold bind, lift. fold (node_key1 "nodeupt_" s).
  destruct (SensorsCustomProxmox.ProxmoxBaseSensor._cached _ _ _ _)
    as [[v|e] [s1 w1]]; reflexivity.
Qed.

Lemma scx_vm_poll_world key calc now s w :
  snd (snd (scx_vm_poll key calc now (s, w)))
  = snd (snd (SensorsCustomProxmox.ProxmoxBaseSensor._cached now (key s) (calc s)
                (SensorsCustomProxmox.ProxmoxVMSensor.base s, w))).
Proof.
  unfold scx_vm_poll, bind, get_self, gets. simpl.
  unfold SensorsCustomProxmox.ProxmoxVMSensor.super. simpl.
  now destruct (SensorsCustomProxmox.ProxmoxBaseSensor._cached _ _ _ _)
    as [r [b1 w1]].
Qed.

(** The shapes of [as_numeric], given a compute function of one request. *)
Lemma sc_pmx_poll_one prefix calc path :
  (∀ s w, snd (calc s w) = logged w (node_request path s)) →
  one_request_per_refresh (sc_pmx_poll (node_key prefix) calc)
      SensorsCustom.ProxmoxBaseSensor._cache SensorsCustom.ProxmoxBaseSensor._last
      SensorsCustom.ProxmoxBaseSensor.cache_ttl
      (node_key prefix) (λ _, True) (node_request path).
Proof.
  intros Hc now s w _. now rewrite sc_pmx_poll_world, sc_pmx_cached_world, Hc.
Qed.

Lemma sc_vm_poll_one prefix calc :
  (∀ s w, snd (calc s w) = logged w (vm_request s)) →
  one_request_per_refresh (sc_vm_poll (vm_key prefix) calc)
      (λ s, SensorsCustom.ProxmoxBaseSensor._cache (SensorsCustom.ProxmoxVMSensor.base s))
      (λ s, SensorsCustom.ProxmoxBaseSensor._last (SensorsCustom.ProxmoxVMSensor.base s))
      (λ s, SensorsCustom.ProxmoxBaseSensor.cache_ttl (SensorsCustom.ProxmoxVMSensor.base s))
      (vm_key prefix) (λ _, True) vm_request.
Proof.
  intros Hc now s w _. now rewrite sc_vm_poll_world, sc_pmx_cached_world, Hc.
Qed.

Lemma scx_pmx_poll_one prefix calc path :
  (∀ s w, snd (calc s w) = logged w (node_request1 path s)) →
  one_request_per_refresh (scx_pmx_poll (node_key1 prefix) calc)
      SensorsCustomProxmox.ProxmoxBaseSensor._cache SensorsCustomProxmox.ProxmoxBaseSensor._last
      SensorsCustomProxmox.ProxmoxBaseSensor.cache_ttl
      (node_key1 prefix) (λ _, True) (node_request1 path).
Proof.
  intros Hc now s w _. unfold scx_pmx_poll, bind, get_self, gets. simpl.
  now rewrite scx_pmx_cached_world, Hc.
Qed.

Lemma scx_vm_poll_one prefix calc :
  (∀ s w, snd (calc s w) = logged w (vm_request1 s)) →
  one_request_per_refresh (scx_vm_poll (vm_key1 prefix) calc)
      (λ s, SensorsCustomProxmox.ProxmoxBaseSensor._cache (SensorsCustomProxmox.ProxmoxVMSensor.base s))
      (λ s, SensorsCustomProxmox.ProxmoxBaseSensor._last (SensorsCustomProxmox.ProxmoxVMSensor.base s))
      (λ s, SensorsCustomProxmox.ProxmoxBaseSensor.cache_ttl (SensorsCustomProxmox.ProxmoxVMSensor.base s))
      (vm_key1 prefix) (λ _, True) vm_request1.
Proof.
  intros Hc now s w _. now rewrite scx_vm_poll_world, scx_pmx_cached_world, Hc.
Qed.

Lemma sc_plex_poll_one key fn ep :
  (∀ s w, SensorsCustom.PlexBaseSensor.url s ≠ "" →
     snd (fn s w) = logged w (plex_endpoint ep s)) →
  one_request_per_refresh (sc_plex_poll key fn)
      SensorsCustom.PlexBaseSensor._cache SensorsCustom.PlexBaseSensor._last
      SensorsCustom.PlexBaseSensor._ttl
      (λ _, key) (λ s, SensorsCustom.PlexBaseSensor.url s ≠ "") (plex_endpoint ep).
Proof.
  intros Hc now s w Hu. now rewrite sc_plex_poll_world, sc_plex_cached_world, Hc.
Qed.

Lemma scp_plex_poll_one key fn ep :
  (∀ s w, SensorsCustomPlex.PlexBaseSensor.url s ≠ "" →
     snd (fn s w) = logged w (plex_endpoint1 ep s)) →
  one_request_per_refresh (scp_plex_poll key fn)
      SensorsCustomPlex.PlexBaseSensor._cache SensorsCustomPlex.PlexBaseSensor._last
      SensorsCustomPlex.PlexBaseSensor._ttl
      (λ _, key) (λ s, SensorsCustomPlex.PlexBaseSensor.url s ≠ "")
      (plex_endpoint1 ep).
Proof.
  intros Hc now s w Hu. unfold scp_plex_poll, bind, get_self, gets. simpl.
  now rewrite scp_plex_cached_world, Hc.
Qed.

Lemma sc_uptime_one `{Runtime} :
  one_request_per_refresh SensorsCustom.ProxmoxNodeUptimeSensor.as_numeric
      SensorsCustom.ProxmoxBaseSensor._cache SensorsCustom.ProxmoxBaseSensor._last
      SensorsCustom.ProxmoxBaseSensor.cache_ttl
      (node_key "nodeupt_") (λ _, True) (node_request "/status").
Proof.
  intros now s w _.
  now rewrite sc_uptime_world, sc_pmx_cached_world, sc_upt_calc_world.
Qed.

Lemma scx_uptime_one `{Runtime} :
  one_request_per_refresh SensorsCustomProxmox.ProxmoxNodeUptimeSensor.as_numeric
      SensorsCustomProxmox.ProxmoxBaseSensor._cache SensorsCustomProxmox.ProxmoxBaseSensor._last
      SensorsCustomProxmox.ProxmoxBaseSensor.cache_ttl
      (node_key1 "nodeupt_") (λ _, True) (node_request1 "/status").
Proof.
  intros now s w _.
  now rewrite scx_uptime_world, scx_pmx_cached_world, scx_upt_calc_world.
Qed.

(** X10. The cost of a read. An [as_numeric] of a Proxmox sensor, and of
    the Plex streams with a URL, sends no request when the entry is fresh,
    and exactly one when it is missing or stale: that of the sensor's
    endpoint, with the object's headers, the time-out 6 and (for Proxmox)
    its [verify_ssl]; whatever the peer answers, and also when the call
    raises. For the eighteen Proxmox classes and the two of the streams. *)
Theorem X10_one_request_per_refresh `{Runtime} :
  one_request_per_refresh SensorsCustom.ProxmoxNodeCPUUsageSensor.as_numeric
      SensorsCustom.ProxmoxBaseSensor._cache SensorsCustom.ProxmoxBaseSensor._last
      SensorsCustom.ProxmoxBaseSensor.cache_ttl
      (node_key "nodecpu_") (λ _, True) (node_request "/status")
  ∧ one_request_per_refresh SensorsCustom.ProxmoxNodeMemoryUsageSensor.as_numeric
      SensorsCustom.ProxmoxBaseSensor._cache SensorsCustom.ProxmoxBaseSensor._last
      SensorsCustom.ProxmoxBaseSensor.cache_ttl
      (node_key "nodemem_") (λ _, True) (node_request "/status")
  ∧ one_request_per_refresh SensorsCustom.ProxmoxNodeDiskUsageSensor.as_numeric
      SensorsCustom.ProxmoxBaseSensor._cache SensorsCustom.ProxmoxBaseSensor._last
      SensorsCustom.ProxmoxBaseSensor.cache_ttl
      (node_key "nodedsk_") (λ _, True) (node_request "/status")
  ∧ one_request_per_refresh SensorsCustom.ProxmoxNodeUptimeSensor.as_numeric
      SensorsCustom.ProxmoxBaseSensor._cache SensorsCustom.ProxmoxBaseSensor._last
      SensorsCustom.ProxmoxBaseSensor.cache_ttl
      (node_key "nodeupt_") (λ _, True) (node_request "/status")
  ∧ one_request_per_refresh SensorsCustom.ProxmoxNodeNetworkSensor.as_numeric
      SensorsCustom.ProxmoxBaseSensor._cache SensorsCustom.ProxmoxBaseSensor._last
      SensorsCustom.ProxmoxBaseSensor.cache_ttl
      (node_key "nodenet_") (λ _, True) (node_request "/netstat")
  ∧ one_request_per_refresh SensorsCustom.ProxmoxVMCountSensor.as_numeric
      SensorsCustom.ProxmoxBaseSensor._cache SensorsCustom.ProxmoxBaseSensor._last
      SensorsCustom.ProxmoxBaseSensor.cache_ttl
      (node_key "vmcnt_") (λ _, True) (node_request "/qemu")
  ∧ one_request_per_refresh SensorsCustom.ProxmoxLXCCountSensor.as_numeric
      SensorsCustom.ProxmoxBaseSensor._cache SensorsCustom.ProxmoxBaseSensor._last
      SensorsCustom.ProxmoxBaseSensor.cache_ttl
      (node_key "lxccnt_") (λ _, True) (node_request "/lxc")
  ∧ one_request_per_refresh SensorsCustom.ProxmoxVMCPUUsageSensor.as_numeric
      (λ s, SensorsCustom.ProxmoxBaseSensor._cache (SensorsCustom.ProxmoxVMSensor.base s))
      (λ s, SensorsCustom.ProxmoxBaseSensor._last (SensorsCustom.ProxmoxVMSensor.base s))
      (λ s, SensorsCustom.ProxmoxBaseSensor.cache_ttl (SensorsCustom.ProxmoxVMSensor.base s))
      (vm_key "vmcpu_") (λ _, True) vm_request
  ∧ one_request_per_refresh SensorsCustom.ProxmoxVMMemoryUsageSensor.as_numeric
      (λ s, SensorsCustom.ProxmoxBaseSensor._cache (SensorsCustom.ProxmoxVMSensor.base s))
      (λ s, SensorsCustom.ProxmoxBaseSensor._last (SensorsCustom.ProxmoxVMSensor.base s))
      (λ s, SensorsCustom.ProxmoxBaseSensor.cache_ttl (SensorsCustom.ProxmoxVMSensor.base s))
      (vm_key "vmmem_") (λ _, True) vm_request
  ∧ one_request_per_refresh SensorsCustomProxmox.ProxmoxNodeCPUUsageSensor.as_numeric
      SensorsCustomProxmox.ProxmoxBaseSensor._cache SensorsCustomProxmox.ProxmoxBaseSensor._last
      SensorsCustomProxmox.ProxmoxBaseSensor.cache_ttl
      (node_key1 "nodecpu_") (λ _, True) (node_request1 "/status")
  ∧ one_request_per_refresh SensorsCustomProxmox.ProxmoxNodeMemoryUsageSensor.as_numeric
      SensorsCustomProxmox.ProxmoxBaseSensor._cache SensorsCustomProxmox.ProxmoxBaseSensor._last
      SensorsCustomProxmox.ProxmoxBaseSensor.cache_ttl
      (node_key1 "nodemem_") (λ _, True) (node_request1 "/status")
  ∧ one_request_per_refresh SensorsCustomProxmox.ProxmoxNodeDiskUsageSensor.as_numeric
      SensorsCustomProxmox.ProxmoxBaseSensor._cache SensorsCustomProxmox.ProxmoxBaseSensor._last
      SensorsCustomProxmox.ProxmoxBaseSensor.cache_ttl
      (node_key1 "nodedsk_") (λ _, True) (node_request1 "/status")
  ∧ one_request_per_refresh SensorsCustomProxmox.ProxmoxNodeUptimeSensor.as_numeric
      SensorsCustomProxmox.ProxmoxBaseSensor._cache SensorsCustomProxmox.ProxmoxBaseSensor._last
      SensorsCustomProxmox.ProxmoxBaseSensor.cache_ttl
      (node_key1 "nodeupt_") (λ _, True) (node_request1 "/status")
  ∧ one_request_per_refresh SensorsCustomProxmox.ProxmoxNodeNetworkSensor.as_numeric
      SensorsCustomProxmox.ProxmoxBaseSensor._cache SensorsCustomProxmox.ProxmoxBaseSensor._last
      SensorsCustomProxmox.ProxmoxBaseSensor.cache_ttl
      (node_key1 "nodenet_") (λ _, True) (node_request1 "/netstat")
  ∧ one_request_per_refresh SensorsCustomProxmox.ProxmoxVMCountSensor.as_numeric
      SensorsCustomProxmox.ProxmoxBaseSensor._cache SensorsCustomProxmox.ProxmoxBaseSensor._last
      SensorsCustomProxmox.ProxmoxBaseSensor.cache_ttl
      (node_key1 "vmcnt_") (λ _, True) (node_request1 "/qemu")
  ∧ one_request_per_refresh SensorsCustomProxmox.ProxmoxLXCCountSensor.as_numeric
      SensorsCustomProxmox.ProxmoxBaseSensor._cache SensorsCustomProxmox.ProxmoxBaseSensor._last
      SensorsCustomProxmox.ProxmoxBaseSensor.cache_ttl
      (node_key1 "lxccnt_") (λ _, True) (node_request1 "/lxc")
  ∧ one_request_per_refresh SensorsCustomProxmox.ProxmoxVMCPUUsageSensor.as_numeric
      (λ s, SensorsCustomProxmox.ProxmoxBaseSensor._cache (SensorsCustomProxmox.ProxmoxVMSensor.base s))
      (λ s, SensorsCustomProxmox.ProxmoxBaseSensor._last (SensorsCustomProxmox.ProxmoxVMSensor.base s))
      (λ s, SensorsCustomProxmox.ProxmoxBaseSensor.cache_ttl (SensorsCustomProxmox.ProxmoxVMSensor.base s))
      (vm_key1 "vmcpu_") (λ _, True) vm_request1
  ∧ one_request_per_refresh SensorsCustomProxmox.ProxmoxVMMemoryUsageSensor.as_numeric
      (λ s, SensorsCustomProxmox.ProxmoxBaseSensor._cache (SensorsCustomProxmox.ProxmoxVMSensor.base s))
      (λ s, SensorsCustomProxmox.ProxmoxBaseSensor._last (SensorsCustomProxmox.ProxmoxVMSensor.base s))
      (λ s, SensorsCustomProxmox.ProxmoxBaseSensor.cache_ttl (SensorsCustomProxmox.ProxmoxVMSensor.base s))
      (vm_key1 "vmmem_") (λ _, True) vm_request1
  ∧ one_request_per_refresh SensorsCustom.PlexStreamsSensor.as_numeric
      SensorsCustom.PlexBaseSensor._cache SensorsCustom.PlexBaseSensor._last
      SensorsCustom.PlexBaseSensor._ttl
      (λ _, "streams") (λ s, SensorsCustom.PlexBaseSensor.url s ≠ "")
      (plex_endpoint "/status/sessions")
  ∧ one_request_per_refresh SensorsCustomPlex.PlexStreamsSensor.as_numeric
      SensorsCustomPlex.PlexBaseSensor._cache SensorsCustomPlex.PlexBaseSensor._last
      SensorsCustomPlex.PlexBaseSensor._ttl
      (λ _, "streams") (λ s, SensorsCustomPlex.PlexBaseSensor.url s ≠ "")
      (plex_endpoint1 "/status/sessions").
Proof.
  repeat match goal with |- _ ∧ _ => split end.
  - exact (sc_pmx_poll_one "nodecpu_" SensorsCustom.ProxmoxNodeCPUUsageSensor._calc "/status" sc_cpu_calc_world).
  - exact (sc_pmx_poll_one "nodemem_" SensorsCustom.ProxmoxNodeMemoryUsageSensor._calc "/status" sc_mem_calc_world).
  - exact (sc_pmx_poll_one "nodedsk_" SensorsCustom.ProxmoxNodeDiskUsageSensor._calc "/status" sc_dsk_calc_world).
  - exact sc_uptime_one.
  - exact (sc_pmx_poll_one "nodenet_" SensorsCustom.ProxmoxNodeNetworkSensor._calc "/netstat" sc_net_calc_world).
  - exact (sc_pmx_poll_one "vmcnt_" SensorsCustom.ProxmoxVMCountSensor._calc "/qemu" sc_vmcnt_calc_world).
  - exact (sc_pmx_poll_one "lxccnt_" SensorsCustom.ProxmoxLXCCountSensor._calc "/lxc" sc_lxccnt_calc_world).
  - exact (sc_vm_poll_one "vmcpu_" SensorsCustom.ProxmoxVMCPUUsageSensor._calc sc_vmcpu_calc_world).
  - exact (sc_vm_poll_one "vmmem_" SensorsCustom.ProxmoxVMMemoryUsageSensor._calc sc_vmmem_calc_world).
  - exact (scx_pmx_poll_one "nodecpu_" SensorsCustomProxmox.ProxmoxNodeCPUUsageSensor._calc "/status" scx_cpu_calc_world).
  - exact (scx_pmx_poll_one "nodemem_" SensorsCustomProxmox.ProxmoxNodeMemoryUsageSensor._calc "/status" scx_mem_calc_world).
  - exact (scx_pmx_poll_one "nodedsk_" SensorsCustomProxmox.ProxmoxNodeDiskUsageSensor._calc "/status" scx_dsk_calc_world).
  - exact scx_uptime_one.
  - exact (scx_pmx_poll_one "nodenet_" SensorsCustomProxmox.ProxmoxNodeNetworkSensor._calc "/netstat" scx_net_calc_world).
  - exact (scx_pmx_poll_one "vmcnt_" SensorsCustomProxmox.ProxmoxVMCountSensor._calc "/qemu" scx_vmcnt_calc_world).
  - exact (scx_pmx_poll_one "lxccnt_" SensorsCustomProxmox.ProxmoxLXCCountSensor._calc "/lxc" scx_lxccnt_calc_world).
  - exact (scx_vm_poll_one "vmcpu_" SensorsCustomProxmox.ProxmoxVMCPUUsageSensor._calc scx_vmcpu_calc_world).
  - exact (scx_vm_poll_one "vmmem_" SensorsCustomProxmox.ProxmoxVMMemoryUsageSensor._calc scx_vmmem_calc_world).
  - exact (sc_plex_poll_one "streams" SensorsCustom.PlexStreamsSensor.fn "/status/sessions"
             sc_streams_fn_world).
  - exact (scp_plex_poll_one "streams" SensorsCustomPlex.PlexStreamsSensor.fn "/status/sessions"
             scp_streams_fn_world).
Qed.

(** X10 at a concrete input: the streams of sensors_custom.py, holding an
    entry observed at time 0 with a time to live of 30, read at time 31. *)
Lemma X10_witness :
  snd (snd (SensorsCustom.PlexStreamsSensor.as_numeric (H := sample_runtime) 31
              (sample_plex_warm, failing_world)))
  = logged failing_world (plex_endpoint "/status/sessions" sample_plex_warm).
Proof.
  refine (eq_trans
            ((proj1 (proj2 (proj2 (proj2 (proj2 (proj2 (proj2 (proj2 (proj2 (proj2 (proj2 (proj2 (proj2 (proj2 (proj2 (proj2 (proj2 (proj2 (proj2 (X10_one_request_per_refresh (H := sample_runtime)))))))))))))))))))))
               31%float sample_plex_warm failing_world _) _).
  - discriminate.
  - vm_compute. reflexivity.
Defined.

(** ** A payload of the wrong shape *)

Ltac calc_malformed_tac run :=
  intros Hp Ht Hd; unfold bind at 1; rewrite run by assumption;
  cbv beta iota zeta; unfold or_; rewrite Hp, Ht;
  match goal with p : value |- _ =>
    destruct p; first [exfalso; exact (Hd _ eq_refl) | reflexivity]
  end.

Section ComputeMalformed.
Context `{Runtime}.

Lemma sc_cpu_calc_malformed s w p :
  pmx_payload (Requests.peer w (Requests.sent w) ((node_request "/status") s)) = p →
  truthy p = true → (∀ d, p ≠ VDict d) →
  SensorsCustom.ProxmoxNodeCPUUsageSensor._calc s w = (Raise AttributeError, logged w ((node_request "/status") s)).
Proof.
  unfold SensorsCustom.ProxmoxNodeCPUUsageSensor._calc, node_request.
  calc_malformed_tac sc_pmx_get_run.
Qed.

Lemma sc_mem_calc_malformed s w p :
  pmx_payload (Requests.peer w (Requests.sent w) ((node_request "/status") s)) = p →
  truthy p = true → (∀ d, p ≠ VDict d) →
  SensorsCustom.ProxmoxNodeMemoryUsageSensor._calc s w = (Raise AttributeError, logged w ((node_request "/status") s)).
Proof.
  unfold SensorsCustom.ProxmoxNodeMemoryUsageSensor._calc, node_request.
  calc_malformed_tac sc_pmx_get_run.
Qed.

Lemma sc_dsk_calc_malformed s w p :
  pmx_payload (Requests.peer w (Requests.sent w) ((node_request "/status") s)) = p →
  truthy p = true → (∀ d, p ≠ VDict d) →
  SensorsCustom.ProxmoxNodeDiskUsageSensor._calc s w = (Raise AttributeError, logged w ((node_request "/status") s)).
Proof.
  unfold SensorsCustom.ProxmoxNodeDiskUsageSensor._calc, node_request.
  calc_malformed_tac sc_pmx_get_run.
Qed.

Lemma sc_upt_calc_malformed s w p :
  pmx_payload (Requests.peer w (Requests.sent w) ((node_request "/status") s)) = p →
  truthy p = true → (∀ d, p ≠ VDict d) →
  SensorsCustom.ProxmoxNodeUptimeSensor._calc s w = (Raise AttributeError, logged w ((node_request "/status") s)).
Proof.
  unfold SensorsCustom.ProxmoxNodeUptimeSensor._calc, node_request.
  calc_malformed_tac sc_pmx_get_run.
Qed.

Lemma sc_vmcpu_calc_malformed s w p :
  pmx_payload (Requests.peer w (Requests.sent w) (vm_request s)) = p →
  truthy p = true → (∀ d, p ≠ VDict d) →
  SensorsCustom.ProxmoxVMCPUUsageSensor._calc s w = (Raise AttributeError, logged w (vm_request s)).
Proof.
  unfold SensorsCustom.ProxmoxVMCPUUsageSensor._calc, vm_request.
  calc_malformed_tac sc_pmx_get_run.
Qed.

Lemma sc_vmmem_calc_malformed s w p :
  pmx_payload (Requests.peer w (Requests.sent w) (vm_request s)) = p →
  truthy p = true → (∀ d, p ≠ VDict d) →
  SensorsCustom.ProxmoxVMMemoryUsageSensor._calc s w = (Ok (VFloat 0), logged w (vm_request s)).
Proof.
  unfold SensorsCustom.ProxmoxVMMemoryUsageSensor._calc, vm_request.
  calc_malformed_tac sc_pmx_get_run.
Qed.

Lemma scx_cpu_calc_malformed s w p :
  pmx_payload (Requests.peer w (Requests.sent w) ((node_request1 "/status") s)) = p →
  truthy p = true → (∀ d, p ≠ VDict d) →
  SensorsCustomProxmox.ProxmoxNodeCPUUsageSensor._calc s w = (Raise AttributeError, logged w ((node_request1 "/status") s)).
Proof.
  unfold SensorsCustomProxmox.ProxmoxNodeCPUUsageSensor._calc, node_request1.
  calc_malformed_tac scx_pmx_get_run.
Qed.

Lemma scx_mem_calc_malformed s w p :
  pmx_payload (Requests.peer w (Requests.sent w) ((node_request1 "/status") s)) = p →
  truthy p = true → (∀ d, p ≠ VDict d) →
  SensorsCustomProxmox.ProxmoxNodeMemoryUsageSensor._calc s w = (Raise AttributeError, logged w ((node_request1 "/status") s)).
Proof.
  unfold SensorsCustomProxmox.ProxmoxNodeMemoryUsageSensor._calc, node_request1.
  calc_malformed_tac scx_pmx_get_run.
Qed.

Lemma scx_dsk_calc_malformed s w p :
  pmx_payload (Requests.peer w (Requests.sent w) ((node_request1 "/status") s)) = p →
  truthy p = true → (∀ d, p ≠ VDict d) →
  SensorsCustomProxmox.ProxmoxNodeDiskUsageSensor._calc s w = (Raise AttributeError, logged w ((node_request1 "/status") s)).
Proof.
  unfold SensorsCustomProxmox.ProxmoxNodeDiskUsageSensor._calc, node_request1.
  calc_malformed_tac scx_pmx_get_run.
Qed.

Lemma scx_upt_calc_malformed s w p :
  pmx_payload (Requests.peer w (Requests.sent w) ((node_request1 "/status") s)) = p →
  truthy p = true → (∀ d, p ≠ VDict d) →
  SensorsCustomProxmox.ProxmoxNodeUptimeSensor._calc s w = (Raise AttributeError, logged w ((node_request1 "/status") s)).
Proof.
  unfold SensorsCustomProxmox.ProxmoxNodeUptimeSensor._calc, node_request1.
  calc_malformed_tac scx_pmx_get_run.
Qed.

Lemma scx_vmcpu_calc_malformed s w p :
  pmx_payload (Requests.peer w (Requests.sent w) (vm_request1 s)) = p →
  truthy p = true → (∀ d, p ≠ VDict d) →
  SensorsCustomProxmox.ProxmoxVMCPUUsageSensor._calc s w = (Raise AttributeError, logged w (vm_request1 s)).
Proof.
  unfold SensorsCustomProxmox.ProxmoxVMCPUUsageSensor._calc, vm_request1.
  calc_malformed_tac scx_pmx_get_run.
Qed.

Lemma scx_vmmem_calc_malformed s w p :
  pmx_payload (Requests.peer w (Requests.sent w) (vm_request1 s)) = p →
  truthy p = true → (∀ d, p ≠ VDict d) →
  SensorsCustomProxmox.ProxmoxVMMemoryUsageSensor._calc s w = (Ok (VFloat 0), logged w (vm_request1 s)).
Proof.
  unfold SensorsCustomProxmox.ProxmoxVMMemoryUsageSensor._calc, vm_request1.
  calc_malformed_tac scx_pmx_get_run.
Qed.

Lemma sc_streams_fn_malformed s w p :
  SensorsCustom.PlexBaseSensor.url s ≠ "" →
  plex_payload (Requests.peer w (Requests.sent w) ((plex_endpoint "/status/sessions") s)) = p →
  truthy p = true → (∀ d, p ≠ VDict d) →
  SensorsCustom.PlexStreamsSensor.fn s w = (Raise AttributeError, logged w ((plex_endpoint "/status/sessions") s)).
Proof.
  intros Hu. unfold SensorsCustom.PlexStreamsSensor.fn.
  calc_malformed_tac sc_plex_get_run.
Qed.

Lemma sc_movies_fn_malformed s w p :
  SensorsCustom.PlexBaseSensor.url s ≠ "" →
  plex_payload (Requests.peer w (Requests.sent w) ((plex_endpoint "/library/sections") s)) = p →
  truthy p = true → (∀ d, p ≠ VDict d) →
  SensorsCustom.PlexMovieCountSensor.fn s w = (Raise AttributeError, logged w ((plex_endpoint "/library/sections") s)).
Proof.
  intros Hu. unfold SensorsCustom.PlexMovieCountSensor.fn.
  calc_malformed_tac sc_plex_get_run.
Qed.

Lemma sc_shows_fn_malformed s w p :
  SensorsCustom.PlexBaseSensor.url s ≠ "" →
  plex_payload (Requests.peer w (Requests.sent w) ((plex_endpoint "/library/sections") s)) = p →
  truthy p = true → (∀ d, p ≠ VDict d) →
  SensorsCustom.PlexTVShowCountSensor.fn s w = (Raise AttributeError, logged w ((plex_endpoint "/library/sections") s)).
Proof.
  intros Hu. unfold SensorsCustom.PlexTVShowCountSensor.fn, SensorsCustom.plex_count.
  calc_malformed_tac sc_plex_get_run.
Qed.

Lemma sc_eps_fn_malformed s w p :
  SensorsCustom.PlexBaseSensor.url s ≠ "" →
  plex_payload (Requests.peer w (Requests.sent w) ((plex_endpoint "/library/sections") s)) = p →
  truthy p = true → (∀ d, p ≠ VDict d) →
  SensorsCustom.PlexEpisodesCountSensor.fn s w = (Raise AttributeError, logged w ((plex_endpoint "/library/sections") s)).
Proof.
  intros Hu. unfold SensorsCustom.PlexEpisodesCountSensor.fn, SensorsCustom.plex_count.
  calc_malformed_tac sc_plex_get_run.
Qed.

Lemma sc_alb_fn_malformed s w p :
  SensorsCustom.PlexBaseSensor.url s ≠ "" →
  plex_payload (Requests.peer w (Requests.sent w) ((plex_endpoint "/library/sections") s)) = p →
  truthy p = true → (∀ d, p ≠ VDict d) →
  SensorsCustom.PlexAlbumCountSensor.fn s w = (Raise AttributeError, logged w ((plex_endpoint "/library/sections") s)).
Proof.
  intros Hu. unfold SensorsCustom.PlexAlbumCountSensor.fn, SensorsCustom.plex_count.
  calc_malformed_tac sc_plex_get_run.
Qed.

Lemma sc_sng_fn_malformed s w p :
  SensorsCustom.PlexBaseSensor.url s ≠ "" →
  plex_payload (Requests.peer w (Requests.sent w) ((plex_endpoint "/library/sections") s)) = p →
  truthy p = true → (∀ d, p ≠ VDict d) →
  SensorsCustom.PlexSongsCountSensor.fn s w = (Raise AttributeError, logged w ((plex_endpoint "/library/sections") s)).
Proof.
  intros Hu. unfold SensorsCustom.PlexSongsCountSensor.fn, SensorsCustom.plex_count.
  calc_malformed_tac sc_plex_get_run.
Qed.

Lemma scp_streams_fn_malformed s w p :
  SensorsCustomPlex.PlexBaseSensor.url s ≠ "" →
  plex_payload (Requests.peer w (Requests.sent w) ((plex_endpoint1 "/status/sessions") s)) = p →
  truthy p = true → (∀ d, p ≠ VDict d) →
  SensorsCustomPlex.PlexStreamsSensor.fn s w = (Raise AttributeError, logged w ((plex_endpoint1 "/status/sessions") s)).
Proof.
  intros Hu. unfold SensorsCustomPlex.PlexStreamsSensor.fn.
  calc_malformed_tac scp_plex_get_run.
Qed.

Lemma scp_movies_fn_malformed s w p :
  SensorsCustomPlex.PlexBaseSensor.url s ≠ "" →
  plex_payload (Requests.peer w (Requests.sent w) ((plex_endpoint1 "/library/sections") s)) = p →
  truthy p = true → (∀ d, p ≠ VDict d) →
  SensorsCustomPlex.PlexMovieCountSensor.fn s w = (Raise AttributeError, logged w ((plex_endpoint1 "/library/sections") s)).
Proof.
  intros Hu. unfold SensorsCustomPlex.PlexMovieCountSensor.fn.
  calc_malformed_tac scp_plex_get_run.
Qed.

Lemma scp_shows_fn_malformed s w p :
  SensorsCustomPlex.PlexBaseSensor.url s ≠ "" →
  plex_payload (Requests.peer w (Requests.sent w) ((plex_endpoint1 "/library/sections") s)) = p →
  truthy p = true → (∀ d, p ≠ VDict d) →
  SensorsCustomPlex.PlexTVShowCountSensor.fn s w = (Raise AttributeError, logged w ((plex_endpoint1 "/library/sections") s)).
Proof.
  intros Hu. unfold SensorsCustomPlex.PlexTVShowCountSensor.fn, SensorsCustomPlex.plex_count.
  calc_malformed_tac scp_plex_get_run.
Qed.

Lemma scp_eps_fn_malformed s w p :
  SensorsCustomPlex.PlexBaseSensor.url s ≠ "" →
  plex_payload (Requests.peer w (Requests.sent w) ((plex_endpoint1 "/library/sections") s)) = p →
  truthy p = true → (∀ d, p ≠ VDict d) →
  SensorsCustomPlex.PlexEpisodesCountSensor.fn s w = (Raise AttributeError, logged w ((plex_endpoint1 "/library/sections") s)).
Proof.
  intros Hu. unfold SensorsCustomPlex.PlexEpisodesCountSensor.fn, SensorsCustomPlex.plex_count.
  calc_malformed_tac scp_plex_get_run.
Qed.

Lemma scp_alb_fn_malformed s w p :
  SensorsCustomPlex.PlexBaseSensor.url s ≠ "" →
  plex_payload (Requests.peer w (Requests.sent w) ((plex_endpoint1 "/library/sections") s)) = p →
  truthy p = true → (∀ d, p ≠ VDict d) →
  SensorsCustomPlex.PlexAlbumCountSensor.fn s w = (Raise AttributeError, logged w ((plex_endpoint1 "/library/sections") s)).
Proof.
  intros Hu. unfold SensorsCustomPlex.PlexAlbumCountSensor.fn, SensorsCustomPlex.plex_count.
  calc_malformed_tac scp_plex_get_run.
Qed.

Lemma scp_sng_fn_malformed s w p :
  SensorsCustomPlex.PlexBaseSensor.url s ≠ "" →
  plex_payload (Requests.peer w (Requests.sent w) ((plex_endpoint1 "/library/sections") s)) = p →
  truthy p = true → (∀ d, p ≠ VDict d) →
  SensorsCustomPlex.PlexSongsCountSensor.fn s w = (Raise AttributeError, logged w ((plex_endpoint1 "/library/sections") s)).
Proof.
  intros Hu. unfold SensorsCustomPlex.PlexSongsCountSensor.fn, SensorsCustomPlex.plex_count.
  calc_malformed_tac scp_plex_get_run.
Qed.

End ComputeMalformed.

(** The shapes of [as_numeric], given a compute function that raises. *)
Lemma sc_plex_poll_malformed key fn ep :
  (∀ s w p, SensorsCustom.PlexBaseSensor.url s ≠ "" →
     plex_payload (Requests.peer w (Requests.sent w) (plex_endpoint ep s)) = p →
     truthy p = true → (∀ d, p ≠ VDict d) →
     fn s w = (Raise AttributeError, logged w (plex_endpoint ep s))) →
  malformed_raises (sc_plex_poll key fn)
      SensorsCustom.PlexBaseSensor._cache SensorsCustom.PlexBaseSensor._last
      SensorsCustom.PlexBaseSensor._ttl
      (λ _, key) (λ s, SensorsCustom.PlexBaseSensor.url s ≠ "")
      plex_payload (plex_endpoint ep).
Proof.
  intros Hfn now s w p Hl Hf Hp Ht Hd.
  now rewrite sc_plex_poll_eq, sc_plex_cached_eq, Hf, (Hfn s w p Hl Hp Ht Hd).
Qed.

Lemma scp_plex_poll_malformed key fn ep :
  (∀ s w p, SensorsCustomPlex.PlexBaseSensor.url s ≠ "" →
     plex_payload (Requests.peer w (Requests.sent w) (plex_endpoint1 ep s)) = p →
     truthy p = true → (∀ d, p ≠ VDict d) →
     fn s w = (Raise AttributeError, logged w (plex_endpoint1 ep s))) →
  malformed_raises (scp_plex_poll key fn)
      SensorsCustomPlex.PlexBaseSensor._cache SensorsCustomPlex.PlexBaseSensor._last
      SensorsCustomPlex.PlexBaseSensor._ttl
      (λ _, key) (λ s, SensorsCustomPlex.PlexBaseSensor.url s ≠ "")
      plex_payload (plex_endpoint1 ep).
Proof.
  intros Hfn now s w p Hl Hf Hp Ht Hd.
  unfold scp_plex_poll, bind, get_self, gets. simpl.
  now rewrite scp_plex_cached_eq, Hf, (Hfn s w p Hl Hp Ht Hd).
Qed.

Lemma sc_pmx_poll_malformed prefix calc path :
  (∀ s w p,
     pmx_payload (Requests.peer w (Requests.sent w) (node_request path s)) = p →
     truthy p = true → (∀ d, p ≠ VDict d) →
     calc s w = (Raise AttributeError, logged w (node_request path s))) →
  malformed_raises (sc_pmx_poll (node_key prefix) calc)
      SensorsCustom.ProxmoxBaseSensor._cache SensorsCustom.ProxmoxBaseSensor._last
      SensorsCustom.ProxmoxBaseSensor.cache_ttl
      (node_key prefix) (λ _, True) pmx_payload (node_request path).
Proof.
  intros Hfn now s w p _ Hf Hp Ht Hd.
  now rewrite sc_pmx_poll_eq, sc_pmx_cached_eq, Hf, (Hfn s w p Hp Ht Hd).
Qed.

Lemma sc_vm_poll_malformed prefix calc :
  (∀ s w p,
     pmx_payload (Requests.peer w (Requests.sent w) (vm_request s)) = p →
     truthy p = true → (∀ d, p ≠ VDict d) →
     calc s w = (Raise AttributeError, logged w (vm_request s))) →
  malformed_raises (sc_vm_poll (vm_key prefix) calc)
      (λ s, SensorsCustom.ProxmoxBaseSensor._cache (SensorsCustom.ProxmoxVMSensor.base s))
      (λ s, SensorsCustom.ProxmoxBaseSensor._last (SensorsCustom.ProxmoxVMSensor.base s))
      (λ s, SensorsCustom.ProxmoxBaseSensor.cache_ttl (SensorsCustom.ProxmoxVMSensor.base s))
      (vm_key prefix) (λ _, True) pmx_payload vm_request.
Proof.
  intros Hfn now s w p _ Hf Hp Ht Hd.
  rewrite sc_vm_poll_eq, sc_pmx_cached_eq, Hf, (Hfn s w p Hp Ht Hd).
  now destruct s.
Qed.

Lemma scx_pmx_poll_malformed prefix calc path :
  (∀ s w p,
     pmx_payload (Requests.peer w (Requests.sent w) (node_request1 path s)) = p →
     truthy p = true → (∀ d, p ≠ VDict d) →
     calc s w = (Raise AttributeError, logged w (node_request1 path s))) →
  malformed_raises (scx_pmx_poll (node_key1 prefix) calc)
      SensorsCustomProxmox.ProxmoxBaseSensor._cache SensorsCustomProxmox.ProxmoxBaseSensor._last
      SensorsCustomProxmox.ProxmoxBaseSensor.cache_ttl
      (node_key1 prefix) (λ _, True) pmx_payload (node_request1 path).
Proof.
  intros Hfn now s w p _ Hf Hp Ht Hd.
  unfold scx_pmx_poll, bind, get_self, gets. simpl.
  now rewrite scx_pmx_cached_eq, Hf, (Hfn s w p Hp Ht Hd).
Qed.

Lemma scx_vm_poll_malformed prefix calc :
  (∀ s w p,
     pmx_payload (Requests.peer w (Requests.sent w) (vm_request1 s)) = p →
     truthy p = true → (∀ d, p ≠ VDict d) →
     calc s w = (Raise AttributeError, logged w (vm_request1 s))) →
  malformed_raises (scx_vm_poll (vm_key1 prefix) calc)
      (λ s, SensorsCustomProxmox.ProxmoxBaseSensor._cache (SensorsCustomProxmox.ProxmoxVMSensor.base s))
      (λ s, SensorsCustomProxmox.ProxmoxBaseSensor._last (SensorsCustomProxmox.ProxmoxVMSensor.base s))
      (λ s, SensorsCustomProxmox.ProxmoxBaseSensor.cache_ttl (SensorsCustomProxmox.ProxmoxVMSensor.base s))
      (vm_key1 prefix) (λ _, True) pmx_payload vm_request1.
Proof.
  intros Hfn now s w p _ Hf Hp Ht Hd.
  unfold scx_vm_poll, bind, get_self, gets. simpl.
  unfold SensorsCustomProxmox.ProxmoxVMSensor.super. simpl.
  rewrite scx_pmx_cached_eq, Hf, (Hfn s w p Hp Ht Hd).
  now destruct s.
Qed.

Lemma sc_uptime_malformed `{Runtime} :
  malformed_raises SensorsCustom.ProxmoxNodeUptimeSensor.as_numeric
      SensorsCustom.ProxmoxBaseSensor._cache SensorsCustom.ProxmoxBaseSensor._last
      SensorsCustom.ProxmoxBaseSensor.cache_ttl
      (node_key "nodeupt_") (λ _, True) pmx_payload (node_request "/status").
Proof.
  intros now s w p _ Hf Hp Ht Hd.
  now rewrite sc_uptime_numeric_eq, sc_pmx_cached_eq, Hf,
    (sc_upt_calc_malformed s w p Hp Ht Hd).
Qed.

Lemma scx_uptime_malformed `{Runtime} :
  malformed_raises SensorsCustomProxmox.ProxmoxNodeUptimeSensor.as_numeric
      SensorsCustomProxmox.ProxmoxBaseSensor._cache SensorsCustomProxmox.ProxmoxBaseSensor._last
      SensorsCustomProxmox.ProxmoxBaseSensor.cache_ttl
      (node_key1 "nodeupt_") (λ _, True) pmx_payload (node_request1 "/status").
Proof.
  intros now s w p _ Hf Hp Ht Hd.
  unfold SensorsCustomProxmox.ProxmoxNodeUptimeSensor.as_numeric, bind at 1,
    get_self, gets. simpl. unfold bind, lift. fold (node_key1 "nodeupt_" s).
  now rewrite scx_pmx_cached_eq, Hf, (scx_upt_calc_malformed s w p Hp Ht Hd).
Qed.

Lemma sc_vm_poll_malformed_zero prefix calc :
  (∀ s w p,
     pmx_payload (Requests.peer w (Requests.sent w) (vm_request s)) = p →
     truthy p = true → (∀ d, p ≠ VDict d) →
     calc s w = (Ok (VFloat 0), logged w (vm_request s))) →
  malformed_reads_zero (sc_vm_poll (vm_key prefix) calc)
      (λ s, SensorsCustom.ProxmoxBaseSensor._cache (SensorsCustom.ProxmoxVMSensor.base s))
      (λ s, SensorsCustom.ProxmoxBaseSensor._last (SensorsCustom.ProxmoxVMSensor.base s))
      (λ s, SensorsCustom.ProxmoxBaseSensor.cache_ttl (SensorsCustom.ProxmoxVMSensor.base s))
      (vm_key prefix) vm_request.
Proof.
  intros Hfn now s w p Hf Hp Ht Hd.
  rewrite sc_vm_poll_eq,
    (sc_pmx_cached_miss _ _ _ _ _ _ _ Hf (Hfn s w p Hp Ht Hd)).
  eexists. split; [reflexivity|]. simpl. now rewrite lookup_insert_eq.
Qed.

Lemma scx_vm_poll_malformed_zero prefix calc :
  (∀ s w p,
     pmx_payload (Requests.peer w (Requests.sent w) (vm_request1 s)) = p →
     truthy p = true → (∀ d, p ≠ VDict d) →
     calc s w = (Ok (VFloat 0), logged w (vm_request1 s))) →
  malformed_reads_zero (scx_vm_poll (vm_key1 prefix) calc)
      (λ s, SensorsCustomProxmox.ProxmoxBaseSensor._cache (SensorsCustomProxmox.ProxmoxVMSensor.base s))
      (λ s, SensorsCustomProxmox.ProxmoxBaseSensor._last (SensorsCustomProxmox.ProxmoxVMSensor.base s))
      (λ s, SensorsCustomProxmox.ProxmoxBaseSensor.cache_ttl (SensorsCustomProxmox.ProxmoxVMSensor.base s))
      (vm_key1 prefix) vm_request1.
Proof.
  intros Hfn now s w p Hf Hp Ht Hd.
  unfold scx_vm_poll, bind, get_self, gets. simpl.
  unfold SensorsCustomProxmox.ProxmoxVMSensor.super. simpl.
  rewrite (scx_pmx_cached_miss _ _ _ _ _ _ _ Hf (Hfn s w p Hp Ht Hd))
    by discriminate.
  eexists. split; [reflexivity|]. simpl. now rewrite lookup_insert_eq.
Qed.

(** X11. A payload that is truthy and no dict (a list, a string, a number)
    where a dict is expected: the sensors of a node's CPU, memory, disk and
    uptime, of a virtual machine's CPU, and the twelve Plex sensors raise
    [AttributeError] out of [as_numeric], after their one request and with
    the object as it was; the sensor of a virtual machine's memory, whose
    [.get] is inside the [try], returns and stores [0.0]. For the classes
    of the three files. *)
Theorem X11_payload_of_wrong_shape_raises `{Runtime} :
  malformed_raises SensorsCustom.ProxmoxNodeCPUUsageSensor.as_numeric
      SensorsCustom.ProxmoxBaseSensor._cache SensorsCustom.ProxmoxBaseSensor._last
      SensorsCustom.ProxmoxBaseSensor.cache_ttl
      (node_key "nodecpu_") (λ _, True) pmx_payload (node_request "/status")
  ∧ malformed_raises SensorsCustom.ProxmoxNodeMemoryUsageSensor.as_numeric
      SensorsCustom.ProxmoxBaseSensor._cache SensorsCustom.ProxmoxBaseSensor._last
      SensorsCustom.ProxmoxBaseSensor.cache_ttl
      (node_key "nodemem_") (λ _, True) pmx_payload (node_request "/status")
  ∧ malformed_raises SensorsCustom.ProxmoxNodeDiskUsageSensor.as_numeric
      SensorsCustom.ProxmoxBaseSensor._cache SensorsCustom.ProxmoxBaseSensor._last
      SensorsCustom.ProxmoxBaseSensor.cache_ttl
      (node_key "nodedsk_") (λ _, True) pmx_payload (node_request "/status")
  ∧ malformed_raises SensorsCustom.ProxmoxNodeUptimeSensor.as_numeric
      SensorsCustom.ProxmoxBaseSensor._cache SensorsCustom.ProxmoxBaseSensor._last
      SensorsCustom.ProxmoxBaseSensor.cache_ttl
      (node_key "nodeupt_") (λ _, True) pmx_payload (node_request "/status")
  ∧ malformed_raises SensorsCustom.ProxmoxVMCPUUsageSensor.as_numeric
      (λ s, SensorsCustom.ProxmoxBaseSensor._cache (SensorsCustom.ProxmoxVMSensor.base s))
      (λ s, SensorsCustom.ProxmoxBaseSensor._last (SensorsCustom.ProxmoxVMSensor.base s))
      (λ s, SensorsCustom.ProxmoxBaseSensor.cache_ttl (SensorsCustom.ProxmoxVMSensor.base s))
      (vm_key "vmcpu_") (λ _, True) pmx_payload vm_request
  ∧ malformed_reads_zero SensorsCustom.ProxmoxVMMemoryUsageSensor.as_numeric
      (λ s, SensorsCustom.ProxmoxBaseSensor._cache (SensorsCustom.ProxmoxVMSensor.base s))
      (λ s, SensorsCustom.ProxmoxBaseSensor._last (SensorsCustom.ProxmoxVMSensor.base s))
      (λ s, SensorsCustom.ProxmoxBaseSensor.cache_ttl (SensorsCustom.ProxmoxVMSensor.base s))
      (vm_key "vmmem_") vm_request
  ∧ malformed_raises SensorsCustomProxmox.ProxmoxNodeCPUUsageSensor.as_numeric
      SensorsCustomProxmox.ProxmoxBaseSensor._cache SensorsCustomProxmox.ProxmoxBaseSensor._last
      SensorsCustomProxmox.ProxmoxBaseSensor.cache_ttl
      (node_key1 "nodecpu_") (λ _, True) pmx_payload (node_request1 "/status")
  ∧ malformed_raises SensorsCustomProxmox.ProxmoxNodeMemoryUsageSensor.as_numeric
      SensorsCustomProxmox.ProxmoxBaseSensor._cache SensorsCustomProxmox.ProxmoxBaseSensor._last
      SensorsCustomProxmox.ProxmoxBaseSensor.cache_ttl
      (node_key1 "nodemem_") (λ _, True) pmx_payload (node_request1 "/status")
  ∧ malformed_raises SensorsCustomProxmox.ProxmoxNodeDiskUsageSensor.as_numeric
      SensorsCustomProxmox.ProxmoxBaseSensor._cache SensorsCustomProxmox.ProxmoxBaseSensor._last
      SensorsCustomProxmox.ProxmoxBaseSensor.cache_ttl
      (node_key1 "nodedsk_") (λ _, True) pmx_payload (node_request1 "/status")
  ∧ malformed_raises SensorsCustomProxmox.ProxmoxNodeUptimeSensor.as_numeric
      SensorsCustomProxmox.ProxmoxBaseSensor._cache SensorsCustomProxmox.ProxmoxBaseSensor._last
      SensorsCustomProxmox.ProxmoxBaseSensor.cache_ttl
      (node_key1 "nodeupt_") (λ _, True) pmx_payload (node_request1 "/status")
  ∧ malformed_raises SensorsCustomProxmox.ProxmoxVMCPUUsageSensor.as_numeric
      (λ s, SensorsCustomProxmox.ProxmoxBaseSensor._cache (SensorsCustomProxmox.ProxmoxVMSensor.base s))
      (λ s, SensorsCustomProxmox.ProxmoxBaseSensor._last (SensorsCustomProxmox.ProxmoxVMSensor.base s))
      (λ s, SensorsCustomProxmox.ProxmoxBaseSensor.cache_ttl (SensorsCustomProxmox.ProxmoxVMSensor.base s))
      (vm_key1 "vmcpu_") (λ _, True) pmx_payload vm_request1
  ∧ malformed_reads_zero SensorsCustomProxmox.ProxmoxVMMemoryUsageSensor.as_numeric
      (λ s, SensorsCustomProxmox.ProxmoxBaseSensor._cache (SensorsCustomProxmox.ProxmoxVMSensor.base s))
      (λ s, SensorsCustomProxmox.ProxmoxBaseSensor._last (SensorsCustomProxmox.ProxmoxVMSensor.base s))
      (λ s, SensorsCustomProxmox.ProxmoxBaseSensor.cache_ttl (SensorsCustomProxmox.ProxmoxVMSensor.base s))
      (vm_key1 "vmmem_") vm_request1
  ∧ malformed_raises SensorsCustom.PlexStreamsSensor.as_numeric
      SensorsCustom.PlexBaseSensor._cache SensorsCustom.PlexBaseSensor._last
      SensorsCustom.PlexBaseSensor._ttl
      (λ _, "streams") (λ s, SensorsCustom.PlexBaseSensor.url s ≠ "")
      plex_payload (plex_endpoint "/status/sessions")
  ∧ malformed_raises SensorsCustom.PlexMovieCountSensor.as_numeric
      SensorsCustom.PlexBaseSensor._cache SensorsCustom.PlexBaseSensor._last
      SensorsCustom.PlexBaseSensor._ttl
      (λ _, "plex_movies") (λ s, SensorsCustom.PlexBaseSensor.url s ≠ "")
      plex_payload (plex_endpoint "/library/sections")
  ∧ malformed_raises SensorsCustom.PlexTVShowCountSensor.as_numeric
      SensorsCustom.PlexBaseSensor._cache SensorsCustom.PlexBaseSensor._last
      SensorsCustom.PlexBaseSensor._ttl
      (λ _, "plex_shows") (λ s, SensorsCustom.PlexBaseSensor.url s ≠ "")
      plex_payload (plex_endpoint "/library/sections")
  ∧ malformed_raises SensorsCustom.PlexEpisodesCountSensor.as_numeric
      SensorsCustom.PlexBaseSensor._cache SensorsCustom.PlexBaseSensor._last
      SensorsCustom.PlexBaseSensor._ttl
      (λ _, "plex_eps") (λ s, SensorsCustom.PlexBaseSensor.url s ≠ "")
      plex_payload (plex_endpoint "/library/sections")
  ∧ malformed_raises SensorsCustom.PlexAlbumCountSensor.as_numeric
      SensorsCustom.PlexBaseSensor._cache SensorsCustom.PlexBaseSensor._last
      SensorsCustom.PlexBaseSensor._ttl
      (λ _, "plex_alb") (λ s, SensorsCustom.PlexBaseSensor.url s ≠ "")
      plex_payload (plex_endpoint "/library/sections")
  ∧ malformed_raises SensorsCustom.PlexSongsCountSensor.as_numeric
      SensorsCustom.PlexBaseSensor._cache SensorsCustom.PlexBaseSensor._last
      SensorsCustom.PlexBaseSensor._ttl
      (λ _, "plex_sng") (λ s, SensorsCustom.PlexBaseSensor.url s ≠ "")
      plex_payload (plex_endpoint "/library/sections")
  ∧ malformed_raises SensorsCustomPlex.PlexStreamsSensor.as_numeric
      SensorsCustomPlex.PlexBaseSensor._cache SensorsCustomPlex.PlexBaseSensor._last
      SensorsCustomPlex.PlexBaseSensor._ttl
      (λ _, "streams") (λ s, SensorsCustomPlex.PlexBaseSensor.url s ≠ "")
      plex_payload (plex_endpoint1 "/status/sessions")
  ∧ malformed_raises SensorsCustomPlex.PlexMovieCountSensor.as_numeric
      SensorsCustomPlex.PlexBaseSensor._cache SensorsCustomPlex.PlexBaseSensor._last
      SensorsCustomPlex.PlexBaseSensor._ttl
      (λ _, "plex_movies") (λ s, SensorsCustomPlex.PlexBaseSensor.url s ≠ "")
      plex_payload (plex_endpoint1 "/library/sections")
  ∧ malformed_raises SensorsCustomPlex.PlexTVShowCountSensor.as_numeric
      SensorsCustomPlex.PlexBaseSensor._cache SensorsCustomPlex.PlexBaseSensor._last
      SensorsCustomPlex.PlexBaseSensor._ttl
      (λ _, "plex_shows") (λ s, SensorsCustomPlex.PlexBaseSensor.url s ≠ "")
      plex_payload (plex_endpoint1 "/library/sections")
  ∧ malformed_raises SensorsCustomPlex.PlexEpisodesCountSensor.as_numeric
      SensorsCustomPlex.PlexBaseSensor._cache SensorsCustomPlex.PlexBaseSensor._last
      SensorsCustomPlex.PlexBaseSensor._ttl
      (λ _, "plex_eps") (λ s, SensorsCustomPlex.PlexBaseSensor.url s ≠ "")
      plex_payload (plex_endpoint1 "/library/sections")
  ∧ malformed_raises SensorsCustomPlex.PlexAlbumCountSensor.as_numeric
      SensorsCustomPlex.PlexBaseSensor._cache SensorsCustomPlex.PlexBaseSensor._last
      SensorsCustomPlex.PlexBaseSensor._ttl
      (λ _, "plex_alb") (λ s, SensorsCustomPlex.PlexBaseSensor.url s ≠ "")
      plex_payload (plex_endpoint1 "/library/sections")
  ∧ malformed_raises SensorsCustomPlex.PlexSongsCountSensor.as_numeric
      SensorsCustomPlex.PlexBaseSensor._cache SensorsCustomPlex.PlexBaseSensor._last
      SensorsCustomPlex.PlexBaseSensor._ttl
      (λ _, "plex_sng") (λ s, SensorsCustomPlex.PlexBaseSensor.url s ≠ "")
      plex_payload (plex_endpoint1 "/library/sections").
Proof.
  repeat match goal with |- _ ∧ _ => split end.
  - exact (sc_pmx_poll_malformed "nodecpu_" SensorsCustom.ProxmoxNodeCPUUsageSensor._calc "/status"
             sc_cpu_calc_malformed).
  - exact (sc_pmx_poll_malformed "nodemem_" SensorsCustom.ProxmoxNodeMemoryUsageSensor._calc "/status"
             sc_mem_calc_malformed).
  - exact (sc_pmx_poll_malformed "nodedsk_" SensorsCustom.ProxmoxNodeDiskUsageSensor._calc "/status"
             sc_dsk_calc_malformed).
  - exact sc_uptime_malformed.
  - exact (sc_vm_poll_malformed "vmcpu_" SensorsCustom.ProxmoxVMCPUUsageSensor._calc sc_vmcpu_calc_malformed).
  - exact (sc_vm_poll_malformed_zero "vmmem_" SensorsCustom.ProxmoxVMMemoryUsageSensor._calc
             sc_vmmem_calc_malformed).
  - exact (scx_pmx_poll_malformed "nodecpu_" SensorsCustomProxmox.ProxmoxNodeCPUUsageSensor._calc "/status"
             scx_cpu_calc_malformed).
  - exact (scx_pmx_poll_malformed "nodemem_" SensorsCustomProxmox.ProxmoxNodeMemoryUsageSensor._calc "/status"
             scx_mem_calc_malformed).
  - exact (scx_pmx_poll_malformed "nodedsk_" SensorsCustomProxmox.ProxmoxNodeDiskUsageSensor._calc "/status"
             scx_dsk_calc_malformed).
  - exact scx_uptime_malformed.
  - exact (scx_vm_poll_malformed "vmcpu_" SensorsCustomProxmox.ProxmoxVMCPUUsageSensor._calc scx_vmcpu_calc_malformed).
  - exact (scx_vm_poll_malformed_zero "vmmem_"
             SensorsCustomProxmox.ProxmoxVMMemoryUsageSensor._calc
             scx_vmmem_calc_malformed).
  - exact (sc_plex_poll_malformed "streams" SensorsCustom.PlexStreamsSensor.fn "/status/sessions"
             sc_streams_fn_malformed).
  - exact (sc_plex_poll_malformed "plex_movies" SensorsCustom.PlexMovieCountSensor.fn "/library/sections"
             sc_movies_fn_malformed).
  - exact (sc_plex_poll_malformed "plex_shows" SensorsCustom.PlexTVShowCountSensor.fn "/library/sections"
             sc_shows_fn_malformed).
  - exact (sc_plex_poll_malformed "plex_eps" SensorsCustom.PlexEpisodesCountSensor.fn "/library/sections"
             sc_eps_fn_malformed).
  - exact (sc_plex_poll_malformed "plex_alb" SensorsCustom.PlexAlbumCountSensor.fn "/library/sections"
             sc_alb_fn_malformed).
  - exact (sc_plex_poll_malformed "plex_sng" SensorsCustom.PlexSongsCountSensor.fn "/library/sections"
             sc_sng_fn_malformed).
  - exact (scp_plex_poll_malformed "streams" SensorsCustomPlex.PlexStreamsSensor.fn "/status/sessions"
             scp_streams_fn_malformed).
  - exact (scp_plex_poll_malformed "plex_movies" SensorsCustomPlex.PlexMovieCountSensor.fn "/library/sections"
             scp_movies_fn_malformed).
  - exact (scp_plex_poll_malformed "plex_shows" SensorsCustomPlex.PlexTVShowCountSensor.fn "/library/sections"
             scp_shows_fn_malformed).
  - exact (scp_plex_poll_malformed "plex_eps" SensorsCustomPlex.PlexEpisodesCountSensor.fn "/library/sections"
             scp_eps_fn_malformed).
  - exact (scp_plex_poll_malformed "plex_alb" SensorsCustomPlex.PlexAlbumCountSensor.fn "/library/sections"
             scp_alb_fn_malformed).
  - exact (scp_plex_poll_malformed "plex_sng" SensorsCustomPlex.PlexSongsCountSensor.fn "/library/sections"
             scp_sng_fn_malformed).
Qed.

(** X11 at a concrete input: the sensor of the node's CPU of
    sensors_custom_proxmox.py, just built, and a peer whose data is a
    list. *)
Lemma X11_witness :
  SensorsCustomProxmox.ProxmoxNodeCPUUsageSensor.as_numeric (H := sample_runtime) 5
    (sample_pmx1, listing_world)
  = (Raise AttributeError,
     (sample_pmx1, logged listing_world (node_request1 "/status" sample_pmx1))).
Proof.
  refine (proj1 (proj2 (proj2 (proj2 (proj2 (proj2 (proj2
            (X11_payload_of_wrong_shape_raises (H := sample_runtime))))))))
            5%float sample_pmx1 listing_world (VList [VInt 1]) I _ _ _ _).
  - reflexivity.
  - reflexivity.
  - reflexivity.
  - discriminate.
Defined.

(** ** The percentages *)

Lemma or_dict d : or_ (VDict d) (VDict []) = VDict d.
Proof. now destruct d. Qed.

Ltac calc_dict_tac run :=
  unfold bind at 1; rewrite run; cbv beta iota zeta;
  match goal with Hp : pmx_payload _ = VDict _ |- _ => rewrite Hp end;
  rewrite or_dict; unfold bind, lift, get, rtry, rbind, float_div.

Ltac split_matches :=
  repeat match goal with
         | |- context [match ?x with _ => _ end] =>
             lazymatch x with
             | context [match _ with _ => _ end] => fail
             | _ => destruct x; cbv beta iota
             end
         end.

Section ComputeValues.
Context `{Runtime}.

Lemma sc_cpu_calc_value :
  ∀ s w d f,
    pmx_payload (Requests.peer w (Requests.sent w) ((node_request "/status") s)) = VDict d →
    float_ (default VNone (assoc "cpu" d)) = Ok f →
    SensorsCustom.ProxmoxNodeCPUUsageSensor._calc s w = (Ok (VFloat (f * 100)), logged w ((node_request "/status") s)).
Proof.
  unfold SensorsCustom.ProxmoxNodeCPUUsageSensor._calc, node_request. intros s w d f Hp Hf.
  calc_dict_tac sc_pmx_get_run. rewrite Hf. reflexivity.
Qed.

Lemma sc_vmcpu_calc_value :
  ∀ s w d f,
    pmx_payload (Requests.peer w (Requests.sent w) (vm_request s)) = VDict d →
    float_ (default VNone (assoc "cpu" d)) = Ok f →
    SensorsCustom.ProxmoxVMCPUUsageSensor._calc s w = (Ok (VFloat (f * 100)), logged w (vm_request s)).
Proof.
  unfold SensorsCustom.ProxmoxVMCPUUsageSensor._calc, vm_request. intros s w d f Hp Hf.
  calc_dict_tac sc_pmx_get_run. rewrite Hf. reflexivity.
Qed.

Lemma sc_mem_calc_value :
  ∀ s w d m u t,
    pmx_payload (Requests.peer w (Requests.sent w) ((node_request "/status") s)) = VDict d →
    assoc "memory" d = Some (VDict m) →
    float_ (default (VInt 0) (assoc "used" m)) = Ok u →
    float_ (default (VInt 1) (assoc "total" m)) = Ok t →
    SensorsCustom.ProxmoxNodeMemoryUsageSensor._calc s w
    = (Ok (VFloat (if (t =? 0)%float then 0 else u / t * 100)), logged w ((node_request "/status") s)).
Proof.
  unfold SensorsCustom.ProxmoxNodeMemoryUsageSensor._calc, node_request. intros s w d m u t Hp Hm Hu Ht.
  calc_dict_tac sc_pmx_get_run. rewrite Hm. cbn [default from_option id].
  rewrite or_dict, Hu, Ht. now destruct (t =? 0)%float.
Qed.

Lemma sc_dsk_calc_value :
  ∀ s w d m u t,
    pmx_payload (Requests.peer w (Requests.sent w) ((node_request "/status") s)) = VDict d →
    assoc "rootfs" d = Some (VDict m) →
    float_ (default (VInt 0) (assoc "used" m)) = Ok u →
    float_ (default (VInt 0) (assoc "total" m)) = Ok t →
    SensorsCustom.ProxmoxNodeDiskUsageSensor._calc s w
    = (Ok (VFloat (if (t =? 0)%float then 0 else u / t * 100)), logged w ((node_request "/status") s)).
Proof.
  unfold SensorsCustom.ProxmoxNodeDiskUsageSensor._calc, node_request. intros s w d m u t Hp Hm Hu Ht.
  calc_dict_tac sc_pmx_get_run. rewrite Hm. cbn [default from_option id].
  rewrite or_dict, Hu, Ht. unfold truthy. now destruct (t =? 0)%float.
Qed.

Lemma sc_vmmem_calc_value :
  ∀ s w d u t,
    pmx_payload (Requests.peer w (Requests.sent w) (vm_request s)) = VDict d →
    float_ (default (VInt 0) (assoc "mem" d)) = Ok u →
    float_ (default (VInt 1) (assoc "maxmem" d)) = Ok t →
    SensorsCustom.ProxmoxVMMemoryUsageSensor._calc s w
    = (Ok (VFloat (if (t =? 0)%float then 0 else u / t * 100)), logged w (vm_request s)).
Proof.
  unfold SensorsCustom.ProxmoxVMMemoryUsageSensor._calc, vm_request. intros s w d u t Hp Hu Ht.
  calc_dict_tac sc_pmx_get_run. rewrite Hu, Ht. now destruct (t =? 0)%float.
Qed.

Lemma sc_cpu_calc_dict s w d :
  pmx_payload (Requests.peer w (Requests.sent w) ((node_request "/status") s)) = VDict d →
  ∃ f, SensorsCustom.ProxmoxNodeCPUUsageSensor._calc s w = (Ok (VFloat f), logged w ((node_request "/status") s)).
Proof.
  unfold SensorsCustom.ProxmoxNodeCPUUsageSensor._calc, node_request. intros Hp.
  calc_dict_tac sc_pmx_get_run. unfold truthy. split_matches; eauto.
Qed.

Lemma sc_mem_calc_dict s w d :
  pmx_payload (Requests.peer w (Requests.sent w) ((node_request "/status") s)) = VDict d →
  ∃ f, SensorsCustom.ProxmoxNodeMemoryUsageSensor._calc s w = (Ok (VFloat f), logged w ((node_request "/status") s)).
Proof.
  unfold SensorsCustom.ProxmoxNodeMemoryUsageSensor._calc, node_request. intros Hp.
  calc_dict_tac sc_pmx_get_run. unfold truthy. split_matches; eauto.
Qed.

Lemma sc_dsk_calc_dict s w d :
  pmx_payload (Requests.peer w (Requests.sent w) ((node_request "/status") s)) = VDict d →
  ∃ f, SensorsCustom.ProxmoxNodeDiskUsageSensor._calc s w = (Ok (VFloat f), logged w ((node_request "/status") s)).
Proof.
  unfold SensorsCustom.ProxmoxNodeDiskUsageSensor._calc, node_request. intros Hp.
  calc_dict_tac sc_pmx_get_run. unfold truthy. split_matches; eauto.
Qed.

Lemma sc_vmcpu_calc_dict s w d :
  pmx_payload (Requests.peer w (Requests.sent w) (vm_request s)) = VDict d →
  ∃ f, SensorsCustom.ProxmoxVMCPUUsageSensor._calc s w = (Ok (VFloat f), logged w (vm_request s)).
Proof.
  unfold SensorsCustom.ProxmoxVMCPUUsageSensor._calc, vm_request. intros Hp.
  calc_dict_tac sc_pmx_get_run. unfold truthy. split_matches; eauto.
Qed.

Lemma sc_vmmem_calc_dict s w d :
  pmx_payload (Requests.peer w (Requests.sent w) (vm_request s)) = VDict d →
  ∃ f, SensorsCustom.ProxmoxVMMemoryUsageSensor._calc s w = (Ok (VFloat f), logged w (vm_request s)).
Proof.
  unfold SensorsCustom.ProxmoxVMMemoryUsageSensor._calc, vm_request. intros Hp.
  calc_dict_tac sc_pmx_get_run. unfold truthy. split_matches; eauto.
Qed.

Lemma scx_cpu_calc_value :
  ∀ s w d f,
    pmx_payload (Requests.peer w (Requests.sent w) ((node_request1 "/status") s)) = VDict d →
    float_ (default VNone (assoc "cpu" d)) = Ok f →
    SensorsCustomProxmox.ProxmoxNodeCPUUsageSensor._calc s w = (Ok (VFloat (f * 100)), logged w ((node_request1 "/status") s)).
Proof.
  unfold SensorsCustomProxmox.ProxmoxNodeCPUUsageSensor._calc, node_request1. intros s w d f Hp Hf.
  calc_dict_tac scx_pmx_get_run. rewrite Hf. reflexivity.
Qed.

Lemma scx_vmcpu_calc_value :
  ∀ s w d f,
    pmx_payload (Requests.peer w (Requests.sent w) (vm_request1 s)) = VDict d →
    float_ (default VNone (assoc "cpu" d)) = Ok f →
    SensorsCustomProxmox.ProxmoxVMCPUUsageSensor._calc s w = (Ok (VFloat (f * 100)), logged w (vm_request1 s)).
Proof.
  unfold SensorsCustomProxmox.ProxmoxVMCPUUsageSensor._calc, vm_request1. intros s w d f Hp Hf.
  calc_dict_tac scx_pmx_get_run. rewrite Hf. reflexivity.
Qed.

Lemma scx_mem_calc_value :
  ∀ s w d m u t,
    pmx_payload (Requests.peer w (Requests.sent w) ((node_request1 "/status") s)) = VDict d →
    assoc "memory" d = Some (VDict m) →
    float_ (default (VInt 0) (assoc "used" m)) = Ok u →
    float_ (default (VInt 1) (assoc "total" m)) = Ok t →
    SensorsCustomProxmox.ProxmoxNodeMemoryUsageSensor._calc s w
    = (Ok (VFloat (if (t =? 0)%float then 0 else u / t * 100)), logged w ((node_request1 "/status") s)).
Proof.
  unfold SensorsCustomProxmox.ProxmoxNodeMemoryUsageSensor._calc, node_request1. intros s w d m u t Hp Hm Hu Ht.
  calc_dict_tac scx_pmx_get_run. rewrite Hm. cbn [default from_option id].
  rewrite or_dict, Hu, Ht. now destruct (t =? 0)%float.
Qed.

Lemma scx_dsk_calc_value :
  ∀ s w d m u t,
    pmx_payload (Requests.peer w (Requests.sent w) ((node_request1 "/status") s)) = VDict d →
    assoc "rootfs" d = Some (VDict m) →
    float_ (default (VInt 0) (assoc "used" m)) = Ok u →
    float_ (default (VInt 0) (assoc "total" m)) = Ok t →
    SensorsCustomProxmox.ProxmoxNodeDiskUsageSensor._calc s w
    = (Ok (VFloat (if (t =? 0)%float then 0 else u / t * 100)), logged w ((node_request1 "/status") s)).
Proof.
  unfold SensorsCustomProxmox.ProxmoxNodeDiskUsageSensor._calc, node_request1. intros s w d m u t Hp Hm Hu Ht.
  calc_dict_tac scx_pmx_get_run. rewrite Hm. cbn [default from_option id].
  rewrite or_dict, Hu, Ht. unfold truthy. now destruct (t =? 0)%float.
Qed.

Lemma scx_vmmem_calc_value :
  ∀ s w d u t,
    pmx_payload (Requests.peer w (Requests.sent w) (vm_request1 s)) = VDict d →
    float_ (default (VInt 0) (assoc "mem" d)) = Ok u →
    float_ (default (VInt 1) (assoc "maxmem" d)) = Ok t →
    SensorsCustomProxmox.ProxmoxVMMemoryUsageSensor._calc s w
    = (Ok (VFloat (if (t =? 0)%float then 0 else u / t * 100)), logged w (vm_request1 s)).
Proof.
  unfold SensorsCustomProxmox.ProxmoxVMMemoryUsageSensor._calc, vm_request1. intros s w d u t Hp Hu Ht.
  calc_dict_tac scx_pmx_get_run. rewrite Hu, Ht. now destruct (t =? 0)%float.
Qed.

Lemma scx_cpu_calc_dict s w d :
  pmx_payload (Requests.peer w (Requests.sent w) ((node_request1 "/status") s)) = VDict d →
  ∃ f, SensorsCustomProxmox.ProxmoxNodeCPUUsageSensor._calc s w = (Ok (VFloat f), logged w ((node_request1 "/status") s)).
Proof.
  unfold SensorsCustomProxmox.ProxmoxNodeCPUUsageSensor._calc, node_request1. intros Hp.
  calc_dict_tac scx_pmx_get_run. unfold truthy. split_matches; eauto.
Qed.

Lemma scx_mem_calc_dict s w d :
  pmx_payload (Requests.peer w (Requests.sent w) ((node_request1 "/status") s)) = VDict d →
  ∃ f, SensorsCustomProxmox.ProxmoxNodeMemoryUsageSensor._calc s w = (Ok (VFloat f), logged w ((node_request1 "/status") s)).
Proof.
  unfold SensorsCustomProxmox.ProxmoxNodeMemoryUsageSensor._calc, node_request1. intros Hp.
  calc_dict_tac scx_pmx_get_run. unfold truthy. split_matches; eauto.
Qed.

Lemma scx_dsk_calc_dict s w d :
  pmx_payload (Requests.peer w (Requests.sent w) ((node_request1 "/status") s)) = VDict d →
  ∃ f, SensorsCustomProxmox.ProxmoxNodeDiskUsageSensor._calc s w = (Ok (VFloat f), logged w ((node_request1 "/status") s)).
Proof.
  unfold SensorsCustomProxmox.ProxmoxNodeDiskUsageSensor._calc, node_request1. intros Hp.
  calc_dict_tac scx_pmx_get_run. unfold truthy. split_matches; eauto.
Qed.

Lemma scx_vmcpu_calc_dict s w d :
  pmx_payload (Requests.peer w (Requests.sent w) (vm_request1 s)) = VDict d →
  ∃ f, SensorsCustomProxmox.ProxmoxVMCPUUsageSensor._calc s w = (Ok (VFloat f), logged w (vm_request1 s)).
Proof.
  unfold SensorsCustomProxmox.ProxmoxVMCPUUsageSensor._calc, vm_request1. intros Hp.
  calc_dict_tac scx_pmx_get_run. unfold truthy. split_matches; eauto.
Qed.

Lemma scx_vmmem_calc_dict s w d :
  pmx_payload (Requests.peer w (Requests.sent w) (vm_request1 s)) = VDict d →
  ∃ f, SensorsCustomProxmox.ProxmoxVMMemoryUsageSensor._calc s w = (Ok (VFloat f), logged w (vm_request1 s)).
Proof.
  unfold SensorsCustomProxmox.ProxmoxVMMemoryUsageSensor._calc, vm_request1. intros Hp.
  calc_dict_tac scx_pmx_get_run. unfold truthy. split_matches; eauto.
Qed.

End ComputeValues.

(** X12. What the percentage sensors compute from a well-formed answer, in
    sensors_custom.py and in sensors_custom_proxmox.py: the CPU of a node
    and of a virtual machine is [float(cpu) * 100]; the memory of a node,
    its disk and the memory of a virtual machine are
    [float(used) / float(total) * 100], with [used] read as 0 when missing
    and [total] as 1 (memory) or 0 (disk); and a total of zero gives [0.0],
    by the guard for the disk and by the [ZeroDivisionError] that the
    [try] swallows for the memory. *)
Theorem X12_percentages_of_well_formed_answers `{Runtime} :
  (∀ s w d f,
    pmx_payload (Requests.peer w (Requests.sent w) ((node_request "/status") s)) = VDict d →
    float_ (default VNone (assoc "cpu" d)) = Ok f →
    SensorsCustom.ProxmoxNodeCPUUsageSensor._calc s w = (Ok (VFloat (f * 100)), logged w ((node_request "/status") s)))
  ∧ (∀ s w d m u t,
    pmx_payload (Requests.peer w (Requests.sent w) ((node_request "/status") s)) = VDict d →
    assoc "memory" d = Some (VDict m) →
    float_ (default (VInt 0) (assoc "used" m)) = Ok u →
    float_ (default (VInt 1) (assoc "total" m)) = Ok t →
    SensorsCustom.ProxmoxNodeMemoryUsageSensor._calc s w
    = (Ok (VFloat (if (t =? 0)%float then 0 else u / t * 100)), logged w ((node_request "/status") s)))
  ∧ (∀ s w d m u t,
    pmx_payload (Requests.peer w (Requests.sent w) ((node_request "/status") s)) = VDict d →
    assoc "rootfs" d = Some (VDict m) →
    float_ (default (VInt 0) (assoc "used" m)) = Ok u →
    float_ (default (VInt 0) (assoc "total" m)) = Ok t →
    SensorsCustom.ProxmoxNodeDiskUsageSensor._calc s w
    = (Ok (VFloat (if (t =? 0)%float then 0 else u / t * 100)), logged w ((node_request "/status") s)))
  ∧ (∀ s w d f,
    pmx_payload (Requests.peer w (Requests.sent w) (vm_request s)) = VDict d →
    float_ (default VNone (assoc "cpu" d)) = Ok f →
    SensorsCustom.ProxmoxVMCPUUsageSensor._calc s w = (Ok (VFloat (f * 100)), logged w (vm_request s)))
  ∧ (∀ s w d u t,
    pmx_payload (Requests.peer w (Requests.sent w) (vm_request s)) = VDict d →
    float_ (default (VInt 0) (assoc "mem" d)) = Ok u →
    float_ (default (VInt 1) (assoc "maxmem" d)) = Ok t →
    SensorsCustom.ProxmoxVMMemoryUsageSensor._calc s w
    = (Ok (VFloat (if (t =? 0)%float then 0 else u / t * 100)), logged w (vm_request s)))
  ∧ (∀ s w d f,
    pmx_payload (Requests.peer w (Requests.sent w) ((node_request1 "/status") s)) = VDict d →
    float_ (default VNone (assoc "cpu" d)) = Ok f →
    SensorsCustomProxmox.ProxmoxNodeCPUUsageSensor._calc s w = (Ok (VFloat (f * 100)), logged w ((node_request1 "/status") s)))
  ∧ (∀ s w d m u t,
    pmx_payload (Requests.peer w (Requests.sent w) ((node_request1 "/status") s)) = VDict d →
    assoc "memory" d = Some (VDict m) →
    float_ (default (VInt 0) (assoc "used" m)) = Ok u →
    float_ (default (VInt 1) (assoc "total" m)) = Ok t →
    SensorsCustomProxmox.ProxmoxNodeMemoryUsageSensor._calc s w
    = (Ok (VFloat (if (t =? 0)%float then 0 else u / t * 100)), logged w ((node_request1 "/status") s)))
  ∧ (∀ s w d m u t,
    pmx_payload (Requests.peer w (Requests.sent w) ((node_request1 "/status") s)) = VDict d →
    assoc "rootfs" d = Some (VDict m) →
    float_ (default (VInt 0) (assoc "used" m)) = Ok u →
    float_ (default (VInt 0) (assoc "total" m)) = Ok t →
    SensorsCustomProxmox.ProxmoxNodeDiskUsageSensor._calc s w
    = (Ok (VFloat (if (t =? 0)%float then 0 else u / t * 100)), logged w ((node_request1 "/status") s)))
  ∧ (∀ s w d f,
    pmx_payload (Requests.peer w (Requests.sent w) (vm_request1 s)) = VDict d →
    float_ (default VNone (assoc "cpu" d)) = Ok f →
    SensorsCustomProxmox.ProxmoxVMCPUUsageSensor._calc s w = (Ok (VFloat (f * 100)), logged w (vm_request1 s)))
  ∧ (∀ s w d u t,
    pmx_payload (Requests.peer w (Requests.sent w) (vm_request1 s)) = VDict d →
    float_ (default (VInt 0) (assoc "mem" d)) = Ok u →
    float_ (default (VInt 1) (assoc "maxmem" d)) = Ok t →
    SensorsCustomProxmox.ProxmoxVMMemoryUsageSensor._calc s w
    = (Ok (VFloat (if (t =? 0)%float then 0 else u / t * 100)), logged w (vm_request1 s))).
Proof.
  repeat match goal with |- _ ∧ _ => split end.
  - exact sc_cpu_calc_value.
  - exact sc_mem_calc_value.
  - exact sc_dsk_calc_value.
  - exact sc_vmcpu_calc_value.
  - exact sc_vmmem_calc_value.
  - exact scx_cpu_calc_value.
  - exact scx_mem_calc_value.
  - exact scx_dsk_calc_value.
  - exact scx_vmcpu_calc_value.
  - exact scx_vmmem_calc_value.
Qed.

(** X12 at a concrete input: 2 GiB used of 8 GiB are 25 %. *)
Lemma X12_witness :
  SensorsCustom.ProxmoxNodeMemoryUsageSensor._calc (H := sample_runtime)
    sample_pmx memory_world
  = (Ok (VFloat 25), logged memory_world (node_request "/status" sample_pmx)).
Proof.
  refine ((proj1 (proj2 (X12_percentages_of_well_formed_answers (H := sample_runtime)))) sample_pmx memory_world _ _ 2147483648%float 8589934592%float
            _ _ _ _).
  - reflexivity.
  - reflexivity.
  - reflexivity.
  - reflexivity.
Defined.

(** ** When a percentage sensor raises *)

Ltac classify_tac zero dict malformed :=
  intros s w; cbv zeta;
  match goal with |- context [pmx_payload ?o] =>
    destruct (pmx_payload o) as [|b|n|f|t|l|d] eqn:?
  end;
  match goal with
  | Hq : pmx_payload _ = VDict _ |- _ => left; exact (dict _ _ _ Hq)
  | Hq : pmx_payload _ = ?p |- _ =>
      destruct (truthy p) eqn:?;
      match goal with
      | Hs : truthy _ = true |- _ =>
          right; split; [|split; [reflexivity|discriminate]];
          apply (malformed _ _ p Hq Hs); discriminate
      | Hs : truthy _ = false |- _ =>
          left; exists 0%float; apply zero; rewrite Hq; exact Hs
      end
  end.

Ltac always_float_tac zero dict malformed :=
  intros s w;
  match goal with |- context [logged w ?rq] =>
    destruct (pmx_payload (Requests.peer w (Requests.sent w) rq))
      as [|b|n|f|t|l|d] eqn:?
  end;
  match goal with
  | Hq : pmx_payload _ = VDict _ |- _ => exact (dict _ _ _ Hq)
  | Hq : pmx_payload _ = ?p |- _ =>
      destruct (truthy p) eqn:?;
      match goal with
      | Hs : truthy _ = true |- _ =>
          exists 0%float; apply (malformed _ _ p Hq Hs); discriminate
      | Hs : truthy _ = false |- _ =>
          exists 0%float; apply zero; rewrite Hq; exact Hs
      end
  end.

(** X13. The compute functions of the percentage sensors, whatever the
    peer answers: those of the CPU, memory and disk of a node and of the
    CPU of a virtual machine either return a float or raise
    [AttributeError], and they raise only when the payload is truthy and
    no dict; that of the memory of a virtual machine always returns a
    float. Each after exactly its one request. In sensors_custom.py and in
    sensors_custom_proxmox.py. *)
Theorem X13_percentage_raises_only_on_non_dict `{Runtime} :
  (∀ s w,
     let p := pmx_payload (Requests.peer w (Requests.sent w) ((node_request "/status") s)) in
     (∃ f, SensorsCustom.ProxmoxNodeCPUUsageSensor._calc s w = (Ok (VFloat f), logged w ((node_request "/status") s)))
     ∨ (SensorsCustom.ProxmoxNodeCPUUsageSensor._calc s w = (Raise AttributeError, logged w ((node_request "/status") s))
        ∧ truthy p = true ∧ ∀ d, p ≠ VDict d))
  ∧ (∀ s w,
     let p := pmx_payload (Requests.peer w (Requests.sent w) ((node_request "/status") s)) in
     (∃ f, SensorsCustom.ProxmoxNodeMemoryUsageSensor._calc s w = (Ok (VFloat f), logged w ((node_request "/status") s)))
     ∨ (SensorsCustom.ProxmoxNodeMemoryUsageSensor._calc s w = (Raise AttributeError, logged w ((node_request "/status") s))
        ∧ truthy p = true ∧ ∀ d, p ≠ VDict d))
  ∧ (∀ s w,
     let p := pmx_payload (Requests.peer w (Requests.sent w) ((node_request "/status") s)) in
     (∃ f, SensorsCustom.ProxmoxNodeDiskUsageSensor._calc s w = (Ok (VFloat f), logged w ((node_request "/status") s)))
     ∨ (SensorsCustom.ProxmoxNodeDiskUsageSensor._calc s w = (Raise AttributeError, logged w ((node_request "/status") s))
        ∧ truthy p = true ∧ ∀ d, p ≠ VDict d))
  ∧ (∀ s w,
     let p := pmx_payload (Requests.peer w (Requests.sent w) (vm_request s)) in
     (∃ f, SensorsCustom.ProxmoxVMCPUUsageSensor._calc s w = (Ok (VFloat f), logged w (vm_request s)))
     ∨ (SensorsCustom.ProxmoxVMCPUUsageSensor._calc s w = (Raise AttributeError, logged w (vm_request s))
        ∧ truthy p = true ∧ ∀ d, p ≠ VDict d))
  ∧ (∀ s w, ∃ f, SensorsCustom.ProxmoxVMMemoryUsageSensor._calc s w = (Ok (VFloat f), logged w (vm_request s)))
  ∧ (∀ s w,
     let p := pmx_payload (Requests.peer w (Requests.sent w) ((node_request1 "/status") s)) in
     (∃ f, SensorsCustomProxmox.ProxmoxNodeCPUUsageSensor._calc s w = (Ok (VFloat f), logged w ((node_request1 "/status") s)))
     ∨ (SensorsCustomProxmox.ProxmoxNodeCPUUsageSensor._calc s w = (Raise AttributeError, logged w ((node_request1 "/status") s))
        ∧ truthy p = true ∧ ∀ d, p ≠ VDict d))
  ∧ (∀ s w,
     let p := pmx_payload (Requests.peer w (Requests.sent w) ((node_request1 "/status") s)) in
     (∃ f, SensorsCustomProxmox.ProxmoxNodeMemoryUsageSensor._calc s w = (Ok (VFloat f), logged w ((node_request1 "/status") s)))
     ∨ (SensorsCustomProxmox.ProxmoxNodeMemoryUsageSensor._calc s w = (Raise AttributeError, logged w ((node_request1 "/status") s))
        ∧ truthy p = true ∧ ∀ d, p ≠ VDict d))
  ∧ (∀ s w,
     let p := pmx_payload (Requests.peer w (Requests.sent w) ((node_request1 "/status") s)) in
     (∃ f, SensorsCustomProxmox.ProxmoxNodeDiskUsageSensor._calc s w = (Ok (VFloat f), logged w ((node_request1 "/status") s)))
     ∨ (SensorsCustomProxmox.ProxmoxNodeDiskUsageSensor._calc s w = (Raise AttributeError, logged w ((node_request1 "/status") s))
        ∧ truthy p = true ∧ ∀ d, p ≠ VDict d))
  ∧ (∀ s w,
     let p := pmx_payload (Requests.peer w (Requests.sent w) (vm_request1 s)) in
     (∃ f, SensorsCustomProxmox.ProxmoxVMCPUUsageSensor._calc s w = (Ok (VFloat f), logged w (vm_request1 s)))
     ∨ (SensorsCustomProxmox.ProxmoxVMCPUUsageSensor._calc s w = (Raise AttributeError, logged w (vm_request1 s))
        ∧ truthy p = true ∧ ∀ d, p ≠ VDict d))
  ∧ (∀ s w, ∃ f, SensorsCustomProxmox.ProxmoxVMMemoryUsageSensor._calc s w = (Ok (VFloat f), logged w (vm_request1 s))).
Proof.
  repeat match goal with |- _ ∧ _ => split end.
  - classify_tac sc_cpu_calc_zero sc_cpu_calc_dict sc_cpu_calc_malformed.
  - classify_tac sc_mem_calc_zero sc_mem_calc_dict sc_mem_calc_malformed.
  - classify_tac sc_dsk_calc_zero sc_dsk_calc_dict sc_dsk_calc_malformed.
  - classify_tac sc_vmcpu_calc_zero sc_vmcpu_calc_dict sc_vmcpu_calc_malformed.
  - always_float_tac sc_vmmem_calc_zero sc_vmmem_calc_dict sc_vmmem_calc_malformed.
  - classify_tac scx_cpu_calc_zero scx_cpu_calc_dict scx_cpu_calc_malformed.
  - classify_tac scx_mem_calc_zero scx_mem_calc_dict scx_mem_calc_malformed.
  - classify_tac scx_dsk_calc_zero scx_dsk_calc_dict scx_dsk_calc_malformed.
  - classify_tac scx_vmcpu_calc_zero scx_vmcpu_calc_dict scx_vmcpu_calc_malformed.
  - always_float_tac scx_vmmem_calc_zero scx_vmmem_calc_dict scx_vmmem_calc_malformed.
Qed.

(** ** The text after any reads *)

Lemma attempts_floats {S} (numeric : float → SE (S * Requests.World) value) cache :
  keeps_floats numeric cache →
  ∀ nows s w, floats_only (cache s) →
    floats_only (cache (fst (attempts numeric nows (s, w)))).
Proof.
  intros Hk nows. induction nows as [|now nows IH]; intros s w Hc; [exact Hc|].
  simpl. destruct (numeric now (s, w)) as [r [s1 w1]] eqn:E.
  destruct (Hk _ _ _ _ _ _ Hc E) as [Hc1 _]. exact (IH s1 w1 Hc1).
Qed.

Lemma prints_of_floats {S} (numeric : float → SE (S * Requests.World) value)
    (text : S → res string) cache :
  (∀ s, floats_only (cache s) → ∃ t, text s = Ok t) →
  keeps_floats numeric cache →
  always_prints numeric text cache.
Proof. intros Ht Hk s nows w Hc. apply Ht, (attempts_floats _ _ Hk), Hc. Qed.

(** [f"{c:.1f}"] of a float, and of the [0] that stands for a missing
    entry. *)
Lemma fixed_text_prints cache key unit_ :
  floats_only cache →
  ∃ t, rbind (format_1f (default (VInt 0) (cache !! key))) (λ s, Ok (s +:+ unit_))
       = Ok t.
Proof.
  intros Hc. destruct (cache !! key) as [c|] eqn:E.
  - destruct (Hc _ _ E) as [f ->]. eexists. reflexivity.
  - eexists. reflexivity.
Qed.

(** X14. The texts with one decimal never fail. For the sensors of the
    CPU, memory, disk and traffic of a node and of the CPU and memory of a
    virtual machine, in sensors_custom.py and in
    sensors_custom_proxmox.py: from an object whose cache holds floats
    only, as one just built, and after any number of calls of [as_numeric],
    at whatever times, with whatever answers of the peer and whether they
    returned or raised, [as_string] returns a text. *)
Theorem X14_fixed_point_texts_never_fail `{Runtime} :
  always_prints SensorsCustom.ProxmoxNodeCPUUsageSensor.as_numeric SensorsCustom.ProxmoxNodeCPUUsageSensor.as_string
      SensorsCustom.ProxmoxBaseSensor._cache
  ∧ always_prints SensorsCustom.ProxmoxNodeMemoryUsageSensor.as_numeric SensorsCustom.ProxmoxNodeMemoryUsageSensor.as_string
      SensorsCustom.ProxmoxBaseSensor._cache
  ∧ always_prints SensorsCustom.ProxmoxNodeDiskUsageSensor.as_numeric SensorsCustom.ProxmoxNodeDiskUsageSensor.as_string
      SensorsCustom.ProxmoxBaseSensor._cache
  ∧ always_prints SensorsCustom.ProxmoxNodeNetworkSensor.as_numeric SensorsCustom.ProxmoxNodeNetworkSensor.as_string
      SensorsCustom.ProxmoxBaseSensor._cache
  ∧ always_prints SensorsCustom.ProxmoxVMCPUUsageSensor.as_numeric SensorsCustom.ProxmoxVMCPUUsageSensor.as_string
      (λ s, SensorsCustom.ProxmoxBaseSensor._cache (SensorsCustom.ProxmoxVMSensor.base s))
  ∧ always_prints SensorsCustom.ProxmoxVMMemoryUsageSensor.as_numeric SensorsCustom.ProxmoxVMMemoryUsageSensor.as_string
      (λ s, SensorsCustom.ProxmoxBaseSensor._cache (SensorsCustom.ProxmoxVMSensor.base s))
  ∧ always_prints SensorsCustomProxmox.ProxmoxNodeCPUUsageSensor.as_numeric SensorsCustomProxmox.ProxmoxNodeCPUUsageSensor.as_string
      SensorsCustomProxmox.ProxmoxBaseSensor._cache
  ∧ always_prints SensorsCustomProxmox.ProxmoxNodeMemoryUsageSensor.as_numeric SensorsCustomProxmox.ProxmoxNodeMemoryUsageSensor.as_string
      SensorsCustomProxmox.ProxmoxBaseSensor._cache
  ∧ always_prints SensorsCustomProxmox.ProxmoxNodeDiskUsageSensor.as_numeric SensorsCustomProxmox.ProxmoxNodeDiskUsageSensor.as_string
      SensorsCustomProxmox.ProxmoxBaseSensor._cache
  ∧ always_prints SensorsCustomProxmox.ProxmoxNodeNetworkSensor.as_numeric SensorsCustomProxmox.ProxmoxNodeNetworkSensor.as_string
      SensorsCustomProxmox.ProxmoxBaseSensor._cache
  ∧ always_prints SensorsCustomProxmox.ProxmoxVMCPUUsageSensor.as_numeric SensorsCustomProxmox.ProxmoxVMCPUUsageSensor.as_string
      (λ s, SensorsCustomProxmox.ProxmoxBaseSensor._cache (SensorsCustomProxmox.ProxmoxVMSensor.base s))
  ∧ always_prints SensorsCustomProxmox.ProxmoxVMMemoryUsageSensor.as_numeric SensorsCustomProxmox.ProxmoxVMMemoryUsageSensor.as_string
      (λ s, SensorsCustomProxmox.ProxmoxBaseSensor._cache (SensorsCustomProxmox.ProxmoxVMSensor.base s)).
Proof.
  repeat match goal with |- _ ∧ _ => split end.
  - apply prints_of_floats;
      [intros s Hc; exact (fixed_text_prints _ _ " %" Hc)
      |exact (sc_pmx_poll_floats (node_key "nodecpu_") SensorsCustom.ProxmoxNodeCPUUsageSensor._calc sc_cpu_calc_float)].
  - apply prints_of_floats;
      [intros s Hc; exact (fixed_text_prints _ _ " %" Hc)
      |exact (sc_pmx_poll_floats (node_key "nodemem_") SensorsCustom.ProxmoxNodeMemoryUsageSensor._calc sc_mem_calc_float)].
  - apply prints_of_floats;
      [intros s Hc; exact (fixed_text_prints _ _ " %" Hc)
      |exact (sc_pmx_poll_floats (node_key "nodedsk_") SensorsCustom.ProxmoxNodeDiskUsageSensor._calc sc_dsk_calc_float)].
  - apply prints_of_floats;
      [intros s Hc; exact (fixed_text_prints _ _ " MB" Hc)
      |exact (sc_pmx_poll_floats (node_key "nodenet_") SensorsCustom.ProxmoxNodeNetworkSensor._calc sc_net_calc_float)].
  - apply prints_of_floats;
      [intros s Hc; exact (fixed_text_prints _ _ " %" Hc)
      |exact (sc_vm_poll_floats (vm_key "vmcpu_") SensorsCustom.ProxmoxVMCPUUsageSensor._calc sc_vmcpu_calc_float)].
  - apply prints_of_floats;
      [intros s Hc; exact (fixed_text_prints _ _ " %" Hc)
      |exact (sc_vm_poll_floats (vm_key "vmmem_") SensorsCustom.ProxmoxVMMemoryUsageSensor._calc sc_vmmem_calc_float)].
  - apply prints_of_floats;
      [intros s Hc; exact (fixed_text_prints _ _ " %" Hc)
      |exact (scx_pmx_poll_floats (node_key1 "nodecpu_") SensorsCustomProxmox.ProxmoxNodeCPUUsageSensor._calc scx_cpu_calc_float)].
  - apply prints_of_floats;
      [intros s Hc; exact (fixed_text_prints _ _ " %" Hc)
      |exact (scx_pmx_poll_floats (node_key1 "nodemem_") SensorsCustomProxmox.ProxmoxNodeMemoryUsageSensor._calc scx_mem_calc_float)].
  - apply prints_of_floats;
      [intros s Hc; exact (fixed_text_prints _ _ " %" Hc)
      |exact (scx_pmx_poll_floats (node_key1 "nodedsk_") SensorsCustomProxmox.ProxmoxNodeDiskUsageSensor._calc scx_dsk_calc_float)].
  - apply prints_of_floats;
      [intros s Hc; exact (fixed_text_prints _ _ " MB" Hc)
      |exact (scx_pmx_poll_floats (node_key1 "nodenet_") SensorsCustomProxmox.ProxmoxNodeNetworkSensor._calc scx_net_calc_float)].
  - apply prints_of_floats;
      [intros s Hc; exact (fixed_text_prints _ _ " %" Hc)
      |exact (scx_vm_poll_floats (vm_key1 "vmcpu_") SensorsCustomProxmox.ProxmoxVMCPUUsageSensor._calc scx_vmcpu_calc_float)].
  - apply prints_of_floats;
      [intros s Hc; exact (fixed_text_prints _ _ " %" Hc)
      |exact (scx_vm_poll_floats (vm_key1 "vmmem_") SensorsCustomProxmox.ProxmoxVMMemoryUsageSensor._calc scx_vmmem_calc_float)].
Qed.

(** X14 at a concrete input: the sensor of the node's CPU of
    sensors_custom_proxmox.py, just built, after three reads from a peer
    whose data is a list, which all raise. *)
Lemma X14_witness :
  ∃ t, SensorsCustomProxmox.ProxmoxNodeCPUUsageSensor.as_string
         (fst (attempts (SensorsCustomProxmox.ProxmoxNodeCPUUsageSensor.as_numeric
                           (H := sample_runtime))
                 [5; 40; 80]%float (sample_pmx1, listing_world)))
       = Ok t.
Proof.
  refine ((proj1 (proj2 (proj2 (proj2 (proj2 (proj2 (proj2 (X14_fixed_point_texts_never_fail (H := sample_runtime))))))))) sample_pmx1 [5; 40; 80]%float listing_world _).
  intros k c E. vm_compute in E. discriminate.
Defined.

(** ** The requests of any reads *)

Lemma logged_repeat w rq k :
  logged {| Requests.peer := Requests.peer w;
            Requests.sent := Requests.sent w ++ repeat rq k |} rq
  = {| Requests.peer := Requests.peer w;
       Requests.sent := Requests.sent w ++ repeat rq (S k) |}.
Proof.
  unfold logged. simpl. f_equal. rewrite <- app_assoc. f_equal.
  change (repeat rq k ++ [rq] = repeat rq (1 + k)).
  now rewrite <- repeat_cons.
Qed.

Lemma attempts_same_request {S} (numeric : float → SE (S * Requests.World) value)
    cache last ttl key live request :
  one_request_per_refresh numeric cache last ttl key live request →
  keeps_request numeric live request →
  same_request_every_time numeric live request.
Proof.
  intros Ho Hk nows s w Hl.
  assert (∀ nows s' k0, live s' → request s' = request s →
            ∃ k, (k ≤ k0 + length nows)%nat
                 ∧ snd (attempts numeric nows
                          (s', {| Requests.peer := Requests.peer w;
                                  Requests.sent := Requests.sent w
                                                   ++ repeat (request s) k0 |}))
                   = {| Requests.peer := Requests.peer w;
                        Requests.sent := Requests.sent w ++ repeat (request s) k |})
    as Hgen.
  { clear nows. intros nows. induction nows as [|now nows IH]; intros s' k0 Hl' Hr.
    - exists k0. split; [lia|reflexivity].
    - simpl.
      set (w0 := {| Requests.peer := Requests.peer w;
                    Requests.sent := Requests.sent w ++ repeat (request s) k0 |}).
      pose proof (Ho now s' w0 Hl') as Hw. pose proof (Hk now s' w0) as Hs.
      cbv zeta in Hs. destruct Hs as [Hr' Hl''].
      destruct (numeric now _) as [r [s1 w1]]. simpl in Hw, Hr', Hl''.
      rewrite Hw. destruct (fresh_entry _ _ _ _ _); subst w0.
      + destruct (IH s1 k0 (Hl'' Hl') (eq_trans Hr' Hr)) as (k & Hle & E).
        exists k. split; [simpl; lia|exact E].
      + rewrite Hr, logged_repeat.
        destruct (IH s1 (Datatypes.S k0) (Hl'' Hl') (eq_trans Hr' Hr)) as (k & Hle & E).
        exists k. split; [simpl; lia|exact E]. }
  destruct (Hgen nows s 0%nat Hl eq_refl) as (k & Hle & E).
  exists k. split; [exact Hle|].
  simpl in E. rewrite app_nil_r in E. destruct w. exact E.
Qed.

Ltac keeps_tac := split_matches; simpl; split; auto.

Lemma sc_pmx_poll_keeps key calc path :
  keeps_request (sc_pmx_poll key calc) (λ _, True) (node_request path).
Proof.
  intros now s w. cbv zeta. rewrite sc_pmx_poll_eq, sc_pmx_cached_eq. keeps_tac.
Qed.

Lemma sc_vm_poll_keeps key calc :
  keeps_request (sc_vm_poll key calc) (λ _, True) vm_request.
Proof.
  intros now s w. cbv zeta. rewrite sc_vm_poll_eq, sc_pmx_cached_eq. keeps_tac.
Qed.

Lemma sc_uptime_keeps `{Runtime} :
  keeps_request SensorsCustom.ProxmoxNodeUptimeSensor.as_numeric (λ _, True)
    (node_request "/status").
Proof.
  intros now s w. cbv zeta. rewrite sc_uptime_numeric_eq, sc_pmx_cached_eq.
  keeps_tac.
Qed.

Lemma scx_pmx_poll_keeps key calc path :
  keeps_request (scx_pmx_poll key calc) (λ _, True) (node_request1 path).
Proof.
  intros now s w. cbv zeta. unfold scx_pmx_poll, bind, get_self, gets. simpl.
  rewrite scx_pmx_cached_eq. keeps_tac.
Qed.

Lemma scx_vm_poll_keeps key calc :
  keeps_request (scx_vm_poll key calc) (λ _, True) vm_request1.
Proof.
  intros now s w. cbv zeta. unfold scx_vm_poll, bind, get_self, gets. simpl.
  unfold SensorsCustomProxmox.ProxmoxVMSensor.super. simpl.
  rewrite scx_pmx_cached_eq. keeps_tac.
Qed.

Lemma scx_uptime_keeps `{Runtime} :
  keeps_request SensorsCustomProxmox.ProxmoxNodeUptimeSensor.as_numeric (λ _, True)
    (node_request1 "/status").
Proof.
  intros now s w. cbv zeta.
  unfold SensorsCustomProxmox.ProxmoxNodeUptimeSensor.as_numeric, bind at 1,
    get_self, gets. simpl. unfold bind, lift.
  rewrite scx_pmx_cached_eq. keeps_tac.
Qed.

Lemma sc_plex_poll_keeps key fn ep :
  keeps_request (sc_plex_poll key fn)
    (λ s, SensorsCustom.PlexBaseSensor.url s ≠ "") (plex_endpoint ep).
Proof.
  intros now s w. cbv zeta. rewrite sc_plex_poll_eq, sc_plex_cached_eq. keeps_tac.
Qed.

Lemma scp_plex_poll_keeps key fn ep :
  keeps_request (scp_plex_poll key fn)
    (λ s, SensorsCustomPlex.PlexBaseSensor.url s ≠ "") (plex_endpoint1 ep).
Proof.
  intros now s w. cbv zeta. unfold scp_plex_poll, bind, get_self, gets. simpl.
  rewrite scp_plex_cached_eq. keeps_tac.
Qed.

(** X15. Any number of reads of one sensor, at whatever times, each of
    which returned or raised: the log of requests has grown by copies of one
    and the same request, that of the sensor's endpoint with the headers,
    the time-out 6 and the [verify_ssl] of the object as it was at the
    start, at most one copy per read; nothing else was sent. For the
    eighteen Proxmox classes and the two of the Plex streams (with a URL). *)
Theorem X15_reads_send_one_and_the_same_request `{Runtime} :
  same_request_every_time SensorsCustom.ProxmoxNodeCPUUsageSensor.as_numeric (λ _, True)
      (node_request "/status")
  ∧ same_request_every_time SensorsCustom.ProxmoxNodeMemoryUsageSensor.as_numeric (λ _, True)
      (node_request "/status")
  ∧ same_request_every_time SensorsCustom.ProxmoxNodeDiskUsageSensor.as_numeric (λ _, True)
      (node_request "/status")
  ∧ same_request_every_time SensorsCustom.ProxmoxNodeUptimeSensor.as_numeric (λ _, True)
      (node_request "/status")
  ∧ same_request_every_time SensorsCustom.ProxmoxNodeNetworkSensor.as_numeric (λ _, True)
      (node_request "/netstat")
  ∧ same_request_every_time SensorsCustom.ProxmoxVMCountSensor.as_numeric (λ _, True)
      (node_request "/qemu")
  ∧ same_request_every_time SensorsCustom.ProxmoxLXCCountSensor.as_numeric (λ _, True)
      (node_request "/lxc")
  ∧ same_request_every_time SensorsCustom.ProxmoxVMCPUUsageSensor.as_numeric (λ _, True) vm_request
  ∧ same_request_every_time SensorsCustom.ProxmoxVMMemoryUsageSensor.as_numeric (λ _, True) vm_request
  ∧ same_request_every_time SensorsCustomProxmox.ProxmoxNodeCPUUsageSensor.as_numeric (λ _, True)
      (node_request1 "/status")
  ∧ same_request_every_time SensorsCustomProxmox.ProxmoxNodeMemoryUsageSensor.as_numeric (λ _, True)
      (node_request1 "/status")
  ∧ same_request_every_time SensorsCustomProxmox.ProxmoxNodeDiskUsageSensor.as_numeric (λ _, True)
      (node_request1 "/status")
  ∧ same_request_every_time SensorsCustomProxmox.ProxmoxNodeUptimeSensor.as_numeric (λ _, True)
      (node_request1 "/status")
  ∧ same_request_every_time SensorsCustomProxmox.ProxmoxNodeNetworkSensor.as_numeric (λ _, True)
      (node_request1 "/netstat")
  ∧ same_request_every_time SensorsCustomProxmox.ProxmoxVMCountSensor.as_numeric (λ _, True)
      (node_request1 "/qemu")
  ∧ same_request_every_time SensorsCustomProxmox.ProxmoxLXCCountSensor.as_numeric (λ _, True)
      (node_request1 "/lxc")
  ∧ same_request_every_time SensorsCustomProxmox.ProxmoxVMCPUUsageSensor.as_numeric (λ _, True) vm_request1
  ∧ same_request_every_time SensorsCustomProxmox.ProxmoxVMMemoryUsageSensor.as_numeric (λ _, True) vm_request1
  ∧ same_request_every_time SensorsCustom.PlexStreamsSensor.as_numeric
      (λ s, SensorsCustom.PlexBaseSensor.url s ≠ "") (plex_endpoint "/status/sessions")
  ∧ same_request_every_time SensorsCustomPlex.PlexStreamsSensor.as_numeric
      (λ s, SensorsCustomPlex.PlexBaseSensor.url s ≠ "") (plex_endpoint1 "/status/sessions").
Proof.
  repeat match goal with |- _ ∧ _ => split end.
  - exact (attempts_same_request _ _ _ _ _ _ _
             (sc_pmx_poll_one "nodecpu_" SensorsCustom.ProxmoxNodeCPUUsageSensor._calc "/status" sc_cpu_calc_world)
             (sc_pmx_poll_keeps (node_key "nodecpu_") SensorsCustom.ProxmoxNodeCPUUsageSensor._calc "/status")).
  - exact (attempts_same_request _ _ _ _ _ _ _
             (sc_pmx_poll_one "nodemem_" SensorsCustom.ProxmoxNodeMemoryUsageSensor._calc "/status" sc_mem_calc_world)
             (sc_pmx_poll_keeps (node_key "nodemem_") SensorsCustom.ProxmoxNodeMemoryUsageSensor._calc "/status")).
  - exact (attempts_same_request _ _ _ _ _ _ _
             (sc_pmx_poll_one "nodedsk_" SensorsCustom.ProxmoxNodeDiskUsageSensor._calc "/status" sc_dsk_calc_world)
             (sc_pmx_poll_keeps (node_key "nodedsk_") SensorsCustom.ProxmoxNodeDiskUsageSensor._calc "/status")).
  - exact (attempts_same_request _ _ _ _ _ _ _ sc_uptime_one sc_uptime_keeps).
  - exact (attempts_same_request _ _ _ _ _ _ _
             (sc_pmx_poll_one "nodenet_" SensorsCustom.ProxmoxNodeNetworkSensor._calc "/netstat" sc_net_calc_world)
             (sc_pmx_poll_keeps (node_key "nodenet_") SensorsCustom.ProxmoxNodeNetworkSensor._calc "/netstat")).
  - exact (attempts_same_request _ _ _ _ _ _ _
             (sc_pmx_poll_one "vmcnt_" SensorsCustom.ProxmoxVMCountSensor._calc "/qemu" sc_vmcnt_calc_world)
             (sc_pmx_poll_keeps (node_key "vmcnt_") SensorsCustom.ProxmoxVMCountSensor._calc "/qemu")).
  - exact (attempts_same_request _ _ _ _ _ _ _
             (sc_pmx_poll_one "lxccnt_" SensorsCustom.ProxmoxLXCCountSensor._calc "/lxc" sc_lxccnt_calc_world)
             (sc_pmx_poll_keeps (node_key "lxccnt_") SensorsCustom.ProxmoxLXCCountSensor._calc "/lxc")).
  - exact (attempts_same_request _ _ _ _ _ _ _
             (sc_vm_poll_one "vmcpu_" SensorsCustom.ProxmoxVMCPUUsageSensor._calc sc_vmcpu_calc_world)
             (sc_vm_poll_keeps (vm_key "vmcpu_") SensorsCustom.ProxmoxVMCPUUsageSensor._calc)).
  - exact (attempts_same_request _ _ _ _ _ _ _
             (sc_vm_poll_one "vmmem_" SensorsCustom.ProxmoxVMMemoryUsageSensor._calc sc_vmmem_calc_world)
             (sc_vm_poll_keeps (vm_key "vmmem_") SensorsCustom.ProxmoxVMMemoryUsageSensor._calc)).
  - exact (attempts_same_request _ _ _ _ _ _ _
             (scx_pmx_poll_one "nodecpu_" SensorsCustomProxmox.ProxmoxNodeCPUUsageSensor._calc "/status" scx_cpu_calc_world)
             (scx_pmx_poll_keeps (node_key1 "nodecpu_") SensorsCustomProxmox.ProxmoxNodeCPUUsageSensor._calc "/status")).
  - exact (attempts_same_request _ _ _ _ _ _ _
             (scx_pmx_poll_one "nodemem_" SensorsCustomProxmox.ProxmoxNodeMemoryUsageSensor._calc "/status" scx_mem_calc_world)
             (scx_pmx_poll_keeps (node_key1 "nodemem_") SensorsCustomProxmox.ProxmoxNodeMemoryUsageSensor._calc "/status")).
  - exact (attempts_same_request _ _ _ _ _ _ _
             (scx_pmx_poll_one "nodedsk_" SensorsCustomProxmox.ProxmoxNodeDiskUsageSensor._calc "/status" scx_dsk_calc_world)
             (scx_pmx_poll_keeps (node_key1 "nodedsk_") SensorsCustomProxmox.ProxmoxNodeDiskUsageSensor._calc "/status")).
  - exact (attempts_same_request _ _ _ _ _ _ _ scx_uptime_one scx_uptime_keeps).
  - exact (attempts_same_request _ _ _ _ _ _ _
             (scx_pmx_poll_one "nodenet_" SensorsCustomProxmox.ProxmoxNodeNetworkSensor._calc "/netstat" scx_net_calc_world)
             (scx_pmx_poll_keeps (node_key1 "nodenet_") SensorsCustomProxmox.ProxmoxNodeNetworkSensor._calc "/netstat")).
  - exact (attempts_same_request _ _ _ _ _ _ _
             (scx_pmx_poll_one "vmcnt_" SensorsCustomProxmox.ProxmoxVMCountSensor._calc "/qemu" scx_vmcnt_calc_world)
             (scx_pmx_poll_keeps (node_key1 "vmcnt_") SensorsCustomProxmox.ProxmoxVMCountSensor._calc "/qemu")).
  - exact (attempts_same_request _ _ _ _ _ _ _
             (scx_pmx_poll_one "lxccnt_" SensorsCustomProxmox.ProxmoxLXCCountSensor._calc "/lxc" scx_lxccnt_calc_world)
             (scx_pmx_poll_keeps (node_key1 "lxccnt_") SensorsCustomProxmox.ProxmoxLXCCountSensor._calc "/lxc")).
  - exact (attempts_same_request _ _ _ _ _ _ _
             (scx_vm_poll_one "vmcpu_" SensorsCustomProxmox.ProxmoxVMCPUUsageSensor._calc scx_vmcpu_calc_world)
             (scx_vm_poll_keeps (vm_key1 "vmcpu_") SensorsCustomProxmox.ProxmoxVMCPUUsageSensor._calc)).
  - exact (attempts_same_request _ _ _ _ _ _ _
             (scx_vm_poll_one "vmmem_" SensorsCustomProxmox.ProxmoxVMMemoryUsageSensor._calc scx_vmmem_calc_world)
             (scx_vm_poll_keeps (vm_key1 "vmmem_") SensorsCustomProxmox.ProxmoxVMMemoryUsageSensor._calc)).
  - exact (attempts_same_request _ _ _ _ _ _ _
             (sc_plex_poll_one "streams" SensorsCustom.PlexStreamsSensor.fn "/status/sessions"
                sc_streams_fn_world)
             (sc_plex_poll_keeps "streams" SensorsCustom.PlexStreamsSensor.fn "/status/sessions")).
  - exact (attempts_same_request _ _ _ _ _ _ _
             (scp_plex_poll_one "streams" SensorsCustomPlex.PlexStreamsSensor.fn "/status/sessions"
                scp_streams_fn_world)
             (scp_plex_poll_keeps "streams" SensorsCustomPlex.PlexStreamsSensor.fn "/status/sessions")).
Qed.

(** X15 at a concrete input: three reads of the streams of
    sensors_custom.py at the times 31, 40 and 70, from an entry observed at
    time 0 with a time to live of 30. *)
Lemma X15_witness :
  ∃ k, (k ≤ 3)%nat
       ∧ snd (attempts (SensorsCustom.PlexStreamsSensor.as_numeric (H := sample_runtime))
                [31; 40; 70]%float (sample_plex_warm, failing_world))
         = {| Requests.peer := Requests.peer failing_world;
              Requests.sent :=
                Requests.sent failing_world
                ++ repeat (plex_endpoint "/status/sessions" sample_plex_warm) k |}.
Proof.
  refine ((proj1 (proj2 (proj2 (proj2 (proj2 (proj2 (proj2 (proj2 (proj2 (proj2 (proj2 (proj2 (proj2 (proj2 (proj2 (proj2 (proj2 (proj2 (proj2 (X15_reads_send_one_and_the_same_request (H := sample_runtime))))))))))))))))))))) [31; 40; 70]%float sample_plex_warm failing_world _).
  discriminate.
Defined.

(** ** The URL of the configuration *)

(** [rstrip("/")] removes a run of slashes at the end, and the whole of
    it. *)
Lemma rstrip_slash_app_slash s : rstrip_slash (s +:+ "/") = rstrip_slash s.
Proof.
  induction s as [|c s IH]; [reflexivity|].
  change (String c s +:+ "/") with (String c (s +:+ "/")).
  simpl. now rewrite IH.
Qed.

Lemma rstrip_slash_no_trailing s t : rstrip_slash s ≠ t +:+ "/".
Proof.
  revert t. induction s as [|c s IH]; intros t; simpl.
  - now destruct t.
  - destruct (rstrip_slash s) as [|c' r] eqn:E.
    + destruct (Ascii.eqb_spec c "/"%char) as [->|Hc].
      * now destruct t.
      * destruct t as [|c1 t]; simpl; [intros [= E1]; exact (Hc E1)|].
        intros [= _ Ht]. now destruct t.
    + destruct t as [|c1 t]; simpl; [intros [= _ E1]; discriminate E1|].
      intros [= _ Ht]. exact (IH t Ht).
Qed.

Lemma rstrip_slash_prefix s : ∃ k, s = rstrip_slash s +:+ slashes k.
Proof.
  induction s as [|c s [k IH]]; [now exists 0%nat|]. simpl.
  destruct (rstrip_slash s) as [|c' r] eqn:E.
  - destruct (Ascii.eqb_spec c "/"%char) as [->|Hc].
    + exists (S k). exact (f_equal (String "/") IH).
    + exists k. exact (f_equal (String c) IH).
  - exists k. exact (f_equal (String c) IH).
Qed.

Lemma truthy_str s : s ≠ "" → truthy (VStr s) = true.
Proof. intros Hs. simpl. now destruct (String.eqb_spec s ""). Qed.

Lemma app_slash_nonempty s : s +:+ "/" ≠ "".
Proof. now destruct s. Qed.

(** X16. The URL of the configuration, in the four [__init__]: the URL of
    a Plex object is the configured one without the slashes at its end, all
    of them, so it never ends with a slash and a configuration with one
    more slash at the end builds the same object; the [api_base] of a
    Proxmox object is the host without the slashes at its end, followed by
    ["/api2/json"], when the host is not empty, and empty when it is. *)
Theorem X16_trailing_slashes_of_the_url :
  (∀ u tok ttl,
     let s := SensorsCustom.PlexBaseSensor.__init__ u tok ttl in
     (∃ k, u = SensorsCustom.PlexBaseSensor.url s +:+ slashes k)
     ∧ (∀ t, SensorsCustom.PlexBaseSensor.url s ≠ t +:+ "/")
     ∧ SensorsCustom.PlexBaseSensor.__init__ (u +:+ "/") tok ttl = s)
  ∧
  (∀ u tok ttl,
     let s := SensorsCustomPlex.PlexBaseSensor.__init__ u tok ttl in
     (∃ k, u = SensorsCustomPlex.PlexBaseSensor.url s +:+ slashes k)
     ∧ (∀ t, SensorsCustomPlex.PlexBaseSensor.url s ≠ t +:+ "/")
     ∧ SensorsCustomPlex.PlexBaseSensor.__init__ (u +:+ "/") tok ttl = s)
  ∧
  (∀ h user tid secret node verify ttl,
     let s := SensorsCustom.ProxmoxBaseSensor.__init__ h user tid secret node
                verify ttl in
     (h = "" → SensorsCustom.ProxmoxBaseSensor.api_base s = "")
     ∧ (h ≠ "" →
        (∃ b k, h = b +:+ slashes k ∧ (∀ t, b ≠ t +:+ "/")
                ∧ SensorsCustom.ProxmoxBaseSensor.api_base s = b +:+ "/api2/json")
        ∧ SensorsCustom.ProxmoxBaseSensor.api_base
            (SensorsCustom.ProxmoxBaseSensor.__init__ (h +:+ "/") user tid secret
               node verify ttl)
          = SensorsCustom.ProxmoxBaseSensor.api_base s))
  ∧
  (∀ h user tid secret node verify ttl,
     let s := SensorsCustomProxmox.ProxmoxBaseSensor.__init__ h user tid secret node
                verify ttl in
     (h = "" → SensorsCustomProxmox.ProxmoxBaseSensor.api_base s = "")
     ∧ (h ≠ "" →
        (∃ b k, h = b +:+ slashes k ∧ (∀ t, b ≠ t +:+ "/")
                ∧ SensorsCustomProxmox.ProxmoxBaseSensor.api_base s
                  = b +:+ "/api2/json")
        ∧ SensorsCustomProxmox.ProxmoxBaseSensor.api_base
            (SensorsCustomProxmox.ProxmoxBaseSensor.__init__ (h +:+ "/") user tid
               secret node verify ttl)
          = SensorsCustomProxmox.ProxmoxBaseSensor.api_base s)).
Proof.
  repeat match goal with |- _ ∧ _ => split end.
  - intros u tok ttl. cbv zeta. simpl. split; [apply rstrip_slash_prefix|].
    split; [apply rstrip_slash_no_trailing|].
    unfold SensorsCustom.PlexBaseSensor.__init__. now rewrite rstrip_slash_app_slash.
  - intros u tok ttl. cbv zeta. simpl. split; [apply rstrip_slash_prefix|].
    split; [apply rstrip_slash_no_trailing|].
    unfold SensorsCustomPlex.PlexBaseSensor.__init__.
    now rewrite rstrip_slash_app_slash.
  - intros h user tid secret node verify ttl. cbv zeta. split.
    + now intros ->.
    + intros Hh. unfold SensorsCustom.ProxmoxBaseSensor.__init__.
      cbn [SensorsCustom.ProxmoxBaseSensor.api_base].
      rewrite (truthy_str _ Hh), (truthy_str _ (app_slash_nonempty h)),
        rstrip_slash_app_slash.
      split; [|reflexivity].
      destruct (rstrip_slash_prefix h) as [k Hk].
      exists (rstrip_slash h), k. split; [exact Hk|].
      split; [apply rstrip_slash_no_trailing|reflexivity].
  - intros h user tid secret node verify ttl. cbv zeta. split.
    + now intros ->.
    + intros Hh. unfold SensorsCustomProxmox.ProxmoxBaseSensor.__init__.
      cbn [SensorsCustomProxmox.ProxmoxBaseSensor.api_base].
      rewrite (truthy_str _ Hh), (truthy_str _ (app_slash_nonempty h)),
        rstrip_slash_app_slash.
      split; [|reflexivity].
      destruct (rstrip_slash_prefix h) as [k Hk].
      exists (rstrip_slash h), k. split; [exact Hk|].
      split; [apply rstrip_slash_no_trailing|reflexivity].
Qed.

(** X16 at a concrete input: the host of the sample object, with its one
    slash at the end. *)
Lemma X16_witness :
  (∃ b k, "https://pve:8006/" = b +:+ slashes k ∧ (∀ t, b ≠ t +:+ "/")
          ∧ SensorsCustomProxmox.ProxmoxBaseSensor.api_base sample_pmx1
            = b +:+ "/api2/json")
  ∧ SensorsCustomProxmox.ProxmoxBaseSensor.api_base
      (SensorsCustomProxmox.ProxmoxBaseSensor.__init__ "https://pve:8006//"
         (Some "root@pam") (Some "monitor") "secret" "pve" false 30)
    = SensorsCustomProxmox.ProxmoxBaseSensor.api_base sample_pmx1.
Proof.
  refine (proj2 (proj2 (proj2 (proj2 X16_trailing_slashes_of_the_url))
                   "https://pve:8006/" (Some "root@pam") (Some "monitor") "secret"
                   "pve" false 30) _).
  discriminate.
Defined.

(** ** What [last_values] charts *)

Lemma pushed_snoc h v : ∃ l, pushed h v = l ++ [v].
Proof.
  unfold pushed. destruct (200 <? _) eqn:E; [|now exists h].
  destruct h as [|x h]; [discriminate|]. now exists h.
Qed.

Lemma last_last_n_pushed h v : last (last_n 40 (pushed h v)) = Some v.
Proof.
  destruct (pushed_snoc h v) as [l ->]. unfold last_n.
  rewrite length_app, skipn_app. simpl.
  assert (length l + 1 - 40 - length l = 0)%nat as -> by lia.
  simpl. apply last_snoc.
Qed.

Lemma charts_of_pushes {S} (numeric : float → SE (S * Requests.World) value)
    hist cache last_ ttl key view :
  pushes_on_every_call numeric hist cache last_ ttl key view →
  charts_the_reading numeric (λ s, last_n 40 (hist s)).
Proof.
  intros [Hp _] now s w v s' w' E. rewrite (Hp _ _ _ _ _ _ E).
  apply last_last_n_pushed.
Qed.

Lemma charts_of_paired {S} (numeric : float → SE (S * Requests.World) value)
    (text : S → res string) cache key nview sview :
  reads_same_entry numeric text cache key nview sview →
  charts_the_entry numeric (λ s, [default (VInt 0) (cache s !! key s)]) nview.
Proof.
  intros [_ Hp] now s w v s' w' E.
  destruct (Hp _ _ _ _ _ _ E) as (c & Ec & Hv & _).
  exists c. now rewrite Ec.
Qed.

(** X17. What the chart shows after a read. In sensors_custom.py, after an
    [as_numeric] that returned [v], the last of the [last_values] is [v],
    for the fifteen classes (the uptime charts hours, as it returns them).
    In sensors_custom_proxmox.py, [last_values] is the one cached value,
    which is [v] for eight classes; for the uptime it is the seconds, of
    which the [v] returned is the 3600th part: there the chart is in
    seconds and [as_numeric] in hours. *)
Theorem X17_last_values_end_with_the_reading `{Runtime} :
  charts_the_reading SensorsCustom.PlexStreamsSensor.as_numeric SensorsCustom.PlexBaseSensor.last_values
  ∧ charts_the_reading SensorsCustom.PlexMovieCountSensor.as_numeric SensorsCustom.PlexBaseSensor.last_values
  ∧ charts_the_reading SensorsCustom.PlexTVShowCountSensor.as_numeric SensorsCustom.PlexBaseSensor.last_values
  ∧ charts_the_reading SensorsCustom.PlexEpisodesCountSensor.as_numeric SensorsCustom.PlexBaseSensor.last_values
  ∧ charts_the_reading SensorsCustom.PlexAlbumCountSensor.as_numeric SensorsCustom.PlexBaseSensor.last_values
  ∧ charts_the_reading SensorsCustom.PlexSongsCountSensor.as_numeric SensorsCustom.PlexBaseSensor.last_values
  ∧ charts_the_reading SensorsCustom.ProxmoxNodeCPUUsageSensor.as_numeric SensorsCustom.ProxmoxBaseSensor.last_values
  ∧ charts_the_reading SensorsCustom.ProxmoxNodeMemoryUsageSensor.as_numeric SensorsCustom.ProxmoxBaseSensor.last_values
  ∧ charts_the_reading SensorsCustom.ProxmoxNodeDiskUsageSensor.as_numeric SensorsCustom.ProxmoxBaseSensor.last_values
  ∧ charts_the_reading SensorsCustom.ProxmoxNodeUptimeSensor.as_numeric SensorsCustom.ProxmoxBaseSensor.last_values
  ∧ charts_the_reading SensorsCustom.ProxmoxNodeNetworkSensor.as_numeric SensorsCustom.ProxmoxBaseSensor.last_values
  ∧ charts_the_reading SensorsCustom.ProxmoxVMCountSensor.as_numeric SensorsCustom.ProxmoxBaseSensor.last_values
  ∧ charts_the_reading SensorsCustom.ProxmoxLXCCountSensor.as_numeric SensorsCustom.ProxmoxBaseSensor.last_values
  ∧ charts_the_reading SensorsCustom.ProxmoxVMCPUUsageSensor.as_numeric
      (λ s, SensorsCustom.ProxmoxBaseSensor.last_values (SensorsCustom.ProxmoxVMSensor.base s))
  ∧ charts_the_reading SensorsCustom.ProxmoxVMMemoryUsageSensor.as_numeric
      (λ s, SensorsCustom.ProxmoxBaseSensor.last_values (SensorsCustom.ProxmoxVMSensor.base s))
  ∧ charts_the_entry SensorsCustomProxmox.ProxmoxNodeCPUUsageSensor.as_numeric SensorsCustomProxmox.ProxmoxNodeCPUUsageSensor.last_values Ok
  ∧ charts_the_entry SensorsCustomProxmox.ProxmoxNodeMemoryUsageSensor.as_numeric SensorsCustomProxmox.ProxmoxNodeMemoryUsageSensor.last_values Ok
  ∧ charts_the_entry SensorsCustomProxmox.ProxmoxNodeDiskUsageSensor.as_numeric SensorsCustomProxmox.ProxmoxNodeDiskUsageSensor.last_values Ok
  ∧ charts_the_entry SensorsCustomProxmox.ProxmoxNodeUptimeSensor.as_numeric SensorsCustomProxmox.ProxmoxNodeUptimeSensor.last_values
      (λ sec, truediv_float sec 3600)
  ∧ charts_the_entry SensorsCustomProxmox.ProxmoxNodeNetworkSensor.as_numeric SensorsCustomProxmox.ProxmoxNodeNetworkSensor.last_values Ok
  ∧ charts_the_entry SensorsCustomProxmox.ProxmoxVMCountSensor.as_numeric SensorsCustomProxmox.ProxmoxVMCountSensor.last_values Ok
  ∧ charts_the_entry SensorsCustomProxmox.ProxmoxLXCCountSensor.as_numeric SensorsCustomProxmox.ProxmoxLXCCountSensor.last_values Ok
  ∧ charts_the_entry SensorsCustomProxmox.ProxmoxVMCPUUsageSensor.as_numeric SensorsCustomProxmox.ProxmoxVMCPUUsageSensor.last_values Ok
  ∧ charts_the_entry SensorsCustomProxmox.ProxmoxVMMemoryUsageSensor.as_numeric SensorsCustomProxmox.ProxmoxVMMemoryUsageSensor.last_values Ok.
Proof.
  repeat match goal with |- _ ∧ _ => split end.
  - exact (charts_of_pushes _ _ _ _ _ _ _ (sc_plex_poll_pushes "streams" SensorsCustom.PlexStreamsSensor.fn)).
  - exact (charts_of_pushes _ _ _ _ _ _ _ (sc_plex_poll_pushes "plex_movies" SensorsCustom.PlexMovieCountSensor.fn)).
  - exact (charts_of_pushes _ _ _ _ _ _ _ (sc_plex_poll_pushes "plex_shows" SensorsCustom.PlexTVShowCountSensor.fn)).
  - exact (charts_of_pushes _ _ _ _ _ _ _ (sc_plex_poll_pushes "plex_eps" SensorsCustom.PlexEpisodesCountSensor.fn)).
  - exact (charts_of_pushes _ _ _ _ _ _ _ (sc_plex_poll_pushes "plex_alb" SensorsCustom.PlexAlbumCountSensor.fn)).
  - exact (charts_of_pushes _ _ _ _ _ _ _ (sc_plex_poll_pushes "plex_sng" SensorsCustom.PlexSongsCountSensor.fn)).
  - exact (charts_of_pushes _ _ _ _ _ _ _
             (sc_pmx_poll_pushes "nodecpu_" SensorsCustom.ProxmoxNodeCPUUsageSensor._calc)).
  - exact (charts_of_pushes _ _ _ _ _ _ _
             (sc_pmx_poll_pushes "nodemem_" SensorsCustom.ProxmoxNodeMemoryUsageSensor._calc)).
  - exact (charts_of_pushes _ _ _ _ _ _ _
             (sc_pmx_poll_pushes "nodedsk_" SensorsCustom.ProxmoxNodeDiskUsageSensor._calc)).
  - exact (charts_of_pushes _ _ _ _ _ _ _ sc_uptime_pushes).
  - exact (charts_of_pushes _ _ _ _ _ _ _
             (sc_pmx_poll_pushes "nodenet_" SensorsCustom.ProxmoxNodeNetworkSensor._calc)).
  - exact (charts_of_pushes _ _ _ _ _ _ _
             (sc_pmx_poll_pushes "vmcnt_" SensorsCustom.ProxmoxVMCountSensor._calc)).
  - exact (charts_of_pushes _ _ _ _ _ _ _
             (sc_pmx_poll_pushes "lxccnt_" SensorsCustom.ProxmoxLXCCountSensor._calc)).
  - exact (charts_of_pushes _ _ _ _ _ _ _
             (sc_vm_poll_pushes "vmcpu_" SensorsCustom.ProxmoxVMCPUUsageSensor._calc)).
  - exact (charts_of_pushes _ _ _ _ _ _ _
             (sc_vm_poll_pushes "vmmem_" SensorsCustom.ProxmoxVMMemoryUsageSensor._calc)).
  - exact (charts_of_paired _ _ _ _ _ _
             (scx_pmx_poll_paired "nodecpu_" SensorsCustomProxmox.ProxmoxNodeCPUUsageSensor._calc (λ _, Ok "") (λ _, Ok "")
                scx_cpu_calc_float (λ _, eq_refl))).
  - exact (charts_of_paired _ _ _ _ _ _
             (scx_pmx_poll_paired "nodemem_" SensorsCustomProxmox.ProxmoxNodeMemoryUsageSensor._calc (λ _, Ok "") (λ _, Ok "")
                scx_mem_calc_float (λ _, eq_refl))).
  - exact (charts_of_paired _ _ _ _ _ _
             (scx_pmx_poll_paired "nodedsk_" SensorsCustomProxmox.ProxmoxNodeDiskUsageSensor._calc (λ _, Ok "") (λ _, Ok "")
                scx_dsk_calc_float (λ _, eq_refl))).
  - exact (charts_of_paired _ _ _ _ _ _ scx_uptime_paired).
  - exact (charts_of_paired _ _ _ _ _ _
             (scx_pmx_poll_paired "nodenet_" SensorsCustomProxmox.ProxmoxNodeNetworkSensor._calc (λ _, Ok "") (λ _, Ok "")
                scx_net_calc_float (λ _, eq_refl))).
  - exact (charts_of_paired _ _ _ _ _ _
             (scx_pmx_poll_paired "vmcnt_" SensorsCustomProxmox.ProxmoxVMCountSensor._calc (λ _, Ok "") (λ _, Ok "")
                scx_vmcnt_calc_float (λ _, eq_refl))).
  - exact (charts_of_paired _ _ _ _ _ _
             (scx_pmx_poll_paired "lxccnt_" SensorsCustomProxmox.ProxmoxLXCCountSensor._calc (λ _, Ok "") (λ _, Ok "")
                scx_lxccnt_calc_float (λ _, eq_refl))).
  - exact (charts_of_paired _ _ _ _ _ _
             (scx_vm_poll_paired "vmcpu_" SensorsCustomProxmox.ProxmoxVMCPUUsageSensor._calc (λ _, Ok "") (λ _, Ok "")
                scx_vmcpu_calc_float (λ _, eq_refl))).
  - exact (charts_of_paired _ _ _ _ _ _
             (scx_vm_poll_paired "vmmem_" SensorsCustomProxmox.ProxmoxVMMemoryUsageSensor._calc (λ _, Ok "") (λ _, Ok "")
                scx_vmmem_calc_float (λ _, eq_refl))).
Qed.

(** X17 at a concrete input: the uptime of sensors_custom_proxmox.py, just
    built, read from a peer that reports 90061 seconds. *)
Lemma X17_witness :
  ∃ c, SensorsCustomProxmox.ProxmoxNodeUptimeSensor.last_values
         (fst (snd (SensorsCustomProxmox.ProxmoxNodeUptimeSensor.as_numeric
                      (H := sample_runtime) 5 (sample_pmx1, answering_world))))
       = [c]
       ∧ truediv_float c 3600 = Ok (VFloat (90061 / 3600)).
Proof.
  refine ((proj1 (proj2 (proj2 (proj2 (proj2 (proj2 (proj2 (proj2 (proj2 (proj2 (proj2 (proj2 (proj2 (proj2 (proj2 (proj2 (proj2 (proj2 (proj2 (X17_last_values_end_with_the_reading (H := sample_runtime))))))))))))))))))))) 5%float sample_pmx1 answering_world (VFloat (90061 / 3600)) _
            (snd (snd (SensorsCustomProxmox.ProxmoxNodeUptimeSensor.as_numeric
                         (H := sample_runtime) 5 (sample_pmx1, answering_world)))) _).
  vm_compute. reflexivity.
Defined.

(** ** The requests of a count of the Plex library *)

Lemma logged_all_nil w : logged_all w [] = w.
Proof. unfold logged_all. rewrite app_nil_r. now destruct w. Qed.

Lemma logged_all_cons w rq rqs :
  logged_all (logged w rq) rqs = logged_all w (rq :: rqs).
Proof. unfold logged_all, logged. simpl. now rewrite <- app_assoc. Qed.

(** A loop whose body sends one request for the selected elements, and
    none for the others. *)
Lemma for_requests {B} (body : value → B → SE Requests.World B)
    (sel : value → bool) (rq : value → Requests.Request) :
  (∀ d t w, snd (body d t w) = if sel d then logged w (rq d) else w) →
  ∀ ds t w t' w', for_ ds t body w = (Ok t', w') →
    w' = logged_all w (map rq (List.filter sel ds)).
Proof.
  intros Hb ds. induction ds as [|d ds IH]; intros t w t' w' E; simpl in *.
  - injection E as _ <-. now rewrite logged_all_nil.
  - apply bind_inv_ok in E as (a & w1 & E1 & E).
    specialize (Hb d t w). rewrite E1 in Hb. simpl in Hb. subst w1.
    apply IH in E. destruct (sel d); [|exact E].
    simpl. now rewrite <- logged_all_cons.
Qed.

Section CountRequests.
Context `{Runtime}.

Lemma sc_movies_fn_requests :
  count_requests SensorsCustom.PlexMovieCountSensor.fn
    (λ s, SensorsCustom.PlexBaseSensor.url s ≠ "") plex_endpoint true "movie" "/all".
Proof.
  intros s w d mc ds v w' Hl Hp Hmc Hds E.
  unfold SensorsCustom.PlexMovieCountSensor.fn in E.
  apply bind_inv_ok in E as (r & w1 & E1 & E).
  rewrite (sc_plex_get_run _ _ _ Hl), Hp in E1. injection E1 as <- <-.
  cbv zeta in E. rewrite or_dict in E.
  unfold bind at 1, lift at 1, get at 1 in E. rewrite Hmc in E.
  cbn [default from_option id] in E.
  unfold bind at 1, lift at 1, get at 1 in E. rewrite Hds in E.
  cbn [default from_option id] in E.
  unfold bind at 1, lift at 1, iter_ at 1 in E.
  apply bind_inv_ok in E as (t & w2 & E2 & E).
  apply bind_inv_ok in E as (f & w3 & E3 & E).
  unfold lift in E3. unfold ret in E. injection E3 as _ <-. injection E as _ <-.
  rewrite <- logged_all_cons.
  revert E2. apply for_requests.
  intros d0 t0 w0. unfold visited. simpl.
  destruct d0 as [| | | | | |dd]; try reflexivity.
  unfold bind at 1, lift at 1, get at 1, field.
  destruct (eq_str _ "movie"); [|reflexivity]. cbn [andb orb negb].
  unfold bind at 1, lift at 1, get at 1.
  destruct (truthy _); [|reflexivity].
  unfold bind at 1. rewrite (sc_plex_get_run _ _ _ Hl).
  unfold section_endpoint, field. pure_rest.
Qed.

Lemma sc_plex_count_requests ty suffix :
  count_requests (λ s, SensorsCustom.plex_count s ty suffix)
    (λ s, SensorsCustom.PlexBaseSensor.url s ≠ "") plex_endpoint false ty suffix.
Proof.
  intros s w d mc ds v w' Hl Hp Hmc Hds E.
  unfold SensorsCustom.plex_count in E.
  apply bind_inv_ok in E as (r & w1 & E1 & E).
  rewrite (sc_plex_get_run _ _ _ Hl), Hp in E1. injection E1 as <- <-.
  cbv zeta in E. rewrite or_dict in E.
  unfold bind at 1, lift at 1, get at 1 in E. rewrite Hmc in E.
  cbn [default from_option id] in E.
  unfold bind at 1, lift at 1, get at 1 in E. rewrite Hds in E.
  cbn [default from_option id] in E.
  unfold bind at 1, lift at 1, iter_ at 1 in E.
  apply bind_inv_ok in E as (t & w2 & E2 & E).
  apply bind_inv_ok in E as (f & w3 & E3 & E).
  unfold lift in E3. unfold ret in E. injection E3 as _ <-. injection E as _ <-.
  rewrite <- logged_all_cons.
  revert E2. apply for_requests.
  intros d0 t0 w0. unfold visited. simpl.
  destruct d0 as [| | | | | |dd]; try reflexivity.
  unfold bind at 1, lift at 1, get at 1, field.
  destruct (eq_str _ ty); [|reflexivity]. cbn [andb orb negb].
  unfold bind at 1, lift at 1, get at 1.
  unfold bind at 1. rewrite (sc_plex_get_run _ _ _ Hl).
  unfold section_endpoint, field. pure_rest.
Qed.

Lemma scp_movies_fn_requests :
  count_requests SensorsCustomPlex.PlexMovieCountSensor.fn
    (λ s, SensorsCustomPlex.PlexBaseSensor.url s ≠ "") plex_endpoint1 true "movie" "/all".
Proof.
  intros s w d mc ds v w' Hl Hp Hmc Hds E.
  unfold SensorsCustomPlex.PlexMovieCountSensor.fn in E.
  apply bind_inv_ok in E as (r & w1 & E1 & E).
  rewrite (scp_plex_get_run _ _ _ Hl), Hp in E1. injection E1 as <- <-.
  cbv zeta in E. rewrite or_dict in E.
  unfold bind at 1, lift at 1, get at 1 in E. rewrite Hmc in E.
  cbn [default from_option id] in E.
  unfold bind at 1, lift at 1, get at 1 in E. rewrite Hds in E.
  cbn [default from_option id] in E.
  unfold bind at 1, lift at 1, iter_ at 1 in E.
  apply bind_inv_ok in E as (t & w2 & E2 & E).
  apply bind_inv_ok in E as (f & w3 & E3 & E).
  unfold lift in E3. unfold ret in E. injection E3 as _ <-. injection E as _ <-.
  rewrite <- logged_all_cons.
  revert E2. apply for_requests.
  intros d0 t0 w0. unfold visited. simpl.
  destruct d0 as [| | | | | |dd]; try reflexivity.
  unfold bind at 1, lift at 1, get at 1, field.
  destruct (eq_str _ "movie"); [|reflexivity]. cbn [andb orb negb].
  unfold bind at 1, lift at 1, get at 1.
  destruct (truthy _); [|reflexivity].
  unfold bind at 1. rewrite (scp_plex_get_run _ _ _ Hl).
  unfold section_endpoint, field. pure_rest.
Qed.

Lemma scp_plex_count_requests ty suffix :
  count_requests (λ s, SensorsCustomPlex.plex_count s ty suffix)
    (λ s, SensorsCustomPlex.PlexBaseSensor.url s ≠ "") plex_endpoint1 false ty suffix.
Proof.
  intros s w d mc ds v w' Hl Hp Hmc Hds E.
  unfold SensorsCustomPlex.plex_count in E.
  apply bind_inv_ok in E as (r & w1 & E1 & E).
  rewrite (scp_plex_get_run _ _ _ Hl), Hp in E1. injection E1 as <- <-.
  cbv zeta in E. rewrite or_dict in E.
  unfold bind at 1, lift at 1, get at 1 in E. rewrite Hmc in E.
  cbn [default from_option id] in E.
  unfold bind at 1, lift at 1, get at 1 in E. rewrite Hds in E.
  cbn [default from_option id] in E.
  unfold bind at 1, lift at 1, iter_ at 1 in E.
  apply bind_inv_ok in E as (t & w2 & E2 & E).
  apply bind_inv_ok in E as (f & w3 & E3 & E).
  unfold lift in E3. unfold ret in E. injection E3 as _ <-. injection E as _ <-.
  rewrite <- logged_all_cons.
  revert E2. apply for_requests.
  intros d0 t0 w0. unfold visited. simpl.
  destruct d0 as [| | | | | |dd]; try reflexivity.
  unfold bind at 1, lift at 1, get at 1, field.
  destruct (eq_str _ ty); [|reflexivity]. cbn [andb orb negb].
  unfold bind at 1, lift at 1, get at 1.
  unfold bind at 1. rewrite (scp_plex_get_run _ _ _ Hl).
  unfold section_endpoint, field. pure_rest.
Qed.

End CountRequests.

(** X18. The requests of a count of the Plex library. When the listing of
    the sections is well formed and the compute function returns, it has
    sent the request of the listing, then one request per section of its
    type, in the order of the listing, to
    [/library/sections/<key><suffix>], and nothing else. The movies skip
    a section whose key is missing or falsy; the shows, episodes, albums
    and songs have no such guard, and request such a section under the
    name that [str] gives its key ([None] for a missing one). For the
    five counts of sensors_custom.py and the five of
    sensors_custom_plex.py. *)
Theorem X18_requests_of_a_library_count `{Runtime} :
  count_requests SensorsCustom.PlexMovieCountSensor.fn (λ s, SensorsCustom.PlexBaseSensor.url s ≠ "")
      plex_endpoint true "movie" "/all"
  ∧ count_requests SensorsCustom.PlexTVShowCountSensor.fn (λ s, SensorsCustom.PlexBaseSensor.url s ≠ "")
      plex_endpoint false "show" "/all"
  ∧ count_requests SensorsCustom.PlexEpisodesCountSensor.fn (λ s, SensorsCustom.PlexBaseSensor.url s ≠ "")
      plex_endpoint false "show" "/all?type=4"
  ∧ count_requests SensorsCustom.PlexAlbumCountSensor.fn (λ s, SensorsCustom.PlexBaseSensor.url s ≠ "")
      plex_endpoint false "artist" "/all?type=8"
  ∧ count_requests SensorsCustom.PlexSongsCountSensor.fn (λ s, SensorsCustom.PlexBaseSensor.url s ≠ "")
      plex_endpoint false "artist" "/all?type=10"
  ∧ count_requests SensorsCustomPlex.PlexMovieCountSensor.fn (λ s, SensorsCustomPlex.PlexBaseSensor.url s ≠ "")
      plex_endpoint1 true "movie" "/all"
  ∧ count_requests SensorsCustomPlex.PlexTVShowCountSensor.fn (λ s, SensorsCustomPlex.PlexBaseSensor.url s ≠ "")
      plex_endpoint1 false "show" "/all"
  ∧ count_requests SensorsCustomPlex.PlexEpisodesCountSensor.fn (λ s, SensorsCustomPlex.PlexBaseSensor.url s ≠ "")
      plex_endpoint1 false "show" "/all?type=4"
  ∧ count_requests SensorsCustomPlex.PlexAlbumCountSensor.fn (λ s, SensorsCustomPlex.PlexBaseSensor.url s ≠ "")
      plex_endpoint1 false "artist" "/all?type=8"
  ∧ count_requests SensorsCustomPlex.PlexSongsCountSensor.fn (λ s, SensorsCustomPlex.PlexBaseSensor.url s ≠ "")
      plex_endpoint1 false "artist" "/all?type=10".
Proof.
  repeat match goal with |- _ ∧ _ => split end.
  - exact sc_movies_fn_requests.
  - exact (sc_plex_count_requests "show" "/all").
  - exact (sc_plex_count_requests "show" "/all?type=4").
  - exact (sc_plex_count_requests "artist" "/all?type=8").
  - exact (sc_plex_count_requests "artist" "/all?type=10").
  - exact scp_movies_fn_requests.
  - exact (scp_plex_count_requests "show" "/all").
  - exact (scp_plex_count_requests "show" "/all?type=4").
  - exact (scp_plex_count_requests "artist" "/all?type=8").
  - exact (scp_plex_count_requests "artist" "/all?type=10").
Qed.

(** X18 at a concrete input: the movies of sensors_custom.py and a listing
    of a movie section with a key, a show section and a movie section
    without a key. *)
Lemma X18_witness :
  snd (SensorsCustom.PlexMovieCountSensor.fn (H := sample_runtime) sample_plex
         library_world)
  = logged_all library_world
      [plex_endpoint "/library/sections" sample_plex;
       plex_endpoint "/library/sections/1/all" sample_plex].
Proof.
  refine ((proj1 (X18_requests_of_a_library_count (H := sample_runtime))) sample_plex library_world
            [("MediaContainer", VDict [("Directory", VList library_listing)])]
            [("Directory", VList library_listing)] library_listing (VFloat 7)
            _ _ _ _ _ _).
  - discriminate.
  - reflexivity.
  - reflexivity.
  - reflexivity.
  - vm_compute. reflexivity.
Defined.
